(** * Kidder article processor: a shallow embedding of
    [scripts/process_articles.py] and the properties of its
    reconciliation core (fingerprint gate, merge, prune, dedup, sort).

    Conventions of the embedding.
    - A Python [str] is a [string]; every character stands for one code
      point below 256, so comparisons of strings are comparisons of code
      point sequences, as in Python.
    - The folder, the two extractors, the inference service and the clock
      are inputs of a run (record [World]); a run is the function [main].
    - A file enters a run through its name, the SHA-256 digest of its
      bytes and what the two extractors make of it; every file of the
      folder can be read.
    - The previous output and the state file enter a run as they were
      loaded, with entries and fingerprints of the expected shape.
    - Calls to the extractors and to the service are recorded in a trace,
      so that "no call is made" is a statement about that trace.
    - Console output and the pause after each document are left out.

    The second script, [scripts/email_ingest.py], which fills the folder
    from a mailbox, is embedded in module [Ingest]. *)

From Stdlib Require Import ZArith Ascii String List Bool Lia Sorting.Sorted
  Sorting.Permutation.
From stdpp Require Import base option list sorting gmap sets strings pretty.

Local Open Scope string_scope.
Local Open Scope list_scope.

(** ** Python strings *)

Module PyStr.

Definition code (c : ascii) : N := N_of_ascii c.

Definition between (lo hi : N) (c : ascii) : bool :=
  ((lo <=? code c) && (code c <=? hi))%N.

(** [str.isspace] on one character (code points below 256). *)
Definition isspace (c : ascii) : bool :=
  between 9 13 c || between 28 32 c || (code c =? 133)%N || (code c =? 160)%N.

(** [\d] : decimal digits. *)
Definition isdigit (c : ascii) : bool := between 48 57 c.

(** Letters and numeric characters of Latin-1, as [str.isalnum] has them. *)
Definition isalnum (c : ascii) : bool :=
  between 48 57 c || between 65 90 c || between 97 122 c
  || (code c =? 170)%N || (code c =? 178)%N || (code c =? 179)%N
  || (code c =? 181)%N || (code c =? 185)%N || (code c =? 186)%N
  || between 188 190 c || between 192 214 c || between 216 246 c
  || between 248 255 c.

(** [\w] : alphanumeric or underscore. *)
Definition isword (c : ascii) : bool := isalnum c || (code c =? 95)%N.

(** [str.lower] on one character. *)
Definition lower_char (c : ascii) : ascii :=
  if between 65 90 c || between 192 214 c || between 216 222 c
  then ascii_of_N (code c + 32) else c.

Fixpoint lower (s : string) : string :=
  match s with
  | EmptyString => EmptyString
  | String c r => String (lower_char c) (lower r)
  end.

Definition is_empty (s : string) : bool :=
  match s with EmptyString => true | _ => false end.

(** Truth value of a string: non-empty. *)
Definition truthy (s : string) : bool := negb (is_empty s).

Fixpoint lstrip (s : string) : string :=
  match s with
  | EmptyString => EmptyString
  | String c r => if isspace c then lstrip r else s
  end.

Fixpoint rstrip (s : string) : string :=
  match s with
  | EmptyString => EmptyString
  | String c r =>
      let r' := rstrip r in
      if isspace c && is_empty r' then EmptyString else String c r'
  end.

(** [s.strip()] *)
Definition strip (s : string) : string := rstrip (lstrip s).

(** [sep.join(parts)] *)
Fixpoint join (sep : string) (parts : list string) : string :=
  match parts with
  | [] => EmptyString
  | [p] => p
  | p :: ps => p +:+ sep +:+ join sep ps
  end.

(** [s[:n]] *)
Fixpoint prefix (n : nat) (s : string) : string :=
  match n, s with
  | S k, String c r => String c (prefix k r)
  | _, _ => EmptyString
  end.

Fixpoint rev_onto (s acc : string) : string :=
  match s with
  | EmptyString => acc
  | String c r => rev_onto r (String c acc)
  end.

Definition is_linebreak (c : ascii) : bool :=
  between 10 13 c || between 28 30 c || (code c =? 133)%N.

(** [s.splitlines()] : [acc] holds the current line, reversed. *)
Fixpoint splitlines_go (acc s : string) : list string :=
  match s with
  | EmptyString => if is_empty acc then [] else [rev_onto acc EmptyString]
  | String c r =>
      if (code c =? 13)%N then
        match r with
        | String c' r' =>
            if (code c' =? 10)%N
            then rev_onto acc EmptyString :: splitlines_go EmptyString r'
            else rev_onto acc EmptyString :: splitlines_go EmptyString r
        | EmptyString => rev_onto acc EmptyString :: splitlines_go EmptyString r
        end
      else if is_linebreak c
      then rev_onto acc EmptyString :: splitlines_go EmptyString r
      else splitlines_go (String c acc) r
  end.

Definition splitlines (s : string) : list string := splitlines_go EmptyString s.

(** [int(s)] for a string of decimal digits. *)
Definition digit_value (c : ascii) : Z := Z.of_N (code c) - 48.

Fixpoint int_go (acc : Z) (s : string) : Z :=
  match s with
  | EmptyString => acc
  | String c r => int_go (10 * acc + digit_value c) r
  end.

Definition int (s : string) : Z := int_go 0 s.

(** [str(n)] padded with zeros to [w] digits ([%02d], [%04d]). *)
Definition digit_char (d : Z) : ascii := ascii_of_N (Z.to_N (48 + d mod 10)).

Fixpoint zero_padded (w : nat) (n : Z) : string :=
  match w with
  | O => EmptyString
  | S k => zero_padded k (n / 10) +:+ String (digit_char n) EmptyString
  end.

(** Comparison [a < b] of two strings, by code points. *)
Definition lt (a b : string) : bool := String.ltb a b.

End PyStr.

(** ** Text normalisation and word count *)

Definition CR : ascii := ascii_of_N 13.
Definition LF : ascii := ascii_of_N 10.

(** [s.replace("\r\n", "\n")] *)
Fixpoint replace_crlf (s : string) : string :=
  match s with
  | EmptyString => EmptyString
  | String c r =>
      match r with
      | String c' r' =>
          if (PyStr.code c =? 13)%N && (PyStr.code c' =? 10)%N
          then String LF (replace_crlf r')
          else String c (replace_crlf r)
      | EmptyString => String c EmptyString
      end
  end.

(** [s.replace("\r", "\n")] *)
Fixpoint replace_cr (s : string) : string :=
  match s with
  | EmptyString => EmptyString
  | String c r => String (if (PyStr.code c =? 13)%N then LF else c) (replace_cr r)
  end.

Definition is_blank (c : ascii) : bool :=
  (PyStr.code c =? 32)%N || (PyStr.code c =? 9)%N.

(** [re.sub(r"[ \t]+", " ", s)] : [in_run] tells that the run of blanks
    being read has already produced its single space. *)
Fixpoint sub_blanks (in_run : bool) (s : string) : string :=
  match s with
  | EmptyString => EmptyString
  | String c r =>
      if is_blank c
      then (if in_run then sub_blanks true r else String " " (sub_blanks true r))
      else String c (sub_blanks false r)
  end.

(** [re.sub(r"\n{3,}", "\n\n", s)] : [seen] counts the newlines of the
    current run already written (at most two are). *)
Fixpoint sub_newlines (seen : nat) (s : string) : string :=
  match s with
  | EmptyString => EmptyString
  | String c r =>
      if (PyStr.code c =? 10)%N
      then (if (seen <? 2)%nat then String c (sub_newlines (S seen) r)
            else sub_newlines seen r)
      else String c (sub_newlines 0 r)
  end.

Definition normalize_whitespace (s : string) : string :=
  let s := replace_cr (replace_crlf s) in
  let s := sub_blanks false s in
  let s := sub_newlines 0 s in
  PyStr.strip s.

(** [len(re.findall(r"\b\w+\b", text))] : the number of maximal runs of
    word characters; [in_word] tells that the previous character was one. *)
Fixpoint count_words (in_word : bool) (s : string) : nat :=
  match s with
  | EmptyString => 0
  | String c r =>
      if PyStr.isword c
      then (if in_word then count_words true r else S (count_words true r))
      else count_words false r
  end.

Definition word_count (text : string) : nat := count_words false text.

(** ** Calendar dates: [datetime(y, mo, d).strftime("%Y-%m-%d")] *)

Definition is_leap (y : Z) : bool :=
  ((y mod 4 =? 0) && (negb (y mod 100 =? 0) || (y mod 400 =? 0)))%Z.

Definition days_in_month (y mo : Z) : Z :=
  if (mo =? 2)%Z then (if is_leap y then 29 else 28)
  else if ((mo =? 4) || (mo =? 6) || (mo =? 9) || (mo =? 11))%Z then 30
  else 31.

(** The constructor raises [ValueError] ([None]) on a date that does not
    exist. *)
Definition datetime (y mo d : Z) : option (Z * Z * Z) :=
  if ((1 <=? y) && (y <=? 9999) && (1 <=? mo) && (mo <=? 12)
      && (1 <=? d) && (d <=? days_in_month y mo))%Z
  then Some (y, mo, d) else None.

Definition strftime_ymd (t : Z * Z * Z) : string :=
  let '(y, mo, d) := t in
  PyStr.zero_padded 4 y +:+ "-" +:+ PyStr.zero_padded 2 mo +:+ "-" +:+ PyStr.zero_padded 2 d.

(** ** Regular expressions

    A pattern is a backtracking matcher: from a cursor it returns every
    way to match, in the order in which Python's engine tries them, each
    with the groups it captured and the cursor after the match. The match
    that [re] reports is the first one. *)

Module Re.

Record cursor := Cursor { before : option ascii; rest : string }.

Definition M (A : Type) : Type := cursor -> list (A * cursor).

Definition ret {A} (a : A) : M A := fun c => [(a, c)].

Definition bind {A B} (m : M A) (f : A -> M B) : M B :=
  fun c => flat_map (fun '(a, c') => f a c') (m c).

Notation "'do!' x <~ m 'in' k" := (bind m (fun x => k))
  (at level 10, x name, m at level 100, k at level 200, only parsing).

(** One character of a class. *)
Definition char_if (p : ascii -> bool) : M ascii :=
  fun c =>
    match rest c with
    | String a r => if p a then [(a, Cursor (Some a) r)] else []
    | EmptyString => []
    end.

(** [a|b] : the alternatives of [a] are tried before those of [b]. *)
Definition alt {A} (a b : M A) : M A := fun c => a c ++ b c.

Definition fail {A} : M A := fun _ => [].

(** [m?], greedy. *)
Definition opt {A} (m : M A) : M (option A) :=
  alt (do! x <~ m in ret (Some x)) (ret None).

(** A literal, read with or without [re.IGNORECASE]; the group is the text
    of the subject that matched. *)
Fixpoint lit (ignorecase : bool) (w : string) : M string :=
  match w with
  | EmptyString => ret EmptyString
  | String a w' =>
      do! x <~ char_if (fun b =>
             if ignorecase
             then Ascii.eqb (PyStr.lower_char b) (PyStr.lower_char a)
             else Ascii.eqb b a) in
      do! s <~ lit ignorecase w' in
      ret (String x s)
  end.

(** [[class]{n}] *)
Fixpoint exactly (n : nat) (p : ascii -> bool) : M string :=
  match n with
  | O => ret EmptyString
  | S k => do! x <~ char_if p in do! s <~ exactly k p in ret (String x s)
  end.

(** [[class]{0,n}], greedy. *)
Fixpoint upto (n : nat) (p : ascii -> bool) : M string :=
  match n with
  | O => ret EmptyString
  | S k => alt (do! x <~ char_if p in do! s <~ upto k p in ret (String x s)) (ret EmptyString)
  end.

(** [[class]{lo,lo+extra}], greedy. *)
Definition between (lo extra : nat) (p : ascii -> bool) : M string :=
  do! a <~ exactly lo p in do! b <~ upto extra p in ret (a +:+ b).

(** [[class]*], greedy: the longest run first, then each shorter one. *)
Fixpoint star_go (p : ascii -> bool) (prev : option ascii) (s : string)
  : list (string * cursor) :=
  match s with
  | String a r =>
      if p a
      then map (fun '(t, c) => (String a t, c)) (star_go p (Some a) r)
           ++ [(EmptyString, Cursor prev s)]
      else [(EmptyString, Cursor prev s)]
  | EmptyString => [(EmptyString, Cursor prev s)]
  end.

Definition star (p : ascii -> bool) : M string :=
  fun c => star_go p (before c) (rest c).

(** [[class]+], greedy. *)
Definition plus (p : ascii -> bool) : M string :=
  do! x <~ char_if p in do! s <~ star p in ret (String x s).

(** [\b] : exactly one of the two neighbours is a word character. *)
Definition word_boundary : M unit :=
  fun c =>
    let l := match before c with Some a => PyStr.isword a | None => false end in
    let r := match rest c with String a _ => PyStr.isword a | EmptyString => false end in
    if xorb l r then [(tt, c)] else [].

(** The first alternative of a list that matches. *)
Fixpoint alts {A} (ms : list (M A)) : M A :=
  match ms with
  | [] => fail
  | m :: ms' => alt m (alts ms')
  end.

(** [re.search] : the groups of the first match at the leftmost position
    that has one. *)
Fixpoint search_from {A} (re : M A) (prev : option ascii) (s : string) : option A :=
  match re (Cursor prev s) with
  | (a, _) :: _ => Some a
  | [] =>
      match s with
      | String c r => search_from re (Some c) r
      | EmptyString => None
      end
  end.

Definition search {A} (re : M A) (s : string) : option A := search_from re None s.

End Re.

Notation "'do!' x <~ m 'in' k" := (Re.bind m (fun x => k))
  (at level 10, x name, m at level 100, k at level 200, only parsing).

(** ** Date heuristics *)

(** [Path(name).stem] for a file name without directory part: the name up
    to its last dot, unless that dot is the first or the last character. *)
Fixpoint rfind_dot (i : nat) (s : string) : option nat :=
  match s with
  | EmptyString => None
  | String c r =>
      match rfind_dot (S i) r with
      | Some j => Some j
      | None => if Ascii.eqb c "." then Some i else None
      end
  end.

Definition stem (name : string) : string :=
  match rfind_dot 0 name with
  | Some i =>
      if (0 <? i)%nat && (i <? String.length name - 1)%nat
      then PyStr.prefix i name else name
  | None => name
  end.

Definition is_sep (c : ascii) : bool := Ascii.eqb c "-" || Ascii.eqb c "_".

(** [20\d{2}] *)
Definition year20 : Re.M string :=
  do! a <~ Re.lit false "20" in
  do! b <~ Re.exactly 2 PyStr.isdigit in
  Re.ret (a +:+ b).

(** [(20\d{2})[-_](\d{1,2})[-_](\d{1,2})] *)
Definition iso_date_re : Re.M (string * string * string) :=
  do! g1 <~ year20 in
  do! _s <~ Re.char_if is_sep in
  do! g2 <~ Re.between 1 1 PyStr.isdigit in
  do! _t <~ Re.char_if is_sep in
  do! g3 <~ Re.between 1 1 PyStr.isdigit in
  Re.ret (g1, g2, g3).

(** [(\d{1,2})[-_](\d{1,2})[-_](20\d{2})] *)
Definition us_date_re : Re.M (string * string * string) :=
  do! g1 <~ Re.between 1 1 PyStr.isdigit in
  do! _s <~ Re.char_if is_sep in
  do! g2 <~ Re.between 1 1 PyStr.isdigit in
  do! _t <~ Re.char_if is_sep in
  do! g3 <~ year20 in
  Re.ret (g1, g2, g3).

Definition formatted (t : option (Z * Z * Z)) : option string :=
  match t with
  | Some t => Some (strftime_ymd t)
  | None => None
  end.

Definition parse_date_from_filename (name : string) : option string :=
  let base := stem name in
  let first :=
    match Re.search iso_date_re base with
    | Some (g1, g2, g3) =>
        let '(y, mo, d) := (PyStr.int g1, PyStr.int g2, PyStr.int g3) in
        formatted (datetime y mo d)
    | None => None
    end in
  match first with
  | Some s => Some s
  | None =>
      match Re.search us_date_re base with
      | Some (g1, g2, g3) =>
          let '(mo, d, y) := (PyStr.int g1, PyStr.int g2, PyStr.int g3) in
          formatted (datetime y mo d)
      | None => None
      end
  end.

Definition month_names : list string :=
  [ "Jan"; "January"; "Feb"; "February"; "Mar"; "March"; "Apr"; "April";
    "May"; "Jun"; "June"; "Jul"; "July"; "Aug"; "August"; "Sep"; "Sept";
    "September"; "Oct"; "October"; "Nov"; "November"; "Dec"; "December" ].

Definition day_suffixes : list string := [ "st"; "nd"; "rd"; "th" ].

(** [\b(Jan|...|December)\.?\s+(\d{1,2})(?:st|nd|rd|th)?,\s+(20\d{2})\b],
    compiled with [re.IGNORECASE]. *)
Definition long_date_re : Re.M (string * string * string) :=
  do! _b <~ Re.word_boundary in
  do! g1 <~ Re.alts (map (Re.lit true) month_names) in
  do! _d <~ Re.opt (Re.lit true ".") in
  do! _s <~ Re.plus PyStr.isspace in
  do! g2 <~ Re.between 1 1 PyStr.isdigit in
  do! _x <~ Re.opt (Re.alts (map (Re.lit true) day_suffixes)) in
  do! _c <~ Re.lit true "," in
  do! _t <~ Re.plus PyStr.isspace in
  do! g3 <~ year20 in
  do! _e <~ Re.word_boundary in
  Re.ret (g1, g2, g3).

Definition month_map : list (string * Z) :=
  [ ("jan", 1); ("feb", 2); ("mar", 3); ("apr", 4); ("may", 5); ("jun", 6);
    ("jul", 7); ("aug", 8); ("sep", 9); ("oct", 10); ("nov", 11); ("dec", 12) ]%Z.

Fixpoint dict_get {V} (d : list (string * V)) (k : string) : option V :=
  match d with
  | [] => None
  | (k', v) :: d' => if String.eqb k' k then Some v else dict_get d' k
  end.

(** ["\n".join(text.splitlines()[:20])] *)
Definition head_lines (text : string) : string :=
  PyStr.join (String LF EmptyString) (take 20 (PyStr.splitlines text)).

Definition parse_date_from_text (text : string) : option string :=
  let head := head_lines text in
  match Re.search long_date_re head with
  | Some (g1, g2, g3) =>
      let mon := PyStr.prefix 3 (PyStr.lower g1) in
      let day := PyStr.int g2 in
      let year := PyStr.int g3 in
      match dict_get month_map mon with
      | Some mo =>
          if (mo =? 0)%Z then None else formatted (datetime year mo day)
      | None => None
      end
  | None => None
  end.

(** ** Values exchanged with the inference service *)

(** What [json.loads] returns. [JObj] lists the items of the dict, whose
    keys are distinct. Numbers are integers. *)
#[local] Unset Elimination Schemes.
Inductive json : Type :=
| JNull
| JBool (b : bool)
| JNum (z : Z)
| JStr (s : string)
| JArr (items : list json)
| JObj (fields : list (string * json)).
#[local] Set Elimination Schemes.

Definition json_truthy (v : json) : bool :=
  match v with
  | JNull => false
  | JBool b => b
  | JNum z => negb (z =? 0)%Z
  | JStr s => PyStr.truthy s
  | JArr items => match items with [] => false | _ => true end
  | JObj fields => match fields with [] => false | _ => true end
  end.

Definition type_name (v : json) : string :=
  match v with
  | JNull => "NoneType"
  | JBool _ => "bool"
  | JNum _ => "int"
  | JStr _ => "str"
  | JArr _ => "list"
  | JObj _ => "dict"
  end.

(** A computation inside the [try] block: a value, or the message of the
    exception that was raised. *)
Inductive result (A : Type) : Type :=
| Ok (a : A)
| Raise (msg : string).
Arguments Ok {A} a.
Arguments Raise {A} msg.

Definition result_bind {A B} (r : result A) (f : A -> result B) : result B :=
  match r with
  | Ok a => f a
  | Raise msg => Raise msg
  end.

Notation "'try!' x <~ r 'in' k" := (result_bind r (fun x => k))
  (at level 10, x name, r at level 100, k at level 200, only parsing).

Definition attribute_error {A} (v : json) (attr : string) : result A :=
  Raise ("'" +:+ type_name v +:+ "' object has no attribute '" +:+ attr +:+ "'").

(** [meta.get(key)] *)
Definition meta_get (meta : json) (key : string) : result json :=
  match meta with
  | JObj fields => Ok (default JNull (dict_get fields key))
  | _ => attribute_error meta "get"
  end.

(** [(v or "").strip()] *)
Definition or_empty_strip (v : json) : result string :=
  if json_truthy v then
    match v with
    | JStr s => Ok (PyStr.strip s)
    | _ => attribute_error v "strip"
    end
  else Ok (PyStr.strip EmptyString).

(** [[t.strip() for t in topics if isinstance(t, str) and t.strip()]] *)
Fixpoint clean_topics (topics : list json) : list string :=
  match topics with
  | [] => []
  | JStr t :: rest =>
      if PyStr.truthy (PyStr.strip t) then PyStr.strip t :: clean_topics rest
      else clean_topics rest
  | _ :: rest => clean_topics rest
  end.

(** ** Data model *)

Record SourceDocument := {
  name : string;          (* [p.name] *)
  fingerprint : string    (* [sha256_file(p)], the digest of the file's bytes *)
}.

(** An entry of the collection. [sourceFile] is [None] when the key is
    absent or null in a carried-forward entry. *)
Record Article := {
  sourceFile : option string;
  title : string;
  date : string;
  dateISO : string;
  dateSource : string;
  summary : string;
  topics : list string;
  wordCount : nat;
  text : string;
  updatedAt : string
}.

Record ErrorRecord := { file : string; error : string }.

Module Payload.
Record t := { generatedAt : string; articles : list Article; errors : list ErrorRecord }.
End Payload.

Inductive cell : Type :=
| CStr (s : string)
| CInt (n : nat).

Inductive Call : Type :=
| CallPandoc (file_name : string)
| CallDocx (file_name : string)
| CallInfer (file_name : string).

(** The command line. Paths are not modelled: the three files are the
    arguments and the results of [main]. *)
Record Args := {
  api_key : string;
  model : string;
  resume : bool;
  prune : bool
}.

(** Everything a run reads from outside the program. *)
Record World := {
  folder : option (list SourceDocument);
    (* [None]: the folder does not exist; else [sorted(folder.glob("*.docx"))] *)
  openai_installed : bool;
  env_api_key : string;
  pandoc : SourceDocument -> option (Z * string);
    (* return code and standard output, [None] when pandoc is not installed *)
  docx_paragraphs : SourceDocument -> option (list string);
    (* paragraph texts, [None] when python-docx is missing or fails *)
  chat : SourceDocument -> string -> string -> result json;
    (* the parsed reply to a request (model, user message) made for a file *)
  now : SourceDocument -> string;
    (* the clock read while the file's entry is built *)
  now_end : string
    (* the clock read when the payload is built *)
}.

(** ** External collaborators *)

Definition run_pandoc_extract (w : World) (p : SourceDocument) : string :=
  match pandoc w p with
  | Some (returncode, stdout) =>
      if (returncode =? 0)%Z && PyStr.truthy (PyStr.strip stdout) then stdout
      else EmptyString
  | None => EmptyString
  end.

Definition docx_extract_fallback (w : World) (p : SourceDocument) : string :=
  match docx_paragraphs w p with
  | Some paras =>
      PyStr.strip
        (PyStr.join (String LF EmptyString)
           (filter (fun t => PyStr.truthy t && PyStr.truthy (PyStr.strip t) = true) paras))
  | None => EmptyString
  end.

Definition prompt : string :=
  "You are extracting metadata for a newspaper opinion archive." +:+ String LF
  ("Given the article text, return STRICT JSON with keys:" +:+ String LF
  ("title (string), date (YYYY-MM-DD or empty string), summary (string), topics (array of short strings)." +:+ String LF
  ("If date is not explicitly stated, infer conservatively from context; otherwise return empty string." +:+ String LF
   EmptyString))).

Definition openai_infer (w : World) (p : SourceDocument) (mdl text : string) : result json :=
  let article_snip := PyStr.prefix (N.to_nat 12000) text in
  chat w p mdl
    (prompt +:+ String LF (String LF ("ARTICLE:" +:+ String LF article_snip))).

(** [run_pandoc_extract(p) or docx_extract_fallback(p)], with the calls made. *)
Definition extract (w : World) (p : SourceDocument) : string * list Call :=
  let t := run_pandoc_extract w p in
  if PyStr.truthy t then (t, [CallPandoc (name p)])
  else (docx_extract_fallback w p, [CallPandoc (name p); CallDocx (name p)]).

(** ** One document *)

(** [a or b] on an optional string and a string. *)
Definition or_else (a : option string) (b : string) : string :=
  match a with
  | Some s => if PyStr.truthy s then s else b
  | None => b
  end.

(** The body of the [try] block up to the new entry. *)
Definition build_article (w : World) (p : SourceDocument) (body : string)
    (wc : nat) (date_guess : string) (meta : json) : result Article :=
  try! v_title <~ meta_get meta "title" in
  try! title0 <~ or_empty_strip v_title in
  let title1 := if PyStr.truthy title0 then title0 else stem (name p) in
  try! v_date <~ meta_get meta "date" in
  try! date_ai <~ or_empty_strip v_date in
  try! v_summary <~ meta_get meta "summary" in
  try! summary1 <~ or_empty_strip v_summary in
  try! v_topics <~ meta_get meta "topics" in
  let topics0 := if json_truthy v_topics then v_topics else JArr [] in
  let topics1 := match topics0 with JArr items => items | _ => [] end in
  let final_date :=
    if PyStr.truthy date_guess then date_guess
    else if PyStr.truthy date_ai then date_ai else EmptyString in
  let date_source :=
    if PyStr.truthy date_guess then "filename/text"
    else if PyStr.truthy date_ai then "ai" else EmptyString in
  Ok {| sourceFile := Some (name p);
        title := title1;
        date := final_date;
        dateISO := final_date;
        dateSource := date_source;
        summary := summary1;
        topics := clean_topics topics1;
        wordCount := wc;
        text := body;
        updatedAt := now w p |}.

(** The scan [for idx_a, a in enumerate(articles)] for the first entry of
    a source file. *)
Fixpoint find_entry (file_name : string) (articles : list Article) : option nat :=
  match articles with
  | [] => None
  | a :: rest =>
      if bool_decide (sourceFile a = Some file_name) then Some 0
      else option_map S (find_entry file_name rest)
  end.

(** Replace in place or append. *)
Definition upsert (article : Article) (file_name : string) (articles : list Article)
  : list Article :=
  match find_entry file_name articles with
  | None => articles ++ [article]
  | Some existing_entry => <[existing_entry := article]> articles
  end.

(** The variables of the loop of [main]. *)
Module Loop.
Record t := {
  state : gmap string string;       (* [state["files"]] *)
  articles : list Article;
  errors : list ErrorRecord;
  processed : nat;
  updated : nat;
  missing_date_rows : list (list cell);
  calls : list Call
}.
End Loop.

Definition date_guess_of (p : SourceDocument) (body : string) : string :=
  or_else (parse_date_from_filename (name p)) (or_else (parse_date_from_text body) EmptyString).

(** The body of [for i, p in enumerate(docx_files, start=1)]. *)
Definition process_document (w : World) (args : Args) (v : Loop.t) (p : SourceDocument)
  : Loop.t :=
  let file_hash := fingerprint p in
  let prev_hash := default EmptyString (Loop.state v !! name p) in
  let already := String.eqb prev_hash file_hash in
  if resume args && already then v
  else
    let '(raw, extraction_calls) := extract w p in
    let body := normalize_whitespace raw in
    let wc := word_count body in
    if (wc =? 0)%nat then
      {| Loop.state := <[name p := file_hash]> (Loop.state v);
         Loop.articles := Loop.articles v;
         Loop.errors := Loop.errors v;
         Loop.processed := Loop.processed v;
         Loop.updated := Loop.updated v;
         Loop.missing_date_rows := Loop.missing_date_rows v;
         Loop.calls := Loop.calls v ++ extraction_calls |}
    else
      let date_guess := date_guess_of p body in
      let attempt :=
        try! meta <~ openai_infer w p (model args) body in
        build_article w p body wc date_guess meta in
      let calls1 := Loop.calls v ++ extraction_calls ++ [CallInfer (name p)] in
      match attempt with
      | Ok article =>
          {| Loop.state := <[name p := file_hash]> (Loop.state v);
             Loop.articles := upsert article (name p) (Loop.articles v);
             Loop.errors := Loop.errors v;
             Loop.processed := S (Loop.processed v);
             Loop.updated := S (Loop.updated v);
             Loop.missing_date_rows :=
               if PyStr.truthy (date article) then Loop.missing_date_rows v
               else Loop.missing_date_rows v
                      ++ [[CStr (name p); CStr (title article); CInt wc]];
             Loop.calls := calls1 |}
      | Raise msg =>
          {| Loop.state := <[name p := file_hash]> (Loop.state v);
             Loop.articles := Loop.articles v;
             Loop.errors := Loop.errors v ++ [{| file := name p; error := msg |}];
             Loop.processed := Loop.processed v;
             Loop.updated := Loop.updated v;
             Loop.missing_date_rows := Loop.missing_date_rows v;
             Loop.calls := calls1 |}
      end.

(** ** Prune, dedup, sort *)

(** [sf and sf not in existing_names] *)
Definition vanished (existing_names : gset string) (a : Article) : bool :=
  match sourceFile a with
  | Some sf => PyStr.truthy sf && negb (bool_decide (sf ∈ existing_names))
  | None => false
  end.

(** The loop that fills [kept]. *)
Fixpoint prune_kept (existing_names : gset string) (articles : list Article)
  : list Article :=
  match articles with
  | [] => []
  | a :: rest =>
      if vanished existing_names a then prune_kept existing_names rest
      else a :: prune_kept existing_names rest
  end.

(** [d[k] = v] on a dict, which keeps the order in which its keys were
    first inserted. *)
Fixpoint dict_set {V} (d : list (string * V)) (k : string) (v : V) : list (string * V) :=
  match d with
  | [] => [(k, v)]
  | (k', v') :: d' =>
      if String.eqb k' k then (k', v) :: d' else (k', v') :: dict_set d' k v
  end.

Definition dedup_step (dedup : list (string * Article)) (a : Article)
  : list (string * Article) :=
  match sourceFile a with
  | Some sf => if PyStr.truthy sf then dict_set dedup sf a else dedup
  | None => dedup
  end.

(** [dedup.values()] after the loop [for a in articles]. *)
Definition dedup_values (articles : list Article) : list Article :=
  snd <$> fold_left dedup_step articles [].

(** [(x.get("date") or "", x.get("title") or "")] *)
Definition sort_key (x : Article) : string * string := (date x, title x).

(** [k1 < k2] on tuples of two strings. *)
Definition tuple_lt (k1 k2 : string * string) : bool :=
  if String.eqb (fst k1) (fst k2) then PyStr.lt (snd k1) (snd k2)
  else PyStr.lt (fst k1) (fst k2).

(** [sorted(values, key=..., reverse=True)]: the sort is stable, so the
    result is the arrangement in which keys never increase and entries of
    equal key keep their order; it is built here by insertion from the
    right. *)
Fixpoint insert_desc (x : Article) (s : list Article) : list Article :=
  match s with
  | [] => [x]
  | y :: s' =>
      if tuple_lt (sort_key x) (sort_key y) then y :: insert_desc x s'
      else x :: s
  end.

Definition sorted_reverse (l : list Article) : list Article :=
  foldr insert_desc [] l.

(** ** A run *)

Record Output := {
  data_json : Payload.t;                 (* written to [--output] *)
  state_json : gmap string string;       (* written to the state file *)
  missing_csv : list (list cell);        (* written to [--missing-csv] *)
  exit_code : Z;
  summary_processed : nat;
  summary_updated : nat;
  external_calls : list Call
}.

Inductive Outcome : Type :=
| Fatal                     (* [sys.exit(1)] before anything is written *)
| Finished (out : Output).

Definition csv_header : list cell :=
  [CStr "sourceFile"; CStr "title"; CStr "wordCount"].

(** The entries carried forward from the previous output. *)
Definition carried_forward (args : Args) (out_json : option Payload.t) : list Article :=
  if resume args then
    match out_json with
    | Some existing => Payload.articles existing
    | None => []
    end
  else [].

Definition after_prune (args : Args) (docx_files : list SourceDocument)
    (articles : list Article) : list Article :=
  if prune args
  then prune_kept (list_to_set (name <$> docx_files)) articles
  else articles.

Definition loop_start (state : gmap string string) (articles : list Article) : Loop.t :=
  {| Loop.state := state; Loop.articles := articles; Loop.errors := [];
     Loop.processed := 0; Loop.updated := 0; Loop.missing_date_rows := [];
     Loop.calls := [] |}.

Definition finish (w : World) (v : Loop.t) : Output :=
  let articles := sorted_reverse (dedup_values (Loop.articles v)) in
  {| data_json := {| Payload.generatedAt := now_end w;
                     Payload.articles := articles;
                     Payload.errors := Loop.errors v |};
     state_json := Loop.state v;
     missing_csv := csv_header :: Loop.missing_date_rows v;
     exit_code := if (0 <? Loop.updated v)%nat then 10 else 0;
     summary_processed := Loop.processed v;
     summary_updated := Loop.updated v;
     external_calls := Loop.calls v |}.

(** The variables of [main] when its loop over [docx_files] ends. *)
Definition run_loop (w : World) (args : Args) (docx_files : list SourceDocument)
    (state : gmap string string) (out_json : option Payload.t) : Loop.t :=
  let articles := after_prune args docx_files (carried_forward args out_json) in
  fold_left (process_document w args) docx_files (loop_start state articles).

(** [main], given the state file and the previous output as they were
    loaded ([None]: no output file, or one that could not be read). *)
Definition main (w : World) (args : Args) (state : gmap string string)
    (out_json : option Payload.t) : Outcome :=
  match folder w with
  | None => Fatal
  | Some docx_files =>
      let key := if PyStr.truthy (api_key args) then api_key args else env_api_key w in
      if negb (PyStr.truthy key) then Fatal
      else if negb (openai_installed w) then Fatal
      else Finished (finish w (run_loop w args docx_files state out_json))
  end.

(** * Vocabulary of the properties *)

(** [a] may stand before [b] in the collection: its date is later, or the
    dates are equal and its title is not smaller. *)
Definition desc_order (a b : Article) : Prop :=
  String.ltb (date b) (date a) = true
  \/ (date a = date b /\ String.ltb (title a) (title b) = false).

(** The key under which the dedup step files an entry, if it does. *)
Definition source_key (a : Article) : option string :=
  match sourceFile a with
  | Some sf => if PyStr.truthy sf then Some sf else None
  | None => None
  end.

Definition has_source (n : string) (a : Article) : Prop := sourceFile a = Some n.

Global Instance has_source_dec n a : Decision (has_source n a).
Proof. unfold has_source. apply _. Defined.

(** The entry of a source file that comes last in a list. *)
Definition entry_of (n : string) (l : list Article) : option Article :=
  last (filter (has_source n) l).

(** Every value of the dict is filed under its own key, and no key occurs
    twice. *)
Definition dict_wf (d : list (string * Article)) : Prop :=
  NoDup d.*1 /\ Forall (fun kv => source_key kv.2 = Some kv.1) d.

(** What a run writes as its collection, from the list in memory. *)
Definition collection_of (articles : list Article) : list Article :=
  sorted_reverse (dedup_values articles).

(** The file a call was made for. *)
Definition call_file (c : Call) : string :=
  match c with
  | CallPandoc n | CallDocx n | CallInfer n => n
  end.

(** The row of the missing-date report that describes an entry. *)
Definition row_of (a : Article) : list cell :=
  [CStr (default EmptyString (sourceFile a)); CStr (title a); CInt (wordCount a)].

(** A folder listing: file names are not empty and no two files share one. *)
Definition listing_ok (docx_files : list SourceDocument) : Prop :=
  NoDup (name <$> docx_files)
  /\ Forall (fun d => PyStr.truthy (name d) = true) docx_files.

Global Instance SourceDocument_eq_dec : EqDecision SourceDocument.
Proof. solve_decision. Defined.

Global Instance Article_eq_dec : EqDecision Article.
Proof. solve_decision. Defined.

Global Instance cell_eq_dec : EqDecision cell.
Proof. solve_decision. Defined.

Global Instance Call_eq_dec : EqDecision Call.
Proof. solve_decision. Defined.

Global Instance ErrorRecord_eq_dec : EqDecision ErrorRecord.
Proof. solve_decision. Defined.

(** The configuration lets the run reach its loop: there is a key and the
    client library is installed. *)
Definition configured (w : World) (args : Args) : Prop :=
  PyStr.truthy (if PyStr.truthy (api_key args) then api_key args else env_api_key w) = true
  /\ openai_installed w = true.

(** The fingerprint gate lets the document through. *)
Definition gate_open (args : Args) (state : gmap string string) (p : SourceDocument) : Prop :=
  resume args && String.eqb (default EmptyString (state !! name p)) (fingerprint p) = false.

(** The text that is handed to the date heuristics and to the service. *)
Definition body_of (w : World) (p : SourceDocument) : string :=
  normalize_whitespace (extract w p).1.

(** What the [try] block yields for a document. *)
Definition attempt_of (w : World) (args : Args) (p : SourceDocument) : result Article :=
  try! meta <~ openai_infer w p (model args) (body_of w p) in
  build_article w p (body_of w p) (word_count (body_of w p))
    (date_guess_of p (body_of w p)) meta.

(** The date that the reply of the service gives, as the code reads it. *)
Definition date_ai_of (meta : json) : result string :=
  try! v <~ meta_get meta "date" in or_empty_strip v.

(** A field of the reply that the code can read as text: a string, or
    anything that counts as false. *)
Definition readable (v : json) : Prop :=
  json_truthy v = false \/ exists s, v = JStr s.

Definition text_of (v : json) : string :=
  match v with
  | JStr s => PyStr.strip s
  | _ => EmptyString
  end.

Definition items_of (v : json) : list json :=
  match v with
  | JArr items => items
  | _ => []
  end.

(** A matcher only moves forward in the subject. *)
Definition forward {A} (m : Re.M A) : Prop :=
  forall c a c', In (a, c') (m c) -> exists pre, Re.rest c = pre +:+ Re.rest c'.

(** The subject starts with, or somewhere holds, the characters 2 and 0
    followed by two digits. *)
Definition starts_20xx (s : string) : bool :=
  match s with
  | String a (String b (String c3 (String c4 _))) =>
      Ascii.eqb a "2" && Ascii.eqb b "0" && PyStr.isdigit c3 && PyStr.isdigit c4
  | _ => false
  end.

Fixpoint mentions_20xx (s : string) : bool :=
  match s with
  | EmptyString => false
  | String _ r => starts_20xx s || mentions_20xx r
  end.

(** Invariant of the loop. Every row describes an entry in memory that has
    no date and whose file the loop has already left behind; rows and keys
    do not repeat. *)
Definition rows_inv (v : Loop.t) (rest : list SourceDocument) : Prop :=
  NoDup (omap source_key (Loop.articles v))
  /\ NoDup (Loop.missing_date_rows v)
  /\ forall row, row ∈ Loop.missing_date_rows v ->
       exists a n, a ∈ Loop.articles v /\ row = row_of a /\ date a = EmptyString
                   /\ source_key a = Some n /\ (n ∉ name <$> rest).

(** Invariant of the loop. An entry in memory was there at the start, or
    has its row if it has no date. *)
Definition fresh_inv (start : list Article) (v : Loop.t) : Prop :=
  forall a, a ∈ Loop.articles v ->
    a ∈ start \/ (date a = EmptyString -> row_of a ∈ Loop.missing_date_rows v).

(** * Sample data *)

Module Sample.

Definition entry (sf title0 date0 : string) : Article :=
  {| sourceFile := Some sf; title := title0; date := date0; dateISO := date0;
     dateSource := if PyStr.truthy date0 then "ai" else EmptyString;
     summary := EmptyString; topics := []; wordCount := 2; text := "some text";
     updatedAt := "2024-01-01T00:00:00" |}.

(** The three entries of the sort example. *)
Definition entry_b : Article := entry "b.docx" "B" "2024-03-01".
Definition entry_a : Article := entry "a.docx" "A" "2024-03-01".
Definition entry_z : Article := entry "z.docx" "Z" EmptyString.

(** An entry whose file has left the folder, and two entries of one file. *)
Definition entry_gone : Article := entry "gone.docx" "Gone" "2023-12-24".
Definition entry_old : Article := entry "letter.docx" "Old letter" "2020-02-02".
Definition entry_older : Article := entry "letter.docx" "Older letter" "2019-01-01".

(** A folder of five files. *)
Definition dated : SourceDocument :=
  {| name := "2024-03-01 budget.docx"; fingerprint := "aa11" |}.
Definition broken : SourceDocument := {| name := "broken.docx"; fingerprint := "bb22" |}.
Definition letter : SourceDocument := {| name := "letter.docx"; fingerprint := "cc33" |}.
Definition odd : SourceDocument := {| name := "odd.docx"; fingerprint := "dd44" |}.
Definition scan : SourceDocument := {| name := "scan.docx"; fingerprint := "ee55" |}.

Definition files : list SourceDocument := [dated; broken; letter; odd; scan].

Definition named (p : SourceDocument) (n : string) : bool := String.eqb (name p) n.

(** pandoc reads every file but the scan, which has no text at all. *)
Definition sample_pandoc (p : SourceDocument) : option (Z * string) :=
  if named p "scan.docx" then Some (0%Z, EmptyString)
  else if named p "2024-03-01 budget.docx"
  then Some (0%Z, "The budget" +:+ String LF "January 15, 2024 was a cold day")
  else Some (0%Z, "Dear editor, thank you").

(** The service fails on one file, answers with a number for a title on
    another, and knows no date. *)
Definition sample_chat (p : SourceDocument) (mdl message : string) : result json :=
  if named p "broken.docx" then Raise "Connection error."
  else if named p "odd.docx"
  then Ok (JObj [("title", JNum 123); ("date", JStr EmptyString);
                 ("summary", JStr "s"); ("topics", JArr [])])
  else Ok (JObj [("title", JStr " A title "); ("date", JNull);
                 ("summary", JStr "A summary"); ("topics", JArr [JStr " tax "; JStr "  "; JNum 7])]).

Definition world : World :=
  {| folder := Some files;
     openai_installed := true;
     env_api_key := "sk-sample";
     pandoc := sample_pandoc;
     docx_paragraphs := fun _ => None;
     chat := sample_chat;
     now := fun _ => "2024-06-01T12:00:00";
     now_end := "2024-06-01T12:00:05" |}.

Definition args (resume0 prune0 : bool) : Args :=
  {| api_key := EmptyString; model := "gpt-4o-mini"; resume := resume0; prune := prune0 |}.

(** The entry that the first run builds for the dated file. *)
Definition dated_entry : Article :=
  {| sourceFile := Some "2024-03-01 budget.docx"; title := "A title";
     date := "2024-03-01"; dateISO := "2024-03-01"; dateSource := "filename/text";
     summary := "A summary"; topics := ["tax"]; wordCount := 9;
     text := "The budget" +:+ String LF "January 15, 2024 was a cold day";
     updatedAt := "2024-06-01T12:00:00" |}.

(** A previous output with a vanished file and a doubled key. *)
Definition previous : Payload.t :=
  {| Payload.generatedAt := "2024-05-01T08:00:00";
     Payload.articles := [entry_gone; entry_old; entry_older];
     Payload.errors := [] |}.

(** The first run over the folder, from nothing, and the run that follows. *)
Definition first_run : Output :=
  finish world (run_loop world (args true true) files ∅ None).

Definition second_run : Output :=
  finish world
    (run_loop world (args true true) files (state_json first_run)
       (Some (data_json first_run))).

(** A run that carries the previous output forward, without and with
    [--prune]. *)
Definition resumed_run : Output :=
  finish world (run_loop world (args true false) files ∅ (Some previous)).

Definition pruned_run : Output :=
  finish world (run_loop world (args true true) files ∅ (Some previous)).

End Sample.

(** * Further vocabulary: shapes of strings *)

Definition TAB : ascii := ascii_of_N 9.

(** Every character of the string is of the class. *)
Fixpoint all_chars (P : ascii -> bool) (s : string) : bool :=
  match s with
  | EmptyString => true
  | String c r => P c && all_chars P r
  end.

(** No two neighbours are both of the class; [prev] tells whether the
    character before the string is of the class. *)
Fixpoint no_double (P : ascii -> bool) (prev : bool) (s : string) : bool :=
  match s with
  | EmptyString => true
  | String c r => if P c then negb prev && no_double P true r else no_double P false r
  end.

(** No three line feeds in a row; [seen] counts the line feeds right
    before the string. *)
Fixpoint no_triple_lf (seen : nat) (s : string) : bool :=
  match s with
  | EmptyString => true
  | String c r =>
      if (PyStr.code c =? 10)%N then (seen <? 2)%nat && no_triple_lf (S seen) r
      else no_triple_lf 0 r
  end.

Definition not_cr (c : ascii) : bool := negb (PyStr.code c =? 13)%N.
Definition not_tab (c : ascii) : bool := negb (PyStr.code c =? 9)%N.
Definition not_word (c : ascii) : bool := negb (PyStr.isword c).

(** * Further vocabulary: what a run does with each file *)

(** The way a document takes through the body of the loop, read with the
    fingerprints of the state file as it was loaded. *)
Inductive Verdict : Type :=
| Unchanged                 (* skipped under [--resume] *)
| NoWords                   (* extracted, and passed over as content-free *)
| Failed (msg : string)     (* the [try] block raised *)
| Built (a : Article).      (* the entry was added or replaced *)

Definition verdict (w : World) (args : Args) (state : gmap string string)
    (p : SourceDocument) : Verdict :=
  if resume args && String.eqb (default EmptyString (state !! name p)) (fingerprint p)
  then Unchanged
  else if (word_count (body_of w p) =? 0)%nat then NoWords
  else match attempt_of w args p with
       | Ok a => Built a
       | Raise msg => Failed msg
       end.

Definition built (w : World) (args : Args) (state : gmap string string)
    (p : SourceDocument) : option Article :=
  match verdict w args state p with
  | Built a => Some a
  | _ => None
  end.

Definition failed (w : World) (args : Args) (state : gmap string string)
    (p : SourceDocument) : option ErrorRecord :=
  match verdict w args state p with
  | Failed msg => Some {| file := name p; error := msg |}
  | _ => None
  end.

Definition calls_for (w : World) (args : Args) (state : gmap string string)
    (p : SourceDocument) : list Call :=
  match verdict w args state p with
  | Unchanged => []
  | NoWords => (extract w p).2
  | _ => (extract w p).2 ++ [CallInfer (name p)]
  end.

(** The row that an entry gets in the missing-date report, if any. *)
Definition missing_row (a : Article) : option (list cell) :=
  if PyStr.truthy (date a) then None else Some (row_of a).

(** Insert or replace under the entry's own source file. *)
Definition put (l : list Article) (a : Article) : list Article :=
  upsert a (default EmptyString (sourceFile a)) l.

Definition is_infer (c : Call) : bool :=
  match c with CallInfer _ => true | _ => false end.

Global Instance gate_open_dec args state p : Decision (gate_open args state p).
Proof. unfold gate_open. apply _. Defined.

(** * Further vocabulary: dates in file names *)

Definition not_digit (c : ascii) : bool := negb (PyStr.isdigit c).

(** The string has no dot. *)
Fixpoint no_dot (s : string) : bool :=
  match s with
  | EmptyString => true
  | String c r => negb (Ascii.eqb c ".") && no_dot r
  end.

(** A date written year first, and month first, with two separators, as
    the two patterns of the file-name parser read it. *)
Definition iso_in_name (s1 s2 : ascii) (y mo d : Z) : string :=
  PyStr.zero_padded 4 y +:+ String s1 (PyStr.zero_padded 2 mo)
  +:+ String s2 (PyStr.zero_padded 2 d).

Definition us_in_name (s1 s2 : ascii) (y mo d : Z) : string :=
  PyStr.zero_padded 2 mo +:+ String s1 (PyStr.zero_padded 2 d)
  +:+ String s2 (PyStr.zero_padded 4 y).

(** * Further vocabulary: a date line in a text *)

Definition not_break (c : ascii) : bool := negb (PyStr.is_linebreak c).

(** The number that [month_map] gives for a month name, 0 if none. *)
Definition month_number (m : string) : Z :=
  default 0%Z (dict_get month_map (PyStr.prefix 3 (PyStr.lower m))).

(** A line such as [January 5, 2024]. *)
Definition dateline (m ds ys : string) : string :=
  m +:+ " " +:+ ds +:+ ", " +:+ ys.

(** The string is empty or starts with a character that is no word
    character. *)
Definition no_word_first (s : string) : bool :=
  match s with
  | String a _ => negb (PyStr.isword a)
  | EmptyString => true
  end.

(** The groups of the first match in a list of matches. *)
Definition first_of {A} (l : list (A * Re.cursor)) : option A :=
  match l with
  | (a, _) :: _ => Some a
  | [] => None
  end.

(** The pattern of the text parser, cut in two after the month and its
    optional dot. *)
Definition date_front : Re.M string :=
  do! _b <~ Re.word_boundary in
  do! g1 <~ Re.alts (map (Re.lit true) month_names) in
  do! _d <~ Re.opt (Re.lit true ".") in
  Re.ret g1.

Definition date_tail (g1 : string) : Re.M (string * string * string) :=
  do! _s <~ Re.plus PyStr.isspace in
  do! g2 <~ Re.between 1 1 PyStr.isdigit in
  do! _x <~ Re.opt (Re.alts (map (Re.lit true) day_suffixes)) in
  do! _c <~ Re.lit true "," in
  do! _t <~ Re.plus PyStr.isspace in
  do! g3 <~ year20 in
  do! _e <~ Re.word_boundary in
  Re.ret (g1, g2, g3).

(** * Further vocabulary: the calendar order of dates *)

(** A number that orders dates as the calendar does, for months and days
    of at most two digits. *)
Definition day_number (t : Z * Z * Z) : Z :=
  let '(y, mo, d) := t in (y * 10000 + mo * 100 + d)%Z.

(** The year has at most four digits, month and day at most two. *)
Definition in_range (t : Z * Z * Z) : Prop :=
  let '(y, mo, d) := t in (0 <= y < 10000 /\ 0 <= mo < 100 /\ 0 <= d < 100)%Z.

(** * Email ingest: a shallow embedding of [src/scripts/email_ingest.py]

    The mailbox is what the IMAP server answers, the attachment folder is
    a finite map from the names of its entries to their contents. Paths
    are those of a POSIX system, and [Path.stem] and [Path.suffix] cut a
    name at its last dot unless that dot is its first or last character.
    The calls to the server and the writes to the folder are taken to
    succeed. Decoding a header can raise: [decode_header] raises
    [HeaderParseError] on an encoded word whose base64 is broken, and
    [bytes.decode] raises [LookupError] for a charset that Python does not
    know. Nothing catches these, so the run ends there with status 1,
    after the [finally] block has logged out. *)

Module Ingest.

(** What [decode_header] returns: pieces of bytes with their charset, or
    of text. *)
Inductive Piece : Type :=
| PBytes (raw : string) (enc : option string)
| PText (text : string).

Record Part := {
  content_disposition : option string;   (* [part.get("Content-Disposition")] *)
  get_filename : option string;          (* [part.get_filename()] *)
  get_payload : option string            (* [part.get_payload(decode=True)] *)
}.

Record Message := {
  msg_id : string;
  fetched : option (list Part);
    (* [None] when the fetch does not answer OK, else [msg.walk()] *)
  subject : string;                      (* [msg.get("Subject", "") or ""] *)
  sender : string                        (* [msg.get("From", "") or ""] *)
}.

Record World := {
  gmail_user : string;                   (* [KIDDER_GMAIL_USER] *)
  gmail_app_password : string;           (* [KIDDER_GMAIL_APP_PASSWORD] *)
  search : option (list Message);
    (* [None] when the search does not answer OK, else the messages of
       [data[0].split()] *)
  decode_header : string -> option (list Piece);
    (* [None] when it raises [HeaderParseError] *)
  bytes_decode : string -> string -> option string
    (* [text.decode(enc, errors="ignore")]; [None] when it raises
       [LookupError], the charset being unknown *)
}.

(** The loop of [decode_mime_words] from the piece it has reached, with
    what it has put together so far; [None] when decoding a piece
    raises. *)
Fixpoint decode_pieces (w : World) (out : string) (pieces : list Piece) : option string :=
  match pieces with
  | [] => Some out
  | PBytes text enc :: rest =>
      let charset :=
        match enc with
        | Some e => if PyStr.truthy e then e else "utf-8"
        | None => "utf-8"
        end in
      match bytes_decode w text charset with
      | Some decoded => decode_pieces w (out +:+ decoded) rest
      | None => None
      end
  | PText text :: rest => decode_pieces w (out +:+ text) rest
  end.

(** [None] when the function raises. *)
Definition decode_mime_words (w : World) (s : string) : option string :=
  match decode_header w s with
  | Some parts => decode_pieces w EmptyString parts
  | None => None
  end.

(** The class of the first substitution: slash, backslash, colon, star,
    question mark, double quote, angle brackets and bar. *)
Definition is_forbidden (c : ascii) : bool :=
  existsb (N.eqb (PyStr.code c)) [47; 92; 58; 42; 63; 34; 60; 62; 124]%N.

(** [re.sub(class+, rep, s)] : every maximal run of characters of the
    class becomes one [rep]; [in_run] tells that the run being read has
    already produced it. *)
Fixpoint sub_runs (P : ascii -> bool) (rep : ascii) (in_run : bool) (s : string) : string :=
  match s with
  | EmptyString => EmptyString
  | String c r =>
      if P c
      then (if in_run then sub_runs P rep true r else String rep (sub_runs P rep true r))
      else String c (sub_runs P rep false r)
  end.

(** The name before it is cut to 180 characters. *)
Definition cleaned (name : string) : string :=
  let name := PyStr.strip name in
  let name := sub_runs is_forbidden "-" false name in
  PyStr.strip (sub_runs PyStr.isspace " " false name).

Definition safe_filename (name : string) : string :=
  let name := cleaned name in
  if (180 <? String.length name)%nat then PyStr.prefix 180 name else name.

(** [s[n:]] *)
Fixpoint drop_chars (n : nat) (s : string) : string :=
  match n, s with
  | S k, String _ r => drop_chars k r
  | _, _ => s
  end.

Fixpoint has_slash (s : string) : bool :=
  match s with
  | EmptyString => false
  | String c r => Ascii.eqb c "/" || has_slash r
  end.

(** [Path(filename).name] for a name that does not end with a slash:
    what follows its last slash. *)
Fixpoint path_name (s : string) : string :=
  match s with
  | EmptyString => EmptyString
  | String c r => if has_slash s then path_name r else s
  end.

(** [Path.suffix] of a name. *)
Definition suffix (name : string) : string :=
  match rfind_dot 0 name with
  | Some i =>
      if (0 <? i)%nat && (i <? String.length name - 1)%nat
      then drop_chars i name else EmptyString
  | None => EmptyString
  end.

Fixpoint startswith (p s : string) : bool :=
  match p, s with
  | EmptyString, _ => true
  | String a p', String b s' => Ascii.eqb a b && startswith p' s'
  | String _ _, EmptyString => false
  end.

(** [sub in s] *)
Fixpoint contains (sub s : string) : bool :=
  startswith sub s
  || match s with
     | EmptyString => false
     | String _ r => contains sub r
     end.

(** [s.endswith(suf)] *)
Fixpoint endswith (suf s : string) : bool :=
  String.eqb s suf
  || match s with
     | EmptyString => false
     | String _ r => endswith suf r
     end.

(** What the checks at the head of the loop over the parts decide. *)
Inductive Choice : Type :=
| Pass                                   (* [continue] *)
| Save (filename payload : string)       (* the decoded file name, the payload *)
| Undecodable.                           (* [decode_mime_words] raises *)

Definition wanted (w : World) (part : Part) : Choice :=
  let cdisp := default EmptyString (content_disposition part) in
  if negb (contains "attachment" (PyStr.lower cdisp)) then Pass
  else
    match get_filename part with
    | None => Pass
    | Some filename =>
        if negb (PyStr.truthy filename) then Pass
        else
          match decode_mime_words w filename with
          | None => Undecodable
          | Some filename =>
              if negb (endswith ".docx" (PyStr.lower filename)) then Pass
              else
                match get_payload part with
                | None => Pass
                | Some payload =>
                    if negb (PyStr.truthy payload) then Pass else Save filename payload
                end
          end
    end.

(** [f"{stem} ({n}){suffix}"] *)
Definition numbered (stem0 suffix0 : string) (n : nat) : string :=
  stem0 +:+ " (" +:+ pretty n +:+ ")" +:+ suffix0.

(** The loop [while True] that looks for a name not yet taken, from [n]
    on; [fuel] bounds the number of names tried. *)
Fixpoint first_free (fuel n : nat) (dir : gmap string string) (stem0 suffix0 : string)
  : option string :=
  match fuel with
  | O => None
  | S k =>
      let alt := numbered stem0 suffix0 n in
      match dir !! alt with
      | None => Some alt
      | Some _ => first_free k (S n) dir stem0 suffix0
      end
  end.

(** The path that is written for a cleaned name. *)
Definition choose_target (dir : gmap string string) (clean : string) : option string :=
  match dir !! clean with
  | None => Some clean
  | Some _ => first_free (S (size dir)) 2 dir (stem clean) (suffix clean)
  end.

(** The variables of [main] while it walks the messages. *)
Record State := {
  files : gmap string string;     (* the folder *)
  saved : list string;            (* the names written, latest last *)
  seen : list string              (* the messages marked as seen *)
}.

(** How a block of [main] ends. *)
Inductive Flow (A : Type) : Type :=
| Goes (a : A)            (* control reaches the end of the block *)
| Raises (st : State)     (* decoding a header raised and the exception
                             leaves the block; the folder and the flags
                             are as they were then *)
| Unending.               (* the search for a free name does not end *)
Arguments Goes {A} a.
Arguments Raises {A} st.
Arguments Unending {A}.

(** The body of [for part in msg.walk()]; the result tells whether the
    part was saved. *)
Definition save_part (w : World) (st : State) (part : Part) : Flow (State * bool) :=
  match wanted w part with
  | Pass => Goes (st, false)
  | Undecodable => Raises st
  | Save filename payload =>
      let clean := safe_filename (path_name filename) in
      match choose_target (files st) clean with
      | None => Unending
      | Some target =>
          Goes ({| files := <[target := payload]> (files st);
                   saved := saved st ++ [target];
                   seen := seen st |}, true)
      end
  end.

Fixpoint walk (w : World) (st : State) (saved_this_msg : bool) (parts : list Part)
  : Flow (State * bool) :=
  match parts with
  | [] => Goes (st, saved_this_msg)
  | part :: rest =>
      match save_part w st part with
      | Goes (st', s) => walk w st' (saved_this_msg || s) rest
      | Raises st' => Raises st'
      | Unending => Unending
      end
  end.

(** The body of [for msg_id in ids]: the subject and the sender are
    decoded for the messages that are printed, then the parts are walked,
    then the message is marked if a part was saved. *)
Definition ingest_message (w : World) (st : State) (msg : Message) : Flow State :=
  match fetched msg with
  | None => Goes st
  | Some parts =>
      match decode_mime_words w (subject msg) with
      | None => Raises st
      | Some subj =>
          match decode_mime_words w (sender msg) with
          | None => Raises st
          | Some sender0 =>
              match walk w st false parts with
              | Goes (st', saved_this_msg) =>
                  Goes (if saved_this_msg
                        then {| files := files st'; saved := saved st';
                                seen := seen st' ++ [msg_id msg] |}
                        else st')
              | Raises st' => Raises st'
              | Unending => Unending
              end
          end
      end
  end.

Fixpoint ingest_messages (w : World) (st : State) (msgs : list Message) : Flow State :=
  match msgs with
  | [] => Goes st
  | msg :: rest =>
      match ingest_message w st msg with
      | Goes st' => ingest_messages w st' rest
      | Raises st' => Raises st'
      | Unending => Unending
      end
  end.

Record Output := {
  exit_code : Z;
  folder_after : gmap string string;
  saved_names : list string;
  marked_seen : list string
}.

(** [main], given the entries of the attachment folder; [None] would be
    a search for a free name that never ends. An exception that nothing
    catches ends the interpreter with status 1. *)
Definition main (w : World) (dir : gmap string string) : option Output :=
  if negb (PyStr.truthy (gmail_user w)) || negb (PyStr.truthy (gmail_app_password w))
  then Some {| exit_code := 2; folder_after := dir; saved_names := []; marked_seen := [] |}
  else
    match search w with
    | None =>
        Some {| exit_code := 0; folder_after := dir; saved_names := []; marked_seen := [] |}
    | Some ids =>
        match ingest_messages w {| files := dir; saved := []; seen := [] |} ids with
        | Unending => None
        | Goes st =>
            Some {| exit_code := match saved st with [] => 0 | _ => 10 end;
                    folder_after := files st;
                    saved_names := saved st;
                    marked_seen := seen st |}
        | Raises st =>
            Some {| exit_code := 1;
                    folder_after := files st;
                    saved_names := saved st;
                    marked_seen := seen st |}
        end
    end.

End Ingest.

(** * Further vocabulary: the attachment folder *)

(** The character is none of the class that the first substitution
    replaces. *)
Definition not_forbidden (c : ascii) : bool := negb (Ingest.is_forbidden c).

(** The character is no white space, or it is a plain space. *)
Definition plain_space (c : ascii) : bool := negb (PyStr.isspace c) || Ascii.eqb c " ".

(** A character that may stand in the extension of a file name: no white
    space, none of the forbidden class, no dot. *)
Definition ext_char (c : ascii) : bool :=
  negb (PyStr.isspace c) && negb (Ingest.is_forbidden c) && negb (Ascii.eqb c ".").

(** The parts of the messages that were fetched, in the order in which
    they are walked. *)
Definition all_parts (msgs : list Ingest.Message) : list Ingest.Part :=
  msgs ≫= (fun m => default [] (Ingest.fetched m)).

(** The file name and the payload of a part that is to be saved. *)
Definition to_save (w : Ingest.World) (part : Ingest.Part) : option (string * string) :=
  match Ingest.wanted w part with
  | Ingest.Save filename payload => Some (filename, payload)
  | _ => None
  end.

(** The message has a part that is to be saved. *)
Definition has_wanted (w : Ingest.World) (m : Ingest.Message) : bool :=
  match omap (to_save w) (default [] (Ingest.fetched m)) with
  | [] => false
  | _ => true
  end.

(** The header can be decoded. *)
Definition decodes (w : Ingest.World) (s : string) : bool :=
  match Ingest.decode_mime_words w s with
  | Some _ => true
  | None => false
  end.

(** The file name of the part is reached and cannot be decoded. *)
Definition bad_name (w : Ingest.World) (part : Ingest.Part) : bool :=
  match Ingest.wanted w part with
  | Ingest.Undecodable => true
  | _ => false
  end.

(** The message was fetched and one of the headers that the run decodes
    for it cannot be decoded: the subject, the sender, or the file name
    of an attachment. *)
Definition undecodable (w : Ingest.World) (m : Ingest.Message) : bool :=
  match Ingest.fetched m with
  | None => false
  | Some parts =>
      negb (decodes w (Ingest.subject m)) || negb (decodes w (Ingest.sender m))
      || existsb (bad_name w) parts
  end.


(** The folder of [st'] is that of [st] with the new names [new] added,
    each holding the payload of a part of [ps] that was to be saved; no
    entry that was there has changed. *)
Definition grown (w : Ingest.World) (ps : list Ingest.Part) (st st' : Ingest.State)
    (new : list string) : Prop :=
  Ingest.files st ⊆ Ingest.files st'
  /\ Ingest.saved st' = Ingest.saved st ++ new
  /\ NoDup new
  /\ dom (Ingest.files st') = dom (Ingest.files st) ∪ list_to_set new
  /\ size (Ingest.files st') = size (Ingest.files st) + length new
  /\ forall t, t ∈ new ->
       Ingest.files st !! t = None
       /\ exists part fn payload,
            part ∈ ps /\ Ingest.wanted w part = Ingest.Save fn payload
            /\ Ingest.files st' !! t = Some payload.

(** A mailbox with one message that carries the same attachment twice,
    and a folder that already holds a file of its cleaned name; a second
    mailbox in which a message with a subject in an unknown charset
    follows. *)

Module IngestSample.

Definition attachment : Ingest.Part :=
  {| Ingest.content_disposition := Some "Attachment; filename=x";
     Ingest.get_filename := Some "drafts/report: final?.DOCX";
     Ingest.get_payload := Some "PK-new" |}.

Definition inline_image : Ingest.Part :=
  {| Ingest.content_disposition := Some "inline";
     Ingest.get_filename := Some "logo.png";
     Ingest.get_payload := Some "PNG" |}.

Definition with_attachment : Ingest.Message :=
  {| Ingest.msg_id := "1"; Ingest.fetched := Some [inline_image; attachment; attachment];
     Ingest.subject := "Column for Sunday"; Ingest.sender := "author@example.org" |}.

Definition plain : Ingest.Message :=
  {| Ingest.msg_id := "2"; Ingest.fetched := Some [inline_image];
     Ingest.subject := "Hello"; Ingest.sender := "reader@example.org" |}.


(** An encoded word is a piece of bytes in its charset, anything else is
    text. *)
Definition sample_decode_header (s : string) : option (list Ingest.Piece) :=
  if Ingest.startswith "=?x-unknown?" s then Some [Ingest.PBytes s (Some "x-unknown")]
  else Some [Ingest.PText s].

Definition sample_bytes_decode (raw enc : string) : option string :=
  if String.eqb enc "x-unknown" then None else Some raw.

Definition world : Ingest.World :=
  {| Ingest.gmail_user := "kidder@example.org";
     Ingest.gmail_app_password := "secret";
     Ingest.search := Some [with_attachment; plain];
     Ingest.decode_header := sample_decode_header;
     Ingest.bytes_decode := sample_bytes_decode |}.


Definition folder : gmap string string := {[ "report- final-.DOCX" := "PK-old" ]}.



End IngestSample.

(** * Further vocabulary: where a pattern can read a year *)

(** The string starts with the characters 2 and 0 and two digits that a
    separator and a digit follow: the year of a date written year first,
    as the first pattern of the file-name parser reads it. *)
Definition year_first_here (s : string) : bool :=
  match s with
  | String a (String b (String c3 (String c4 (String s1 (String m _))))) =>
      Ascii.eqb a "2" && Ascii.eqb b "0" && PyStr.isdigit c3 && PyStr.isdigit c4
      && is_sep s1 && PyStr.isdigit m
  | _ => false
  end.

(** The string starts with a digit and a separator that the characters 2
    and 0 and two digits follow: the year of a date written month first,
    as the second pattern reads it. *)
Definition month_first_here (s : string) : bool :=
  match s with
  | String d (String s2 r) => PyStr.isdigit d && is_sep s2 && starts_20xx r
  | _ => false
  end.

(** The string starts with a year of this century that no word character
    follows. *)
Definition year_delimited (s : string) : bool :=
  match s with
  | String a (String b (String c3 (String c4 r))) =>
      Ascii.eqb a "2" && Ascii.eqb b "0" && PyStr.isdigit c3 && PyStr.isdigit c4
      && no_word_first r
  | _ => false
  end.

(** The string is white space and then such a year; [seen] tells that
    white space has been read. *)
Fixpoint spaces_then_year (seen : bool) (s : string) : bool :=
  match s with
  | String c r =>
      if PyStr.isspace c then spaces_then_year true r else seen && year_delimited s
  | EmptyString => false
  end.

(** The string starts with a comma, white space and a year of this
    century that no word character follows: the year of a date line, as
    the pattern of the text parser reads it. *)
Definition comma_year_here (s : string) : bool :=
  match s with
  | String c r => Ascii.eqb c "," && spaces_then_year false r
  | EmptyString => false
  end.

(** Some suffix of the string has the property. *)
Fixpoint occurs (P : string -> bool) (s : string) : bool :=
  match s with
  | EmptyString => P s
  | String _ r => P s || occurs P r
  end.

(** The claim read on a file name that is a date written year first and
    the extension: [Y-M-D.docx]. *)
Definition year_first_name (Y M D : string) : string :=
  Y +:+ "-" +:+ M +:+ "-" +:+ D +:+ ".docx".

(** * The embedding at work *)

Example strip_example : PyStr.strip "  a b	 " = "a b".
Proof. reflexivity. Qed.

Example splitlines_example :
  PyStr.splitlines ("ab" +:+ String "010" (String "010" ("c" +:+ String "013" (String "010" EmptyString))))
  = ["ab"; ""; "c"].
Proof. reflexivity. Qed.

Example zero_padded_example : PyStr.zero_padded 4 2024 = "2024" /\ PyStr.zero_padded 2 3 = "03".
Proof. split; reflexivity. Qed.

Example normalize_example :
  normalize_whitespace
    (" a 	 b" +:+ String CR (String LF (String LF (String CR (String LF "c  ")))))
  = "a b" +:+ String LF (String LF "c").
Proof. reflexivity. Qed.

Example word_count_example : word_count "Hello, world_1 -- x" = 3.
Proof. reflexivity. Qed.

Example word_count_empty : word_count (normalize_whitespace "") = 0.
Proof. reflexivity. Qed.

Example filename_iso : parse_date_from_filename "col_2024-3-07 final.docx" = Some "2024-03-07".
Proof. vm_compute. reflexivity. Qed.

Example filename_us : parse_date_from_filename "Kidder 2_29_2024.docx" = Some "2024-02-29".
Proof. vm_compute. reflexivity. Qed.

Example filename_invalid_day : parse_date_from_filename "2023-02-30.docx" = None.
Proof. vm_compute. reflexivity. Qed.

Example filename_leftmost_only : parse_date_from_filename "99-12-2020.docx" = None.
Proof. vm_compute. reflexivity. Qed.

Example filename_old_year : parse_date_from_filename "1999-12-31.docx" = None.
Proof. vm_compute. reflexivity. Qed.

Example text_long_form :
  parse_date_from_text ("By A. Kidder" +:+ String LF "SEPT. 3rd,  2021 - Opinion") = Some "2021-09-03".
Proof. vm_compute. reflexivity. Qed.

Example text_january : parse_date_from_text "January 15, 2024" = Some "2024-01-15".
Proof. vm_compute. reflexivity. Qed.

Example text_old_year : parse_date_from_text "January 15, 1999" = None.
Proof. vm_compute. reflexivity. Qed.

Example text_no_boundary : parse_date_from_text "xJan 5, 2024" = None /\ parse_date_from_text "Jan 5, 20245" = None.
Proof. vm_compute. split; reflexivity. Qed.

Example stem_examples :
  stem "a.b.docx" = "a.b" /\ stem ".docx" = ".docx" /\ stem "plain" = "plain".
Proof. vm_compute. repeat split; reflexivity. Qed.

(** * Properties *)

(** ** Order of strings and of sort keys *)

Section StringOrder.

Lemma ltb_irrefl (a : string) : String.ltb a a = false.
Proof.
  unfold String.ltb.
  destruct (String.compare a a) eqn:E; try reflexivity.
  pose proof (String.compare_antisym a a) as H. rewrite E in H. discriminate.
Qed.

Lemma ltb_false_le (a b : string) : String.ltb a b = false <-> String.le b a.
Proof.
  unfold String.ltb, String.le, String.leb.
  rewrite (String.compare_antisym a b).
  destruct (String.compare b a); simpl; split; intros H; done.
Qed.

Lemma ltb_true_iff (a b : string) :
  String.ltb a b = true <-> String.le a b /\ a <> b.
Proof.
  split.
  - intros H. split.
    + unfold String.le, String.leb. unfold String.ltb in H.
      destruct (String.compare a b); done.
    + intros ->. rewrite ltb_irrefl in H. discriminate.
  - intros [Hle Hne].
    destruct (String.ltb a b) eqn:E; [done|].
    apply ltb_false_le in E. exfalso. apply Hne.
    by apply (anti_symm String.le).
Qed.

Lemma ltb_empty_r (a : string) : String.ltb a EmptyString = false.
Proof. by destruct a. Qed.

End StringOrder.

Lemma tuple_lt_false_desc (a b : Article) :
  tuple_lt (sort_key a) (sort_key b) = false <-> desc_order a b.
Proof.
  unfold tuple_lt, sort_key, desc_order, PyStr.lt. simpl.
  destruct (String.eqb_spec (date a) (date b)) as [E|E].
  - rewrite E, ltb_irrefl. split; [by right|]. intros [|[_ ?]]; done.
  - split.
    + intros H. left. apply ltb_true_iff. split; [by apply ltb_false_le|congruence].
    + intros [H|[? _]]; [|done].
      apply ltb_true_iff in H as [H1 H2]. by apply ltb_false_le.
Qed.

Lemma tuple_lt_true_desc (a b : Article) :
  tuple_lt (sort_key a) (sort_key b) = true -> desc_order b a.
Proof.
  unfold tuple_lt, sort_key, desc_order, PyStr.lt. simpl.
  destruct (String.eqb_spec (date a) (date b)) as [E|E].
  - intros H. right. split; [done|].
    apply ltb_false_le. by apply ltb_true_iff in H as [? _].
  - intros H. by left.
Qed.

Lemma tuple_lt_irrefl (k : string * string) : tuple_lt k k = false.
Proof. unfold tuple_lt, PyStr.lt. rewrite String.eqb_refl. apply ltb_irrefl. Qed.

Lemma desc_order_trans (a b c : Article) :
  desc_order a b -> desc_order b c -> desc_order a c.
Proof.
  unfold desc_order.
  intros [H1|[E1 H1]] [H2|[E2 H2]].
  - left. apply ltb_true_iff in H1 as [L1 N1]. apply ltb_true_iff in H2 as [L2 N2].
    apply ltb_true_iff. split; [by etrans|].
    intros E. rewrite E in L2. apply N1. by apply (anti_symm String.le).
  - left. by rewrite <- E2.
  - left. by rewrite E1.
  - right. split; [congruence|].
    apply ltb_false_le. apply ltb_false_le in H1, H2. by etrans.
Qed.

(** ** The sort *)

Lemma insert_desc_perm (x : Article) (s : list Article) :
  Permutation (x :: s) (insert_desc x s).
Proof.
  induction s as [|y s IH]; simpl; [done|].
  destruct (tuple_lt (sort_key x) (sort_key y)); [|done].
  rewrite <- IH. apply perm_swap.
Qed.

Lemma sorted_reverse_perm (l : list Article) : Permutation l (sorted_reverse l).
Proof.
  induction l as [|x l IH]; simpl; [done|].
  rewrite <- insert_desc_perm. by constructor.
Qed.

Lemma insert_desc_sorted (x : Article) (s : list Article) :
  StronglySorted desc_order s -> StronglySorted desc_order (insert_desc x s).
Proof.
  induction 1 as [|y s Hs IH Hy]; simpl.
  - repeat constructor.
  - destruct (tuple_lt (sort_key x) (sort_key y)) eqn:E.
    + constructor; [done|].
      apply tuple_lt_true_desc in E.
      rewrite Forall_forall. intros z Hz.
      rewrite <- (insert_desc_perm x s) in Hz.
      apply elem_of_cons in Hz as [->|Hz]; [done|].
      rewrite Forall_forall in Hy. by apply Hy.
    + apply tuple_lt_false_desc in E.
      constructor; [by constructor|].
      constructor; [done|].
      rewrite Forall_forall in Hy |- *. intros z Hz.
      eapply desc_order_trans; [exact E|]. by apply Hy.
Qed.

Lemma sorted_reverse_sorted (l : list Article) :
  StronglySorted desc_order (sorted_reverse l).
Proof.
  induction l as [|x l IH]; simpl; [constructor|]. by apply insert_desc_sorted.
Qed.

(** A list that is already in order is left as it is. *)
Lemma sorted_reverse_fixed (l : list Article) :
  StronglySorted desc_order l -> sorted_reverse l = l.
Proof.
  induction 1 as [|x l Hl IH Hx]; simpl; [done|].
  rewrite IH. destruct l as [|y l]; simpl; [done|].
  inversion Hx as [|?? Hxy _]; subst.
  apply tuple_lt_false_desc in Hxy. by rewrite Hxy.
Qed.

Lemma insert_desc_filter (P : Article -> Prop) `{!forall a, Decision (P a)}
    (x : Article) (s : list Article) :
  (forall a b, P a -> P b -> sort_key a = sort_key b) ->
  filter P (insert_desc x s) = filter P (x :: s).
Proof.
  intros HP. induction s as [|y s IH]; simpl; [done|].
  destruct (tuple_lt (sort_key x) (sort_key y)) eqn:E; [|done].
  rewrite !filter_cons. rewrite IH, filter_cons.
  destruct (decide (P y)) as [Hy|Hy], (decide (P x)) as [Hx|Hx]; try done.
  rewrite (HP x y Hx Hy), tuple_lt_irrefl in E. discriminate.
Qed.

(** Stability: entries that the key cannot tell apart keep their order. *)
Lemma sorted_reverse_filter (P : Article -> Prop) `{!forall a, Decision (P a)}
    (l : list Article) :
  (forall a b, P a -> P b -> sort_key a = sort_key b) ->
  filter P (sorted_reverse l) = filter P l.
Proof.
  intros HP. induction l as [|x l IH]; simpl; [done|].
  rewrite insert_desc_filter by done. by rewrite !filter_cons, IH.
Qed.

(** ** Lists *)

Lemma filter_none {A} (P : A -> Prop) `{!forall a, Decision (P a)} (l : list A) :
  (forall x, x ∈ l -> ~ P x) -> filter P l = [].
Proof.
  induction l as [|x l IH]; intros Hl; [done|].
  rewrite filter_cons_False by (apply Hl; left).
  apply IH. intros y Hy. apply Hl. by right.
Qed.

Lemma filter_all {A} (P : A -> Prop) `{!forall a, Decision (P a)} (l : list A) :
  (forall x, x ∈ l -> P x) -> filter P l = l.
Proof.
  induction l as [|x l IH]; intros Hl; [done|].
  rewrite filter_cons_True by (apply Hl; left).
  f_equal. apply IH. intros y Hy. apply Hl. by right.
Qed.

Lemma omap_cons {A B} (f : A -> option B) (x : A) (l : list A) :
  omap f (x :: l) = match f x with Some y => y :: omap f l | None => omap f l end.
Proof. done. Qed.

(** ** Keys of entries *)

Lemma source_key_Some (a : Article) (n : string) :
  source_key a = Some n <-> sourceFile a = Some n /\ PyStr.truthy n = true.
Proof.
  unfold source_key. destruct (sourceFile a) as [sf|].
  - destruct (PyStr.truthy sf) eqn:E.
    + split; [intros [= ->]; done|]. by intros [[= ->] _].
    + split; [done|]. intros [[= ->] H]. congruence.
  - split; [done|]. by intros [? _].
Qed.

Lemma dedup_step_key (d : list (string * Article)) (a : Article) :
  dedup_step d a = match source_key a with Some sf => dict_set d sf a | None => d end.
Proof.
  unfold dedup_step, source_key. destruct (sourceFile a) as [sf|]; [|done].
  by destruct (PyStr.truthy sf).
Qed.

Lemma entry_of_cons (n : string) (a : Article) (l : list Article) :
  entry_of n (a :: l)
  = match entry_of n l with
    | Some b => Some b
    | None => if decide (has_source n a) then Some a else None
    end.
Proof.
  unfold entry_of. rewrite filter_cons.
  destruct (decide (has_source n a)); [|by destruct (last _)].
  rewrite last_cons. by destruct (last _).
Qed.

(** ** The dict of the dedup step *)

Lemma dict_get_set_eq {V} (d : list (string * V)) (k : string) (v : V) :
  dict_get (dict_set d k v) k = Some v.
Proof.
  induction d as [|[k' v'] d IH]; simpl.
  - by rewrite String.eqb_refl.
  - destruct (String.eqb_spec k' k) as [->|E]; simpl.
    + by rewrite String.eqb_refl.
    + by destruct (String.eqb_spec k' k).
Qed.

Lemma dict_get_set_ne {V} (d : list (string * V)) (k k' : string) (v : V) :
  k <> k' -> dict_get (dict_set d k v) k' = dict_get d k'.
Proof.
  intros Hne. induction d as [|[k0 v0] d IH]; simpl.
  - by destruct (String.eqb_spec k k').
  - destruct (String.eqb_spec k0 k) as [->|E]; simpl.
    + by destruct (String.eqb_spec k k').
    + by rewrite IH.
Qed.

Lemma dict_set_fresh {V} (d : list (string * V)) (k : string) (v : V) :
  k ∉ d.*1 -> dict_set d k v = d ++ [(k, v)].
Proof.
  induction d as [|[k0 v0] d IH]; simpl; [done|].
  rewrite not_elem_of_cons. intros [Hne Hnot].
  destruct (String.eqb_spec k0 k); [congruence|]. by rewrite IH.
Qed.

Lemma dict_set_keys {V} (d : list (string * V)) (k : string) (v : V) :
  (dict_set d k v).*1 = if decide (k ∈ d.*1) then d.*1 else d.*1 ++ [k].
Proof.
  destruct (decide (k ∈ d.*1)) as [Hin|Hin].
  - induction d as [|[k0 v0] d IH]; [by apply elem_of_nil in Hin|].
    simpl. destruct (String.eqb_spec k0 k) as [->|E]; [done|].
    rewrite fmap_cons in Hin |- *. f_equal. apply IH.
    apply elem_of_cons in Hin as [Hin|Hin]; [simpl in Hin; congruence|done].
  - rewrite dict_set_fresh by done. by rewrite fmap_app.
Qed.

Lemma dict_set_elem {V} (d : list (string * V)) (k : string) (v : V) (kv : string * V) :
  kv ∈ dict_set d k v -> kv = (k, v) \/ kv ∈ d.
Proof.
  induction d as [|[k0 v0] d IH]; simpl.
  - rewrite list_elem_of_singleton. by left.
  - destruct (String.eqb_spec k0 k) as [->|E]; rewrite !elem_of_cons.
    + intros [->|H]; [by left|by right; right].
    + intros [->|H]; [by right; left|].
      destruct (IH H) as [->|H']; [by left|by right; right].
Qed.

Lemma dedup_step_wf (d : list (string * Article)) (a : Article) :
  dict_wf d -> dict_wf (dedup_step d a).
Proof.
  intros [Hnd Hall]. rewrite dedup_step_key.
  destruct (source_key a) as [sf|] eqn:Hk; [|done].
  split.
  - rewrite dict_set_keys. destruct (decide (sf ∈ d.*1)); [done|].
    apply NoDup_app. split_and!; [done| |apply NoDup_singleton].
    intros x Hx Hx'. apply list_elem_of_singleton in Hx'. by subst.
  - rewrite Forall_forall in Hall |- *. intros kv Hkv.
    apply dict_set_elem in Hkv as [->|Hkv]; [done|by apply Hall].
Qed.

Lemma dedup_fold_wf (l : list Article) (d : list (string * Article)) :
  dict_wf d -> dict_wf (fold_left dedup_step l d).
Proof.
  revert d. induction l as [|a l IH]; intros d Hd; simpl; [done|].
  apply IH. by apply dedup_step_wf.
Qed.

Lemma dedup_fold_get (l : list Article) (d : list (string * Article)) (n : string) :
  PyStr.truthy n = true ->
  dict_get (fold_left dedup_step l d) n
  = match entry_of n l with Some a => Some a | None => dict_get d n end.
Proof.
  intros Hn. revert d. induction l as [|a l IH]; intros d; simpl; [done|].
  rewrite IH, entry_of_cons. destruct (entry_of n l); [done|].
  rewrite dedup_step_key.
  destruct (decide (has_source n a)) as [Ha|Ha].
  - assert (source_key a = Some n) as -> by by apply source_key_Some.
    apply dict_get_set_eq.
  - destruct (source_key a) as [sf|] eqn:Hk; [|done].
    apply dict_get_set_ne. intros ->. apply Ha. by apply source_key_Some in Hk as [? _].
Qed.

Lemma dict_get_wf_filter (d : list (string * Article)) (n : string) :
  dict_wf d ->
  filter (has_source n) d.*2
  = match dict_get d n with Some a => [a] | None => [] end.
Proof.
  intros [Hnd Hall]. induction d as [|[k a] d IH]; simpl; [done|].
  inversion Hnd as [|?? Hk Hnd']; subst. inversion Hall as [|?? Hka Hall']; subst.
  simpl in *. apply source_key_Some in Hka as [Hka Hkt].
  assert (forall b, b ∈ d.*2 -> sourceFile b <> Some k) as Hother.
  { intros b Hb Hbk. apply Hk. apply list_elem_of_fmap in Hb as [[k' b'] [-> Hb]].
    rewrite Forall_forall in Hall'. specialize (Hall' _ Hb). simpl in *.
    apply source_key_Some in Hall' as [Hb' _].
    apply list_elem_of_fmap. exists (k', b'). split; [|done]. simpl. congruence. }
  rewrite filter_cons. destruct (String.eqb_spec k n) as [->|E].
  - rewrite decide_True by done. f_equal.
    apply filter_none. intros b Hb Hs. by apply (Hother b).
  - rewrite decide_False by (unfold has_source; congruence). by apply IH.
Qed.

Lemma dict_wf_nil : dict_wf [].
Proof. split; [apply NoDup_nil_2|apply Forall_nil_2]. Qed.

Lemma dict_wf_values (d : list (string * Article)) :
  dict_wf d -> sourceFile <$> d.*2 = Some <$> d.*1.
Proof.
  intros [_ Hall]. induction Hall as [|[k a] d Hka _ IH]; [done|].
  rewrite !fmap_cons, IH. simpl. f_equal.
  by apply source_key_Some in Hka as [? _].
Qed.

(** After the dedup step no two entries have the same source file. *)
Lemma dedup_values_NoDup (l : list Article) : NoDup (sourceFile <$> dedup_values l).
Proof.
  unfold dedup_values.
  pose proof (dedup_fold_wf l [] dict_wf_nil) as Hwf.
  rewrite (dict_wf_values _ Hwf).
  apply (NoDup_fmap_2 Some). by destruct Hwf.
Qed.

(** The dedup step keeps, for a source file, the entry that comes last. *)
Lemma dedup_values_filter (l : list Article) (n : string) :
  PyStr.truthy n = true ->
  filter (has_source n) (dedup_values l)
  = match entry_of n l with Some a => [a] | None => [] end.
Proof.
  intros Hn. unfold dedup_values.
  rewrite dict_get_wf_filter by apply dedup_fold_wf, dict_wf_nil.
  rewrite dedup_fold_get by done. by destruct (entry_of n l).
Qed.

Lemma dedup_values_key (l : list Article) (a : Article) :
  a ∈ dedup_values l -> exists n, source_key a = Some n.
Proof.
  unfold dedup_values. intros Ha.
  destruct (dedup_fold_wf l [] dict_wf_nil) as [_ Hall].
  apply list_elem_of_fmap in Ha as [[k b] [-> Hb]].
  rewrite Forall_forall in Hall. exists k. apply (Hall _ Hb).
Qed.

Lemma entry_of_elem (n : string) (l : list Article) (a : Article) :
  entry_of n l = Some a -> a ∈ l /\ sourceFile a = Some n.
Proof.
  unfold entry_of. intros H. apply last_Some_elem_of in H.
  apply list_elem_of_filter in H as [? ?]. done.
Qed.

Lemma dedup_values_entry (l : list Article) (a : Article) :
  a ∈ dedup_values l <->
  exists n, PyStr.truthy n = true /\ entry_of n l = Some a.
Proof.
  split.
  - intros Ha. destruct (dedup_values_key _ _ Ha) as [n Hk]. exists n.
    apply source_key_Some in Hk as [Hs Hn]. split; [done|].
    assert (a ∈ filter (has_source n) (dedup_values l)) as Hf
      by by apply list_elem_of_filter.
    rewrite dedup_values_filter in Hf by done.
    destruct (entry_of n l); [|by apply elem_of_nil in Hf].
    apply list_elem_of_singleton in Hf. by subst.
  - intros (n & Hn & He).
    assert (a ∈ filter (has_source n) (dedup_values l)) as Hf.
    { rewrite dedup_values_filter by done. rewrite He. apply list_elem_of_here. }
    by apply list_elem_of_filter in Hf as [_ ?].
Qed.

Lemma dedup_values_elem (l : list Article) (a : Article) :
  a ∈ dedup_values l -> a ∈ l.
Proof.
  intros (n & _ & He)%dedup_values_entry. by apply entry_of_elem in He as [? _].
Qed.

Lemma dedup_fold_fresh (l : list Article) (d : list (string * Article)) :
  (forall a, a ∈ l -> is_Some (source_key a)) ->
  NoDup (d.*1 ++ omap source_key l) ->
  fold_left dedup_step l d
  = d ++ omap (fun a => k ← source_key a; Some (k, a)) l.
Proof.
  revert d. induction l as [|a l IH]; intros d Hkeys Hnd; simpl.
  - by rewrite app_nil_r.
  - destruct (Hkeys a) as [k Hk]; [left|].
    rewrite dedup_step_key, Hk. simpl in Hnd |- *. rewrite Hk in Hnd. simpl in Hnd.
    assert (k ∉ d.*1) as Hfresh.
    { apply NoDup_app in Hnd as (_ & Hdisj & _). intros Hin.
      apply (Hdisj k Hin). left. }
    rewrite dict_set_fresh by done.
    rewrite IH.
    + by rewrite <- app_assoc.
    + intros b Hb. apply Hkeys. by right.
    + rewrite fmap_app. simpl. by rewrite <- app_assoc.
Qed.

(** A list whose entries all have a key, each a different one, passes
    through the dedup step unchanged. *)
Lemma dedup_values_fixed (l : list Article) :
  (forall a, a ∈ l -> is_Some (source_key a)) ->
  NoDup (sourceFile <$> l) ->
  dedup_values l = l.
Proof.
  intros Hkeys Hnd. unfold dedup_values.
  assert (omap source_key l = omap id (sourceFile <$> l)) as Hom.
  { clear Hnd. induction l as [|a l IH]; [done|].
    destruct (Hkeys a) as [k Hk]; [left|].
    rewrite fmap_cons. simpl. rewrite Hk.
    apply source_key_Some in Hk as [-> _]. simpl. f_equal.
    apply IH. intros b Hb. apply Hkeys. by right. }
  rewrite dedup_fold_fresh; [|done|].
  - simpl. clear Hnd Hom. induction l as [|a l IH]; [done|].
    destruct (Hkeys a) as [k Hk]; [left|].
    simpl. rewrite Hk. simpl. f_equal. apply IH. intros b Hb. apply Hkeys. by right.
  - simpl. rewrite Hom. clear Hom Hkeys.
    induction (sourceFile <$> l) as [|[k|] ks IH]; simpl.
    + apply NoDup_nil_2.
    + inversion Hnd as [|?? Hk Hnd']; subst. apply NoDup_cons. split; [|by apply IH].
      intros Hin. apply Hk. apply list_elem_of_omap in Hin as (x & Hx & Hxk).
      simpl in Hxk. by subst.
    + inversion Hnd; subst. by apply IH.
Qed.

(** ** The collection that is written *)

Lemma collection_of_NoDup (l : list Article) : NoDup (sourceFile <$> collection_of l).
Proof.
  unfold collection_of. rewrite <- sorted_reverse_perm. apply dedup_values_NoDup.
Qed.

Lemma collection_of_elem (l : list Article) (a : Article) :
  a ∈ collection_of l <-> a ∈ dedup_values l.
Proof. unfold collection_of. by rewrite <- sorted_reverse_perm. Qed.

Lemma collection_of_filter (l : list Article) (n : string) :
  PyStr.truthy n = true ->
  filter (has_source n) (collection_of l)
  = match entry_of n l with Some a => [a] | None => [] end.
Proof.
  intros Hn.
  assert (filter (has_source n) (collection_of l)
          ≡ₚ filter (has_source n) (dedup_values l)) as Hp.
  { unfold collection_of. by rewrite <- sorted_reverse_perm. }
  rewrite dedup_values_filter in Hp by done.
  destruct (entry_of n l).
  - by apply Permutation_singleton_r.
  - by apply Permutation_nil_r.
Qed.

(** Last write wins: the entry of a source file in the collection is the
    last one that the list in memory had for it. *)
Lemma collection_of_entry (l : list Article) (n : string) :
  PyStr.truthy n = true -> entry_of n (collection_of l) = entry_of n l.
Proof.
  intros Hn. unfold entry_of at 1. rewrite collection_of_filter by done.
  by destruct (entry_of n l).
Qed.

Lemma collection_of_fixed (l : list Article) :
  collection_of (collection_of l) = collection_of l.
Proof.
  unfold collection_of at 1. rewrite dedup_values_fixed.
  - apply sorted_reverse_fixed, sorted_reverse_sorted.
  - intros a Ha. apply collection_of_elem in Ha.
    destruct (dedup_values_key _ _ Ha) as [n Hn]. by exists n.
  - apply collection_of_NoDup.
Qed.

(** ** One step of the loop *)

Lemma result_bind_Ok {A B} (r : result A) (f : A -> result B) (b : B) :
  result_bind r f = Ok b <-> exists a, r = Ok a /\ f a = Ok b.
Proof.
  destruct r as [a|msg]; simpl.
  - split; [by exists a|]. by intros (a' & [= <-] & ?).
  - split; [done|]. by intros (a' & ? & _).
Qed.

Lemma build_article_fields w p body wc date_guess meta a :
  build_article w p body wc date_guess meta = Ok a ->
  sourceFile a = Some (name p) /\ wordCount a = wc /\ text a = body
  /\ updatedAt a = now w p /\ dateISO a = date a.
Proof.
  unfold build_article. intros H.
  repeat (apply result_bind_Ok in H as (? & _ & H)).
  by injection H as <-.
Qed.

Lemma attempt_of_fields w args p a :
  attempt_of w args p = Ok a ->
  sourceFile a = Some (name p) /\ wordCount a = word_count (body_of w p).
Proof.
  unfold attempt_of. intros (meta & _ & H)%result_bind_Ok.
  apply build_article_fields in H. tauto.
Qed.

(** The four ways through the body of the loop. *)
Lemma process_document_cases w args v p :
  (gate_open args (Loop.state v) p -> False) /\ process_document w args v p = v
  \/ gate_open args (Loop.state v) p /\ word_count (body_of w p) = 0
     /\ process_document w args v p
        = {| Loop.state := <[name p := fingerprint p]> (Loop.state v);
             Loop.articles := Loop.articles v;
             Loop.errors := Loop.errors v;
             Loop.processed := Loop.processed v;
             Loop.updated := Loop.updated v;
             Loop.missing_date_rows := Loop.missing_date_rows v;
             Loop.calls := Loop.calls v ++ (extract w p).2 |}
  \/ (exists msg,
        gate_open args (Loop.state v) p /\ word_count (body_of w p) <> 0
        /\ attempt_of w args p = Raise msg
        /\ process_document w args v p
           = {| Loop.state := <[name p := fingerprint p]> (Loop.state v);
                Loop.articles := Loop.articles v;
                Loop.errors := Loop.errors v ++ [{| file := name p; error := msg |}];
                Loop.processed := Loop.processed v;
                Loop.updated := Loop.updated v;
                Loop.missing_date_rows := Loop.missing_date_rows v;
                Loop.calls := Loop.calls v ++ (extract w p).2 ++ [CallInfer (name p)] |})
  \/ (exists article,
        gate_open args (Loop.state v) p /\ word_count (body_of w p) <> 0
        /\ attempt_of w args p = Ok article
        /\ process_document w args v p
           = {| Loop.state := <[name p := fingerprint p]> (Loop.state v);
                Loop.articles := upsert article (name p) (Loop.articles v);
                Loop.errors := Loop.errors v;
                Loop.processed := S (Loop.processed v);
                Loop.updated := S (Loop.updated v);
                Loop.missing_date_rows :=
                  if PyStr.truthy (date article) then Loop.missing_date_rows v
                  else Loop.missing_date_rows v ++ [row_of article];
                Loop.calls := Loop.calls v ++ (extract w p).2 ++ [CallInfer (name p)] |}).
Proof.
  unfold process_document, gate_open, attempt_of, body_of.
  destruct (resume args && _) eqn:Hgate.
  { left. split; [by intros [=]|done]. }
  destruct (extract w p) as [raw extraction_calls] eqn:Hx. simpl.
  destruct (Nat.eqb_spec (word_count (normalize_whitespace raw)) 0) as [Hwc|Hwc].
  { right; left. done. }
  destruct (result_bind _ _) as [article|msg] eqn:Hat.
  - right; right; right. exists article. split_and!; try done.
    pose proof Hat as (meta & _ & Hb)%result_bind_Ok.
    apply build_article_fields in Hb as (Hs & Hw & _).
    unfold row_of. by rewrite Hs, Hw.
  - right; right; left. by exists msg.
Qed.

(** ** Insert or replace *)

Lemma upsert_cases (art : Article) (m : string) (l : list Article) :
  (forall b, b ∈ l -> sourceFile b <> Some m) /\ upsert art m l = l ++ [art]
  \/ exists l1 b l2,
       l = l1 ++ b :: l2 /\ sourceFile b = Some m
       /\ (forall c, c ∈ l1 -> sourceFile c <> Some m)
       /\ upsert art m l = l1 ++ art :: l2.
Proof.
  unfold upsert. induction l as [|a l IH]; simpl.
  - left. split; [|done]. intros b Hb. by apply elem_of_nil in Hb.
  - destruct (decide (sourceFile a = Some m)) as [Ha|Ha];
      [rewrite bool_decide_eq_true_2 by done|rewrite bool_decide_eq_false_2 by done].
    + right. exists [], a, l. split_and!; try done.
      intros c Hc. by apply elem_of_nil in Hc.
    + destruct IH as [[Hnone Heq]|(l1 & b & l2 & -> & Hb & Hl1 & Heq)].
      * left. destruct (find_entry m l); simpl in *.
        -- exfalso. assert (length (<[n:=art]> l) = length (l ++ [art])) as Hlen
             by by rewrite Heq.
           rewrite length_insert, length_app in Hlen. simpl in Hlen. lia.
        -- split; [|done]. intros b [->|Hb]%elem_of_cons; [done|by apply Hnone].
      * right. exists (a :: l1), b, l2. split_and!; try done.
        -- intros c [->|Hc]%elem_of_cons; [done|by apply Hl1].
        -- destruct (find_entry m (l1 ++ b :: l2)); simpl in *.
           ++ by rewrite Heq.
           ++ exfalso. assert (length ((l1 ++ b :: l2) ++ [art]) = length (l1 ++ art :: l2))
                as Hlen by by rewrite Heq.
              rewrite !length_app in Hlen. simpl in Hlen. lia.
Qed.

Lemma upsert_elem (art : Article) (m : string) (l : list Article) (x : Article) :
  x ∈ upsert art m l -> x = art \/ x ∈ l.
Proof.
  destruct (upsert_cases art m l) as [[_ ->]|(l1 & b & l2 & -> & _ & _ & ->)].
  - rewrite elem_of_app, list_elem_of_singleton. tauto.
  - rewrite !elem_of_app, !elem_of_cons. tauto.
Qed.

Lemma upsert_has (art : Article) (m : string) (l : list Article) :
  art ∈ upsert art m l.
Proof.
  destruct (upsert_cases art m l) as [[_ ->]|(l1 & b & l2 & -> & _ & _ & ->)].
  - rewrite elem_of_app, list_elem_of_singleton. tauto.
  - rewrite !elem_of_app, !elem_of_cons. tauto.
Qed.

Lemma upsert_keeps (art : Article) (m : string) (l : list Article) (x : Article) :
  x ∈ l -> sourceFile x <> Some m -> x ∈ upsert art m l.
Proof.
  destruct (upsert_cases art m l) as [[_ ->]|(l1 & b & l2 & -> & Hb & _ & ->)].
  - rewrite elem_of_app. tauto.
  - rewrite !elem_of_app, !elem_of_cons. intros [?|[->|?]] Hx; tauto.
Qed.

Lemma upsert_filter_ne (art : Article) (m n : string) (l : list Article) :
  sourceFile art = Some m -> n <> m ->
  filter (has_source n) (upsert art m l) = filter (has_source n) l.
Proof.
  intros Hart Hne.
  assert (forall x, sourceFile x = Some m -> ~ has_source n x) as Hno
    by (unfold has_source; congruence).
  destruct (upsert_cases art m l) as [[_ ->]|(l1 & b & l2 & -> & Hb & _ & ->)].
  - rewrite filter_app, filter_cons_False by by apply Hno.
    by rewrite filter_nil, app_nil_r.
  - rewrite !filter_app, !filter_cons_False by by apply Hno. done.
Qed.

Lemma upsert_keys_NoDup (art : Article) (m : string) (l : list Article) :
  source_key art = Some m ->
  NoDup (omap source_key l) -> NoDup (omap source_key (upsert art m l)).
Proof.
  intros Hart Hnd. pose proof Hart as [Hs Hm]%source_key_Some.
  destruct (upsert_cases art m l) as [[Hnone ->]|(l1 & b & l2 & -> & Hb & _ & ->)].
  - rewrite omap_app. simpl. rewrite Hart. simpl.
    apply NoDup_app. split_and!; [done| |apply NoDup_singleton].
    intros k Hk ->%list_elem_of_singleton.
    apply list_elem_of_omap in Hk as (x & Hx & [Hxs _]%source_key_Some).
    by apply (Hnone x).
  - assert (source_key b = Some m) as Hbk by by apply source_key_Some.
    rewrite omap_app in Hnd |- *. rewrite !omap_cons in Hnd |- *.
    rewrite Hart. by rewrite Hbk in Hnd.
Qed.

(** ** What a step leaves alone *)

Section Frame.
Context (w : World) (args : Args).

Lemma step_state_other v p n :
  n <> name p ->
  Loop.state (process_document w args v p) !! n = Loop.state v !! n.
Proof.
  intros Hne.
  destruct (process_document_cases w args v p)
    as [[_ ->]|[(_ & _ & ->)|[(msg & _ & _ & _ & ->)|(a & _ & _ & _ & ->)]]];
    simpl; try done; by rewrite lookup_insert_ne.
Qed.

Lemma step_state_gate v p :
  default EmptyString (Loop.state (process_document w args v p) !! name p) = fingerprint p.
Proof.
  destruct (process_document_cases w args v p)
    as [[Hg ->]|[(_ & _ & ->)|[(msg & _ & _ & _ & ->)|(a & _ & _ & _ & ->)]]];
    simpl; try by rewrite lookup_insert_eq.
  unfold gate_open in Hg.
  destruct (String.eqb_spec (default EmptyString (Loop.state v !! name p)) (fingerprint p));
    [done|].
  destruct (resume args); simpl in Hg; by destruct Hg.
Qed.

Lemma step_articles_other v p n :
  n <> name p ->
  filter (has_source n) (Loop.articles (process_document w args v p))
  = filter (has_source n) (Loop.articles v).
Proof.
  intros Hne.
  destruct (process_document_cases w args v p)
    as [[_ ->]|[(_ & _ & ->)|[(msg & _ & _ & _ & ->)|(a & _ & _ & Ha & ->)]]];
    simpl; try done.
  apply attempt_of_fields in Ha as [Hs _]. by apply upsert_filter_ne.
Qed.

Lemma step_errors_other v p n :
  n <> name p ->
  filter (fun e => file e = n) (Loop.errors (process_document w args v p))
  = filter (fun e => file e = n) (Loop.errors v).
Proof.
  intros Hne.
  destruct (process_document_cases w args v p)
    as [[_ ->]|[(_ & _ & ->)|[(msg & _ & _ & _ & ->)|(a & _ & _ & _ & ->)]]];
    simpl; try done.
  rewrite filter_app, filter_cons_False by (simpl; congruence).
  by rewrite filter_nil, app_nil_r.
Qed.

Lemma extract_calls_file p c : c ∈ (extract w p).2 -> call_file c = name p.
Proof.
  unfold extract. destruct (PyStr.truthy _); simpl;
    rewrite ?elem_of_cons, ?elem_of_nil; intros H; by destruct_or!; subst.
Qed.

Lemma step_calls_other v p n :
  n <> name p ->
  filter (fun c => call_file c = n) (Loop.calls (process_document w args v p))
  = filter (fun c => call_file c = n) (Loop.calls v).
Proof.
  intros Hne.
  assert (filter (fun c => call_file c = n) (extract w p).2 = []) as Hx.
  { apply filter_none. intros c Hc. rewrite (extract_calls_file p c Hc). congruence. }
  destruct (process_document_cases w args v p)
    as [[_ ->]|[(_ & _ & ->)|[(msg & _ & _ & _ & ->)|(a & _ & _ & _ & ->)]]];
    simpl; try done; rewrite !filter_app, Hx, ?app_nil_r; try done.
  all: rewrite filter_cons_False by (simpl; congruence).
  all: by rewrite filter_nil, app_nil_r.
Qed.

(** The same for the rest of the loop, when no remaining file has the name. *)
Lemma loop_other (docs : list SourceDocument) v n :
  n ∉ name <$> docs ->
  let v' := fold_left (process_document w args) docs v in
  Loop.state v' !! n = Loop.state v !! n
  /\ filter (has_source n) (Loop.articles v') = filter (has_source n) (Loop.articles v)
  /\ filter (fun e => file e = n) (Loop.errors v') = filter (fun e => file e = n) (Loop.errors v)
  /\ filter (fun c => call_file c = n) (Loop.calls v') = filter (fun c => call_file c = n) (Loop.calls v).
Proof.
  revert v. induction docs as [|p docs IH]; intros v Hn; simpl; [done|].
  rewrite fmap_cons in Hn. apply not_elem_of_cons in Hn as [Hne Hn].
  destruct (IH (process_document w args v p) Hn) as (H1 & H2 & H3 & H4).
  rewrite H1, H2, H3, H4.
  by rewrite step_state_other, step_articles_other, step_errors_other, step_calls_other.
Qed.

End Frame.

(** ** The whole loop *)

Section WholeLoop.
Context (w : World) (args : Args).

#[local] Abbreviation step := (process_document w args).

Lemma loop_app (l1 l2 : list SourceDocument) v :
  fold_left step (l1 ++ l2) v = fold_left step l2 (fold_left step l1 v).
Proof. apply fold_left_app. Qed.

(** When the loop ends, the gate is closed for every file of the folder. *)
Lemma loop_gate_closed (docs : list SourceDocument) v d :
  NoDup (name <$> docs) -> d ∈ docs ->
  default EmptyString (Loop.state (fold_left step docs v) !! name d) = fingerprint d.
Proof.
  revert v. induction docs as [|p docs IH]; intros v Hnd Hd.
  - by apply elem_of_nil in Hd.
  - rewrite fmap_cons in Hnd. apply NoDup_cons in Hnd as [Hp Hnd]. simpl.
    apply elem_of_cons in Hd as [->|Hd]; [|by apply IH].
    destruct (loop_other w args docs (step v p) (name p) Hp) as (-> & _).
    apply step_state_gate.
Qed.

(** With [--resume], a loop over files whose fingerprints are all on
    record changes nothing. *)
Lemma loop_all_skipped (docs : list SourceDocument) v :
  resume args = true ->
  (forall d, d ∈ docs -> default EmptyString (Loop.state v !! name d) = fingerprint d) ->
  fold_left step docs v = v.
Proof.
  intros Hr. induction docs as [|p docs IH]; intros Hall; simpl; [done|].
  assert (step v p = v) as ->.
  { unfold process_document. rewrite Hr, (Hall p) by left.
    by rewrite String.eqb_refl. }
  apply IH. intros d Hd. apply Hall. by right.
Qed.

(** Where the entries in memory come from. *)
Lemma loop_articles_from (docs : list SourceDocument) v a :
  a ∈ Loop.articles (fold_left step docs v) ->
  a ∈ Loop.articles v
  \/ exists d, d ∈ docs /\ attempt_of w args d = Ok a.
Proof.
  revert v. induction docs as [|p docs IH]; intros v Ha; simpl in *; [by left|].
  destruct (IH _ Ha) as [Hin|(d & Hd & Hat)]; [|right; exists d; split; [by right|done]].
  destruct (process_document_cases w args v p)
    as [[_ E]|[(_ & _ & E)|[(msg & _ & _ & _ & E)|(art & _ & _ & Hat & E)]]];
    rewrite E in Hin; simpl in Hin; try by left.
  apply upsert_elem in Hin as [->|Hin]; [|by left].
  right. exists p. split; [left|done].
Qed.

(** What the loop does about one file of the folder: only the step for
    that file matters. *)
Lemma loop_at_document (docs : list SourceDocument) v d :
  NoDup (name <$> docs) -> d ∈ docs ->
  exists v1,
    Loop.state v1 !! name d = Loop.state v !! name d
    /\ filter (has_source (name d)) (Loop.articles v1)
       = filter (has_source (name d)) (Loop.articles v)
    /\ filter (fun e => file e = name d) (Loop.errors v1)
       = filter (fun e => file e = name d) (Loop.errors v)
    /\ filter (fun c => call_file c = name d) (Loop.calls v1)
       = filter (fun c => call_file c = name d) (Loop.calls v)
    /\ let v2 := step v1 d in
       let v' := fold_left step docs v in
       Loop.state v' !! name d = Loop.state v2 !! name d
       /\ filter (has_source (name d)) (Loop.articles v')
          = filter (has_source (name d)) (Loop.articles v2)
       /\ filter (fun e => file e = name d) (Loop.errors v')
          = filter (fun e => file e = name d) (Loop.errors v2)
       /\ filter (fun c => call_file c = name d) (Loop.calls v')
          = filter (fun c => call_file c = name d) (Loop.calls v2).
Proof.
  intros Hnd Hd.
  apply list_elem_of_split in Hd as (l1 & l2 & ->).
  rewrite fmap_app, fmap_cons in Hnd.
  apply NoDup_app in Hnd as (_ & Hl1 & Hnd).
  apply NoDup_cons in Hnd as [Hl2 _].
  assert (name d ∉ name <$> l1) as Hl1'.
  { intros Hin. apply (Hl1 _ Hin). left. }
  exists (fold_left step l1 v).
  destruct (loop_other w args l1 v (name d) Hl1') as (H1 & H2 & H3 & H4).
  split_and!; try done.
  rewrite loop_app. simpl.
  apply (loop_other w args l2 (step (fold_left step l1 v) d) (name d) Hl2).
Qed.

End WholeLoop.

(** ** Prune *)

Lemma prune_kept_filter (names : gset string) (l : list Article) :
  prune_kept names l = filter (fun a => vanished names a = false) l.
Proof.
  induction l as [|a l IH]; simpl; [done|].
  rewrite filter_cons, IH. by destruct (vanished names a).
Qed.

Lemma vanished_false_present (names : gset string) (a : Article) (n : string) :
  sourceFile a = Some n -> n ∈ names -> vanished names a = false.
Proof.
  unfold vanished. intros -> Hn.
  rewrite bool_decide_eq_true_2 by done. apply andb_false_r.
Qed.

Lemma vanished_false_key (names : gset string) (a : Article) (n : string) :
  source_key a = Some n -> vanished names a = false -> n ∈ names.
Proof.
  intros [Hs Hn]%source_key_Some. unfold vanished. rewrite Hs, Hn. simpl.
  intros H%negb_false_iff. by apply bool_decide_eq_true in H.
Qed.

Lemma prune_kept_present (names : gset string) (l : list Article) (n : string) :
  n ∈ names ->
  filter (has_source n) (prune_kept names l) = filter (has_source n) l.
Proof.
  intros Hn. rewrite prune_kept_filter, list_filter_filter.
  apply list_filter_iff. intros a. split; [tauto|].
  intros Ha. split; [done|]. by apply (vanished_false_present _ _ n).
Qed.

Lemma filter_omap_NoDup {A B} (f : A -> option B) (P : A -> Prop)
    `{!forall a, Decision (P a)} (l : list A) :
  NoDup (omap f l) -> NoDup (omap f (filter P l)).
Proof.
  induction l as [|x l IH]; [done|].
  rewrite filter_cons, omap_cons. intros Hnd.
  assert (NoDup (omap f l)) as Hl.
  { destruct (f x); [by apply NoDup_cons in Hnd as [_ ?]|done]. }
  destruct (decide (P x)); [|by apply IH].
  rewrite omap_cons. destruct (f x) as [y|]; [|by apply IH].
  apply NoDup_cons in Hnd as [Hy _]. apply NoDup_cons. split; [|by apply IH].
  intros Hin. apply Hy.
  apply list_elem_of_omap in Hin as (z & Hz & Hfz).
  apply list_elem_of_omap. exists z. split; [|done].
  by apply list_elem_of_filter in Hz as [_ ?].
Qed.

Lemma after_prune_elem args docs l a : a ∈ after_prune args docs l -> a ∈ l.
Proof.
  unfold after_prune. destruct (prune args); [|done].
  rewrite prune_kept_filter. by intros [_ ?]%list_elem_of_filter.
Qed.

Lemma after_prune_present args docs l d :
  d ∈ docs ->
  filter (has_source (name d)) (after_prune args docs l) = filter (has_source (name d)) l.
Proof.
  intros Hd. unfold after_prune. destruct (prune args); [|done].
  apply prune_kept_present. apply elem_of_list_to_set. by apply list_elem_of_fmap_2.
Qed.

Lemma after_prune_keys_NoDup args docs l :
  NoDup (omap source_key l) -> NoDup (omap source_key (after_prune args docs l)).
Proof.
  unfold after_prune. destruct (prune args); [|done].
  rewrite prune_kept_filter. apply filter_omap_NoDup.
Qed.

(** ** Reaching the end of [main] *)

Lemma main_finished w args state prior docs :
  folder w = Some docs -> configured w args ->
  main w args state prior = Finished (finish w (run_loop w args docs state prior)).
Proof.
  unfold main, configured. intros -> [-> ->]. done.
Qed.

Lemma main_finished_inv w args state prior out :
  main w args state prior = Finished out ->
  exists docs,
    folder w = Some docs /\ configured w args
    /\ out = finish w (run_loop w args docs state prior).
Proof.
  unfold main, configured. destruct (folder w) as [docs|]; [|done].
  destruct (PyStr.truthy (if PyStr.truthy (api_key args) then _ else _)); [|done].
  destruct (openai_installed w); [|done]. simpl.
  intros [= <-]. by exists docs.
Qed.

Example sample_first_run :
  main Sample.world (Sample.args true true) ∅ None = Finished Sample.first_run
  /\ title <$> Payload.articles (data_json Sample.first_run) = ["A title"; "A title"]
  /\ date <$> Payload.articles (data_json Sample.first_run) = ["2024-03-01"; ""]
  /\ Payload.errors (data_json Sample.first_run)
     = [ {| file := "broken.docx"; error := "Connection error." |};
         {| file := "odd.docx"; error := "'int' object has no attribute 'strip'" |} ]
  /\ missing_csv Sample.first_run
     = [csv_header; [CStr "letter.docx"; CStr "A title"; CInt 4]]
  /\ exit_code Sample.first_run = 10%Z.
Proof. vm_compute. repeat split; reflexivity. Qed.

(** * The claims *)

(** Settles a decidable statement about sample data by evaluation. *)
Ltac by_evaluation := apply (bool_decide_unpack _); vm_compute; exact I.

Lemma desc_order_total (a b : Article) : desc_order a b \/ desc_order b a.
Proof.
  destruct (tuple_lt (sort_key a) (sort_key b)) eqn:E.
  - right. by apply tuple_lt_true_desc.
  - left. by apply tuple_lt_false_desc.
Qed.

Lemma desc_order_empty_date (a b : Article) :
  date a = EmptyString -> desc_order a b -> date b = EmptyString.
Proof.
  intros Ha [H|[H _]]; [|congruence].
  rewrite Ha, ltb_empty_r in H. discriminate.
Qed.

(** C5. In the collection written by a run no two entries have the same
    sourceFile, every entry has a non-empty one, and the entry kept for a
    source file is the last one that the list in memory had for it when
    the loop ended (last write wins). *)
Theorem one_article_per_source_file w args state prior docs out :
  folder w = Some docs ->
  main w args state prior = Finished out ->
  let in_memory := Loop.articles (run_loop w args docs state prior) in
  let written := Payload.articles (data_json out) in
  NoDup (sourceFile <$> written)
  /\ (forall a, a ∈ written ->
        exists n, sourceFile a = Some n /\ PyStr.truthy n = true
                  /\ entry_of n in_memory = Some a)
  /\ (forall n, PyStr.truthy n = true -> entry_of n written = entry_of n in_memory)
  /\ (forall n, PyStr.truthy n = true ->
        length (filter (has_source n) written) <= 1).
Proof.
  intros Hf (docs' & Hf' & _ & ->)%main_finished_inv.
  assert (docs' = docs) as -> by congruence.
  simpl. fold (collection_of (Loop.articles (run_loop w args docs state prior))).
  split_and!.
  - apply collection_of_NoDup.
  - intros a (n & Hn & He)%collection_of_elem%dedup_values_entry.
    exists n. split_and!; try done. by apply entry_of_elem in He as [_ ?].
  - intros n Hn. by apply collection_of_entry.
  - intros n Hn. rewrite collection_of_filter by done.
    destruct (entry_of n _); simpl; lia.
Qed.

Lemma one_article_per_source_file_witness :
  NoDup (sourceFile <$> Payload.articles (data_json Sample.resumed_run))
  /\ entry_of "letter.docx" (Payload.articles (data_json Sample.resumed_run))
     = entry_of "letter.docx"
         (Loop.articles (run_loop Sample.world (Sample.args true false) Sample.files ∅
                           (Some Sample.previous)))
  /\ entry_of "letter.docx" (Payload.articles (data_json Sample.resumed_run))
     = Some Sample.entry_older.
Proof.
  destruct (one_article_per_source_file Sample.world (Sample.args true false) ∅
              (Some Sample.previous) Sample.files Sample.resumed_run)
    as (H1 & _ & H3 & _); [reflexivity|reflexivity|].
  split_and!; [exact H1|apply H3; reflexivity|vm_compute; reflexivity].
Defined.

(** Every entry in memory has a source file of the folder, once the
    carried-forward entries were pruned. *)
Lemma run_loop_keys_in_folder w args docs state prior a n :
  prune args = true ->
  a ∈ Loop.articles (run_loop w args docs state prior) ->
  source_key a = Some n ->
  exists d, d ∈ docs /\ n = name d.
Proof.
  intros Hp Ha Hk. unfold run_loop in Ha.
  apply loop_articles_from in Ha as [Ha|(d & Hd & Hat)].
  - simpl in Ha. unfold after_prune in Ha. rewrite Hp, prune_kept_filter in Ha.
    apply list_elem_of_filter in Ha as [Hv _].
    apply (vanished_false_key _ _ n Hk) in Hv.
    apply elem_of_list_to_set, list_elem_of_fmap in Hv as (d & -> & Hd). by exists d.
  - exists d. split; [done|].
    apply attempt_of_fields in Hat as [Hs _].
    apply source_key_Some in Hk as [Hs' _]. congruence.
Qed.

(** C6. With [--prune], every entry of the collection that the run writes
    has the name of a file of the folder listing as its sourceFile; and the
    prune step removes no carried-forward entry whose sourceFile is the
    name of a file of the listing: for such a name the entries before and
    after the step are the same, in the same order. *)
Theorem prune_correct w args state prior docs out :
  folder w = Some docs ->
  prune args = true ->
  main w args state prior = Finished out ->
  (forall a, a ∈ Payload.articles (data_json out) ->
     exists d, d ∈ docs /\ sourceFile a = Some (name d))
  /\ (forall a d, a ∈ carried_forward args prior -> d ∈ docs ->
        sourceFile a = Some (name d) ->
        a ∈ after_prune args docs (carried_forward args prior))
  /\ (forall d, d ∈ docs ->
        filter (has_source (name d)) (after_prune args docs (carried_forward args prior))
        = filter (has_source (name d)) (carried_forward args prior)).
Proof.
  intros Hf Hp (docs' & Hf' & _ & ->)%main_finished_inv.
  assert (docs' = docs) as -> by congruence.
  split_and!.
  - simpl. intros a Ha.
    fold (collection_of (Loop.articles (run_loop w args docs state prior))) in Ha.
    apply collection_of_elem in Ha.
    destruct (dedup_values_key _ _ Ha) as [n Hk].
    apply dedup_values_elem in Ha.
    destruct (run_loop_keys_in_folder _ _ _ _ _ _ _ Hp Ha Hk) as (d & Hd & ->).
    exists d. split; [done|]. by apply source_key_Some in Hk as [? _].
  - intros a d Ha Hd Hs.
    assert (a ∈ filter (has_source (name d))
                  (after_prune args docs (carried_forward args prior))) as Hin.
    { rewrite after_prune_present by done. by apply list_elem_of_filter. }
    by apply list_elem_of_filter in Hin as [_ ?].
  - intros d Hd. by apply after_prune_present.
Qed.

Lemma prune_correct_witness :
  (forall a, a ∈ Payload.articles (data_json Sample.pruned_run) ->
     exists d, d ∈ Sample.files /\ sourceFile a = Some (name d))
  /\ Sample.entry_old
       ∈ after_prune (Sample.args true true) Sample.files
           (carried_forward (Sample.args true true) (Some Sample.previous))
  /\ Sample.entry_gone ∈ carried_forward (Sample.args true true) (Some Sample.previous)
  /\ Sample.entry_gone ∉ Payload.articles (data_json Sample.pruned_run).
Proof.
  destruct (prune_correct Sample.world (Sample.args true true) ∅
              (Some Sample.previous) Sample.files Sample.pruned_run) as (H1 & H2 & _);
    [reflexivity|reflexivity|reflexivity|].
  split_and!.
  - exact H1.
  - apply (H2 Sample.entry_old Sample.letter).
    + by_evaluation.
    + by_evaluation.
    + reflexivity.
  - by_evaluation.
  - by_evaluation.
Defined.

(** ** One document through a whole run *)

Lemma gate_open_ext args (s1 s2 : gmap string string) p :
  s1 !! name p = s2 !! name p -> gate_open args s1 p -> gate_open args s2 p.
Proof. unfold gate_open. by intros ->. Qed.

Lemma extract_calls_all w p n :
  n = name p ->
  filter (fun c => call_file c = n) (extract w p).2 = (extract w p).2.
Proof.
  intros ->. apply filter_all. intros c Hc. by apply (extract_calls_file w).
Qed.

Lemma extract_calls_no_infer w p n : CallInfer n ∉ (extract w p).2.
Proof.
  unfold extract. destruct (PyStr.truthy _); simpl;
    rewrite ?not_elem_of_cons; split_and!; try done; apply not_elem_of_nil.
Qed.

Section OneDocument.
Context (w : World) (args : Args) (docs : list SourceDocument)
  (state : gmap string string) (prior : option Payload.t) (d : SourceDocument).
Context (Hnames : NoDup (name <$> docs)) (Hd : d ∈ docs).

#[local] Abbreviation final := (run_loop w args docs state prior).
#[local] Abbreviation carried := (carried_forward args prior).
#[local] Abbreviation about_errors :=
  (filter (fun e => file e = name d) (Loop.errors final)).
#[local] Abbreviation about_calls :=
  (filter (fun c => call_file c = name d) (Loop.calls final)).
#[local] Abbreviation about_articles :=
  (filter (has_source (name d)) (Loop.articles final)).

Lemma run_loop_at :
  exists v1,
    Loop.state v1 !! name d = state !! name d
    /\ filter (has_source (name d)) (Loop.articles v1) = filter (has_source (name d)) carried
    /\ filter (fun e => file e = name d) (Loop.errors v1) = []
    /\ filter (fun c => call_file c = name d) (Loop.calls v1) = []
    /\ let v2 := process_document w args v1 d in
       Loop.state final !! name d = Loop.state v2 !! name d
       /\ about_articles = filter (has_source (name d)) (Loop.articles v2)
       /\ about_errors = filter (fun e => file e = name d) (Loop.errors v2)
       /\ about_calls = filter (fun c => call_file c = name d) (Loop.calls v2).
Proof.
  unfold run_loop.
  destruct (loop_at_document w args docs
              (loop_start state (after_prune args docs carried)) d Hnames Hd)
    as (v1 & H1 & H2 & H3 & H4 & H5 & H6 & H7 & H8).
  exists v1. simpl in *. rewrite after_prune_present in H2 by done.
  split_and!; done.
Qed.

(** The document is skipped. *)
Lemma run_loop_skipped :
  (gate_open args state d -> False) ->
  Loop.state final !! name d = state !! name d
  /\ about_articles = filter (has_source (name d)) carried
  /\ about_errors = [] /\ about_calls = [].
Proof.
  intros Hgate. destruct run_loop_at as (v1 & H1 & H2 & H3 & H4 & H5 & H6 & H7 & H8).
  rewrite H5, H6, H7, H8.
  destruct (process_document_cases w args v1 d)
    as [[_ ->]|[(Hg & _)|[(msg & Hg & _)|(a & Hg & _)]]];
    [done|exfalso; apply Hgate; by eapply gate_open_ext..].
Qed.

(** The document has no words. *)
Lemma run_loop_empty :
  gate_open args state d -> word_count (body_of w d) = 0 ->
  Loop.state final !! name d = Some (fingerprint d)
  /\ about_articles = filter (has_source (name d)) carried
  /\ about_errors = [] /\ about_calls = (extract w d).2.
Proof.
  intros Hgate Hwc. destruct run_loop_at as (v1 & H1 & H2 & H3 & H4 & H5 & H6 & H7 & H8).
  rewrite H5, H6, H7, H8.
  destruct (process_document_cases w args v1 d)
    as [[Hg _]|[(_ & _ & ->)|[(msg & _ & Hw & _)|(a & _ & Hw & _)]]];
    [exfalso; apply Hg; by eapply gate_open_ext| |done..].
  simpl. rewrite lookup_insert_eq, filter_app, H4, extract_calls_all by done. done.
Qed.

(** The attempt on the document raises. *)
Lemma run_loop_failed msg :
  gate_open args state d -> word_count (body_of w d) <> 0 ->
  attempt_of w args d = Raise msg ->
  Loop.state final !! name d = Some (fingerprint d)
  /\ about_articles = filter (has_source (name d)) carried
  /\ about_errors = [{| file := name d; error := msg |}]
  /\ about_calls = (extract w d).2 ++ [CallInfer (name d)].
Proof.
  intros Hgate Hwc Hat.
  destruct run_loop_at as (v1 & H1 & H2 & H3 & H4 & H5 & H6 & H7 & H8).
  rewrite H5, H6, H7, H8.
  destruct (process_document_cases w args v1 d)
    as [[Hg _]|[(_ & Hw & _)|[(msg' & _ & _ & Hat' & ->)|(a & _ & _ & Hat' & _)]]];
    [exfalso; apply Hg; by eapply gate_open_ext|done| |congruence].
  assert (msg' = msg) as -> by congruence.
  simpl. rewrite lookup_insert_eq, !filter_app, H3, H4, extract_calls_all by done.
  rewrite !filter_cons_True by done. done.
Qed.

End OneDocument.

Lemma filter_nil_none {A} (P : A -> Prop) `{!forall a, Decision (P a)} (l : list A) x :
  filter P l = [] -> x ∈ l -> ~ P x.
Proof.
  intros Hf Hx HP.
  assert (x ∈ filter P l) as Hin by by apply list_elem_of_filter.
  rewrite Hf in Hin. by apply elem_of_nil in Hin.
Qed.

(** A later run with [--resume] over a folder that still holds the file,
    with the fingerprint that is on record, leaves that file alone. *)
Lemma rerun_skips_document w args docs state prior d :
  folder w = Some docs -> configured w args -> listing_ok docs -> d ∈ docs ->
  resume args = true ->
  state !! name d = Some (fingerprint d) ->
  exists out,
    main w args state prior = Finished out
    /\ (forall c, c ∈ external_calls out -> call_file c <> name d)
    /\ (forall e, e ∈ Payload.errors (data_json out) -> file e <> name d)
    /\ entry_of (name d) (Payload.articles (data_json out))
       = entry_of (name d) (carried_forward args prior)
    /\ state_json out !! name d = Some (fingerprint d).
Proof.
  intros Hf Hc [Hnd Hne] Hd Hr Hs.
  eexists. split; [by apply main_finished|].
  assert (gate_open args state d -> False) as Hgate.
  { unfold gate_open. rewrite Hr, Hs. simpl. by rewrite String.eqb_refl. }
  destruct (run_loop_skipped w args docs state prior d Hnd Hd Hgate)
    as (H1 & H2 & H3 & H4).
  simpl. split_and!.
  - intros c Hc'. by apply (filter_nil_none _ _ _ H4).
  - intros e He. by apply (filter_nil_none _ _ _ H3).
  - fold (collection_of (Loop.articles (run_loop w args docs state prior))).
    rewrite collection_of_entry; [|by apply (proj1 (Forall_forall _ _) Hne)].
    unfold entry_of. by rewrite H2.
  - by rewrite H1.
Qed.

(** C2. When the attempt on a document raises (the call to the service or
    the reading of its reply), the run still finishes; its error list has
    exactly one record for that file, made of the file name and the
    message; the entry of that file in the collection is the one carried
    forward, if any; every file of the folder, also those that follow, has
    its fingerprint on record, and the record of this file is the current
    fingerprint. A later run with [--resume] over a folder that holds the
    file unchanged makes no call for it, records no error for it and keeps
    its entry as it is. *)
Theorem fingerprint_advances_on_failure w args state prior docs d msg :
  folder w = Some docs -> configured w args -> listing_ok docs -> d ∈ docs ->
  gate_open args state d ->
  word_count (body_of w d) <> 0 ->
  attempt_of w args d = Raise msg ->
  exists out,
    main w args state prior = Finished out
    /\ filter (fun e => file e = name d) (Payload.errors (data_json out))
       = [{| file := name d; error := msg |}]
    /\ entry_of (name d) (Payload.articles (data_json out))
       = entry_of (name d) (carried_forward args prior)
    /\ (forall d', d' ∈ docs ->
          default EmptyString (state_json out !! name d') = fingerprint d')
    /\ state_json out !! name d = Some (fingerprint d)
    /\ forall w' args' docs',
         folder w' = Some docs' -> configured w' args' -> listing_ok docs' ->
         d ∈ docs' -> resume args' = true ->
         exists out',
           main w' args' (state_json out) (Some (data_json out)) = Finished out'
           /\ (forall c, c ∈ external_calls out' -> call_file c <> name d)
           /\ (forall e, e ∈ Payload.errors (data_json out') -> file e <> name d)
           /\ entry_of (name d) (Payload.articles (data_json out'))
              = entry_of (name d) (Payload.articles (data_json out))
           /\ state_json out' !! name d = Some (fingerprint d).
Proof.
  intros Hf Hc [Hnd Hne] Hd Hgate Hwc Hat.
  eexists. split; [by apply main_finished|].
  destruct (run_loop_failed w args docs state prior d Hnd Hd msg Hgate Hwc Hat)
    as (H1 & H2 & H3 & H4).
  simpl. split_and!.
  - done.
  - fold (collection_of (Loop.articles (run_loop w args docs state prior))).
    rewrite collection_of_entry; [|by apply (proj1 (Forall_forall _ _) Hne)].
    unfold entry_of. by rewrite H2.
  - intros d' Hd'. by apply loop_gate_closed.
  - done.
  - intros w' args' docs' Hf' Hc' Hl' Hd' Hr'.
    destruct (rerun_skips_document w' args' docs'
                (Loop.state (run_loop w args docs state prior))
                (Some (data_json (finish w (run_loop w args docs state prior))))
                d Hf' Hc' Hl' Hd' Hr' H1) as (out' & Hm & Hcalls & Herrs & Hent & Hst).
    exists out'. split_and!; try done.
    rewrite Hent. unfold carried_forward. by rewrite Hr'.
Qed.

Lemma fingerprint_advances_on_failure_witness :
  exists out,
    main Sample.world (Sample.args true true) ∅ None = Finished out
    /\ filter (fun e => file e = "broken.docx") (Payload.errors (data_json out))
       = [{| file := "broken.docx"; error := "Connection error." |}]
    /\ entry_of "broken.docx" (Payload.articles (data_json out)) = None
    /\ state_json out !! "broken.docx" = Some "bb22"
    /\ exists out',
         main Sample.world (Sample.args true false) (state_json out)
           (Some (data_json out)) = Finished out'
         /\ (forall c, c ∈ external_calls out' -> call_file c <> "broken.docx")
         /\ (forall e, e ∈ Payload.errors (data_json out') -> file e <> "broken.docx").
Proof.
  destruct (fingerprint_advances_on_failure Sample.world (Sample.args true true) ∅ None
              Sample.files Sample.broken "Connection error.")
    as (out & Hm & He & Ha & _ & Hs & Hnext).
  - reflexivity.
  - split; reflexivity.
  - split; by_evaluation.
  - by_evaluation.
  - reflexivity.
  - vm_compute. discriminate.
  - reflexivity.
  - exists out. split_and!; try done.
    destruct (Hnext Sample.world (Sample.args true false) Sample.files)
      as (out' & Hm' & Hc' & He' & _).
    + reflexivity.
    + split; reflexivity.
    + split; by_evaluation.
    + by_evaluation.
    + reflexivity.
    + exists out'. split_and!; assumption.
Defined.

(** When both extraction paths yield nothing, the text has no word. *)
Lemma empty_extraction_has_no_words w p :
  run_pandoc_extract w p = EmptyString -> docx_extract_fallback w p = EmptyString ->
  word_count (body_of w p) = 0.
Proof.
  intros H1 H2. unfold body_of, extract. rewrite H1. simpl. by rewrite H2.
Qed.

(** C9. For a document whose normalised text has no word (as when both
    extraction paths yield nothing), the run finishes without a call to
    the service for it and without an error for it; the entry of that file
    in the collection is the one carried forward, if any, so none is added
    or updated; its fingerprint is put on record. A later run with
    [--resume] over a folder that holds the file unchanged makes no call
    for it at all, so extraction is not invoked again. *)
Theorem zero_word_exclusion w args state prior docs d :
  folder w = Some docs -> configured w args -> listing_ok docs -> d ∈ docs ->
  gate_open args state d ->
  word_count (body_of w d) = 0 ->
  exists out,
    main w args state prior = Finished out
    /\ (CallInfer (name d) ∉ external_calls out)
    /\ (forall e, e ∈ Payload.errors (data_json out) -> file e <> name d)
    /\ entry_of (name d) (Payload.articles (data_json out))
       = entry_of (name d) (carried_forward args prior)
    /\ state_json out !! name d = Some (fingerprint d)
    /\ forall w' args' docs',
         folder w' = Some docs' -> configured w' args' -> listing_ok docs' ->
         d ∈ docs' -> resume args' = true ->
         exists out',
           main w' args' (state_json out) (Some (data_json out)) = Finished out'
           /\ (forall c, c ∈ external_calls out' -> call_file c <> name d)
           /\ entry_of (name d) (Payload.articles (data_json out'))
              = entry_of (name d) (Payload.articles (data_json out))
           /\ state_json out' !! name d = Some (fingerprint d).
Proof.
  intros Hf Hc [Hnd Hne] Hd Hgate Hwc.
  eexists. split; [by apply main_finished|].
  destruct (run_loop_empty w args docs state prior d Hnd Hd Hgate Hwc)
    as (H1 & H2 & H3 & H4).
  simpl. split_and!.
  - intros Hin.
    assert (CallInfer (name d)
              ∈ filter (fun c => call_file c = name d)
                  (Loop.calls (run_loop w args docs state prior))) as Hin'
      by by apply list_elem_of_filter.
    rewrite H4 in Hin'. by apply extract_calls_no_infer in Hin'.
  - intros e He. by apply (filter_nil_none _ _ _ H3).
  - fold (collection_of (Loop.articles (run_loop w args docs state prior))).
    rewrite collection_of_entry; [|by apply (proj1 (Forall_forall _ _) Hne)].
    unfold entry_of. by rewrite H2.
  - done.
  - intros w' args' docs' Hf' Hc' Hl' Hd' Hr'.
    destruct (rerun_skips_document w' args' docs'
                (Loop.state (run_loop w args docs state prior))
                (Some (data_json (finish w (run_loop w args docs state prior))))
                d Hf' Hc' Hl' Hd' Hr' H1) as (out' & Hm & Hcalls & Herrs & Hent & Hst).
    exists out'. split_and!; try done.
    rewrite Hent. unfold carried_forward. by rewrite Hr'.
Qed.

Lemma zero_word_exclusion_witness :
  run_pandoc_extract Sample.world Sample.scan = EmptyString
  /\ docx_extract_fallback Sample.world Sample.scan = EmptyString
  /\ exists out,
       main Sample.world (Sample.args true true) ∅ None = Finished out
       /\ (CallInfer "scan.docx" ∉ external_calls out)
       /\ entry_of "scan.docx" (Payload.articles (data_json out)) = None
       /\ state_json out !! "scan.docx" = Some "ee55"
       /\ exists out',
            main Sample.world (Sample.args true false) (state_json out)
              (Some (data_json out)) = Finished out'
            /\ (forall c, c ∈ external_calls out' -> call_file c <> "scan.docx").
Proof.
  split; [reflexivity|]. split; [reflexivity|].
  destruct (zero_word_exclusion Sample.world (Sample.args true true) ∅ None
              Sample.files Sample.scan)
    as (out & Hm & Hi & _ & Ha & Hs & Hnext).
  - reflexivity.
  - split; reflexivity.
  - split; by_evaluation.
  - by_evaluation.
  - reflexivity.
  - apply empty_extraction_has_no_words; reflexivity.
  - exists out. split_and!; try done.
    destruct (Hnext Sample.world (Sample.args true false) Sample.files)
      as (out' & Hm' & Hc' & _).
    + reflexivity.
    + split; reflexivity.
    + split; by_evaluation.
    + by_evaluation.
    + reflexivity.
    + exists out'. split_and!; assumption.
Defined.

(** ** The rows of the missing-date report *)

Lemma truthy_false (s : string) : PyStr.truthy s = false <-> s = EmptyString.
Proof. by destruct s. Qed.

Section Rows.
Context (w : World) (args : Args).

Lemma rows_inv_step v p rest :
  listing_ok (p :: rest) -> rows_inv v (p :: rest) ->
  rows_inv (process_document w args v p) rest.
Proof.
  intros [Hnd Hne] (Hkeys & Hrows & Hall).
  rewrite fmap_cons in Hnd. apply NoDup_cons in Hnd as [Hp _].
  apply Forall_cons in Hne as [Hpn _].
  assert (forall row, row ∈ Loop.missing_date_rows v ->
            exists a n, a ∈ Loop.articles v /\ row = row_of a /\ date a = EmptyString
                        /\ source_key a = Some n /\ (n ∉ name <$> rest) /\ n <> name p)
    as Hall'.
  { intros row Hrow. destruct (Hall row Hrow) as (a & n & Ha & -> & Hda & Hk & Hn).
    rewrite fmap_cons in Hn. apply not_elem_of_cons in Hn as [Hn1 Hn2].
    by exists a, n. }
  destruct (process_document_cases w args v p)
    as [[_ ->]|[(_ & _ & ->)|[(msg & _ & _ & _ & ->)|(art & _ & _ & Hat & ->)]]];
    try (split_and!; simpl; [done|done|];
         intros row Hrow; destruct (Hall' row Hrow) as (a & n & ? & ? & ? & ? & ? & _);
         by exists a, n).
  apply attempt_of_fields in Hat as [Hs _].
  assert (source_key art = Some (name p)) as Hk by by apply source_key_Some.
  assert (forall row, row ∈ Loop.missing_date_rows v ->
            exists a n, a ∈ upsert art (name p) (Loop.articles v) /\ row = row_of a
                        /\ date a = EmptyString /\ source_key a = Some n
                        /\ (n ∉ name <$> rest)) as Hold.
  { intros row Hrow. destruct (Hall' row Hrow) as (a & n & Ha & -> & Hda & Hka & Hn & Hnp).
    exists a, n. split_and!; try done. apply upsert_keeps; [done|].
    apply source_key_Some in Hka as [-> _]. congruence. }
  split_and!; simpl.
  - by apply upsert_keys_NoDup.
  - destruct (PyStr.truthy (date art)); [done|].
    apply NoDup_app. split_and!; [done| |apply NoDup_singleton].
    intros row Hrow ->%list_elem_of_singleton.
    destruct (Hall' _ Hrow) as (a & n & _ & Heq & _ & Hka & _ & Hnp).
    apply Hnp. apply source_key_Some in Hka as [Hsa _].
    unfold row_of in Heq. rewrite Hs, Hsa in Heq. simpl in Heq. congruence.
  - intros row Hrow. destruct (PyStr.truthy (date art)) eqn:Hda; [by apply Hold|].
    apply elem_of_app in Hrow as [Hrow| ->%list_elem_of_singleton]; [by apply Hold|].
    exists art, (name p). split_and!; try done.
    + apply upsert_has.
    + by apply truthy_false.
Qed.

Lemma rows_inv_loop docs v :
  listing_ok docs -> rows_inv v docs ->
  rows_inv (fold_left (process_document w args) docs v) [].
Proof.
  revert v. induction docs as [|p docs IH]; intros v Hl Hinv; simpl; [done|].
  apply IH.
  - destruct Hl as [Hnd Hne]. rewrite fmap_cons in Hnd.
    apply NoDup_cons in Hnd as [_ Hnd]. apply Forall_cons in Hne as [_ Hne]. by split.
  - by apply rows_inv_step.
Qed.

Lemma fresh_inv_step start v p :
  fresh_inv start v -> fresh_inv start (process_document w args v p).
Proof.
  intros Hinv.
  destruct (process_document_cases w args v p)
    as [[_ ->]|[(_ & _ & ->)|[(msg & _ & _ & _ & ->)|(art & _ & _ & Hat & ->)]]];
    try done.
  intros a Ha. simpl in *.
  apply upsert_elem in Ha as [->|Ha].
  - right. intros Hda. rewrite (proj2 (truthy_false _) Hda).
    apply elem_of_app. right. by apply list_elem_of_singleton.
  - destruct (Hinv a Ha) as [?|Hrow]; [by left|right].
    intros Hda. destruct (PyStr.truthy (date art)); [by apply Hrow|].
    apply elem_of_app. left. by apply Hrow.
Qed.

Lemma fresh_inv_loop start docs v :
  fresh_inv start v -> fresh_inv start (fold_left (process_document w args) docs v).
Proof.
  revert v. induction docs as [|p docs IH]; intros v Hinv; simpl; [done|].
  apply IH. by apply fresh_inv_step.
Qed.

End Rows.

(** An entry with a key, in a list whose keys do not repeat, survives the
    dedup step. *)
Lemma dedup_values_keeps (l : list Article) (a : Article) (n : string) :
  NoDup (omap source_key l) -> a ∈ l -> source_key a = Some n ->
  a ∈ dedup_values l.
Proof.
  intros Hnd Ha Hk. apply dedup_values_entry. exists n.
  pose proof Hk as [Hs Hn]%source_key_Some. split; [done|].
  apply list_elem_of_split in Ha as (l1 & l2 & ->).
  unfold entry_of. rewrite filter_app, filter_cons_True by done.
  rewrite omap_app, omap_cons, Hk in Hnd.
  apply NoDup_app in Hnd as (_ & _ & Hnd). apply NoDup_cons in Hnd as [Hn2 _].
  rewrite (filter_none _ l2).
  - by rewrite last_snoc.
  - intros b Hb Hbs. apply Hn2. apply list_elem_of_omap. exists b. split; [done|].
    by apply source_key_Some.
Qed.

(** ** A second run over an unchanged folder *)

Lemma after_prune_of_pruned w args1 args2 docs state prior :
  (prune args2 = true -> prune args1 = true) ->
  let written := collection_of (Loop.articles (run_loop w args1 docs state prior)) in
  after_prune args2 docs written = written.
Proof.
  intros Himp written. unfold after_prune.
  destruct (prune args2) eqn:Hp2; [|done].
  rewrite prune_kept_filter. apply filter_all. intros a Ha.
  apply collection_of_elem in Ha. destruct (dedup_values_key _ _ Ha) as [n Hk].
  apply dedup_values_elem in Ha.
  destruct (run_loop_keys_in_folder _ _ _ _ _ _ _ (Himp eq_refl) Ha Hk) as (d & Hd & ->).
  apply (vanished_false_present _ _ (name d)).
  - by apply source_key_Some in Hk as [? _].
  - apply elem_of_list_to_set. by apply list_elem_of_fmap_2.
Qed.

(** The claim C1 as it is stated fails: the first run of the sample
    records two errors; the run that follows, with the same folder, the
    same service and the same clock, updates nothing and writes an empty
    error list, so the two outputs differ. *)
Lemma second_run_output_differs :
  main Sample.world (Sample.args true true) ∅ None = Finished Sample.first_run
  /\ main Sample.world (Sample.args true true) (state_json Sample.first_run)
       (Some (data_json Sample.first_run)) = Finished Sample.second_run
  /\ summary_updated Sample.second_run = 0
  /\ Payload.errors (data_json Sample.first_run) <> []
  /\ Payload.errors (data_json Sample.second_run) = []
  /\ data_json Sample.second_run <> data_json Sample.first_run.
Proof.
  split_and!; try (vm_compute; reflexivity).
  - vm_compute. discriminate.
  - intros H. apply (f_equal Payload.errors) in H. vm_compute in H. discriminate.
Qed.

(** C1, amended. After any finished run over a folder, a run with
    [--resume] over the same folder (and with [--prune] only if the first
    run had it) finishes, makes no call to an extractor or to the service,
    updates nothing and exits with status 0; it writes the same sequence
    of entries and the same fingerprint state, an empty error list, the
    time of the second run as [generatedAt], and a missing-date report made
    of the header row. The output is therefore the same as the first one
    exactly when the first run recorded no error and both runs carry the
    same time stamp. *)
Theorem second_run_changes_nothing w1 args1 state0 prior0 out1 w2 args2 docs :
  folder w1 = Some docs -> folder w2 = Some docs -> NoDup (name <$> docs) ->
  main w1 args1 state0 prior0 = Finished out1 ->
  configured w2 args2 -> resume args2 = true ->
  (prune args2 = true -> prune args1 = true) ->
  exists out2,
    main w2 args2 (state_json out1) (Some (data_json out1)) = Finished out2
    /\ summary_updated out2 = 0 /\ summary_processed out2 = 0
    /\ exit_code out2 = 0%Z
    /\ external_calls out2 = []
    /\ Payload.articles (data_json out2) = Payload.articles (data_json out1)
    /\ state_json out2 = state_json out1
    /\ Payload.errors (data_json out2) = []
    /\ Payload.generatedAt (data_json out2) = now_end w2
    /\ missing_csv out2 = [csv_header]
    /\ (data_json out2 = data_json out1 <->
        Payload.errors (data_json out1) = []
        /\ Payload.generatedAt (data_json out1) = now_end w2).
Proof.
  intros Hf1 Hf2 Hnd (docs' & Hf' & _ & ->)%main_finished_inv Hc Hr Hp.
  assert (docs' = docs) as -> by congruence.
  eexists. split; [by apply main_finished|].
  pose proof (after_prune_of_pruned w1 args1 args2 docs state0 prior0 Hp) as Hap.
  pose proof (collection_of_fixed (Loop.articles (run_loop w1 args1 docs state0 prior0)))
    as Hfix.
  unfold collection_of in Hap, Hfix. simpl in Hap.
  assert (run_loop w2 args2 docs
            (state_json (finish w1 (run_loop w1 args1 docs state0 prior0)))
            (Some (data_json (finish w1 (run_loop w1 args1 docs state0 prior0))))
          = loop_start (Loop.state (run_loop w1 args1 docs state0 prior0))
              (sorted_reverse
                 (dedup_values (Loop.articles (run_loop w1 args1 docs state0 prior0)))))
    as ->.
  { unfold run_loop at 1. unfold carried_forward. rewrite Hr. simpl.
    rewrite Hap.
    apply loop_all_skipped; [done|].
    intros d Hd. simpl. by apply loop_gate_closed. }
  simpl. rewrite Hfix.
  split_and!; try done.
  split.
  - intros H. split.
    + by apply (f_equal Payload.errors) in H.
    + by apply (f_equal Payload.generatedAt) in H.
  - intros [He Hg]. simpl in *. by rewrite <- He, <- Hg.
Qed.

Lemma second_run_changes_nothing_witness :
  exists out2,
    main Sample.world (Sample.args true true) (state_json Sample.first_run)
      (Some (data_json Sample.first_run)) = Finished out2
    /\ summary_updated out2 = 0
    /\ external_calls out2 = []
    /\ Payload.articles (data_json out2) = Payload.articles (data_json Sample.first_run)
    /\ Payload.errors (data_json out2) = [].
Proof.
  destruct (second_run_changes_nothing Sample.world (Sample.args true true) ∅ None
              Sample.first_run Sample.world (Sample.args true true) Sample.files)
    as (out2 & Hm & Hu & _ & _ & Hc & Ha & _ & He & _).
  - reflexivity.
  - reflexivity.
  - by_evaluation.
  - reflexivity.
  - split; reflexivity.
  - reflexivity.
  - intros H. exact H.
  - exists out2. split_and!; assumption.
Defined.

(** ** Matchers *)

Lemma append_cons (a : ascii) (s t : string) : String a s +:+ t = String a (s +:+ t).
Proof. reflexivity. Qed.

Lemma append_assoc (s t u : string) : (s +:+ t) +:+ u = s +:+ (t +:+ u).
Proof. induction s as [|a s IH]; [done|]. by rewrite !append_cons, IH. Qed.

Lemma in_bind {A B} (m : Re.M A) (f : A -> Re.M B) c b c2 :
  In (b, c2) (Re.bind m f c) <-> exists a c1, In (a, c1) (m c) /\ In (b, c2) (f a c1).
Proof.
  unfold Re.bind. rewrite in_flat_map. split.
  - intros ([a c1] & H1 & H2). by exists a, c1.
  - intros (a & c1 & H1 & H2). by exists (a, c1).
Qed.

Lemma in_ret {A} (x a : A) c c' : In (a, c') (Re.ret x c) <-> a = x /\ c' = c.
Proof.
  unfold Re.ret. simpl. split.
  - intros [[= -> ->]|[]]. done.
  - intros [-> ->]. by left.
Qed.

Lemma in_char_if (p : ascii -> bool) c a c' :
  In (a, c') (Re.char_if p c) <->
  Re.rest c = String a (Re.rest c') /\ p a = true /\ Re.before c' = Some a.
Proof.
  unfold Re.char_if. destruct (Re.rest c) as [|x r] eqn:E; simpl.
  - split; [done|]. by intros [? _].
  - destruct (p x) eqn:Hp; simpl.
    + split.
      * intros [[= -> <-]|[]]. done.
      * intros ([= -> Hr] & _ & Hb). left. destruct c' as [b r']. simpl in *. congruence.
    + split; [done|]. intros ([= -> _] & Hp' & _). congruence.
Qed.

Lemma in_alt {A} (m1 m2 : Re.M A) c x :
  In x (Re.alt m1 m2 c) <-> In x (m1 c) \/ In x (m2 c).
Proof. unfold Re.alt. apply in_app_iff. Qed.

Section Forward.

Lemma forward_ret {A} (x : A) : forward (Re.ret x).
Proof. intros c a c' [_ ->]%in_ret. by exists EmptyString. Qed.

Lemma forward_bind {A B} (m : Re.M A) (f : A -> Re.M B) :
  forward m -> (forall a, forward (f a)) -> forward (Re.bind m f).
Proof.
  intros Hm Hf c b c2 (a & c1 & H1 & H2)%in_bind.
  destruct (Hm _ _ _ H1) as [p1 E1]. destruct (Hf a _ _ _ H2) as [p2 E2].
  exists (p1 +:+ p2). by rewrite E1, E2, append_assoc.
Qed.

Lemma forward_char_if (p : ascii -> bool) : forward (Re.char_if p).
Proof.
  intros c a c' (E & _ & _)%in_char_if. exists (String a EmptyString). by rewrite E.
Qed.

Lemma forward_alt {A} (m1 m2 : Re.M A) : forward m1 -> forward m2 -> forward (Re.alt m1 m2).
Proof. intros H1 H2 c a c' [H|H]%in_alt; [by apply (H1 _ _ _ H)|by apply (H2 _ _ _ H)]. Qed.

Lemma forward_fail {A} : forward (@Re.fail A).
Proof. by intros c a c' []. Qed.

Lemma forward_opt {A} (m : Re.M A) : forward m -> forward (Re.opt m).
Proof.
  intros Hm. apply forward_alt; [|apply forward_ret].
  apply forward_bind; [done|]. intros a. apply forward_ret.
Qed.

Lemma forward_lit (i : bool) (lw : string) : forward (Re.lit i lw).
Proof.
  induction lw as [|a lw IH]; simpl; [apply forward_ret|].
  apply forward_bind; [apply forward_char_if|]. intros x.
  apply forward_bind; [done|]. intros s. apply forward_ret.
Qed.

Lemma forward_exactly (n : nat) (p : ascii -> bool) : forward (Re.exactly n p).
Proof.
  induction n as [|n IH]; simpl; [apply forward_ret|].
  apply forward_bind; [apply forward_char_if|]. intros x.
  apply forward_bind; [done|]. intros s. apply forward_ret.
Qed.

Lemma forward_upto (n : nat) (p : ascii -> bool) : forward (Re.upto n p).
Proof.
  induction n as [|n IH]; simpl; [apply forward_ret|].
  apply forward_alt; [|apply forward_ret].
  apply forward_bind; [apply forward_char_if|]. intros x.
  apply forward_bind; [done|]. intros s. apply forward_ret.
Qed.

Lemma forward_between (lo extra : nat) (p : ascii -> bool) :
  forward (Re.between lo extra p).
Proof.
  apply forward_bind; [apply forward_exactly|]. intros a.
  apply forward_bind; [apply forward_upto|]. intros b. apply forward_ret.
Qed.

Lemma star_go_forward (p : ascii -> bool) prev s t c' :
  In (t, c') (Re.star_go p prev s) -> exists pre, s = pre +:+ Re.rest c'.
Proof.
  revert prev t. induction s as [|a s IH]; intros prev t; simpl.
  - intros [[= _ <-]|[]]. by exists EmptyString.
  - destruct (p a).
    + rewrite in_app_iff, in_map_iff. intros [([t0 c0] & [= _ <-] & H)|[[= _ <-]|[]]].
      * destruct (IH _ _ H) as [pre E]. exists (String a pre). by rewrite E at 1.
      * by exists EmptyString.
    + intros [[= _ <-]|[]]. by exists EmptyString.
Qed.

Lemma forward_star (p : ascii -> bool) : forward (Re.star p).
Proof. intros c t c' H. by apply star_go_forward in H. Qed.

Lemma forward_plus (p : ascii -> bool) : forward (Re.plus p).
Proof.
  apply forward_bind; [apply forward_char_if|]. intros x.
  apply forward_bind; [apply forward_star|]. intros s. apply forward_ret.
Qed.

Lemma forward_word_boundary : forward Re.word_boundary.
Proof.
  intros c a c'. unfold Re.word_boundary. destruct (xorb _ _); [|done].
  intros [[= _ <-]|[]]. by exists EmptyString.
Qed.

Lemma forward_alts {A} (ms : list (Re.M A)) :
  (forall m, In m ms -> forward m) -> forward (Re.alts ms).
Proof.
  induction ms as [|m ms IH]; intros H; simpl; [apply forward_fail|].
  apply forward_alt; [apply H; by left|]. apply IH. intros m' Hm'. apply H. by right.
Qed.

Lemma forward_literals (i : bool) (ws : list string) : forward (Re.alts (map (Re.lit i) ws)).
Proof.
  apply forward_alts. intros m (lw & <- & _)%in_map_iff. apply forward_lit.
Qed.

End Forward.

(** [re.search] reports a match of the pattern at some place of the
    subject. *)
Lemma search_from_Some {A} (re : Re.M A) prev s a :
  Re.search_from re prev s = Some a ->
  exists pre s' prev' c', s = pre +:+ s' /\ In (a, c') (re (Re.Cursor prev' s')).
Proof.
  revert prev. induction s as [|x s IH]; intros prev; simpl.
  - destruct (re (Re.Cursor prev EmptyString)) as [|[a0 c0] l] eqn:E; [done|].
    intros [= ->]. exists EmptyString, EmptyString, prev, c0. split; [done|].
    rewrite E. by left.
  - destruct (re (Re.Cursor prev (String x s))) as [|[a0 c0] l] eqn:E.
    + intros H. destruct (IH _ H) as (pre & s' & prev' & c' & -> & Hin).
      by exists (String x pre), s', prev', c'.
    + intros [= ->]. exists EmptyString, (String x s), prev, c0. split; [done|].
      rewrite E. by left.
Qed.

Lemma mentions_20xx_starts (s : string) : starts_20xx s = true -> mentions_20xx s = true.
Proof. destruct s; [done|]. simpl. by intros ->. Qed.

Lemma mentions_20xx_app (pre s : string) :
  mentions_20xx s = true -> mentions_20xx (pre +:+ s) = true.
Proof.
  intros H. induction pre as [|a pre IH]; [done|].
  rewrite append_cons. simpl. rewrite IH. apply orb_true_r.
Qed.

Lemma forward_mentions {A} (m : Re.M A) c a c' :
  forward m -> In (a, c') (m c) ->
  mentions_20xx (Re.rest c') = true -> mentions_20xx (Re.rest c) = true.
Proof.
  intros Hm Hin H. destruct (Hm _ _ _ Hin) as [pre ->]. by apply mentions_20xx_app.
Qed.

(** ** The year group *)

Lemma digit_value_range (c : ascii) :
  PyStr.isdigit c = true -> (0 <= PyStr.digit_value c <= 9)%Z.
Proof.
  unfold PyStr.isdigit, PyStr.between, PyStr.digit_value.
  intros [H1 H2]%andb_true_iff. apply N.leb_le in H1, H2. lia.
Qed.

Lemma year20_In c y c' :
  In (y, c') (year20 c) ->
  starts_20xx (Re.rest c) = true /\ (2000 <= PyStr.int y <= 2099)%Z.
Proof.
  unfold year20. simpl.
  intros (a & c1 & Ha & (b & c2 & Hb & [-> ->]%in_ret)%in_bind)%in_bind.
  apply in_bind in Ha as (x1 & d1 & Hx1 & (s1 & d2 & Hs1 & [-> ->]%in_ret)%in_bind).
  apply in_bind in Hs1 as (x2 & d3 & Hx2 & (s2 & d4 & [-> ->]%in_ret & [-> ->]%in_ret)%in_bind).
  apply in_bind in Hb as (x3 & d5 & Hx3 & (s3 & d6 & Hs3 & [-> ->]%in_ret)%in_bind).
  apply in_bind in Hs3 as (x4 & d7 & Hx4 & (s4 & d8 & [-> ->]%in_ret & [-> ->]%in_ret)%in_bind).
  apply in_char_if in Hx1 as (E1 & P1 & _), Hx2 as (E2 & P2 & _),
    Hx3 as (E3 & P3 & _), Hx4 as (E4 & P4 & _).
  apply Ascii.eqb_eq in P1, P2. subst x1 x2.
  split.
  - rewrite E1, E2, E3, E4. simpl. by rewrite P3, P4.
  - pose proof (digit_value_range _ P3). pose proof (digit_value_range _ P4).
    unfold PyStr.int. rewrite !append_cons. simpl PyStr.int_go.
    change (PyStr.digit_value "2") with 2%Z. change (PyStr.digit_value "0") with 0%Z.
    lia.
Qed.

(** ** The three patterns *)

Lemma iso_date_re_In c g1 g2 g3 c' :
  In ((g1, g2, g3), c') (iso_date_re c) ->
  mentions_20xx (Re.rest c) = true /\ (2000 <= PyStr.int g1 <= 2099)%Z.
Proof.
  unfold iso_date_re.
  intros (y & c1 & Hy & (s1 & c2 & _ & (m & c3 & _ & (s2 & c4 & _ &
            (dd & c5 & _ & [[= <- <- <-] _]%in_ret)%in_bind)%in_bind)%in_bind)%in_bind)%in_bind.
  apply year20_In in Hy as [Hs Hr]. split; [by apply mentions_20xx_starts|done].
Qed.

Lemma us_date_re_In c g1 g2 g3 c' :
  In ((g1, g2, g3), c') (us_date_re c) ->
  mentions_20xx (Re.rest c) = true /\ (2000 <= PyStr.int g3 <= 2099)%Z.
Proof.
  unfold us_date_re.
  intros (m & c1 & H1 & (s1 & c2 & H2 & (dd & c3 & H3 & (s2 & c4 & H4 &
            (y & c5 & Hy & [[= <- <- <-] _]%in_ret)%in_bind)%in_bind)%in_bind)%in_bind)%in_bind.
  apply year20_In in Hy as [Hs Hr]. split; [|done].
  apply mentions_20xx_starts in Hs.
  apply (forward_mentions _ _ _ _ (forward_char_if _) H4) in Hs.
  apply (forward_mentions _ _ _ _ (forward_between _ _ _) H3) in Hs.
  apply (forward_mentions _ _ _ _ (forward_char_if _) H2) in Hs.
  by apply (forward_mentions _ _ _ _ (forward_between _ _ _) H1) in Hs.
Qed.

Lemma long_date_re_In c g1 g2 g3 c' :
  In ((g1, g2, g3), c') (long_date_re c) ->
  mentions_20xx (Re.rest c) = true /\ (2000 <= PyStr.int g3 <= 2099)%Z.
Proof.
  unfold long_date_re.
  intros (b & c1 & H1 & (mon & c2 & H2 & (dot & c3 & H3 & (sp & c4 & H4 &
          (day & c5 & H5 & (suf & c6 & H6 & (com & c7 & H7 & (sp2 & c8 & H8 &
          (y & c9 & Hy & (e & c10 & _ & [[= <- <- <-] _]%in_ret)%in_bind)%in_bind)%in_bind)
          %in_bind)%in_bind)%in_bind)%in_bind)%in_bind)%in_bind)%in_bind.
  apply year20_In in Hy as [Hs Hr]. split; [|done].
  apply mentions_20xx_starts in Hs.
  apply (forward_mentions _ _ _ _ (forward_plus _) H8) in Hs.
  apply (forward_mentions _ _ _ _ (forward_lit _ _) H7) in Hs.
  apply (forward_mentions _ _ _ _ (forward_opt _ (forward_literals _ _)) H6) in Hs.
  apply (forward_mentions _ _ _ _ (forward_between _ _ _) H5) in Hs.
  apply (forward_mentions _ _ _ _ (forward_plus _) H4) in Hs.
  apply (forward_mentions _ _ _ _ (forward_opt _ (forward_lit _ _)) H3) in Hs.
  apply (forward_mentions _ _ _ _ (forward_literals _ _) H2) in Hs.
  by apply (forward_mentions _ _ _ _ forward_word_boundary H1) in Hs.
Qed.

Lemma search_mentions {A} (re : Re.M A) (s : string) (a : A)
    (year_of : A -> string) :
  (forall c a c', In (a, c') (re c) ->
     mentions_20xx (Re.rest c) = true /\ (2000 <= PyStr.int (year_of a) <= 2099)%Z) ->
  Re.search re s = Some a ->
  mentions_20xx s = true /\ (2000 <= PyStr.int (year_of a) <= 2099)%Z.
Proof.
  intros Hre (pre & s' & prev' & c' & -> & Hin)%search_from_Some.
  destruct (Hre _ _ _ Hin) as [Hm Hy]. split; [|done].
  by apply mentions_20xx_app.
Qed.

Lemma formatted_Some y mo d s :
  formatted (datetime y mo d) = Some s ->
  s = strftime_ymd (y, mo, d) /\ datetime y mo d = Some (y, mo, d).
Proof.
  unfold datetime. destruct (_ && _)%bool; [|done]. simpl. by intros [= <-].
Qed.

(** A date that the file name yields has a year of this century whose
    digits stand in the stem. *)
Lemma parse_date_from_filename_Some (file_name s : string) :
  parse_date_from_filename file_name = Some s ->
  exists y mo d,
    s = strftime_ymd (y, mo, d) /\ datetime y mo d = Some (y, mo, d)
    /\ (2000 <= y <= 2099)%Z /\ mentions_20xx (stem file_name) = true.
Proof.
  unfold parse_date_from_filename.
  destruct (Re.search iso_date_re (stem file_name)) as [[[g1 g2] g3]|] eqn:E1.
  - destruct (formatted (datetime (PyStr.int g1) (PyStr.int g2) (PyStr.int g3)))
      as [s1|] eqn:F1.
    + intros [= <-]. apply formatted_Some in F1 as [-> Hd].
      destruct (search_mentions iso_date_re _ _ (fun g => g.1.1)
                  (fun c a c' => match a with (x1, x2, x3) => iso_date_re_In c x1 x2 x3 c' end)
                  E1) as [Hm Hy].
      by exists (PyStr.int g1), (PyStr.int g2), (PyStr.int g3).
    + destruct (Re.search us_date_re (stem file_name)) as [[[h1 h2] h3]|] eqn:E2; [|done].
      intros F2. apply formatted_Some in F2 as [-> Hd].
      destruct (search_mentions us_date_re _ _ (fun g => g.2)
                  (fun c a c' => match a with (x1, x2, x3) => us_date_re_In c x1 x2 x3 c' end)
                  E2) as [Hm Hy].
      by exists (PyStr.int h3), (PyStr.int h1), (PyStr.int h2).
  - destruct (Re.search us_date_re (stem file_name)) as [[[h1 h2] h3]|] eqn:E2; [|done].
    intros F2. apply formatted_Some in F2 as [-> Hd].
    destruct (search_mentions us_date_re _ _ (fun g => g.2)
                (fun c a c' => match a with (x1, x2, x3) => us_date_re_In c x1 x2 x3 c' end)
                E2) as [Hm Hy].
    by exists (PyStr.int h3), (PyStr.int h1), (PyStr.int h2).
Qed.

(** The same for a date that the text yields, with the first twenty lines
    of the text as the subject. *)
Lemma parse_date_from_text_Some (body s : string) :
  parse_date_from_text body = Some s ->
  exists y mo d,
    s = strftime_ymd (y, mo, d) /\ datetime y mo d = Some (y, mo, d)
    /\ (2000 <= y <= 2099)%Z /\ mentions_20xx (head_lines body) = true.
Proof.
  unfold parse_date_from_text.
  destruct (Re.search long_date_re (head_lines body)) as [[[g1 g2] g3]|] eqn:E; [|done].
  destruct (dict_get month_map _) as [mo|]; [|done].
  destruct (mo =? 0)%Z; [done|].
  intros F. apply formatted_Some in F as [-> Hd].
  destruct (search_mentions long_date_re _ _ (fun g => g.2)
              (fun c a c' => match a with (x1, x2, x3) => long_date_re_In c x1 x2 x3 c' end)
              E) as [Hm Hy].
  by exists (PyStr.int g3), mo, (PyStr.int g2).
Qed.

(** What [strftime] writes for a year of this century starts with 20. *)
Lemma strftime_ymd_20 (y mo d : Z) :
  (2000 <= y <= 2099)%Z ->
  exists c3 c4 more,
    strftime_ymd (y, mo, d) = String "2" (String "0" (String c3 (String c4 more))).
Proof.
  intros Hy. unfold strftime_ymd. simpl PyStr.zero_padded.
  assert (y / 10 / 10 / 10 = 2)%Z as E3 by (Z.to_euclidean_division_equations; lia).
  assert (y / 10 / 10 = 20)%Z as E2 by (Z.to_euclidean_division_equations; lia).
  unfold PyStr.digit_char at 1 2. rewrite E3, E2.
  eexists _, _, _. rewrite !append_cons. reflexivity.
Qed.

(** ** From the first lines back to the text *)

Lemma starts_20xx_app_l (s x : string) :
  starts_20xx s = true -> starts_20xx (s +:+ x) = true.
Proof. destruct s as [|a [|b [|c3 [|c4 s]]]]; try done. Qed.

Lemma mentions_20xx_cons (a : ascii) (s : string) :
  mentions_20xx (String a s) = starts_20xx (String a s) || mentions_20xx s.
Proof. reflexivity. Qed.

Lemma mentions_20xx_app_l (s x : string) :
  mentions_20xx s = true -> mentions_20xx (s +:+ x) = true.
Proof.
  induction s as [|a s IH]; [done|].
  rewrite append_cons, !mentions_20xx_cons.
  intros [H|H]%orb_true_iff.
  - apply (starts_20xx_app_l _ x) in H. rewrite append_cons in H. by rewrite H.
  - rewrite (IH H). apply orb_true_r.
Qed.

(** A line feed is no part of a year, so a year in joined lines is in one
    of the lines. *)
Lemma starts_20xx_line (s r : string) :
  starts_20xx (s +:+ String LF r) = starts_20xx s.
Proof.
  destruct s as [|a [|b [|c3 [|c4 s]]]]; try done.
  - by destruct r as [|b [|c3 [|c4 r]]].
  - rewrite !append_cons. simpl. destruct r as [|c3 [|c4 r]]; simpl;
      by rewrite ?andb_false_r.
  - rewrite !append_cons. simpl. destruct r as [|c4 r]; simpl;
      by rewrite ?andb_false_r.
  - rewrite !append_cons. simpl. by rewrite ?andb_false_r.
Qed.

Lemma mentions_20xx_line (s r : string) :
  mentions_20xx (s +:+ String LF r) = mentions_20xx s || mentions_20xx r.
Proof.
  induction s as [|a s IH].
  - change (EmptyString +:+ String LF r) with (String LF r).
    rewrite mentions_20xx_cons. by destruct r as [|b [|c3 [|c4 r]]].
  - rewrite append_cons, !mentions_20xx_cons.
    rewrite <- append_cons, starts_20xx_line, IH. by rewrite orb_assoc.
Qed.

Lemma mentions_20xx_join (ls : list string) :
  mentions_20xx (PyStr.join (String LF EmptyString) ls) = true ->
  exists l, l ∈ ls /\ mentions_20xx l = true.
Proof.
  induction ls as [|p ls IH]; [done|].
  destruct ls as [|q ls].
  - simpl. intros H. exists p. split; [left|done].
  - change (PyStr.join (String LF EmptyString) (p :: q :: ls))
      with (p +:+ String LF EmptyString +:+ PyStr.join (String LF EmptyString) (q :: ls)).
    change (String LF EmptyString +:+ PyStr.join (String LF EmptyString) (q :: ls))
      with (String LF (PyStr.join (String LF EmptyString) (q :: ls))).
    rewrite mentions_20xx_line. intros [H|H]%orb_true_iff.
    + exists p. split; [left|done].
    + destruct (IH H) as (l & Hl & Hm). exists l. split; [by right|done].
Qed.

Lemma rev_onto_app (acc s : string) :
  PyStr.rev_onto acc s = PyStr.rev_onto acc EmptyString +:+ s.
Proof.
  revert s. induction acc as [|a acc IH]; intros s; simpl; [done|].
  rewrite (IH (String a s)), (IH (String a EmptyString)).
  by rewrite append_assoc.
Qed.

Lemma mentions_20xx_rev_onto_line (acc s : string) :
  mentions_20xx (PyStr.rev_onto acc EmptyString) = true ->
  mentions_20xx (PyStr.rev_onto acc s) = true.
Proof. rewrite (rev_onto_app acc s). apply mentions_20xx_app_l. Qed.

Lemma mentions_20xx_rev_onto_rest (acc s t : string) :
  (exists pre, s = pre +:+ t) -> mentions_20xx t = true ->
  mentions_20xx (PyStr.rev_onto acc s) = true.
Proof.
  intros [pre ->] H. rewrite rev_onto_app. by apply mentions_20xx_app, mentions_20xx_app.
Qed.

(** A year that stands in a line of the text stands in the text. *)
Lemma splitlines_go_mentions (n : nat) (acc s l : string) :
  String.length s <= n ->
  l ∈ PyStr.splitlines_go acc s -> mentions_20xx l = true ->
  mentions_20xx (PyStr.rev_onto acc s) = true.
Proof.
  revert acc s. induction n as [|n IH]; intros acc s Hlen Hl Hm.
  - destruct s; [|simpl in Hlen; lia]. simpl in Hl.
    destruct (PyStr.is_empty acc); [by apply elem_of_nil in Hl|].
    apply list_elem_of_singleton in Hl. by subst.
  - destruct s as [|c r].
    { simpl in Hl. destruct (PyStr.is_empty acc); [by apply elem_of_nil in Hl|].
      apply list_elem_of_singleton in Hl. by subst. }
    simpl in Hlen. simpl in Hl.
    assert (forall t, (exists pre, String c r = pre +:+ t) -> String.length t <= n ->
              l ∈ PyStr.rev_onto acc EmptyString :: PyStr.splitlines_go EmptyString t ->
              mentions_20xx (PyStr.rev_onto acc (String c r)) = true) as Hbreak.
    { intros t Ht Hlt [->|Hin]%elem_of_cons.
      - by apply mentions_20xx_rev_onto_line.
      - apply (mentions_20xx_rev_onto_rest _ _ t Ht).
        by apply (IH EmptyString t Hlt Hin). }
    destruct (PyStr.code c =? 13)%N.
    + destruct r as [|c' r'].
      * apply (Hbreak EmptyString); [by exists (String c EmptyString)|simpl; lia|done].
      * destruct (PyStr.code c' =? 10)%N.
        -- apply (Hbreak r'); [by exists (String c (String c' EmptyString))|simpl in *; lia|done].
        -- apply (Hbreak (String c' r')); [by exists (String c EmptyString)|simpl in *; lia|done].
    + destruct (PyStr.is_linebreak c).
      * apply (Hbreak r); [by exists (String c EmptyString)|lia|done].
      * apply (IH (String c acc) r); [lia|done|done].
Qed.

Lemma head_lines_mentions (body : string) :
  mentions_20xx (head_lines body) = true -> mentions_20xx body = true.
Proof.
  unfold head_lines. intros (l & Hl & Hm)%mentions_20xx_join.
  apply elem_of_take in Hl as (i & Hl & _).
  apply list_elem_of_lookup_2 in Hl.
  by apply (splitlines_go_mentions (String.length body) EmptyString body l).
Qed.

Lemma or_else_None (b : string) : or_else None b = b.
Proof. reflexivity. Qed.

(** ** The date of an entry *)

Lemma append_truthy_r (s t : string) :
  PyStr.truthy t = true -> PyStr.truthy (s +:+ t) = true.
Proof. by destruct s. Qed.

Lemma strftime_ymd_truthy (t : Z * Z * Z) : PyStr.truthy (strftime_ymd t) = true.
Proof.
  destruct t as [[y mo] d]. unfold strftime_ymd.
  do 4 apply append_truthy_r. simpl PyStr.zero_padded. by apply append_truthy_r.
Qed.

Lemma parse_date_from_filename_truthy (file_name s : string) :
  parse_date_from_filename file_name = Some s -> PyStr.truthy s = true.
Proof.
  intros (y & mo & d & -> & _)%parse_date_from_filename_Some. apply strftime_ymd_truthy.
Qed.

Lemma parse_date_from_text_truthy (body s : string) :
  parse_date_from_text body = Some s -> PyStr.truthy s = true.
Proof.
  intros (y & mo & d & -> & _)%parse_date_from_text_Some. apply strftime_ymd_truthy.
Qed.

Lemma build_article_date w p body wc date_guess meta a :
  build_article w p body wc date_guess meta = Ok a ->
  exists date_ai,
    date_ai_of meta = Ok date_ai
    /\ date a = (if PyStr.truthy date_guess then date_guess
                 else if PyStr.truthy date_ai then date_ai else EmptyString)
    /\ dateSource a = (if PyStr.truthy date_guess then "filename/text"
                       else if PyStr.truthy date_ai then "ai" else EmptyString).
Proof.
  unfold build_article. intros H.
  apply result_bind_Ok in H as (v_title & _ & H).
  apply result_bind_Ok in H as (title0 & _ & H).
  apply result_bind_Ok in H as (v_date & Hv & H).
  apply result_bind_Ok in H as (date_ai & Hd & H).
  apply result_bind_Ok in H as (v_summary & _ & H).
  apply result_bind_Ok in H as (summary1 & _ & H).
  apply result_bind_Ok in H as (v_topics & _ & H).
  injection H as <-. exists date_ai. split_and!; try done.
  unfold date_ai_of. by rewrite Hv.
Qed.

(** C8. For every document for which an entry is built: a date parsed
    from the file name is the date of the entry; failing that, a date
    parsed from the text is; in both cases the provenance is
    "filename/text". Failing both, the date is the one the service gave,
    trimmed, with provenance "ai" if it is not empty. The date of the
    entry is empty only when all three give nothing, and then the
    provenance is empty too. *)
Theorem deterministic_date_precedence w args p a :
  attempt_of w args p = Ok a ->
  exists meta date_ai,
    openai_infer w p (model args) (body_of w p) = Ok meta
    /\ date_ai_of meta = Ok date_ai
    /\ (forall s, parse_date_from_filename (name p) = Some s ->
          date a = s /\ dateSource a = "filename/text")
    /\ (forall s, parse_date_from_filename (name p) = None ->
          parse_date_from_text (body_of w p) = Some s ->
          date a = s /\ dateSource a = "filename/text")
    /\ (parse_date_from_filename (name p) = None ->
        parse_date_from_text (body_of w p) = None ->
        date a = date_ai
        /\ dateSource a = (if PyStr.truthy date_ai then "ai" else EmptyString))
    /\ (date a = EmptyString <->
        parse_date_from_filename (name p) = None
        /\ parse_date_from_text (body_of w p) = None
        /\ date_ai = EmptyString)
    /\ (date a = EmptyString -> dateSource a = EmptyString).
Proof.
  unfold attempt_of. intros (meta & Hmeta & Hb)%result_bind_Ok.
  apply build_article_date in Hb as (date_ai & Hai & Hdate & Hsrc).
  exists meta, date_ai. split; [done|]. split; [done|].
  unfold date_guess_of in Hdate, Hsrc.
  destruct (parse_date_from_filename (name p)) as [s1|] eqn:E1.
  - pose proof (parse_date_from_filename_truthy _ _ E1) as T1.
    simpl in Hdate, Hsrc. rewrite T1 in Hdate, Hsrc. rewrite T1 in Hdate, Hsrc.
    split_and!; try done.
    + by intros s [= <-].
    + split; [|by intros [? _]]. intros E. rewrite Hdate in E.
      rewrite E in T1. vm_compute in T1. discriminate.
    + intros E. rewrite Hdate in E. rewrite E in T1. vm_compute in T1. discriminate.
  - rewrite or_else_None in Hdate, Hsrc.
    destruct (parse_date_from_text (body_of w p)) as [s2|] eqn:E2.
    + pose proof (parse_date_from_text_truthy _ _ E2) as T2.
      simpl in Hdate, Hsrc. rewrite T2 in Hdate, Hsrc. rewrite T2 in Hdate, Hsrc.
      split_and!; try done.
      * by intros s _ [= <-].
      * split; [|by intros (_ & ? & _)]. intros E. rewrite Hdate in E.
        rewrite E in T2. vm_compute in T2. discriminate.
      * intros E. rewrite Hdate in E. rewrite E in T2. vm_compute in T2. discriminate.
    + simpl in Hdate, Hsrc.
      assert (date a = date_ai) as Hd.
      { rewrite Hdate. destruct (PyStr.truthy date_ai) eqn:T; [done|].
        symmetry. by apply truthy_false. }
      split_and!; try done.
      * split; [intros E; split_and!; congruence|]. intros (_ & _ & E). congruence.
      * intros E. rewrite Hsrc. rewrite <- Hd, E. done.
Qed.

Lemma deterministic_date_precedence_witness :
  attempt_of Sample.world (Sample.args true true) Sample.dated = Ok Sample.dated_entry
  /\ parse_date_from_filename (name Sample.dated) = Some "2024-03-01"
  /\ parse_date_from_text (body_of Sample.world Sample.dated) = Some "2024-01-15"
  /\ date Sample.dated_entry = "2024-03-01"
  /\ dateSource Sample.dated_entry = "filename/text".
Proof.
  assert (attempt_of Sample.world (Sample.args true true) Sample.dated
          = Ok Sample.dated_entry) as E by (vm_compute; reflexivity).
  destruct (deterministic_date_precedence Sample.world (Sample.args true true)
              Sample.dated Sample.dated_entry E) as (meta & date_ai & _ & _ & Hname & _).
  assert (parse_date_from_filename (name Sample.dated) = Some "2024-03-01") as Hn
    by (vm_compute; reflexivity).
  destruct (Hname _ Hn) as [Hd Hs].
  split_and!; [done|done|vm_compute; reflexivity|done|done].
Defined.

(** ** Reading the reply *)

Lemma or_empty_strip_readable (v : json) :
  readable v -> or_empty_strip v = Ok (text_of v).
Proof.
  unfold or_empty_strip. intros [Hf|[s ->]].
  - rewrite Hf. destruct v as [| | |s| |]; try done.
    simpl in Hf. apply negb_false_iff in Hf. by destruct s.
  - simpl. destruct (PyStr.truthy s) eqn:E; [done|].
    apply truthy_false in E. by subst.
Qed.

(** A title that is neither a string nor false makes the attempt raise. *)
Lemma or_empty_strip_raises (v : json) :
  json_truthy v = true -> (forall s, v <> JStr s) ->
  or_empty_strip v = attribute_error v "strip".
Proof.
  unfold or_empty_strip. intros -> Hs. destruct v; try done. by destruct (Hs s).
Qed.

Lemma truthy_non_string_title_raises w p body wc date_guess fields v :
  dict_get fields "title" = Some v ->
  json_truthy v = true -> (forall s, v <> JStr s) ->
  build_article w p body wc date_guess (JObj fields) = attribute_error v "strip".
Proof.
  intros Hg Ht Hs. unfold build_article. simpl. rewrite Hg. simpl.
  by rewrite (or_empty_strip_raises v Ht Hs).
Qed.

(** What holds of C4: when title, date and summary are absent, null,
    otherwise false, or strings, the entry is built with the fallbacks;
    topics that are not a list count as none, and strings among the
    topics are trimmed and kept when something remains. *)
Lemma reply_fallbacks w p body wc date_guess fields :
  let field k := default JNull (dict_get fields k) in
  readable (field "title") -> readable (field "date") -> readable (field "summary") ->
  exists a,
    build_article w p body wc date_guess (JObj fields) = Ok a
    /\ title a = (if PyStr.truthy (text_of (field "title"))
                  then text_of (field "title") else stem (name p))
    /\ date_ai_of (JObj fields) = Ok (text_of (field "date"))
    /\ summary a = text_of (field "summary")
    /\ topics a = clean_topics (items_of (field "topics")).
Proof.
  intros field Ht Hd Hs. unfold build_article, date_ai_of. simpl.
  fold (field "title") (field "date") (field "summary") (field "topics").
  rewrite !or_empty_strip_readable by done. simpl.
  eexists. split; [reflexivity|]. simpl. split_and!; try done.
  destruct (field "topics") as [|[]|z|s|[|x l]|[|x l]]; try done.
  - simpl. by destruct (negb (z =? 0)%Z).
  - simpl. by destruct (PyStr.truthy s).
Qed.

(** C4 fails on the code where the title is neither a string nor false.
    In the sample the service answers for [odd.docx] with the number 123
    as title: the attempt raises, the run records the error and writes no
    entry for the file, where the claim has the file stem as title. *)
Theorem non_string_title_fails_document :
  chat Sample.world Sample.odd "gpt-4o-mini"
    (prompt +:+ String LF (String LF ("ARTICLE:" +:+ String LF "Dear editor, thank you")))
  = Ok (JObj [("title", JNum 123); ("date", JStr EmptyString);
              ("summary", JStr "s"); ("topics", JArr [])])
  /\ attempt_of Sample.world (Sample.args true true) Sample.odd
     = Raise "'int' object has no attribute 'strip'"
  /\ main Sample.world (Sample.args true true) ∅ None = Finished Sample.first_run
  /\ filter (fun e => file e = "odd.docx") (Payload.errors (data_json Sample.first_run))
     = [{| file := "odd.docx"; error := "'int' object has no attribute 'strip'" |}]
  /\ entry_of "odd.docx" (Payload.articles (data_json Sample.first_run)) = None.
Proof. split_and!; vm_compute; reflexivity. Qed.

(** * Further properties of the article processor *)

(** ** Character classes *)

(** A fact about every character is settled by trying all 256. *)
Lemma ascii_forall (P : ascii -> bool) :
  forallb P (map ascii_of_nat (seq 0 256)) = true -> forall c, P c = true.
Proof.
  intros H c. rewrite forallb_forall in H. apply H.
  rewrite <- (ascii_nat_embedding c). apply in_map, in_seq.
  pose proof (nat_ascii_bounded c). lia.
Qed.

Lemma isspace_not_word (c : ascii) : PyStr.isspace c = true -> PyStr.isword c = false.
Proof.
  intros H.
  pose proof (ascii_forall (fun c => implb (PyStr.isspace c) (negb (PyStr.isword c)))) as Hall.
  specialize (Hall ltac:(vm_compute; reflexivity) c). simpl in Hall.
  rewrite H in Hall. simpl in Hall. by apply negb_true_iff.
Qed.

Lemma is_blank_isspace (c : ascii) : is_blank c = true -> PyStr.isspace c = true.
Proof.
  intros H.
  pose proof (ascii_forall (fun c => implb (is_blank c) (PyStr.isspace c))) as Hall.
  specialize (Hall ltac:(vm_compute; reflexivity) c). simpl in Hall.
  by rewrite H in Hall.
Qed.

Lemma is_blank_cases (c : ascii) : is_blank c = true -> c = " "%char \/ c = TAB.
Proof.
  unfold is_blank. intros [H|H]%orb_true_iff.
  - left. apply N.eqb_eq in H. unfold PyStr.code in H.
    rewrite <- (ascii_N_embedding c), H. reflexivity.
  - right. apply N.eqb_eq in H. unfold PyStr.code in H.
    rewrite <- (ascii_N_embedding c), H. reflexivity.
Qed.

Lemma code_eq (c : ascii) (n : N) :
  (n < 256)%N -> (PyStr.code c =? n)%N = true -> c = ascii_of_N n.
Proof.
  intros Hn H. apply N.eqb_eq in H. unfold PyStr.code in H.
  rewrite <- H. symmetry. apply ascii_N_embedding.
Qed.

(** ** Trimming *)

Lemma rstrip_idem (s : string) : PyStr.rstrip (PyStr.rstrip s) = PyStr.rstrip s.
Proof.
  induction s as [|c r IH]; [done|]. simpl.
  destruct (PyStr.isspace c && PyStr.is_empty (PyStr.rstrip r)) eqn:E; [done|].
  simpl. by rewrite IH, E.
Qed.

Lemma lstrip_head (s : string) :
  match PyStr.lstrip s with
  | EmptyString => True
  | String c _ => PyStr.isspace c = false
  end.
Proof.
  induction s as [|c r IH]; [done|]. simpl.
  destruct (PyStr.isspace c) eqn:E; [done|]. done.
Qed.

Lemma lstrip_fixed (s : string) :
  match s with EmptyString => True | String c _ => PyStr.isspace c = false end ->
  PyStr.lstrip s = s.
Proof. destruct s as [|c r]; [done|]. simpl. by intros ->. Qed.

Lemma rstrip_head (s : string) :
  match s with EmptyString => True | String c _ => PyStr.isspace c = false end ->
  match PyStr.rstrip s with EmptyString => True | String c _ => PyStr.isspace c = false end.
Proof.
  destruct s as [|c r]; [done|]. simpl. intros H. by rewrite H.
Qed.

Lemma strip_head (s : string) :
  match PyStr.strip s with EmptyString => True | String c _ => PyStr.isspace c = false end.
Proof. apply rstrip_head, lstrip_head. Qed.

Lemma strip_idem (s : string) : PyStr.strip (PyStr.strip s) = PyStr.strip s.
Proof.
  unfold PyStr.strip at 1. rewrite (lstrip_fixed _ (strip_head s)).
  unfold PyStr.strip. apply rstrip_idem.
Qed.

Lemma lstrip_length (s : string) : String.length (PyStr.lstrip s) <= String.length s.
Proof.
  induction s as [|c r IH]; [done|]. simpl.
  destruct (PyStr.isspace c); simpl; lia.
Qed.

Lemma rstrip_length (s : string) : String.length (PyStr.rstrip s) <= String.length s.
Proof.
  induction s as [|c r IH]; [done|]. simpl.
  destruct (PyStr.isspace c && _); simpl; lia.
Qed.

Lemma strip_length (s : string) : String.length (PyStr.strip s) <= String.length s.
Proof.
  unfold PyStr.strip. pose proof (rstrip_length (PyStr.lstrip s)).
  pose proof (lstrip_length s). lia.
Qed.

(** Shapes that trimming keeps. *)
Lemma all_chars_lstrip P s : all_chars P s = true -> all_chars P (PyStr.lstrip s) = true.
Proof.
  induction s as [|c r IH]; [done|]. simpl.
  intros [Hc Hr]%andb_true_iff. destruct (PyStr.isspace c); [by apply IH|].
  simpl. by rewrite Hc, Hr.
Qed.

Lemma all_chars_rstrip P s : all_chars P s = true -> all_chars P (PyStr.rstrip s) = true.
Proof.
  induction s as [|c r IH]; [done|]. simpl.
  intros [Hc Hr]%andb_true_iff. destruct (PyStr.isspace c && _); [done|].
  simpl. by rewrite Hc, IH.
Qed.

Lemma all_chars_strip P s : all_chars P s = true -> all_chars P (PyStr.strip s) = true.
Proof. intros H. by apply all_chars_rstrip, all_chars_lstrip. Qed.

Lemma no_double_weaken P b s : no_double P b s = true -> no_double P false s = true.
Proof.
  destruct s as [|c r]; [done|]. simpl. destruct (P c); [|done].
  by intros [_ ->]%andb_true_iff.
Qed.

Lemma no_double_tail P b c r :
  no_double P b (String c r) = true -> no_double P false r = true.
Proof.
  simpl. destruct (P c).
  - intros [_ H]%andb_true_iff. by apply no_double_weaken in H.
  - done.
Qed.

Lemma no_double_lstrip P s :
  no_double P false s = true -> no_double P false (PyStr.lstrip s) = true.
Proof.
  induction s as [|c r IH]; [done|]. intros H. simpl.
  destruct (PyStr.isspace c); [|done]. apply IH. by apply no_double_tail in H.
Qed.

Lemma no_double_rstrip P b s :
  no_double P b s = true -> no_double P b (PyStr.rstrip s) = true.
Proof.
  revert b. induction s as [|c r IH]; intros b; [done|]. simpl.
  destruct (PyStr.isspace c && _); [done|]. simpl.
  destruct (P c).
  - intros [-> H]%andb_true_iff. by rewrite IH.
  - apply IH.
Qed.

Lemma no_triple_lf_weaken n s : no_triple_lf n s = true -> no_triple_lf 0 s = true.
Proof.
  revert n. induction s as [|c r IH]; intros n; [done|]. simpl.
  destruct (PyStr.code c =? 10)%N; [|done].
  intros [Hn H]%andb_true_iff. simpl.
  destruct n as [|[|n]]; [done| |done].
  destruct r as [|c' r']; [done|]. simpl in *.
  destruct (PyStr.code c' =? 10)%N; [|done]. done.
Qed.

Lemma no_triple_lf_tail n c r :
  no_triple_lf n (String c r) = true -> no_triple_lf 0 r = true.
Proof.
  simpl. destruct (PyStr.code c =? 10)%N.
  - intros [_ H]%andb_true_iff. by apply no_triple_lf_weaken in H.
  - done.
Qed.

Lemma no_triple_lf_lstrip s :
  no_triple_lf 0 s = true -> no_triple_lf 0 (PyStr.lstrip s) = true.
Proof.
  induction s as [|c r IH]; [done|]. intros H. simpl.
  destruct (PyStr.isspace c); [|done]. apply IH. by apply no_triple_lf_tail in H.
Qed.

Lemma no_triple_lf_rstrip n s :
  no_triple_lf n s = true -> no_triple_lf n (PyStr.rstrip s) = true.
Proof.
  revert n. induction s as [|c r IH]; intros n; [done|]. simpl.
  destruct (PyStr.isspace c && _); [done|]. simpl.
  destruct (PyStr.code c =? 10)%N.
  - intros [-> H]%andb_true_iff. by rewrite IH.
  - apply IH.
Qed.

(** ** The passes of the normalisation *)

Lemma replace_crlf_fixed (s : string) : all_chars not_cr s = true -> replace_crlf s = s.
Proof.
  induction s as [|c r IH]; [done|]. simpl.
  intros [Hc Hr]%andb_true_iff. unfold not_cr in Hc. apply negb_true_iff in Hc.
  destruct r as [|c' r']; [done|]. rewrite Hc. simpl andb. cbv iota.
  by rewrite (IH Hr).
Qed.

Lemma replace_cr_fixed (s : string) : all_chars not_cr s = true -> replace_cr s = s.
Proof.
  induction s as [|c r IH]; [done|]. simpl.
  intros [Hc Hr]%andb_true_iff. unfold not_cr in Hc. apply negb_true_iff in Hc.
  by rewrite Hc, (IH Hr).
Qed.

Lemma replace_cr_not_cr (s : string) : all_chars not_cr (replace_cr s) = true.
Proof.
  induction s as [|c r IH]; [done|]. simpl. rewrite IH, andb_true_r.
  unfold not_cr. destruct (PyStr.code c =? 13)%N eqn:E; [done|]. by rewrite E.
Qed.

Lemma sub_blanks_all_chars (Q : ascii -> bool) b s :
  Q " "%char = true -> all_chars Q s = true -> all_chars Q (sub_blanks b s) = true.
Proof.
  intros HQ. revert b. induction s as [|c r IH]; intros b; [done|]. simpl.
  intros [Hc Hr]%andb_true_iff.
  destruct (is_blank c); [destruct b|]; simpl; rewrite ?HQ, ?Hc, ?IH; done.
Qed.

Lemma sub_blanks_not_tab b s : all_chars not_tab (sub_blanks b s) = true.
Proof.
  revert b. induction s as [|c r IH]; intros b; [done|]. simpl.
  destruct (is_blank c) eqn:E; [destruct b|]; simpl; rewrite ?IH; try done.
  rewrite andb_true_r. unfold not_tab, is_blank in *.
  apply orb_false_iff in E as [_ ->]. done.
Qed.

Lemma sub_blanks_no_double b s : no_double is_blank b (sub_blanks b s) = true.
Proof.
  revert b. induction s as [|c r IH]; intros b; [done|]. simpl.
  destruct (is_blank c) eqn:E; [destruct b|]; simpl; rewrite ?E, ?IH; done.
Qed.

Lemma sub_blanks_fixed b s :
  all_chars not_tab s = true -> no_double is_blank b s = true -> sub_blanks b s = s.
Proof.
  revert b. induction s as [|c r IH]; intros b; [done|]. simpl.
  intros [Hc Hr]%andb_true_iff. destruct (is_blank c) eqn:E.
  - intros [Hb Hd]%andb_true_iff. apply negb_true_iff in Hb. subst b.
    rewrite (IH true Hr Hd). f_equal.
    destruct (is_blank_cases c E) as [->| ->]; [done|]. discriminate Hc.
  - intros Hd. by rewrite (IH false Hr Hd).
Qed.

Lemma lf_not_blank (c : ascii) : (PyStr.code c =? 10)%N = true -> is_blank c = false.
Proof. intros H. by rewrite (code_eq c 10 eq_refl H). Qed.

Lemma sub_newlines_all_chars (Q : ascii -> bool) n s :
  all_chars Q s = true -> all_chars Q (sub_newlines n s) = true.
Proof.
  revert n. induction s as [|c r IH]; intros n; [done|]. simpl.
  intros [Hc Hr]%andb_true_iff.
  destruct (PyStr.code c =? 10)%N; [destruct (n <? 2)%nat|]; simpl; rewrite ?Hc, ?IH; done.
Qed.

Lemma sub_newlines_no_double b n s :
  (0 < n -> b = false) ->
  no_double is_blank b s = true -> no_double is_blank b (sub_newlines n s) = true.
Proof.
  revert b n. induction s as [|c r IH]; intros b n Hn; [done|]. simpl.
  destruct (PyStr.code c =? 10)%N eqn:E.
  - rewrite (lf_not_blank c E). intros H.
    destruct (n <? 2)%nat eqn:E2.
    + simpl. rewrite (lf_not_blank c E). apply IH; [done|done].
    + apply Nat.ltb_ge in E2. rewrite Hn by lia. apply IH; [done|done].
  - simpl. destruct (is_blank c).
    + intros [-> H]%andb_true_iff. simpl. apply IH; [lia|done].
    + apply IH. lia.
Qed.

Lemma sub_newlines_no_triple n s : no_triple_lf n (sub_newlines n s) = true.
Proof.
  revert n. induction s as [|c r IH]; intros n; [done|]. simpl.
  destruct (PyStr.code c =? 10)%N eqn:E; [destruct (n <? 2)%nat eqn:E2|];
    simpl; rewrite ?E, ?E2, ?IH; done.
Qed.

Lemma sub_newlines_fixed n s : no_triple_lf n s = true -> sub_newlines n s = s.
Proof.
  revert n. induction s as [|c r IH]; intros n; [done|]. simpl.
  destruct (PyStr.code c =? 10)%N.
  - intros [-> H]%andb_true_iff. by rewrite (IH _ H).
  - intros H. by rewrite (IH _ H).
Qed.

Lemma normalize_whitespace_facts (s : string) :
  let t := normalize_whitespace s in
  all_chars not_cr t = true
  /\ all_chars not_tab t = true
  /\ no_double is_blank false t = true
  /\ no_triple_lf 0 t = true
  /\ PyStr.strip t = t
  /\ match t with EmptyString => True | String c _ => PyStr.isspace c = false end.
Proof.
  unfold normalize_whitespace. split_and!.
  - apply all_chars_strip, sub_newlines_all_chars, sub_blanks_all_chars; [done|].
    apply replace_cr_not_cr.
  - apply all_chars_strip, sub_newlines_all_chars, sub_blanks_not_tab.
  - apply no_double_rstrip, no_double_lstrip, sub_newlines_no_double; [lia|].
    apply sub_blanks_no_double.
  - apply no_triple_lf_rstrip, no_triple_lf_lstrip, sub_newlines_no_triple.
  - apply strip_idem.
  - apply strip_head.
Qed.

(** X1. The text that [normalize_whitespace] returns has no carriage
    return and no tab, no two blanks in a row, no three line feeds in a
    row, and neither starts nor ends with white space. *)
Theorem normalize_whitespace_shape (s : string) :
  let t := normalize_whitespace s in
  all_chars not_cr t = true
  /\ all_chars not_tab t = true
  /\ no_double is_blank false t = true
  /\ no_triple_lf 0 t = true
  /\ PyStr.strip t = t
  /\ match t with EmptyString => True | String c _ => PyStr.isspace c = false end.
Proof. apply normalize_whitespace_facts. Qed.

Lemma normalize_whitespace_fixed (s : string) :
  normalize_whitespace (normalize_whitespace s) = normalize_whitespace s.
Proof.
  destruct (normalize_whitespace_facts s) as (H1 & H2 & H3 & H4 & H5 & _).
  set (t := normalize_whitespace s) in *.
  unfold normalize_whitespace at 1.
  by rewrite (replace_crlf_fixed t H1), (replace_cr_fixed t H1),
    (sub_blanks_fixed false t H2 H3), (sub_newlines_fixed 0 t H4).
Qed.

(** X2. Normalising twice is the same as normalising once; so is
    normalising a text that is already free of carriage returns, tabs,
    doubled blanks, tripled line feeds and outer white space. *)
Theorem normalize_whitespace_idempotent (s : string) :
  normalize_whitespace (normalize_whitespace s) = normalize_whitespace s
  /\ (all_chars not_cr s = true -> all_chars not_tab s = true ->
      no_double is_blank false s = true -> no_triple_lf 0 s = true ->
      PyStr.strip s = s -> normalize_whitespace s = s).
Proof.
  split; [apply normalize_whitespace_fixed|].
  intros H1 H2 H3 H4 H5. unfold normalize_whitespace.
  by rewrite (replace_crlf_fixed s H1), (replace_cr_fixed s H1),
    (sub_blanks_fixed false s H2 H3), (sub_newlines_fixed 0 s H4).
Qed.

Lemma normalize_whitespace_idempotent_witness :
  normalize_whitespace ("Dear editor," +:+ String LF "thank you")
  = "Dear editor," +:+ String LF "thank you".
Proof.
  apply (proj2 (normalize_whitespace_idempotent
                  ("Dear editor," +:+ String LF "thank you"))); reflexivity.
Defined.

(** ** Counting words *)

Lemma code_not_word (c : ascii) (n : N) :
  (n < 256)%N -> PyStr.isword (ascii_of_N n) = false ->
  (PyStr.code c =? n)%N = true -> PyStr.isword c = false.
Proof. intros Hn Hw H. by rewrite (code_eq c n Hn H). Qed.

Lemma count_words_skip b c r :
  PyStr.isword c = false -> count_words b (String c r) = count_words false r.
Proof. simpl. by intros ->. Qed.

Lemma count_words_cons b c r :
  count_words b (String c r)
  = if PyStr.isword c
    then (if b then count_words true r else S (count_words true r))
    else count_words false r.
Proof. done. Qed.

Lemma count_words_replace_crlf_le (n : nat) b s :
  String.length s <= n -> count_words b (replace_crlf s) = count_words b s.
Proof.
  revert b s. induction n as [|n IH]; intros b s Hn.
  - destruct s; [done|]. simpl in Hn. lia.
  - destruct s as [|c [|c' r']]; [done|done|].
    simpl in Hn. simpl replace_crlf.
    destruct ((PyStr.code c =? 13)%N && (PyStr.code c' =? 10)%N) eqn:E.
    + apply andb_true_iff in E as [E1 E2].
      rewrite (count_words_skip b c) by by apply (code_not_word c 13).
      rewrite (count_words_skip false c') by by apply (code_not_word c' 10).
      rewrite (count_words_skip b LF) by done.
      apply IH. lia.
    + change (count_words b (String c (replace_crlf (String c' r')))
              = count_words b (String c (String c' r'))).
      rewrite !(count_words_cons b c).
      by rewrite !(IH _ (String c' r')) by (simpl; lia).
Qed.

Lemma count_words_replace_crlf b s : count_words b (replace_crlf s) = count_words b s.
Proof. by apply (count_words_replace_crlf_le (String.length s)). Qed.

Lemma count_words_replace_cr b s : count_words b (replace_cr s) = count_words b s.
Proof.
  revert b. induction s as [|c r IH]; intros b; [done|]. simpl.
  destruct (PyStr.code c =? 13)%N eqn:E; [|by rewrite !IH].
  rewrite (code_not_word c 13 eq_refl eq_refl E).
  change (PyStr.isword LF) with false. cbv iota. apply IH.
Qed.

Lemma is_blank_not_word (c : ascii) : is_blank c = true -> PyStr.isword c = false.
Proof. intros H. by apply isspace_not_word, is_blank_isspace. Qed.

Lemma count_words_sub_blanks b in_run s :
  (in_run = true -> b = false) ->
  count_words b (sub_blanks in_run s) = count_words b s.
Proof.
  revert b in_run. induction s as [|c r IH]; intros b in_run Hb; [done|].
  simpl sub_blanks. destruct (is_blank c) eqn:E.
  - rewrite (count_words_skip b c) by by apply is_blank_not_word.
    destruct in_run.
    + rewrite Hb by done. by apply IH.
    + rewrite (count_words_skip b " ") by done. by apply IH.
  - simpl. rewrite !IH by done. done.
Qed.

Lemma count_words_sub_newlines b n s :
  (0 < n -> b = false) ->
  count_words b (sub_newlines n s) = count_words b s.
Proof.
  revert b n. induction s as [|c r IH]; intros b n Hb; [done|].
  simpl sub_newlines. destruct (PyStr.code c =? 10)%N eqn:E.
  - pose proof (code_not_word c 10 eq_refl eq_refl E) as Hw.
    rewrite (count_words_skip b c) by done.
    destruct (n <? 2)%nat eqn:E2.
    + rewrite (count_words_skip b c) by done. apply IH. by intros _.
    + apply Nat.ltb_ge in E2. rewrite Hb by lia. apply IH. by intros _.
  - simpl. rewrite !IH by lia. done.
Qed.

Lemma count_words_lstrip s : count_words false (PyStr.lstrip s) = count_words false s.
Proof.
  induction s as [|c r IH]; [done|]. simpl PyStr.lstrip.
  destruct (PyStr.isspace c) eqn:E; [|done].
  by rewrite (count_words_skip false c) by by apply isspace_not_word.
Qed.

Lemma count_words_rstrip b s : count_words b (PyStr.rstrip s) = count_words b s.
Proof.
  revert b. induction s as [|c r IH]; intros b; [done|]. simpl PyStr.rstrip.
  destruct (PyStr.isspace c && PyStr.is_empty (PyStr.rstrip r)) eqn:E.
  - apply andb_true_iff in E as [E1 E2].
    rewrite (count_words_skip b c) by by apply isspace_not_word.
    rewrite <- IH. destruct (PyStr.rstrip r); [done|discriminate].
  - simpl. by rewrite !IH.
Qed.

Lemma count_words_zero s :
  count_words false s = 0 <-> all_chars not_word s = true.
Proof.
  induction s as [|c r IH]; [done|]. simpl. unfold not_word at 1.
  destruct (PyStr.isword c); simpl; [split; discriminate|done].
Qed.

Lemma word_count_normalize (s : string) :
  word_count (normalize_whitespace s) = word_count s.
Proof.
  unfold word_count, normalize_whitespace, PyStr.strip.
  rewrite count_words_rstrip, count_words_lstrip, count_words_sub_newlines by lia.
  rewrite count_words_sub_blanks by done.
  by rewrite count_words_replace_cr, count_words_replace_crlf.
Qed.

(** X3. Normalisation does not change the number of words: the word count
    stored with an entry is the word count of the text as it was
    extracted. *)
Theorem normalisation_keeps_word_count :
  (forall s, word_count (normalize_whitespace s) = word_count s)
  /\ (forall w p, word_count (body_of w p) = word_count (extract w p).1).
Proof.
  split; [apply word_count_normalize|]. intros w p. apply word_count_normalize.
Qed.

(** X4. A text has no word exactly when none of its characters is a
    letter, a digit or an underscore; so a document is passed over as
    content-free exactly when the text that extraction gave has no such
    character, however much punctuation or white space it has. *)
Theorem content_free_iff_no_word_character :
  (forall s, word_count s = 0 <-> all_chars not_word s = true)
  /\ (forall w p,
        word_count (body_of w p) = 0 <-> all_chars not_word (extract w p).1 = true).
Proof.
  split; [apply count_words_zero|].
  intros w p. unfold body_of. rewrite word_count_normalize. apply count_words_zero.
Qed.

Lemma content_free_iff_no_word_character_witness :
  word_count ("  -- ... --" +:+ String LF " ") = 0.
Proof.
  apply (proj1 content_free_iff_no_word_character). reflexivity.
Defined.

(** ** The loop as a map over the folder *)

Section Verdicts.
Context (w : World) (args : Args).

#[local] Abbreviation step := (process_document w args).

Lemma verdict_gate state p :
  verdict w args state p = Unchanged <-> ~ gate_open args state p.
Proof.
  unfold verdict, gate_open. destruct (resume args && _); [by split|].
  destruct (_ =? _)%nat; [by split; [|intros []]|].
  destruct (attempt_of w args p); by split; [|intros []].
Qed.

Lemma verdict_ext state state' p :
  state !! name p = state' !! name p ->
  verdict w args state p = verdict w args state' p.
Proof. unfold verdict. by intros ->. Qed.

Lemma verdict_Built state p a :
  verdict w args state p = Built a <->
  gate_open args state p /\ word_count (body_of w p) <> 0 /\ attempt_of w args p = Ok a.
Proof.
  unfold verdict, gate_open. destruct (resume args && _).
  { split; [done|]. by intros [? _]. }
  destruct (Nat.eqb_spec (word_count (body_of w p)) 0) as [E|E].
  { split; [done|]. by intros (_ & ? & _). }
  destruct (attempt_of w args p) as [b|msg].
  - split; [by intros [= ->]|]. by intros (_ & _ & [= ->]).
  - split; [done|]. by intros (_ & _ & ?).
Qed.

Lemma verdict_Failed state p msg :
  verdict w args state p = Failed msg <->
  gate_open args state p /\ word_count (body_of w p) <> 0
  /\ attempt_of w args p = Raise msg.
Proof.
  unfold verdict, gate_open. destruct (resume args && _).
  { split; [done|]. by intros [? _]. }
  destruct (Nat.eqb_spec (word_count (body_of w p)) 0) as [E|E].
  { split; [done|]. by intros (_ & ? & _). }
  destruct (attempt_of w args p) as [b|msg'].
  - split; [done|]. by intros (_ & _ & ?).
  - split; [by intros [= ->]|]. by intros (_ & _ & [= ->]).
Qed.

Lemma verdict_NoWords state p :
  verdict w args state p = NoWords <->
  gate_open args state p /\ word_count (body_of w p) = 0.
Proof.
  unfold verdict, gate_open. destruct (resume args && _).
  { split; [done|]. by intros [? _]. }
  destruct (Nat.eqb_spec (word_count (body_of w p)) 0) as [E|E]; [done|].
  destruct (attempt_of w args p); (split; [done|]); by intros [_ ?].
Qed.

Lemma built_Some state p a :
  built w args state p = Some a <-> verdict w args state p = Built a.
Proof.
  unfold built. destruct (verdict w args state p); split; try done.
  - by intros [= ->].
  - by intros [= ->].
Qed.

Lemma built_source state p a :
  built w args state p = Some a -> sourceFile a = Some (name p).
Proof.
  intros (_ & _ & H)%built_Some%verdict_Built. by apply attempt_of_fields in H as [? _].
Qed.

(** The body of the loop, by the way the document takes. *)
Lemma process_document_verdict v p :
  let s := Loop.state v in
  step v p
  = match verdict w args s p with
    | Unchanged => v
    | _ =>
        {| Loop.state := <[name p := fingerprint p]> s;
           Loop.articles := fold_left put (option_list (built w args s p)) (Loop.articles v);
           Loop.errors := Loop.errors v ++ option_list (failed w args s p);
           Loop.processed := Loop.processed v + length (option_list (built w args s p));
           Loop.updated := Loop.updated v + length (option_list (built w args s p));
           Loop.missing_date_rows :=
             Loop.missing_date_rows v
             ++ omap missing_row (option_list (built w args s p));
           Loop.calls := Loop.calls v ++ calls_for w args s p |}
    end.
Proof.
  simpl.
  destruct (process_document_cases w args v p)
    as [[Hg ->]|[(Hg & Hwc & ->)|[(msg & Hg & Hwc & Hat & ->)|(a & Hg & Hwc & Hat & ->)]]].
  - apply verdict_gate in Hg. by rewrite Hg.
  - assert (verdict w args (Loop.state v) p = NoWords) as E by by apply verdict_NoWords.
    unfold built, failed, calls_for. rewrite E. simpl.
    by rewrite !app_nil_r, !Nat.add_0_r.
  - assert (verdict w args (Loop.state v) p = Failed msg) as E by by apply verdict_Failed.
    unfold built, failed, calls_for. rewrite E. simpl.
    by rewrite !app_nil_r, !Nat.add_0_r.
  - assert (verdict w args (Loop.state v) p = Built a) as E by by apply verdict_Built.
    unfold built, failed, calls_for. rewrite E. simpl.
    apply attempt_of_fields in Hat as [Hs _].
    unfold put, missing_row. rewrite Hs. simpl.
    rewrite !Nat.add_1_r.
    destruct (PyStr.truthy (date a)); by rewrite !app_nil_r.
Qed.

Lemma step_state v p n :
  Loop.state (step v p) !! n
  = if decide (n = name p /\ gate_open args (Loop.state v) p)
    then Some (fingerprint p) else Loop.state v !! n.
Proof.
  rewrite process_document_verdict. simpl.
  destruct (decide (n = name p /\ _)) as [[-> Hg]|Hn].
  - destruct (verdict w args (Loop.state v) p) eqn:E; simpl;
      try by rewrite lookup_insert_eq.
    by apply verdict_gate in E.
  - destruct (verdict w args (Loop.state v) p) eqn:E; [done|..]; simpl.
    all: assert (gate_open args (Loop.state v) p) as Hg
      by (destruct (decide (gate_open args (Loop.state v) p)) as [|Hg];
          [done|apply verdict_gate in Hg; congruence]).
    all: rewrite lookup_insert_ne; [done|]; intros <-; by apply Hn.
Qed.

Lemma verdicts_after_step v p (docs : list SourceDocument) :
  name p ∉ name <$> docs ->
  Forall (fun d => verdict w args (Loop.state (step v p)) d
                   = verdict w args (Loop.state v) d) docs.
Proof.
  intros Hp. apply Forall_forall. intros d Hd. apply verdict_ext.
  apply step_state_other. intros E. apply Hp. rewrite <- E.
  by apply list_elem_of_fmap_2.
Qed.

Lemma omap_verdicts {B} (f : Verdict -> SourceDocument -> option B) s s'
    (docs : list SourceDocument) :
  Forall (fun d => verdict w args s' d = verdict w args s d) docs ->
  omap (fun d => f (verdict w args s' d) d) docs
  = omap (fun d => f (verdict w args s d) d) docs.
Proof.
  induction 1 as [|d docs Hd _ IH]; [done|]. by rewrite !omap_cons, Hd, IH.
Qed.

Lemma built_verdicts s s' (docs : list SourceDocument) :
  Forall (fun d => verdict w args s' d = verdict w args s d) docs ->
  omap (built w args s') docs = omap (built w args s) docs.
Proof.
  apply (omap_verdicts (fun x _ => match x with Built a => Some a | _ => None end)).
Qed.

Lemma failed_verdicts s s' (docs : list SourceDocument) :
  Forall (fun d => verdict w args s' d = verdict w args s d) docs ->
  omap (failed w args s') docs = omap (failed w args s) docs.
Proof.
  apply (omap_verdicts
           (fun x d => match x with
                       | Failed msg => Some {| file := name d; error := msg |}
                       | _ => None
                       end)).
Qed.

Lemma calls_verdicts s s' (docs : list SourceDocument) :
  Forall (fun d => verdict w args s' d = verdict w args s d) docs ->
  docs ≫= calls_for w args s' = docs ≫= calls_for w args s.
Proof.
  induction 1 as [|d docs Hd _ IH]; [done|].
  rewrite !bind_cons, IH. unfold calls_for. by rewrite Hd.
Qed.

Lemma omap_option_list {A B} (f : A -> option B) (x : option A) (l : list A) :
  omap f (option_list x ++ l) = option_list (x ≫= f) ++ omap f l.
Proof. destruct x as [a|]; simpl; [|done]. by destruct (f a). Qed.

Lemma omap_cons_option_list {A B} (f : A -> option B) (x : A) (l : list A) :
  omap f (x :: l) = option_list (f x) ++ omap f l.
Proof. rewrite omap_cons. by destruct (f x). Qed.

(** What the loop has done when it ends, file by file. *)
Lemma loop_as_map (docs : list SourceDocument) v :
  NoDup (name <$> docs) ->
  let s := Loop.state v in
  let v' := fold_left step docs v in
  Loop.errors v' = Loop.errors v ++ omap (failed w args s) docs
  /\ Loop.calls v' = Loop.calls v ++ (docs ≫= calls_for w args s)
  /\ Loop.updated v' = Loop.updated v + length (omap (built w args s) docs)
  /\ Loop.processed v' = Loop.processed v + length (omap (built w args s) docs)
  /\ Loop.missing_date_rows v'
     = Loop.missing_date_rows v ++ omap missing_row (omap (built w args s) docs)
  /\ Loop.articles v' = fold_left put (omap (built w args s) docs) (Loop.articles v).
Proof.
  revert v. induction docs as [|p docs IH]; intros v Hnd; cbv zeta.
  { simpl. by rewrite !app_nil_r, !Nat.add_0_r. }
  rewrite fmap_cons in Hnd. apply NoDup_cons in Hnd as [Hp Hnd].
  change (fold_left step (p :: docs) v) with (fold_left step docs (step v p)).
  rewrite bind_cons.
  destruct (IH (step v p) Hnd) as (H1 & H2 & H3 & H4 & H5 & H6).
  pose proof (verdicts_after_step v p docs Hp) as Hv.
  rewrite (failed_verdicts _ _ _ Hv) in H1.
  rewrite (calls_verdicts _ _ _ Hv) in H2.
  rewrite (built_verdicts _ _ _ Hv) in H3, H4, H5, H6.
  rewrite H1, H2, H3, H4, H5, H6. clear H1 H2 H3 H4 H5 H6 IH.
  rewrite !omap_cons_option_list, !omap_app, !length_app, fold_left_app.
  rewrite process_document_verdict. simpl.
  destruct (verdict w args (Loop.state v) p) eqn:E.
  - unfold built, failed, calls_for. rewrite E. simpl. done.
  - simpl. rewrite <- !app_assoc. split_and!; try done; lia.
  - simpl. rewrite <- !app_assoc. split_and!; try done; lia.
  - simpl. rewrite <- !app_assoc. split_and!; try done; lia.
Qed.

(** The fingerprints on record when the loop ends. *)
Lemma loop_state (docs : list SourceDocument) v d :
  NoDup (name <$> docs) -> d ∈ docs ->
  Loop.state (fold_left step docs v) !! name d
  = if decide (gate_open args (Loop.state v) d) then Some (fingerprint d)
    else Loop.state v !! name d.
Proof.
  intros Hnd Hd.
  destruct (loop_at_document w args docs v d Hnd Hd)
    as (v1 & Hs & _ & _ & _ & Hs' & _).
  rewrite Hs', step_state, <- Hs.
  assert (gate_open args (Loop.state v1) d <-> gate_open args (Loop.state v) d) as Hiff
    by (unfold gate_open; by rewrite Hs).
  destruct (decide (gate_open args (Loop.state v) d)) as [Hg|Hg].
  - rewrite decide_True; [done|]. split; [done|]. by apply Hiff.
  - rewrite decide_False; [done|]. intros [_ ?]. by apply Hg, Hiff.
Qed.

End Verdicts.

(** ** A run, file by file *)

Lemma names_inj (docs : list SourceDocument) (d d' : SourceDocument) :
  NoDup (name <$> docs) -> d ∈ docs -> d' ∈ docs -> name d = name d' -> d = d'.
Proof.
  induction docs as [|p docs IH]; intros Hnd Hd Hd' E.
  - by apply elem_of_nil in Hd.
  - rewrite fmap_cons in Hnd. apply NoDup_cons in Hnd as [Hp Hnd].
    apply elem_of_cons in Hd as [->|Hd], Hd' as [->|Hd']; [done| | |by apply IH].
    + exfalso. apply Hp. rewrite E. by apply list_elem_of_fmap_2.
    + exfalso. apply Hp. rewrite <- E. by apply list_elem_of_fmap_2.
Qed.

Lemma main_run w args state prior docs out :
  folder w = Some docs -> main w args state prior = Finished out ->
  out = finish w (run_loop w args docs state prior).
Proof.
  intros Hf (docs' & Hf' & _ & ->)%main_finished_inv. congruence.
Qed.

Lemma failed_Some w args state d e :
  failed w args state d = Some e <->
  file e = name d /\ gate_open args state d /\ word_count (body_of w d) <> 0
  /\ attempt_of w args d = Raise (error e).
Proof.
  rewrite <- verdict_Failed. unfold failed.
  destruct (verdict w args state d) as [| |msg|a]; split; try done;
    try (by intros [_ ?]).
  - by intros [= <-].
  - intros [Hf [= ->]]. destruct e; simpl in *; by subst.
Qed.

Lemma failed_files_NoDup w args state (docs : list SourceDocument) :
  NoDup (name <$> docs) -> NoDup (file <$> omap (failed w args state) docs).
Proof.
  induction docs as [|p docs IH]; intros Hnd; [constructor|].
  rewrite fmap_cons in Hnd. apply NoDup_cons in Hnd as [Hp Hnd].
  rewrite omap_cons. destruct (failed w args state p) as [e|] eqn:E; [|by apply IH].
  rewrite fmap_cons. apply NoDup_cons. split; [|by apply IH].
  intros (e' & He' & (d & Hd & Hfd)%list_elem_of_omap)%list_elem_of_fmap.
  apply failed_Some in E as [E _], Hfd as [Hfd _].
  apply Hp. rewrite <- E, He', Hfd. by apply list_elem_of_fmap_2.
Qed.

(** X5. The error list of a run is written afresh: it holds, in the order
    of the folder, one record for each file that passed the fingerprint
    gate, had words, and whose inference or reply reading raised, with the
    message of that exception; nothing of an earlier error list is kept. *)
Theorem errors_of_a_run w args state prior docs out :
  folder w = Some docs -> NoDup (name <$> docs) ->
  main w args state prior = Finished out ->
  Payload.errors (data_json out) = omap (failed w args state) docs
  /\ (forall e, e ∈ Payload.errors (data_json out) <->
        exists d, d ∈ docs /\ file e = name d /\ gate_open args state d
                  /\ word_count (body_of w d) <> 0
                  /\ attempt_of w args d = Raise (error e))
  /\ NoDup (file <$> Payload.errors (data_json out)).
Proof.
  intros Hf Hnd Hm. rewrite (main_run _ _ _ _ _ _ Hf Hm). simpl.
  destruct (loop_as_map w args docs
              (loop_start state (after_prune args docs (carried_forward args prior))) Hnd)
    as (He & _).
  simpl in He. unfold run_loop. rewrite He. split_and!; [done| |].
  - intros e. rewrite list_elem_of_omap. by setoid_rewrite failed_Some.
  - by apply failed_files_NoDup.
Qed.

Lemma errors_of_a_run_witness :
  Payload.errors (data_json Sample.first_run)
  = omap (failed Sample.world (Sample.args true true) ∅) Sample.files
  /\ length (Payload.errors (data_json Sample.first_run)) = 2.
Proof.
  split; [|reflexivity].
  apply (errors_of_a_run Sample.world (Sample.args true true) ∅ None Sample.files
           Sample.first_run); [reflexivity|by_evaluation|reflexivity].
Defined.

(** ** The calls of a run *)

Lemma extract_calls_elem w p c :
  c ∈ (extract w p).2 <->
  c = CallPandoc (name p)
  \/ (c = CallDocx (name p) /\ PyStr.truthy (run_pandoc_extract w p) = false).
Proof.
  unfold extract. destruct (PyStr.truthy (run_pandoc_extract w p)); simpl;
    rewrite ?elem_of_cons, ?elem_of_nil; intuition congruence.
Qed.

Lemma extract_calls_NoDup w p : NoDup (extract w p).2.
Proof.
  unfold extract. destruct (PyStr.truthy (run_pandoc_extract w p)); simpl;
    repeat (apply NoDup_cons; split;
            [rewrite ?elem_of_cons, ?elem_of_nil; intuition congruence|]);
    apply NoDup_nil_2.
Qed.

Lemma extract_calls_not_infer w p :
  filter (fun c => is_infer c = true) (extract w p).2 = [].
Proof.
  apply filter_none. intros c [->|[-> _]]%extract_calls_elem; simpl; congruence.
Qed.

Lemma calls_for_elem w args s p c :
  c ∈ calls_for w args s p <->
  gate_open args s p
  /\ (c = CallPandoc (name p)
      \/ (c = CallDocx (name p) /\ PyStr.truthy (run_pandoc_extract w p) = false)
      \/ (c = CallInfer (name p) /\ word_count (body_of w p) <> 0)).
Proof.
  unfold calls_for. destruct (verdict w args s p) as [| |msg|a] eqn:E.
  - apply verdict_gate in E. rewrite elem_of_nil. tauto.
  - apply verdict_NoWords in E as [Hg Hwc]. rewrite extract_calls_elem. tauto.
  - apply verdict_Failed in E as (Hg & Hwc & _).
    rewrite elem_of_app, extract_calls_elem, list_elem_of_singleton. tauto.
  - apply verdict_Built in E as (Hg & Hwc & _).
    rewrite elem_of_app, extract_calls_elem, list_elem_of_singleton. tauto.
Qed.

Lemma calls_for_file w args s p c : c ∈ calls_for w args s p -> call_file c = name p.
Proof. intros [_ [->|[[-> _]|[-> _]]]]%calls_for_elem; done. Qed.

Lemma calls_for_NoDup w args s p : NoDup (calls_for w args s p).
Proof.
  unfold calls_for.
  assert (NoDup ((extract w p).2 ++ [CallInfer (name p)])) as H.
  { apply NoDup_app. split_and!; [apply extract_calls_NoDup| |apply NoDup_singleton].
    intros c [->|[-> _]]%extract_calls_elem; rewrite list_elem_of_singleton; congruence. }
  destruct (verdict w args s p); [apply NoDup_nil_2|apply extract_calls_NoDup|done..].
Qed.

Lemma calls_for_infer_count w args s p :
  length (filter (fun c => is_infer c = true) (calls_for w args s p))
  = length (option_list (built w args s p)) + length (option_list (failed w args s p)).
Proof.
  unfold calls_for, built, failed.
  destruct (verdict w args s p); rewrite ?filter_app, ?extract_calls_not_infer; done.
Qed.

Lemma calls_of_file w args s (docs : list SourceDocument) d c :
  NoDup (name <$> docs) -> d ∈ docs ->
  (c ∈ docs ≫= calls_for w args s /\ call_file c = name d) <-> c ∈ calls_for w args s d.
Proof.
  intros Hnd Hd. rewrite list_elem_of_bind. split.
  - intros [(d' & Hc & Hd') E].
    rewrite (names_inj docs d d' Hnd Hd Hd'); [done|].
    by rewrite <- E, (calls_for_file _ _ _ _ _ Hc).
  - intros Hc. split; [by exists d|by apply calls_for_file in Hc].
Qed.

Lemma calls_NoDup w args s (docs : list SourceDocument) :
  NoDup (name <$> docs) -> NoDup (docs ≫= calls_for w args s).
Proof.
  induction docs as [|p docs IH]; intros Hnd; [apply NoDup_nil_2|].
  rewrite fmap_cons in Hnd. apply NoDup_cons in Hnd as [Hp Hnd].
  rewrite bind_cons. apply NoDup_app. split_and!; [apply calls_for_NoDup| |by apply IH].
  intros c Hc (d & Hc' & Hd)%list_elem_of_bind.
  apply calls_for_file in Hc, Hc'. apply Hp. rewrite <- Hc, Hc'.
  by apply list_elem_of_fmap_2.
Qed.

Lemma calls_infer_count w args s (docs : list SourceDocument) :
  length (filter (fun c => is_infer c = true) (docs ≫= calls_for w args s))
  = length (omap (built w args s) docs) + length (omap (failed w args s) docs).
Proof.
  induction docs as [|p docs IH]; [done|].
  rewrite bind_cons, filter_app, length_app, calls_for_infer_count, IH.
  rewrite !omap_cons_option_list, !length_app. lia.
Qed.

(** X6. The calls that a run makes to the outside: only for files of the
    folder that pass the fingerprint gate, and for each of them pandoc
    once, the python-docx fallback once and only when pandoc gave no
    text, and the inference service once and only when the text has a
    word. No call is made twice, and the number of inference calls is
    the number of entries written plus the number of errors recorded. *)
Theorem external_calls_of_a_run w args state prior docs out :
  folder w = Some docs -> NoDup (name <$> docs) ->
  main w args state prior = Finished out ->
  external_calls out = docs ≫= calls_for w args state
  /\ NoDup (external_calls out)
  /\ (forall c, c ∈ external_calls out ->
        exists d, d ∈ docs /\ call_file c = name d /\ gate_open args state d)
  /\ (forall d, d ∈ docs ->
        (CallPandoc (name d) ∈ external_calls out <-> gate_open args state d)
        /\ (CallDocx (name d) ∈ external_calls out <->
            gate_open args state d /\ PyStr.truthy (run_pandoc_extract w d) = false)
        /\ (CallInfer (name d) ∈ external_calls out <->
            gate_open args state d /\ word_count (body_of w d) <> 0))
  /\ length (filter (fun c => is_infer c = true) (external_calls out))
     = summary_updated out + length (Payload.errors (data_json out)).
Proof.
  intros Hf Hnd Hm. rewrite (main_run _ _ _ _ _ _ Hf Hm). simpl.
  destruct (loop_as_map w args docs
              (loop_start state (after_prune args docs (carried_forward args prior))) Hnd)
    as (He & Hc & Hu & _).
  simpl in He, Hc, Hu. unfold run_loop. rewrite He, Hc, Hu. clear He Hc Hu.
  split_and!; [done|by apply calls_NoDup| | |apply calls_infer_count].
  - intros c (d & Hc & Hd)%list_elem_of_bind. exists d.
    split_and!; [done|by apply calls_for_file in Hc|by apply calls_for_elem in Hc as [? _]].
  - intros d Hd.
    pose proof (fun c => calls_of_file w args state docs d c Hnd Hd) as Hiff.
    split_and!.
    + transitivity (CallPandoc (name d) ∈ calls_for w args state d);
        [rewrite <- Hiff; tauto|rewrite calls_for_elem; intuition congruence].
    + transitivity (CallDocx (name d) ∈ calls_for w args state d);
        [rewrite <- Hiff; tauto|rewrite calls_for_elem; intuition congruence].
    + transitivity (CallInfer (name d) ∈ calls_for w args state d);
        [rewrite <- Hiff; tauto|rewrite calls_for_elem; intuition congruence].
Qed.

Lemma external_calls_of_a_run_witness :
  NoDup (external_calls Sample.first_run)
  /\ (CallInfer "scan.docx" ∉ external_calls Sample.first_run)
  /\ length (filter (fun c => is_infer c = true) (external_calls Sample.first_run)) = 4.
Proof.
  destruct (external_calls_of_a_run Sample.world (Sample.args true true) ∅ None
              Sample.files Sample.first_run)
    as (_ & Hnd & _ & Hd & Hn); [reflexivity|by_evaluation|reflexivity|].
  split_and!; [exact Hnd| |rewrite Hn; reflexivity].
  destruct (Hd Sample.scan) as (_ & _ & Hi); [by_evaluation|].
  intros [_ Hwc]%Hi. apply Hwc. reflexivity.
Defined.

(** ** Counters, exit status and fingerprints *)

Lemma omap_nil_length {A B} (f : A -> option B) (l : list A) :
  0 < length (omap f l) <-> exists x y, x ∈ l /\ f x = Some y.
Proof.
  split.
  - destruct (omap f l) as [|y l'] eqn:E; simpl; [lia|]. intros _.
    assert (y ∈ omap f l) as (x & Hx & Hy)%list_elem_of_omap by (rewrite E; left).
    by exists x, y.
  - intros (x & y & Hx & Hy).
    assert (y ∈ omap f l) as Hin by (apply list_elem_of_omap; by exists x).
    destruct (omap f l); [by apply elem_of_nil in Hin|simpl; lia].
Qed.

(** X7. The two counters of the summary are equal and count the files
    whose entry was built in this run. The exit status is 10 exactly when
    some file passed the gate, had words and got its entry; otherwise it
    is 0, the collection written is the carried-forward one (pruned,
    deduplicated and sorted) and the missing-date report has only its
    header. *)
Theorem counters_and_exit_status w args state prior docs out :
  folder w = Some docs -> NoDup (name <$> docs) ->
  main w args state prior = Finished out ->
  summary_processed out = summary_updated out
  /\ summary_updated out = length (omap (built w args state) docs)
  /\ length (missing_csv out) <= 1 + summary_updated out
  /\ (exit_code out = 10%Z <->
        exists d a, d ∈ docs /\ gate_open args state d
                    /\ word_count (body_of w d) <> 0 /\ attempt_of w args d = Ok a)
  /\ (exit_code out <> 10%Z ->
        exit_code out = 0%Z
        /\ Payload.articles (data_json out)
           = collection_of (after_prune args docs (carried_forward args prior))
        /\ missing_csv out = [csv_header]).
Proof.
  intros Hf Hnd Hm. rewrite (main_run _ _ _ _ _ _ Hf Hm). simpl.
  destruct (loop_as_map w args docs
              (loop_start state (after_prune args docs (carried_forward args prior))) Hnd)
    as (_ & _ & Hu & Hp & Hr & Ha).
  simpl in Hu, Hp, Hr, Ha. unfold run_loop. rewrite Hu, Hp, Hr, Ha. clear Hu Hp Hr Ha.
  split_and!; [done|done| | |].
  - assert (forall {A B} (f : A -> option B) l, length (omap f l) <= length l) as Hle.
    { intros A B f l. induction l as [|x l IH]; [done|].
      rewrite omap_cons. destruct (f x); simpl; lia. }
    pose proof (Hle _ _ missing_row (omap (built w args state) docs)). lia.
  - destruct (Nat.ltb_spec 0 (length (omap (built w args state) docs))) as [Hlt|Hge].
    + split; [intros _|done].
      apply omap_nil_length in Hlt as (d & a & Hd & Hb).
      apply built_Some, verdict_Built in Hb. by exists d, a.
    + split; [done|]. intros (d & a & Hd & Hb). exfalso.
      assert (0 < length (omap (built w args state) docs)); [|lia].
      apply omap_nil_length. exists d, a. split; [done|].
      by apply built_Some, verdict_Built.
  - destruct (omap (built w args state) docs) as [|a l] eqn:E; [|done].
    intros _. done.
Qed.

Lemma counters_and_exit_status_witness :
  summary_processed Sample.first_run = 2 /\ exit_code Sample.first_run = 10%Z
  /\ exists d a, d ∈ Sample.files
       /\ attempt_of Sample.world (Sample.args true true) d = Ok a.
Proof.
  destruct (counters_and_exit_status Sample.world (Sample.args true true) ∅ None
              Sample.files Sample.first_run)
    as (Hp & _ & _ & [Hx _] & _); [reflexivity|by_evaluation|reflexivity|].
  split; [rewrite Hp; reflexivity|]. split; [reflexivity|].
  destruct (Hx eq_refl) as (d & a & Hd & _ & _ & Ha). by exists d, a.
Defined.

(** X8. The fingerprint state only grows. A run records the fingerprint
    of every file of the folder that passes the gate and leaves every
    other key as it was loaded: a key whose file has left the folder is
    never removed, with or without [--prune]. *)
Theorem state_after_a_run w args state prior docs out :
  folder w = Some docs -> NoDup (name <$> docs) ->
  main w args state prior = Finished out ->
  (forall n, n ∉ name <$> docs -> state_json out !! n = state !! n)
  /\ (forall d, d ∈ docs -> gate_open args state d ->
        state_json out !! name d = Some (fingerprint d))
  /\ (forall d, d ∈ docs -> ~ gate_open args state d ->
        state_json out !! name d = state !! name d)
  /\ dom state ⊆ dom (state_json out).
Proof.
  intros Hf Hnd Hm. rewrite (main_run _ _ _ _ _ _ Hf Hm). simpl. unfold run_loop.
  set (v := loop_start state (after_prune args docs (carried_forward args prior))).
  assert (forall n, n ∉ name <$> docs ->
            Loop.state (fold_left (process_document w args) docs v) !! n = state !! n) as H1.
  { intros n Hn. by destruct (loop_other w args docs v n Hn) as (-> & _). }
  assert (forall d, d ∈ docs ->
            Loop.state (fold_left (process_document w args) docs v) !! name d
            = if decide (gate_open args state d) then Some (fingerprint d)
              else state !! name d) as H2.
  { intros d Hd. by rewrite (loop_state w args docs v d Hnd Hd). }
  split_and!; [done| | |].
  - intros d Hd Hg. by rewrite H2, decide_True.
  - intros d Hd Hg. by rewrite H2, decide_False.
  - intros n [h Hn]%elem_of_dom. apply elem_of_dom.
    destruct (decide (n ∈ name <$> docs)) as [Hin|Hin]; [|by rewrite H1].
    apply list_elem_of_fmap in Hin as (d & -> & Hd). rewrite H2 by done.
    destruct (decide (gate_open args state d)); [done|by rewrite Hn].
Qed.

Lemma state_after_a_run_witness :
  state_json
    (finish Sample.world
       (run_loop Sample.world (Sample.args true true) Sample.files
          {["gone.docx" := "ff66"]} (Some Sample.previous))) !! "gone.docx"
  = Some "ff66".
Proof.
  destruct (state_after_a_run Sample.world (Sample.args true true)
              {["gone.docx" := "ff66"]} (Some Sample.previous) Sample.files
              (finish Sample.world
                 (run_loop Sample.world (Sample.args true true) Sample.files
                    {["gone.docx" := "ff66"]} (Some Sample.previous))))
    as (H1 & _); [reflexivity|by_evaluation|reflexivity|].
  rewrite H1; [reflexivity|by_evaluation].
Defined.

(** ** The entry of a file that was rebuilt *)

Lemma upsert_filter_eq (art : Article) (m : string) (l : list Article) :
  sourceFile art = Some m ->
  filter (has_source m) (upsert art m l) = art :: tail (filter (has_source m) l).
Proof.
  intros Hart.
  destruct (upsert_cases art m l) as [[Hnone ->]|(l1 & b & l2 & -> & Hb & Hl1 & ->)].
  - rewrite filter_app, (filter_none _ l) by done.
    by rewrite filter_cons_True by done.
  - rewrite !filter_app, !(filter_none _ l1) by done.
    by rewrite !filter_cons_True by done.
Qed.

Lemma run_loop_built w args docs state prior d a :
  NoDup (name <$> docs) -> d ∈ docs ->
  gate_open args state d -> word_count (body_of w d) <> 0 ->
  attempt_of w args d = Ok a ->
  let final := run_loop w args docs state prior in
  Loop.state final !! name d = Some (fingerprint d)
  /\ filter (has_source (name d)) (Loop.articles final)
     = a :: tail (filter (has_source (name d)) (carried_forward args prior))
  /\ filter (fun e => file e = name d) (Loop.errors final) = []
  /\ filter (fun c => call_file c = name d) (Loop.calls final)
     = (extract w d).2 ++ [CallInfer (name d)].
Proof.
  intros Hnames Hd Hgate Hwc Hat. simpl.
  destruct (run_loop_at w args docs state prior d Hnames Hd)
    as (v1 & H1 & H2 & H3 & H4 & H5 & H6 & H7 & H8).
  rewrite H5, H6, H7, H8.
  destruct (process_document_cases w args v1 d)
    as [[Hg _]|[(_ & Hw & _)|[(msg' & _ & _ & Hat' & _)|(a' & _ & _ & Hat' & ->)]]];
    [exfalso; apply Hg; by eapply gate_open_ext|done|congruence|].
  assert (a' = a) as -> by congruence.
  pose proof Hat as [Hs _]%attempt_of_fields.
  simpl. rewrite lookup_insert_eq, upsert_filter_eq, H2, H3 by done.
  rewrite !filter_app, H4, extract_calls_all by done.
  by rewrite !filter_cons_True by done.
Qed.

Lemma short_tail {A} (l : list A) : length l <= 1 -> tail l = [].
Proof. destruct l as [|x [|y l]]; simpl; [done|done|lia]. Qed.

(** X9. A file that passes the fingerprint gate, has words and whose
    attempt succeeds is written: if the carried-forward collection has at
    most one entry for the file, the collection written has exactly one,
    the entry just built; the fingerprint of the file is recorded, no
    error is recorded for it, the calls made for it are the extraction
    and one inference call, the exit status is 10, and the entry has a
    row in the missing-date report exactly when its date is empty. A
    later run with [--resume] over a folder that holds the file unchanged
    keeps the entry. *)
Theorem built_entry_is_written w args state prior docs d a :
  folder w = Some docs -> configured w args -> listing_ok docs -> d ∈ docs ->
  gate_open args state d ->
  word_count (body_of w d) <> 0 ->
  attempt_of w args d = Ok a ->
  length (filter (has_source (name d)) (carried_forward args prior)) <= 1 ->
  exists out,
    main w args state prior = Finished out
    /\ filter (has_source (name d)) (Payload.articles (data_json out)) = [a]
    /\ state_json out !! name d = Some (fingerprint d)
    /\ (forall e, e ∈ Payload.errors (data_json out) -> file e <> name d)
    /\ filter (fun c => call_file c = name d) (external_calls out)
       = (extract w d).2 ++ [CallInfer (name d)]
    /\ exit_code out = 10%Z
    /\ (row_of a ∈ missing_csv out <-> date a = EmptyString)
    /\ forall w' args' docs',
         folder w' = Some docs' -> configured w' args' -> listing_ok docs' ->
         d ∈ docs' -> resume args' = true ->
         exists out',
           main w' args' (state_json out) (Some (data_json out)) = Finished out'
           /\ (forall c, c ∈ external_calls out' -> call_file c <> name d)
           /\ entry_of (name d) (Payload.articles (data_json out')) = Some a.
Proof.
  intros Hf Hc [Hnd Hne] Hd Hg Hwc Hat Hone.
  assert (PyStr.truthy (name d) = true) as Hn by by apply (proj1 (Forall_forall _ _) Hne).
  pose proof (main_finished w args state prior docs Hf Hc) as Hm.
  eexists. split; [exact Hm|].
  destruct (run_loop_built w args docs state prior d a Hnd Hd Hg Hwc Hat)
    as (H1 & H2 & H3 & H4).
  rewrite (short_tail _ Hone) in H2.
  assert (filter (has_source (name d))
            (Payload.articles (data_json (finish w (run_loop w args docs state prior))))
          = [a]) as Hw.
  { simpl. fold (collection_of (Loop.articles (run_loop w args docs state prior))).
    rewrite collection_of_filter by done. unfold entry_of. by rewrite H2. }
  assert (built w args state d = Some a) as Hb by by apply built_Some, verdict_Built.
  destruct (loop_as_map w args docs
              (loop_start state (after_prune args docs (carried_forward args prior))) Hnd)
    as (_ & _ & Hu & _ & Hr & _).
  simpl in Hu, Hr. fold (run_loop w args docs state prior) in Hu, Hr.
  split_and!; [exact Hw|exact H1| |exact H4| | |].
  - intros e He. by apply (filter_nil_none _ _ _ H3).
  - simpl. rewrite Hu.
    assert (0 < length (omap (built w args state) docs)) as Hlt
      by (apply omap_nil_length; by exists d, a).
    by destruct (Nat.ltb_spec 0 (length (omap (built w args state) docs))); [|lia].
  - simpl. rewrite Hr, elem_of_cons. split.
    + intros [?|Hrow]; [done|].
      apply list_elem_of_omap in Hrow as (b & (d' & Hd' & Hb')%list_elem_of_omap & Hmr).
      unfold missing_row in Hmr.
      destruct (PyStr.truthy (date b)) eqn:Hdate; [done|]. injection Hmr as Hrow.
      assert (d' = d) as ->.
      { apply (names_inj docs); try done.
        apply built_source in Hb', Hb. unfold row_of in Hrow.
        rewrite Hb', Hb in Hrow. simpl in Hrow. congruence. }
      assert (b = a) as -> by congruence. by apply truthy_false.
    + intros Hdate. right. apply list_elem_of_omap. exists a. split.
      * apply list_elem_of_omap. by exists d.
      * unfold missing_row. by rewrite Hdate.
  - intros w' args' docs' Hf' Hc' Hl' Hd' Hr'.
    destruct (rerun_skips_document w' args' docs' _ (Some (data_json (finish w (run_loop w args docs state prior)))) d Hf' Hc' Hl' Hd' Hr' H1)
      as (out' & Hm' & Hcalls & _ & He & _).
    exists out'. split_and!; [done|done|].
    rewrite He. unfold carried_forward. rewrite Hr'. unfold entry_of. by rewrite Hw.
Qed.

Lemma built_entry_is_written_witness :
  exists out,
    main Sample.world (Sample.args true true) ∅ None = Finished out
    /\ filter (has_source "2024-03-01 budget.docx") (Payload.articles (data_json out))
       = [Sample.dated_entry]
    /\ exit_code out = 10%Z.
Proof.
  destruct (built_entry_is_written Sample.world (Sample.args true true) ∅ None
              Sample.files Sample.dated Sample.dated_entry)
    as (out & Hm & Hw & _ & _ & _ & Hx & _).
  - reflexivity.
  - split; reflexivity.
  - split; by_evaluation.
  - by_evaluation.
  - reflexivity.
  - vm_compute. discriminate.
  - vm_compute. reflexivity.
  - vm_compute. lia.
  - exists out. split_and!; assumption.
Defined.

(** ** Entries that a run does not rebuild *)

Lemma put_filter (l : list Article) (a : Article) (m n : string) :
  sourceFile a = Some m ->
  filter (has_source n) (put l a)
  = if decide (n = m) then a :: tail (filter (has_source n) l)
    else filter (has_source n) l.
Proof.
  intros Ha. unfold put. rewrite Ha. simpl.
  destruct (decide (n = m)) as [->|Hne]; [by apply upsert_filter_eq|].
  by apply upsert_filter_ne.
Qed.

Lemma fold_put_filter_other (L l : list Article) (n : string) :
  (forall a, a ∈ L -> exists m, sourceFile a = Some m /\ m <> n) ->
  filter (has_source n) (fold_left put L l) = filter (has_source n) l.
Proof.
  revert l. induction L as [|a L IH]; intros l HL; [done|]. simpl.
  rewrite IH by (intros b Hb; apply HL; by right).
  destruct (HL a) as (m & Ha & Hne); [left|].
  rewrite (put_filter l a m n Ha). by rewrite decide_False by done.
Qed.

Lemma fold_put_filter_keeps (L l : list Article) (n : string) :
  (forall a, a ∈ L -> is_Some (sourceFile a)) ->
  filter (has_source n) l <> [] -> filter (has_source n) (fold_left put L l) <> [].
Proof.
  revert l. induction L as [|a L IH]; intros l HL Hl; [done|]. simpl.
  apply IH; [intros b Hb; apply HL; by right|].
  destruct (HL a) as [m Ha]; [left|].
  rewrite (put_filter l a m n Ha). by destruct (decide (n = m)).
Qed.

Lemma fold_put_elem (L l : list Article) (a : Article) :
  a ∈ fold_left put L l -> a ∈ L \/ a ∈ l.
Proof.
  revert l. induction L as [|b L IH]; intros l Ha; [by right|]. simpl in Ha.
  destruct (IH _ Ha) as [?|[->|?]%upsert_elem]; [left; by right|left; by left|by right].
Qed.

Lemma built_elem w args state (docs : list SourceDocument) a :
  a ∈ omap (built w args state) docs <->
  exists d, d ∈ docs /\ verdict w args state d = Built a.
Proof. rewrite list_elem_of_omap. by setoid_rewrite built_Some. Qed.

Lemma run_loop_articles w args docs state prior :
  NoDup (name <$> docs) ->
  Loop.articles (run_loop w args docs state prior)
  = fold_left put (omap (built w args state) docs)
      (after_prune args docs (carried_forward args prior)).
Proof.
  intros Hnd. unfold run_loop.
  by destruct (loop_as_map w args docs
                 (loop_start state (after_prune args docs (carried_forward args prior))) Hnd)
    as (_ & _ & _ & _ & _ & ->).
Qed.

(** X10. A run touches only the entries of the files it rebuilds. For
    every other source file the entry written is the one carried forward,
    once pruned; pruning leaves the entries of listed files as they are;
    so without [--prune], or for a file that is still in the folder, a
    source file that had an entry in the previous output has one in the
    output. *)
Theorem entries_not_rebuilt_are_kept w args state prior docs out :
  folder w = Some docs -> listing_ok docs ->
  main w args state prior = Finished out ->
  (forall n, PyStr.truthy n = true ->
     (forall d, d ∈ docs -> name d = n -> built w args state d = None) ->
     entry_of n (Payload.articles (data_json out))
     = entry_of n (after_prune args docs (carried_forward args prior)))
  /\ (forall n, prune args = false \/ n ∈ name <$> docs ->
        entry_of n (after_prune args docs (carried_forward args prior))
        = entry_of n (carried_forward args prior))
  /\ (forall n, PyStr.truthy n = true ->
        prune args = false \/ n ∈ name <$> docs ->
        is_Some (entry_of n (carried_forward args prior)) ->
        is_Some (entry_of n (Payload.articles (data_json out)))).
Proof.
  intros Hf [Hnd Hne] Hm. rewrite (main_run _ _ _ _ _ _ Hf Hm). simpl.
  fold (collection_of (Loop.articles (run_loop w args docs state prior))).
  rewrite run_loop_articles by done.
  assert (forall n, prune args = false \/ n ∈ name <$> docs ->
            filter (has_source n) (after_prune args docs (carried_forward args prior))
            = filter (has_source n) (carried_forward args prior)) as Hprune.
  { intros n [Hp|(d & -> & Hd)%list_elem_of_fmap].
    - unfold after_prune. by rewrite Hp.
    - by apply after_prune_present. }
  split_and!.
  - intros n Hn Hnone. rewrite collection_of_entry by done.
    unfold entry_of. f_equal. apply fold_put_filter_other.
    intros a (d & Hd & Hb)%built_elem. exists (name d). split.
    + apply built_Some in Hb. by apply built_source in Hb.
    + intros E. apply built_Some in Hb. by rewrite (Hnone d Hd E) in Hb.
  - intros n Hn. unfold entry_of. by rewrite Hprune.
  - intros n Hn Hp Hsome. rewrite collection_of_entry by done.
    unfold entry_of in *. rewrite <- Hprune in Hsome by done.
    apply last_is_Some. apply last_is_Some in Hsome.
    apply fold_put_filter_keeps; [|done].
    intros a (d & Hd & Hb)%built_elem.
    apply built_Some in Hb. apply built_source in Hb. by rewrite Hb.
Qed.

Lemma entries_not_rebuilt_are_kept_witness :
  entry_of "gone.docx" (Payload.articles (data_json Sample.resumed_run))
  = Some Sample.entry_gone.
Proof.
  destruct (entries_not_rebuilt_are_kept Sample.world (Sample.args true false) ∅
              (Some Sample.previous) Sample.files Sample.resumed_run)
    as (H1 & H2 & _); [reflexivity|split; by_evaluation|reflexivity|].
  rewrite H1, H2; [reflexivity|by left|reflexivity|].
  intros d Hd%list_elem_of_In E. simpl in Hd.
  destruct Hd as [<-|[<-|[<-|[<-|[<-|[]]]]]]; discriminate E.
Defined.

(** ** A run without [--resume] *)

Lemma verdict_no_resume w args s s' p :
  resume args = false -> verdict w args s p = verdict w args s' p.
Proof. unfold verdict. by intros ->. Qed.

Lemma built_sources_NoDup w args state (docs : list SourceDocument) :
  NoDup (name <$> docs) -> NoDup (sourceFile <$> omap (built w args state) docs).
Proof.
  induction docs as [|p docs IH]; intros Hnd; [constructor|].
  rewrite fmap_cons in Hnd. apply NoDup_cons in Hnd as [Hp Hnd].
  rewrite omap_cons. destruct (built w args state p) as [a|] eqn:E; [|by apply IH].
  rewrite fmap_cons. apply NoDup_cons. split; [|by apply IH].
  intros (b & Hb & (d & Hd & Hbd)%list_elem_of_omap)%list_elem_of_fmap.
  apply built_source in E, Hbd. apply Hp.
  assert (name p = name d) as -> by congruence. by apply list_elem_of_fmap_2.
Qed.

Lemma fold_put_fresh (L l : list Article) :
  (forall a, a ∈ L -> is_Some (sourceFile a)) ->
  NoDup (sourceFile <$> (l ++ L)) ->
  fold_left put L l = l ++ L.
Proof.
  revert l. induction L as [|a L IH]; intros l HL Hnd; simpl.
  { by rewrite app_nil_r. }
  destruct (HL a) as [m Ha]; [left|].
  assert (put l a = l ++ [a]) as ->.
  { unfold put. rewrite Ha. simpl.
    destruct (upsert_cases a m l) as [[_ ->]|(l1 & b & l2 & -> & Hb & _)]; [done|].
    exfalso. rewrite !fmap_app, !fmap_cons, <- app_assoc in Hnd.
    apply NoDup_app in Hnd as (_ & _ & Hnd). simpl in Hnd.
    apply NoDup_cons in Hnd as [Hnd _]. apply Hnd.
    rewrite elem_of_app, elem_of_cons, Hb, Ha. tauto. }
  rewrite IH, <- app_assoc; [done|intros b Hb; apply HL; by right|].
  by rewrite <- app_assoc.
Qed.

Lemma full_run_facts w args state prior docs out :
  folder w = Some docs -> listing_ok docs -> resume args = false ->
  main w args state prior = Finished out ->
  Payload.articles (data_json out) = sorted_reverse (omap (built w args ∅) docs)
  /\ Payload.errors (data_json out) = omap (failed w args ∅) docs
  /\ missing_csv out = csv_header :: omap missing_row (omap (built w args ∅) docs)
  /\ external_calls out = docs ≫= calls_for w args ∅
  /\ Payload.generatedAt (data_json out) = now_end w.
Proof.
  intros Hf [Hnd Hne] Hr Hm.
  assert (Forall (fun d => verdict w args state d = verdict w args ∅ d) docs) as Hv.
  { apply Forall_forall. intros d _. by apply verdict_no_resume. }
  rewrite (main_run _ _ _ _ _ _ Hf Hm). simpl.
  rewrite run_loop_articles by done. unfold run_loop.
  destruct (loop_as_map w args docs
              (loop_start state (after_prune args docs (carried_forward args prior))) Hnd)
    as (He & Hc & _ & _ & Hrows & _).
  simpl in He, Hc, Hrows. rewrite He, Hc, Hrows. clear He Hc Hrows.
  rewrite (built_verdicts _ _ _ _ _ Hv), (failed_verdicts _ _ _ _ _ Hv),
    (calls_verdicts _ _ _ _ _ Hv).
  split_and!; try done.
  assert (after_prune args docs (carried_forward args prior) = []) as ->.
  { unfold carried_forward, after_prune. rewrite Hr. by destruct (prune args). }
  pose proof (built_sources_NoDup w args ∅ docs Hnd) as Hsrc.
  assert (forall a, a ∈ omap (built w args ∅) docs -> is_Some (source_key a)) as Hkeys.
  { intros a (d & Hd & Hb)%built_elem. exists (name d). apply source_key_Some.
    apply built_Some, built_source in Hb. split; [done|].
    by apply (proj1 (Forall_forall _ _) Hne). }
  rewrite fold_put_fresh; simpl; [|intros a [n [? _]%source_key_Some]%Hkeys; by exists n|done].
  by rewrite dedup_values_fixed.
Qed.

(** X11. Without [--resume] a run reads neither the fingerprints nor the
    previous output: every file of the folder is extracted, the
    collection written is the sorted list of the entries built in this
    run, one for each file that had words and whose attempt succeeded,
    and every such entry with an empty date has its row, in the order of
    the folder. Two such runs that differ only in the state file and the
    previous output they find write the same data, report and calls. *)
Theorem full_run_depends_on_the_folder_only w args state prior docs out :
  folder w = Some docs -> listing_ok docs -> resume args = false ->
  main w args state prior = Finished out ->
  Payload.articles (data_json out) = sorted_reverse (omap (built w args ∅) docs)
  /\ missing_csv out = csv_header :: omap missing_row (omap (built w args ∅) docs)
  /\ (forall d, d ∈ docs -> CallPandoc (name d) ∈ external_calls out)
  /\ (forall a, a ∈ Payload.articles (data_json out) <->
        exists d, d ∈ docs /\ word_count (body_of w d) <> 0
                  /\ attempt_of w args d = Ok a)
  /\ (forall state' prior' out',
        main w args state' prior' = Finished out' ->
        data_json out' = data_json out /\ missing_csv out' = missing_csv out
        /\ external_calls out' = external_calls out).
Proof.
  intros Hf Hl Hr Hm.
  destruct (full_run_facts w args state prior docs out Hf Hl Hr Hm)
    as (Ha & He & Hrows & Hc & Hg).
  assert (forall d, gate_open args ∅ d) as Hgate.
  { intros d. unfold gate_open. by rewrite Hr. }
  split_and!; [done|done| | |].
  - intros d Hd. rewrite Hc. apply list_elem_of_bind. exists d. split; [|done].
    apply calls_for_elem. split; [done|by left].
  - intros a. rewrite Ha, <- (sorted_reverse_perm (omap (built w args ∅) docs)), built_elem.
    setoid_rewrite verdict_Built. split.
    + intros (d & Hd & _ & Hwc & Hat). by exists d.
    + intros (d & Hd & Hwc & Hat). by exists d.
  - intros state' prior' out' Hm'.
    destruct (full_run_facts w args state' prior' docs out' Hf Hl Hr Hm')
      as (Ha' & He' & Hrows' & Hc' & Hg').
    split_and!; [|congruence..].
    destruct (data_json out'), (data_json out). simpl in *. congruence.
Qed.

Lemma full_run_depends_on_the_folder_only_witness :
  data_json (finish Sample.world
               (run_loop Sample.world (Sample.args false true) Sample.files
                  {["letter.docx" := "cc33"]} (Some Sample.previous)))
  = data_json (finish Sample.world
                 (run_loop Sample.world (Sample.args false true) Sample.files ∅ None)).
Proof.
  destruct (full_run_depends_on_the_folder_only Sample.world (Sample.args false true) ∅ None
              Sample.files
              (finish Sample.world
                 (run_loop Sample.world (Sample.args false true) Sample.files ∅ None)))
    as (_ & _ & _ & _ & H); [reflexivity|split; by_evaluation|reflexivity|reflexivity|].
  destruct (H {["letter.docx" := "cc33"]} (Some Sample.previous)
              (finish Sample.world
                 (run_loop Sample.world (Sample.args false true) Sample.files
                    {["letter.docx" := "cc33"]} (Some Sample.previous))))
    as [E _]; [reflexivity|exact E].
Defined.

(** ** The shape of an entry that was built *)

Lemma or_empty_strip_trimmed (v : json) (s : string) :
  or_empty_strip v = Ok s -> PyStr.strip s = s.
Proof.
  unfold or_empty_strip. destruct (json_truthy v).
  - destruct v; try done. intros [= <-]. apply strip_idem.
  - by intros [= <-].
Qed.

Lemma clean_topics_trimmed (items : list json) :
  Forall (fun t => PyStr.truthy t = true /\ PyStr.strip t = t) (clean_topics items).
Proof.
  induction items as [|v items IH]; [constructor|].
  destruct v; simpl; try done.
  destruct (PyStr.truthy (PyStr.strip s)) eqn:E; [|done].
  constructor; [|done]. split; [done|apply strip_idem].
Qed.

Lemma clean_topics_from (items : list json) (t : string) :
  t ∈ clean_topics items <->
  exists s, JStr s ∈ items /\ t = PyStr.strip s /\ PyStr.truthy t = true.
Proof.
  induction items as [|v items IH]; simpl.
  { rewrite elem_of_nil. split; [done|]. by intros (s & ?%elem_of_nil & _). }
  assert ((exists s, JStr s ∈ v :: items /\ t = PyStr.strip s /\ PyStr.truthy t = true)
          <-> (exists s, v = JStr s /\ t = PyStr.strip s /\ PyStr.truthy t = true)
              \/ t ∈ clean_topics items) as ->.
  { rewrite IH. setoid_rewrite elem_of_cons. split.
    - intros (s & [E|Hs] & Ht); [left; by exists s|right; by exists s].
    - intros [(s & -> & Ht)|(s & Hs & Ht)]; exists s; tauto. }
  destruct v; try (split; [by right|by intros [(? & ? & _)|?]]).
  destruct (PyStr.truthy (PyStr.strip s)) eqn:E.
  - rewrite elem_of_cons. split.
    + intros [->|?]; [left; by exists s|by right].
    + intros [(s' & [= <-] & -> & _)|?]; [by left|by right].
  - split; [by right|]. intros [(s' & [= <-] & -> & Ht)|?]; [congruence|done].
Qed.

Lemma prefix_truthy (i : nat) (s : string) :
  0 < i -> PyStr.truthy s = true -> PyStr.truthy (PyStr.prefix i s) = true.
Proof. destruct i, s; simpl; try done. lia. Qed.

Lemma stem_truthy (file_name : string) :
  PyStr.truthy file_name = true -> PyStr.truthy (stem file_name) = true.
Proof.
  intros Hn. unfold stem. destruct (rfind_dot 0 file_name) as [i|]; [|done].
  destruct (Nat.ltb_spec 0 i); simpl; [|done].
  destruct (_ <? _)%nat; [|done]. by apply prefix_truthy.
Qed.

Lemma build_article_shape w p body wc date_guess meta a :
  build_article w p body wc date_guess meta = Ok a ->
  PyStr.truthy (name p) = true ->
  PyStr.truthy (title a) = true
  /\ (PyStr.strip (title a) = title a \/ title a = stem (name p))
  /\ PyStr.strip (summary a) = summary a
  /\ Forall (fun t => PyStr.truthy t = true /\ PyStr.strip t = t) (topics a)
  /\ (dateSource a = "filename/text" /\ date a = date_guess /\ PyStr.truthy (date a) = true
      \/ dateSource a = "ai" /\ PyStr.strip (date a) = date a /\ PyStr.truthy (date a) = true
      \/ dateSource a = EmptyString /\ date a = EmptyString).
Proof.
  unfold build_article. intros H Hn.
  apply result_bind_Ok in H as (v_title & _ & H).
  apply result_bind_Ok in H as (title0 & Ht & H).
  apply result_bind_Ok in H as (v_date & _ & H).
  apply result_bind_Ok in H as (date_ai & Hd & H).
  apply result_bind_Ok in H as (v_summary & _ & H).
  apply result_bind_Ok in H as (summary1 & Hs & H).
  apply result_bind_Ok in H as (v_topics & _ & H).
  injection H as <-. simpl.
  apply or_empty_strip_trimmed in Ht, Hd, Hs.
  split_and!; [| |done|apply clean_topics_trimmed|].
  - destruct (PyStr.truthy title0) eqn:E; [done|by apply stem_truthy].
  - destruct (PyStr.truthy title0); [by left|by right].
  - destruct (PyStr.truthy date_guess) eqn:E1; [by left|].
    destruct (PyStr.truthy date_ai) eqn:E2; [right; by left|right; by right].
Qed.

(** X12. Every entry of the collection written is either one of the
    carried-forward entries or was built in this run for a file of the
    folder, and then it is well formed: it names that file, its title is
    not empty (the trimmed title of the reply, or else the stem of the
    file name), its summary and topics are trimmed and no topic is empty,
    its text is the normalised text of the file, its word count is that
    of the text and is not zero, and its date source is
    ["filename/text"], ["ai"] or empty together with the date. *)
Theorem written_entries_are_well_formed w args state prior docs out a :
  folder w = Some docs -> listing_ok docs ->
  main w args state prior = Finished out ->
  a ∈ Payload.articles (data_json out) ->
  a ∈ carried_forward args prior
  \/ exists d, d ∈ docs /\ gate_open args state d
       /\ sourceFile a = Some (name d)
       /\ PyStr.truthy (title a) = true
       /\ (PyStr.strip (title a) = title a \/ title a = stem (name d))
       /\ PyStr.strip (summary a) = summary a
       /\ Forall (fun t => PyStr.truthy t = true /\ PyStr.strip t = t) (topics a)
       /\ text a = body_of w d
       /\ normalize_whitespace (text a) = text a
       /\ wordCount a = word_count (text a)
       /\ 0 < wordCount a
       /\ dateISO a = date a
       /\ updatedAt a = now w d
       /\ (dateSource a = "filename/text" /\ PyStr.truthy (date a) = true
           \/ dateSource a = "ai" /\ PyStr.strip (date a) = date a
              /\ PyStr.truthy (date a) = true
           \/ dateSource a = EmptyString /\ date a = EmptyString).
Proof.
  intros Hf [Hnd Hne] Hm. rewrite (main_run _ _ _ _ _ _ Hf Hm). simpl.
  fold (collection_of (Loop.articles (run_loop w args docs state prior))).
  rewrite collection_of_elem, run_loop_articles by done.
  intros [Hb|Hc]%dedup_values_elem%fold_put_elem; [right|left; by eapply after_prune_elem].
  apply built_elem in Hb as (d & Hd & (Hg & Hwc & Hat)%verdict_Built).
  exists d. unfold attempt_of in Hat.
  apply result_bind_Ok in Hat as (meta & _ & Hb).
  pose proof (build_article_fields _ _ _ _ _ _ _ Hb) as (H1 & H2 & H3 & H4 & H5).
  pose proof (build_article_shape _ _ _ _ _ _ _ Hb
                (proj1 (Forall_forall _ _) Hne d Hd)) as (S1 & S2 & S3 & S4 & S5).
  split_and!; try done.
  - rewrite H3. apply normalize_whitespace_fixed.
  - by rewrite H2, H3.
  - rewrite H2. lia.
  - destruct S5 as [(? & _ & ?)|[?|?]]; [by left|right; by left|right; by right].
Qed.

Lemma written_entries_are_well_formed_witness :
  Sample.dated_entry ∈ Payload.articles (data_json Sample.first_run)
  /\ PyStr.truthy (title Sample.dated_entry) = true
  /\ 0 < wordCount Sample.dated_entry.
Proof.
  assert (Sample.dated_entry ∈ Payload.articles (data_json Sample.first_run)) as Hin
    by by_evaluation.
  split; [exact Hin|].
  destruct (written_entries_are_well_formed Sample.world (Sample.args true true) ∅ None
              Sample.files Sample.first_run Sample.dated_entry)
    as [Hc|(d & _ & _ & _ & Ht & _ & _ & _ & _ & _ & _ & Hwc & _)];
    [reflexivity|split; by_evaluation|reflexivity|exact Hin| |by split].
  by apply elem_of_nil in Hc.
Defined.

(** ** Evaluating a pattern on a subject with unknown characters *)

Ltac regex_eval :=
  repeat first
    [ progress cbn -[PyStr.isdigit is_sep Ascii.eqb Re.search_from]
    | match goal with
      | H : PyStr.isdigit ?c = _ |- context [PyStr.isdigit ?c] => rewrite H
      | H : is_sep ?c = _ |- context [is_sep ?c] => rewrite H
      | |- context [PyStr.isdigit ?c] =>
          let v := eval vm_compute in (PyStr.isdigit c) in
          lazymatch v with
          | true => change (PyStr.isdigit c) with true
          | false => change (PyStr.isdigit c) with false
          end
      | |- context [is_sep ?c] =>
          let v := eval vm_compute in (is_sep c) in
          lazymatch v with
          | true => change (is_sep c) with true
          | false => change (is_sep c) with false
          end
      | |- context [Ascii.eqb ?a ?b] =>
          let v := eval vm_compute in (Ascii.eqb a b) in
          lazymatch v with
          | true => change (Ascii.eqb a b) with true
          | false => change (Ascii.eqb a b) with false
          | _ => destruct (Ascii.eqb_spec a b);
                 [subst; try discriminate|]
          end
      end ].

Lemma iso_date_re_nil prev : iso_date_re (Re.Cursor prev EmptyString) = [].
Proof. reflexivity. Qed.

Lemma iso_date_re_non_digit prev x r :
  PyStr.isdigit x = false -> iso_date_re (Re.Cursor prev (String x r)) = [].
Proof.
  intros H. unfold iso_date_re, year20, Re.between. regex_eval. done.
Qed.

Lemma us_date_re_non_digit prev x r :
  PyStr.isdigit x = false -> us_date_re (Re.Cursor prev (String x r)) = [].
Proof.
  intros H. unfold us_date_re, year20, Re.between. regex_eval. done.
Qed.

(** ** The stem of a file name *)
Lemma rfind_dot_no_dot i s : no_dot s = true -> rfind_dot i s = None.
Proof.
  revert i. induction s as [|c r IH]; intros i; simpl; [done|].
  intros [Hc Hr]%andb_true_iff. rewrite IH by done.
  by destruct (Ascii.eqb c ".").
Qed.

Lemma rfind_dot_ext i (x ext : string) :
  no_dot ext = true ->
  rfind_dot i (x +:+ String "." ext) = Some (i + String.length x).
Proof.
  intros He. revert i. induction x as [|c x IH]; intros i.
  - change (EmptyString +:+ String "." ext) with (String "." ext).
    simpl. rewrite rfind_dot_no_dot by done. f_equal. lia.
  - rewrite append_cons. simpl. rewrite IH. f_equal. lia.
Qed.

Lemma prefix_app (x y : string) : PyStr.prefix (String.length x) (x +:+ y) = x.
Proof.
  induction x as [|c x IH].
  - by destruct y.
  - rewrite append_cons. simpl. by rewrite IH.
Qed.

Lemma length_append (x y : string) :
  String.length (x +:+ y) = String.length x + String.length y.
Proof. induction x as [|c x IH]; [done|]. rewrite append_cons. simpl. by rewrite IH. Qed.

Lemma stem_ext (x ext : string) :
  PyStr.truthy x = true -> PyStr.truthy ext = true -> no_dot ext = true ->
  stem (x +:+ String "." ext) = x.
Proof.
  intros Hx He Hd. unfold stem. rewrite rfind_dot_ext by done.
  change (0 + String.length x) with (String.length x).
  assert ((0 <? String.length x)%nat
          && (String.length x <? String.length (x +:+ String "." ext) - 1)%nat = true)
    as ->.
  { rewrite length_append. destruct x; [done|]. destruct ext; [done|]. simpl.
    apply Nat.ltb_lt. lia. }
  apply prefix_app.
Qed.

(** ** Digits *)
Lemma code_digit_char (n : Z) : PyStr.code (PyStr.digit_char n) = Z.to_N (48 + n mod 10).
Proof.
  unfold PyStr.code, PyStr.digit_char. apply N_ascii_embedding.
  pose proof (Z.mod_pos_bound n 10). lia.
Qed.

Lemma isdigit_digit_char (n : Z) : PyStr.isdigit (PyStr.digit_char n) = true.
Proof.
  unfold PyStr.isdigit, PyStr.between. rewrite code_digit_char.
  pose proof (Z.mod_pos_bound n 10).
  apply andb_true_iff. split; apply N.leb_le; lia.
Qed.

Lemma digit_value_digit_char (n : Z) :
  PyStr.digit_value (PyStr.digit_char n) = (n mod 10)%Z.
Proof.
  unfold PyStr.digit_value. rewrite code_digit_char.
  pose proof (Z.mod_pos_bound n 10). lia.
Qed.

Lemma zero_padded_2 (n : Z) :
  PyStr.zero_padded 2 n
  = String (PyStr.digit_char (n / 10)) (String (PyStr.digit_char n) EmptyString).
Proof. reflexivity. Qed.

Lemma zero_padded_4 (n : Z) :
  PyStr.zero_padded 4 n
  = String (PyStr.digit_char (n / 10 / 10 / 10))
      (String (PyStr.digit_char (n / 10 / 10))
         (String (PyStr.digit_char (n / 10)) (String (PyStr.digit_char n) EmptyString))).
Proof. reflexivity. Qed.

Lemma int_two_digits (n : Z) :
  (0 <= n < 100)%Z ->
  PyStr.int (String (PyStr.digit_char (n / 10)) (String (PyStr.digit_char n) EmptyString)) = n.
Proof.
  intros Hn. unfold PyStr.int. simpl. rewrite !digit_value_digit_char.
  Z.to_euclidean_division_equations. lia.
Qed.

Lemma int_year (y : Z) :
  (2000 <= y <= 2099)%Z ->
  PyStr.int (String "2" (String "0"
     (String (PyStr.digit_char (y / 10)) (String (PyStr.digit_char y) EmptyString)))) = y.
Proof.
  intros Hn. unfold PyStr.int. simpl. rewrite !digit_value_digit_char.
  change (PyStr.digit_value "2") with 2%Z. change (PyStr.digit_value "0") with 0%Z.
  Z.to_euclidean_division_equations. lia.
Qed.

Lemma zero_padded_year (y : Z) :
  (2000 <= y <= 2099)%Z ->
  PyStr.zero_padded 4 y
  = String "2" (String "0"
      (String (PyStr.digit_char (y / 10)) (String (PyStr.digit_char y) EmptyString))).
Proof.
  intros Hy. rewrite zero_padded_4.
  assert (y / 10 / 10 / 10 = 2)%Z as -> by (Z.to_euclidean_division_equations; lia).
  assert (y / 10 / 10 = 20)%Z as -> by (Z.to_euclidean_division_equations; lia).
  reflexivity.
Qed.

Lemma datetime_Some y mo d t :
  datetime y mo d = Some t -> t = (y, mo, d) /\ (1 <= mo <= 12)%Z /\ (1 <= d <= 31)%Z.
Proof.
  unfold datetime. destruct (_ && _)%bool eqn:E; [|done]. intros [= <-].
  repeat (apply andb_true_iff in E as [E ?]).
  split; [done|]. unfold days_in_month in *.
  repeat match goal with
         | H : context [if ?b then _ else _] |- _ => destruct b
         end; lia.
Qed.

(** ** Searching a file name *)
Lemma search_from_hit {A} (re : Re.M A) prev s a c tl :
  re (Re.Cursor prev s) = (a, c) :: tl -> Re.search_from re prev s = Some a.
Proof. intros H. destruct s; simpl; by rewrite H. Qed.

Lemma search_from_miss {A} (re : Re.M A) prev x r :
  re (Re.Cursor prev (String x r)) = [] ->
  Re.search_from re prev (String x r) = Re.search_from re (Some x) r.
Proof. intros H. simpl. by rewrite H. Qed.

Lemma search_from_skip {A} (re : Re.M A) (pre s : string) prev :
  (forall prev x r, PyStr.isdigit x = false -> re (Re.Cursor prev (String x r)) = []) ->
  all_chars not_digit pre = true ->
  exists prev', Re.search_from re prev (pre +:+ s) = Re.search_from re prev' s.
Proof.
  intros Hre. revert prev. induction pre as [|c pre IH]; intros prev Hpre.
  - by exists prev.
  - simpl in Hpre. apply andb_true_iff in Hpre as [Hc Hpre].
    apply negb_true_iff in Hc.
    rewrite append_cons, search_from_miss by by apply Hre.
    by apply IH.
Qed.

Lemma search_from_none {A} (re : Re.M A) (s : string) prev :
  (forall prev, re (Re.Cursor prev EmptyString) = []) ->
  (forall prev x r, PyStr.isdigit x = false -> re (Re.Cursor prev (String x r)) = []) ->
  all_chars not_digit s = true ->
  Re.search_from re prev s = None.
Proof.
  intros Hnil Hre. revert prev. induction s as [|c s IH]; intros prev Hs.
  - simpl. by rewrite Hnil.
  - simpl in Hs. apply andb_true_iff in Hs as [Hc Hs]. apply negb_true_iff in Hc.
    rewrite search_from_miss by by apply Hre. by apply IH.
Qed.

Lemma iso_date_re_hit c3 c4 m1 m2 d1 d2 s1 s2 prev rest :
  PyStr.isdigit c3 = true -> PyStr.isdigit c4 = true ->
  PyStr.isdigit m1 = true -> PyStr.isdigit m2 = true ->
  PyStr.isdigit d1 = true -> PyStr.isdigit d2 = true ->
  is_sep s1 = true -> is_sep s2 = true ->
  exists tl c,
    iso_date_re (Re.Cursor prev (String "2" (String "0" (String c3 (String c4 (String s1
       (String m1 (String m2 (String s2 (String d1 (String d2 rest)))))))))))
    = ((String "2" (String "0" (String c3 (String c4 EmptyString))),
        String m1 (String m2 EmptyString), String d1 (String d2 EmptyString)), c) :: tl.
Proof.
  intros. unfold iso_date_re, year20, Re.between. regex_eval.
  eexists _, _. reflexivity.
Qed.

Lemma us_date_re_hit c3 c4 m1 m2 d1 d2 s1 s2 prev rest :
  PyStr.isdigit c3 = true -> PyStr.isdigit c4 = true ->
  PyStr.isdigit m1 = true -> PyStr.isdigit m2 = true ->
  PyStr.isdigit d1 = true -> PyStr.isdigit d2 = true ->
  is_sep s1 = true -> is_sep s2 = true ->
  exists tl c,
    us_date_re (Re.Cursor prev (String m1 (String m2 (String s1 (String d1 (String d2
       (String s2 (String "2" (String "0" (String c3 (String c4 rest)))))))))))
    = ((String m1 (String m2 EmptyString), String d1 (String d2 EmptyString),
        String "2" (String "0" (String c3 (String c4 EmptyString)))), c) :: tl.
Proof.
  intros. unfold us_date_re, year20, Re.between. regex_eval.
  eexists _, _. reflexivity.
Qed.

Lemma is_sep_not_digit c : is_sep c = true -> PyStr.isdigit c = false.
Proof.
  unfold is_sep. intros [H|H]%orb_true_iff; apply Ascii.eqb_eq in H; by subst.
Qed.

Lemma iso_date_re_not_in_us c3 c4 m1 m2 d1 d2 s1 s2 prev post :
  PyStr.isdigit c3 = true -> PyStr.isdigit c4 = true ->
  PyStr.isdigit m1 = true -> PyStr.isdigit m2 = true ->
  PyStr.isdigit d1 = true -> PyStr.isdigit d2 = true ->
  is_sep s1 = true -> is_sep s2 = true ->
  all_chars not_digit post = true ->
  Re.search_from iso_date_re prev
    (String m1 (String m2 (String s1 (String d1 (String d2
       (String s2 (String "2" (String "0" (String c3 (String c4 post))))))))))
  = None.
Proof.
  intros Hc3 Hc4 Hm1 Hm2 Hd1 Hd2 Hs1 Hs2 Hpost.
  pose proof (is_sep_not_digit _ Hs1) as Hn1.
  pose proof (is_sep_not_digit _ Hs2) as Hn2.
  assert (Re.search_from iso_date_re (Some c4) post = None) as Htail.
  { apply search_from_none; [done|apply iso_date_re_non_digit|done]. }
  assert (match post with
          | String x (String x' _) => PyStr.isdigit x = false /\ PyStr.isdigit x' = false
          | String x _ => PyStr.isdigit x = false
          | _ => True
          end) as Hp.
  { destruct post as [|x [|x' post]]; simpl in Hpost; [done| |].
    - apply andb_true_iff in Hpost as [Hx _]. by apply negb_true_iff in Hx.
    - apply andb_true_iff in Hpost as [Hx [Hx' _]%andb_true_iff].
      by apply negb_true_iff in Hx, Hx'. }
  do 6 (rewrite search_from_miss;
        [|unfold iso_date_re, year20, Re.between; clear Htail Hp Hpost; regex_eval; done]).
  do 4 (rewrite search_from_miss;
        [|unfold iso_date_re, year20, Re.between; clear Htail Hpost;
          destruct post as [|x [|x' post]]; [| |destruct Hp as [Hx Hx']]; regex_eval;
          repeat match goal with
                 | |- context [if is_sep ?c then _ else _] => destruct (is_sep c)
                 end; regex_eval; done]).
  exact Htail.
Qed.

Ltac split_post post Hp :=
  destruct post as [|? [|? post]]; [| |destruct Hp as [? ?]].

Ltac regex_eval_post :=
  regex_eval;
  repeat match goal with
         | |- context [if is_sep ?c then _ else _] => destruct (is_sep c)
         end;
  regex_eval.

Lemma post_digits (post : string) :
  all_chars not_digit post = true ->
  match post with
  | String x (String x' _) => PyStr.isdigit x = false /\ PyStr.isdigit x' = false
  | String x _ => PyStr.isdigit x = false
  | _ => True
  end.
Proof.
  intros Hpost. destruct post as [|x [|x' post]]; simpl in Hpost; [done| |].
  - apply andb_true_iff in Hpost as [Hx _]. by apply negb_true_iff in Hx.
  - apply andb_true_iff in Hpost as [Hx [Hx' _]%andb_true_iff].
    by apply negb_true_iff in Hx, Hx'.
Qed.

Lemma us_date_re_not_in_iso c3 c4 m1 m2 d1 d2 s1 s2 prev post :
  PyStr.isdigit c3 = true -> PyStr.isdigit c4 = true ->
  PyStr.isdigit m1 = true -> PyStr.isdigit m2 = true ->
  PyStr.isdigit d1 = true -> PyStr.isdigit d2 = true ->
  is_sep s1 = true -> is_sep s2 = true ->
  all_chars not_digit post = true ->
  Re.search_from us_date_re prev
    (String "2" (String "0" (String c3 (String c4 (String s1
       (String m1 (String m2 (String s2 (String d1 (String d2 post))))))))))
  = None.
Proof.
  intros Hc3 Hc4 Hm1 Hm2 Hd1 Hd2 Hs1 Hs2 Hpost.
  pose proof (is_sep_not_digit _ Hs1) as Hn1.
  pose proof (is_sep_not_digit _ Hs2) as Hn2.
  assert (Re.search_from us_date_re (Some d2) post = None) as Htail.
  { apply search_from_none; [done|apply us_date_re_non_digit|done]. }
  pose proof (post_digits post Hpost) as Hp.
  do 10 (rewrite search_from_miss;
         [|unfold us_date_re, year20, Re.between; clear Htail Hpost;
           split_post post Hp; regex_eval_post; done]).
  exact Htail.
Qed.

Lemma append_truthy_l (s t : string) :
  PyStr.truthy s = true -> PyStr.truthy (s +:+ t) = true.
Proof. by destruct s. Qed.

Lemma iso_in_name_shape s1 s2 y mo d post :
  (2000 <= y <= 2099)%Z ->
  iso_in_name s1 s2 y mo d +:+ post
  = String "2" (String "0" (String (PyStr.digit_char (y / 10)) (String (PyStr.digit_char y)
      (String s1 (String (PyStr.digit_char (mo / 10)) (String (PyStr.digit_char mo)
         (String s2 (String (PyStr.digit_char (d / 10)) (String (PyStr.digit_char d)
            post))))))))).
Proof.
  intros Hy. unfold iso_in_name. by rewrite (zero_padded_year y Hy), !zero_padded_2.
Qed.

Lemma us_in_name_shape s1 s2 y mo d post :
  (2000 <= y <= 2099)%Z ->
  us_in_name s1 s2 y mo d +:+ post
  = String (PyStr.digit_char (mo / 10)) (String (PyStr.digit_char mo)
      (String s1 (String (PyStr.digit_char (d / 10)) (String (PyStr.digit_char d)
         (String s2 (String "2" (String "0" (String (PyStr.digit_char (y / 10))
            (String (PyStr.digit_char y) post))))))))).
Proof.
  intros Hy. unfold us_in_name. by rewrite (zero_padded_year y Hy), !zero_padded_2.
Qed.

Lemma iso_in_name_truthy s1 s2 y mo d : PyStr.truthy (iso_in_name s1 s2 y mo d) = true.
Proof. unfold iso_in_name. by rewrite zero_padded_4. Qed.

Lemma us_in_name_truthy s1 s2 y mo d : PyStr.truthy (us_in_name s1 s2 y mo d) = true.
Proof. unfold us_in_name. by rewrite zero_padded_2. Qed.

(** X13. A file name that carries a date written year first, with a
    year of this century, two-digit month and day and [-] or [_] between
    them, and no digit elsewhere in its stem, is dated by it: the parser
    returns the date in the form YYYY-MM-DD when it is a date of the
    calendar, and nothing when it is not (the impossible date is
    ignored, and the month-first pattern finds nothing to read). *)
Theorem iso_date_in_file_name (pre post : string) (s1 s2 : ascii) (y mo d : Z) :
  all_chars not_digit pre = true -> all_chars not_digit post = true ->
  is_sep s1 = true -> is_sep s2 = true ->
  (2000 <= y <= 2099)%Z -> (0 <= mo < 100)%Z -> (0 <= d < 100)%Z ->
  parse_date_from_filename ((pre +:+ iso_in_name s1 s2 y mo d +:+ post) +:+ ".docx")
  = formatted (datetime y mo d).
Proof.
  intros Hpre Hpost Hs1 Hs2 Hy Hmo Hd.
  unfold parse_date_from_filename.
  rewrite (stem_ext _ "docx");
    [|apply append_truthy_r, append_truthy_l, iso_in_name_truthy|done|done].
  unfold Re.search.
  destruct (search_from_skip iso_date_re pre (iso_in_name s1 s2 y mo d +:+ post) None
              iso_date_re_non_digit Hpre) as [p1 ->].
  destruct (search_from_skip us_date_re pre (iso_in_name s1 s2 y mo d +:+ post) None
              us_date_re_non_digit Hpre) as [p2 ->].
  rewrite iso_in_name_shape by done.
  destruct (iso_date_re_hit (PyStr.digit_char (y / 10)) (PyStr.digit_char y)
              (PyStr.digit_char (mo / 10)) (PyStr.digit_char mo)
              (PyStr.digit_char (d / 10)) (PyStr.digit_char d) s1 s2 p1 post)
    as (tl & c & Hhit); try apply isdigit_digit_char; try done.
  rewrite (search_from_hit _ _ _ _ _ _ Hhit).
  rewrite us_date_re_not_in_iso; try apply isdigit_digit_char; try done.
  cbv beta iota zeta.
  rewrite (int_year y Hy), (int_two_digits mo Hmo), (int_two_digits d Hd).
  by destruct (formatted (datetime y mo d)).
Qed.

Lemma iso_date_in_file_name_witness :
  parse_date_from_filename "Kidder column 2024-02-29 final.docx" = Some "2024-02-29"
  /\ parse_date_from_filename "Kidder column 2023_02_29 final.docx" = None.
Proof.
  split.
  - apply (iso_date_in_file_name "Kidder column " " final" "-" "-" 2024 2 29);
      first [reflexivity|lia].
  - apply (iso_date_in_file_name "Kidder column " " final" "_" "_" 2023 2 29);
      first [reflexivity|lia].
Defined.

(** X14. The same for a date written month first (MM-DD-YYYY): with no
    digit elsewhere in the stem, the year-first pattern finds nothing and
    the month-first pattern reads the date, which is returned as
    YYYY-MM-DD when it is a date of the calendar and dropped when it is
    not. *)
Theorem us_date_in_file_name (pre post : string) (s1 s2 : ascii) (y mo d : Z) :
  all_chars not_digit pre = true -> all_chars not_digit post = true ->
  is_sep s1 = true -> is_sep s2 = true ->
  (2000 <= y <= 2099)%Z -> (0 <= mo < 100)%Z -> (0 <= d < 100)%Z ->
  parse_date_from_filename ((pre +:+ us_in_name s1 s2 y mo d +:+ post) +:+ ".docx")
  = formatted (datetime y mo d).
Proof.
  intros Hpre Hpost Hs1 Hs2 Hy Hmo Hd.
  unfold parse_date_from_filename.
  rewrite (stem_ext _ "docx");
    [|apply append_truthy_r, append_truthy_l, us_in_name_truthy|done|done].
  unfold Re.search.
  destruct (search_from_skip iso_date_re pre (us_in_name s1 s2 y mo d +:+ post) None
              iso_date_re_non_digit Hpre) as [p1 ->].
  destruct (search_from_skip us_date_re pre (us_in_name s1 s2 y mo d +:+ post) None
              us_date_re_non_digit Hpre) as [p2 ->].
  rewrite us_in_name_shape by done.
  destruct (us_date_re_hit (PyStr.digit_char (y / 10)) (PyStr.digit_char y)
              (PyStr.digit_char (mo / 10)) (PyStr.digit_char mo)
              (PyStr.digit_char (d / 10)) (PyStr.digit_char d) s1 s2 p2 post)
    as (tl & c & Hhit); try apply isdigit_digit_char; try done.
  rewrite (search_from_hit _ _ _ _ _ _ Hhit).
  rewrite iso_date_re_not_in_us; try apply isdigit_digit_char; try done.
  cbv beta iota zeta.
  by rewrite (int_year y Hy), (int_two_digits mo Hmo), (int_two_digits d Hd).
Qed.

Lemma us_date_in_file_name_witness :
  parse_date_from_filename "letter_07-04-2021.docx" = Some "2021-07-04".
Proof.
  apply (us_date_in_file_name "letter_" EmptyString "-" "-" 2021 7 4);
    first [reflexivity|lia].
Defined.

(** ** A date line at the top of a text *)

Lemma digit_facts (c : ascii) :
  PyStr.isdigit c = true ->
  PyStr.isspace c = false /\ PyStr.isword c = true /\ PyStr.lower_char c = c
  /\ PyStr.is_linebreak c = false.
Proof.
  intros H.
  pose proof (ascii_forall
    (fun c => implb (PyStr.isdigit c)
                (negb (PyStr.isspace c) && PyStr.isword c
                 && Ascii.eqb (PyStr.lower_char c) c && negb (PyStr.is_linebreak c))))
    as Hall.
  specialize (Hall ltac:(vm_compute; reflexivity) c). simpl in Hall.
  rewrite H in Hall. simpl in Hall.
  apply andb_true_iff in Hall as [[[H1 H2]%andb_true_iff H3]%andb_true_iff H4].
  apply negb_true_iff in H1, H4. by apply Ascii.eqb_eq in H3.
Qed.

Ltac known_bool f c :=
  let v := eval vm_compute in (f c) in
  lazymatch v with
  | true => change (f c) with true
  | false => change (f c) with false
  end.

Ltac text_step :=
  first
    [ progress cbn -[PyStr.isdigit PyStr.isspace PyStr.isword PyStr.lower_char Ascii.eqb]
    | match goal with
      | H : PyStr.isdigit ?c = _ |- context [PyStr.isdigit ?c] => rewrite H
      | H : PyStr.isspace ?c = _ |- context [PyStr.isspace ?c] => rewrite H
      | H : PyStr.isword ?c = _ |- context [PyStr.isword ?c] => rewrite H
      | H : PyStr.lower_char ?c = _ |- context [PyStr.lower_char ?c] => rewrite H
      | |- context [PyStr.isdigit ?c] => known_bool PyStr.isdigit c
      | |- context [PyStr.isspace ?c] => known_bool PyStr.isspace c
      | |- context [PyStr.isword ?c] => known_bool PyStr.isword c
      | |- context [Ascii.eqb ?a ?b] =>
          let v := eval vm_compute in (Ascii.eqb a b) in
          lazymatch v with
          | true => change (Ascii.eqb a b) with true
          | false => change (Ascii.eqb a b) with false
          | _ => destruct (Ascii.eqb_spec a b); [subst; try discriminate|]
          end
      end ].

Ltac text_head :=
  repeat (lazymatch goal with
          | |- Some _ = _ => fail
          | |- _ => text_step
          end).


Lemma search_first {A} (re : Re.M A) (s : string) (a : A) :
  first_of (re (Re.Cursor None s)) = Some a -> Re.search re s = Some a.
Proof.
  unfold Re.search, first_of.
  destruct (re (Re.Cursor None s)) as [|[a0 c0] l] eqn:E; [done|].
  intros [= ->]. destruct s; simpl; by rewrite E.
Qed.


Lemma bind_assoc {A B C} (m : Re.M A) (f : A -> Re.M B) (g : B -> Re.M C) c :
  Re.bind (Re.bind m f) g c = Re.bind m (fun a => Re.bind (f a) g) c.
Proof.
  unfold Re.bind. induction (m c) as [|[a c1] l IH]; [done|].
  simpl. by rewrite flat_map_app, IH.
Qed.

Lemma bind_ret_l {A B} (a : A) (f : A -> Re.M B) c : Re.bind (Re.ret a) f c = f a c.
Proof. unfold Re.bind, Re.ret. simpl. apply app_nil_r. Qed.

Lemma bind_ext {A B} (m : Re.M A) (f g : A -> Re.M B) c :
  (forall a c', f a c' = g a c') -> Re.bind m f c = Re.bind m g c.
Proof.
  intros H. unfold Re.bind. apply flat_map_ext. by intros [a c'].
Qed.

Lemma long_date_split c : long_date_re c = Re.bind date_front date_tail c.
Proof.
  unfold long_date_re, date_front.
  rewrite bind_assoc. apply bind_ext. intros _b c1.
  rewrite bind_assoc. apply bind_ext. intros g1 c2.
  rewrite bind_assoc. apply bind_ext. intros _d c3.
  by rewrite bind_ret_l.
Qed.

Lemma date_tail_not_space g p x r :
  PyStr.isspace x = false -> date_tail g (Re.Cursor p (String x r)) = [].
Proof.
  intros H. unfold date_tail, Re.plus. rewrite bind_assoc.
  unfold Re.bind at 1. unfold Re.char_if. cbn [Re.rest]. by rewrite H.
Qed.

Lemma date_tail_hit (g ds post : string) (c3 c4 : ascii) p :
  all_chars PyStr.isdigit ds = true -> 1 <= String.length ds <= 2 ->
  PyStr.isdigit c3 = true -> PyStr.isdigit c4 = true ->
  no_word_first post = true ->
  first_of (date_tail g
              (Re.Cursor p
                 (String " " (ds +:+ ", " +:+
                    String "2" (String "0" (String c3 (String c4 EmptyString))) +:+ post))))
  = Some (g, ds, String "2" (String "0" (String c3 (String c4 EmptyString)))).
Proof.
  intros Hds Hlen H3 H4 Hpost.
  destruct (digit_facts c3 H3) as (B1 & B2 & B3 & _).
  destruct (digit_facts c4 H4) as (C1 & C2 & C3 & _).
  assert (match post with String a _ => PyStr.isword a = false | _ => True end) as Hp.
  { destruct post; [done|]. by apply negb_true_iff in Hpost. }
  clear Hpost.
  destruct ds as [|d1 [|d2 [|? ?]]]; simpl in Hlen; try lia; clear Hlen;
    simpl in Hds; rewrite ?andb_true_r in Hds.
  - destruct (digit_facts d1 Hds) as (A1 & A2 & A3 & _).
    unfold date_tail, year20, Re.between, Re.plus, Re.star, Re.opt,
      Re.word_boundary, day_suffixes.
    cbv [String.append]. text_head. destruct post; text_head; reflexivity.
  - apply andb_true_iff in Hds as [Hd1 Hd2].
    destruct (digit_facts d1 Hd1) as (A1 & A2 & A3 & _).
    destruct (digit_facts d2 Hd2) as (D1 & D2 & D3 & _).
    unfold date_tail, year20, Re.between, Re.plus, Re.star, Re.opt,
      Re.word_boundary, day_suffixes.
    cbv [String.append]. text_head. destruct post; text_head; reflexivity.
Qed.

Lemma date_front_month (m T : string) r :
  m ∈ month_names ->
  (forall p, first_of (date_tail m (Re.Cursor p (String " " T))) = Some r) ->
  first_of (Re.bind date_front date_tail (Re.Cursor None (m +:+ String " " T))) = Some r.
Proof.
  intros Hm Hr. apply list_elem_of_In in Hm. simpl in Hm.
  repeat (destruct Hm as [<-|Hm]; [shelve|]). destruct Hm.
  Unshelve.
  all: unfold Re.bind at 1;
    match goal with
    | |- context [date_front ?c] =>
        let l := eval vm_compute in (date_front c) in
        change (date_front c) with l
    end;
    cbn [flat_map];
    rewrite ?date_tail_not_space by reflexivity;
    cbn [app]; rewrite app_nil_r; apply Hr.
Qed.

Lemma long_date_first (m ds post : string) (c3 c4 : ascii) :
  m ∈ month_names ->
  all_chars PyStr.isdigit ds = true -> 1 <= String.length ds <= 2 ->
  PyStr.isdigit c3 = true -> PyStr.isdigit c4 = true ->
  no_word_first post = true ->
  first_of (long_date_re
              (Re.Cursor None
                 (dateline m ds (String "2" (String "0" (String c3 (String c4 EmptyString))))
                  +:+ post)))
  = Some (m, ds, String "2" (String "0" (String c3 (String c4 EmptyString)))).
Proof.
  intros Hm Hds Hlen H3 H4 Hpost.
  rewrite long_date_split. unfold dateline. rewrite !append_assoc.
  change (" " +:+ ds +:+ ", " +:+ String "2" (String "0" (String c3 (String c4 EmptyString)))
          +:+ post)
    with (String " " (ds +:+ ", " +:+
            String "2" (String "0" (String c3 (String c4 EmptyString))) +:+ post)).
  apply date_front_month; [done|]. intros p. by apply date_tail_hit.
Qed.

(** ** The first line of a text *)
Lemma not_break_not_cr (c : ascii) :
  PyStr.is_linebreak c = false -> (PyStr.code c =? 13)%N = false.
Proof.
  intros H. destruct (PyStr.code c =? 13)%N eqn:E; [|done].
  apply N.eqb_eq in E. unfold PyStr.is_linebreak, PyStr.between in H.
  by rewrite E in H.
Qed.

Lemma splitlines_go_line (line s acc : string) :
  all_chars not_break line = true ->
  PyStr.splitlines_go acc (line +:+ s) = PyStr.splitlines_go (PyStr.rev_onto line acc) s.
Proof.
  revert acc. induction line as [|c line IH]; intros acc Hl; [done|].
  simpl in Hl. apply andb_true_iff in Hl as [Hc Hl]. apply negb_true_iff in Hc.
  rewrite append_cons. simpl PyStr.splitlines_go.
  rewrite (not_break_not_cr c Hc), Hc. by apply IH.
Qed.

Lemma rev_onto_twice (a b c : string) :
  PyStr.rev_onto (PyStr.rev_onto a b) c = PyStr.rev_onto b (a +:+ c).
Proof.
  revert b c. induction a as [|x a IH]; intros b c; [done|].
  simpl PyStr.rev_onto at 2. by rewrite IH.
Qed.

Lemma append_nil_r (s : string) : s +:+ EmptyString = s.
Proof. induction s as [|a s IH]; [done|]. by rewrite append_cons, IH. Qed.

Lemma rev_onto_involutive (line : string) :
  PyStr.rev_onto (PyStr.rev_onto line EmptyString) EmptyString = line.
Proof. rewrite rev_onto_twice. simpl. apply append_nil_r. Qed.

Lemma rev_onto_truthy (line acc : string) :
  PyStr.truthy line = true -> PyStr.is_empty (PyStr.rev_onto line acc) = false.
Proof.
  revert acc. induction line as [|c line IH]; intros acc; [done|]. intros _. simpl.
  destruct line as [|c' line]; [done|]. by apply IH.
Qed.

Lemma head_lines_first_line (line post : string) :
  all_chars not_break line = true -> PyStr.truthy line = true ->
  post = EmptyString \/ (exists more, post = String LF more) ->
  exists post',
    head_lines (line +:+ post) = line +:+ post'
    /\ (post' = EmptyString \/ exists more', post' = String LF more').
Proof.
  intros Hl Hne Hpost. unfold head_lines, PyStr.splitlines.
  rewrite splitlines_go_line by done.
  destruct Hpost as [->|[more ->]].
  - simpl. rewrite rev_onto_truthy by done. simpl. rewrite rev_onto_involutive.
    exists EmptyString. split; [by rewrite append_nil_r|by left].
  - simpl PyStr.splitlines_go. rewrite rev_onto_involutive.
    change (take 20 (line :: PyStr.splitlines_go EmptyString more))
      with (line :: take 19 (PyStr.splitlines_go EmptyString more)).
    destruct (take 19 (PyStr.splitlines_go EmptyString more)) as [|q qs].
    + exists EmptyString. split; [by rewrite append_nil_r|by left].
    + exists (String LF (PyStr.join (String LF EmptyString) (q :: qs))).
      split; [done|right; by eexists].
Qed.

Lemma all_chars_app (P : ascii -> bool) (s t : string) :
  all_chars P (s +:+ t) = all_chars P s && all_chars P t.
Proof.
  induction s as [|a s IH]; [done|]. rewrite append_cons. simpl.
  by rewrite IH, andb_assoc.
Qed.

Lemma digits_not_break (ds : string) :
  all_chars PyStr.isdigit ds = true -> all_chars not_break ds = true.
Proof.
  induction ds as [|a ds IH]; [done|]. simpl.
  intros [Ha Hds]%andb_true_iff. rewrite IH by done.
  destruct (digit_facts a Ha) as (_ & _ & _ & Hb). unfold not_break. by rewrite Hb.
Qed.

Lemma month_names_facts (m : string) :
  m ∈ month_names ->
  all_chars not_break m = true /\ PyStr.truthy m = true
  /\ exists mo, dict_get month_map (PyStr.prefix 3 (PyStr.lower m)) = Some mo
                /\ (mo =? 0)%Z = false /\ month_number m = mo.
Proof.
  intros Hm. apply list_elem_of_In in Hm. simpl in Hm.
  repeat (destruct Hm as [<-|Hm];
          [split; [reflexivity|split; [reflexivity|eexists; split_and!; reflexivity]]|]).
  destruct Hm.
Qed.

(** X15. A text that starts with a date line, made of a month name of
    the pattern (full or abbreviated), a space, a day of one or two digits,
    a comma, a space and a year of this century, and that ends there or
    goes on with a new line, is dated by that line: the text parser
    returns the date as YYYY-MM-DD when it is a date of the calendar and
    nothing when it is not. *)
Theorem dateline_at_the_top_is_read (m ds post : string) (c3 c4 : ascii) :
  let ys := String "2" (String "0" (String c3 (String c4 EmptyString))) in
  m ∈ month_names ->
  all_chars PyStr.isdigit ds = true -> 1 <= String.length ds <= 2 ->
  PyStr.isdigit c3 = true -> PyStr.isdigit c4 = true ->
  post = EmptyString \/ (exists more, post = String LF more) ->
  parse_date_from_text (dateline m ds ys +:+ post)
  = formatted (datetime (PyStr.int ys) (month_number m) (PyStr.int ds)).
Proof.
  intros ys Hm Hds Hlen H3 H4 Hpost.
  destruct (month_names_facts m Hm) as (Hb & Hne & mo & Hmo & Hz & Hnum).
  assert (all_chars not_break (dateline m ds ys) = true) as Hline.
  { unfold dateline. rewrite !all_chars_app, Hb, (digits_not_break ds Hds).
    simpl. destruct (digit_facts c3 H3) as (_ & _ & _ & E3).
    destruct (digit_facts c4 H4) as (_ & _ & _ & E4).
    unfold not_break. by rewrite E3, E4. }
  destruct (head_lines_first_line (dateline m ds ys) post Hline) as (post' & Hh & Hp');
    [unfold dateline; by apply append_truthy_l|done|].
  unfold parse_date_from_text. rewrite Hh.
  rewrite (search_first long_date_re _ (m, ds, ys)).
  - rewrite Hmo, Hz, Hnum. done.
  - apply long_date_first; try done. by destruct Hp' as [->|[more' ->]].
Qed.

Lemma dateline_at_the_top_is_read_witness :
  parse_date_from_text ("Sept 7, 2024" +:+ String LF "Dear editor") = Some "2024-09-07"
  /\ parse_date_from_text "February 30, 2024" = None.
Proof.
  split.
  - apply (dateline_at_the_top_is_read "Sept" "7" (String LF "Dear editor") "2" "4");
      [by_evaluation|reflexivity|simpl; lia|reflexivity|reflexivity|].
    right. by eexists.
  - apply (dateline_at_the_top_is_read "February" "30" EmptyString "2" "4");
      [by_evaluation|reflexivity|simpl; lia|reflexivity|reflexivity|by left].
Defined.


(** ** Dates as strings and the order of the collection *)

Lemma compare_digit (a b : Z) (s t : string) :
  String.compare (String (PyStr.digit_char a) s) (String (PyStr.digit_char b) t)
  = match (a mod 10 ?= b mod 10)%Z with
    | Eq => String.compare s t
    | r => r
    end.
Proof.
  simpl. unfold Ascii.compare.
  change (N_of_ascii (PyStr.digit_char a)) with (PyStr.code (PyStr.digit_char a)).
  change (N_of_ascii (PyStr.digit_char b)) with (PyStr.code (PyStr.digit_char b)).
  rewrite !code_digit_char.
  pose proof (Z.mod_pos_bound a 10). pose proof (Z.mod_pos_bound b 10).
  rewrite Z2N.inj_compare by lia. by rewrite Z.add_compare_mono_l.
Qed.

Lemma zero_padded_compare (w : nat) (a b : Z) (s t : string) :
  (0 <= a < 10 ^ Z.of_nat w)%Z -> (0 <= b < 10 ^ Z.of_nat w)%Z ->
  String.compare (PyStr.zero_padded w a +:+ s) (PyStr.zero_padded w b +:+ t)
  = match (a ?= b)%Z with
    | Eq => String.compare s t
    | r => r
    end.
Proof.
  revert a b s t. induction w as [|w IH]; intros a b s t Ha Hb.
  - simpl in Ha, Hb. assert (a = 0 /\ b = 0)%Z as [-> ->] by lia. done.
  - rewrite Nat2Z.inj_succ, Z.pow_succ_r in Ha, Hb by lia.
    simpl PyStr.zero_padded. rewrite !append_assoc.
    change (String (PyStr.digit_char a) "" +:+ s) with (String (PyStr.digit_char a) s).
    change (String (PyStr.digit_char b) "" +:+ t) with (String (PyStr.digit_char b) t).
    rewrite IH by (Z.to_euclidean_division_equations; lia).
    rewrite compare_digit.
    destruct (Z.compare_spec (a / 10) (b / 10)), (Z.compare_spec (a mod 10) (b mod 10)),
      (Z.compare_spec a b); try done; exfalso; Z.to_euclidean_division_equations; lia.
Qed.

Lemma strftime_ymd_compare (t1 t2 : Z * Z * Z) :
  in_range t1 -> in_range t2 ->
  String.compare (strftime_ymd t1) (strftime_ymd t2) = (day_number t1 ?= day_number t2)%Z.
Proof.
  destruct t1 as [[y1 m1] d1], t2 as [[y2 m2] d2].
  intros (Hy1 & Hm1 & Hd1) (Hy2 & Hm2 & Hd2). unfold strftime_ymd, day_number.
  rewrite (zero_padded_compare 4) by (simpl; lia).
  change ("-" +:+ PyStr.zero_padded 2 m1 +:+ "-" +:+ PyStr.zero_padded 2 d1)
    with (String "-" (PyStr.zero_padded 2 m1 +:+ "-" +:+ PyStr.zero_padded 2 d1)).
  change ("-" +:+ PyStr.zero_padded 2 m2 +:+ "-" +:+ PyStr.zero_padded 2 d2)
    with (String "-" (PyStr.zero_padded 2 m2 +:+ "-" +:+ PyStr.zero_padded 2 d2)).
  cbn [String.compare]. change (Ascii.compare "-" "-") with Eq. cbv iota.
  rewrite (zero_padded_compare 2) by (simpl; lia).
  change ("-" +:+ PyStr.zero_padded 2 d1) with (String "-" (PyStr.zero_padded 2 d1)).
  change ("-" +:+ PyStr.zero_padded 2 d2) with (String "-" (PyStr.zero_padded 2 d2)).
  cbn [String.compare]. change (Ascii.compare "-" "-") with Eq. cbv iota.
  rewrite <- (append_nil_r (PyStr.zero_padded 2 d1)), <- (append_nil_r (PyStr.zero_padded 2 d2)).
  rewrite (zero_padded_compare 2) by (simpl; lia).
  simpl String.compare.
  destruct (Z.compare_spec y1 y2), (Z.compare_spec m1 m2), (Z.compare_spec d1 d2),
    (Z.compare_spec (y1 * 10000 + m1 * 100 + d1) (y2 * 10000 + m2 * 100 + d2));
    try done; exfalso; lia.
Qed.

Lemma datetime_in_range y mo d t : datetime y mo d = Some t -> in_range t.
Proof.
  unfold datetime. destruct (_ && _)%bool eqn:E; [|done]. intros [= <-].
  repeat (apply andb_true_iff in E as [E ?]).
  assert (days_in_month y mo <= 31)%Z.
  { unfold days_in_month.
    destruct (mo =? 2)%Z; [destruct (is_leap y); lia|].
    destruct (_ || _)%bool; lia. }
  simpl. lia.
Qed.

Lemma strftime_ymd_lt (t1 t2 : Z * Z * Z) :
  in_range t1 -> in_range t2 ->
  PyStr.lt (strftime_ymd t1) (strftime_ymd t2) = true <-> (day_number t1 < day_number t2)%Z.
Proof.
  intros H1 H2. unfold PyStr.lt, String.ltb. rewrite strftime_ymd_compare by done.
  destruct (Z.compare_spec (day_number t1) (day_number t2)); split; try done; lia.
Qed.

Lemma sorted_before (l l1 l2 : list Article) (a b : Article) :
  sorted_reverse l = l1 ++ a :: l2 -> b ∈ l2 -> desc_order a b.
Proof.
  intros E Hb. pose proof (sorted_reverse_sorted l) as Hs. rewrite E in Hs.
  apply StronglySorted_app_1_r in Hs. apply StronglySorted_inv in Hs as [_ Hall].
  by apply (proj1 (Forall_forall _ _) Hall).
Qed.

(** X16. Dates in the form YYYY-MM-DD compare as strings the way they
    compare in the calendar; the dates that the two heuristics return are
    of that form; so in the collection written, of two entries that carry
    such dates the one that stands first is the later one or of the same
    day: the collection is in reverse chronological order wherever its
    dates are calendar dates. *)
Theorem dated_entries_are_chronological :
  (forall t1 t2, in_range t1 -> in_range t2 ->
     (PyStr.lt (strftime_ymd t1) (strftime_ymd t2) = true
      <-> (day_number t1 < day_number t2)%Z))
  /\ (forall file_name s, parse_date_from_filename file_name = Some s ->
        exists t, s = strftime_ymd t /\ in_range t)
  /\ (forall body s, parse_date_from_text body = Some s ->
        exists t, s = strftime_ymd t /\ in_range t)
  /\ (forall w args state prior out l1 a l2 b ta tb,
        main w args state prior = Finished out ->
        Payload.articles (data_json out) = l1 ++ a :: l2 -> b ∈ l2 ->
        date a = strftime_ymd ta -> date b = strftime_ymd tb ->
        in_range ta -> in_range tb ->
        (day_number tb <= day_number ta)%Z).
Proof.
  split_and!.
  - apply strftime_ymd_lt.
  - intros file_name s (y & mo & d & -> & Hd & _)%parse_date_from_filename_Some.
    exists (y, mo, d). split; [done|]. by apply (datetime_in_range y mo d).
  - intros body s (y & mo & d & -> & Hd & _)%parse_date_from_text_Some.
    exists (y, mo, d). split; [done|]. by apply (datetime_in_range y mo d).
  - intros w args state prior out l1 a l2 b ta tb Hm Hl Hb Ha Hb' Hta Htb.
    apply main_finished_inv in Hm as (docs & _ & _ & ->). simpl in Hl.
    pose proof (sorted_before _ _ _ _ _ Hl Hb) as [Hlt|[Heq _]].
    + rewrite Ha, Hb' in Hlt. apply (strftime_ymd_lt tb ta) in Hlt; [lia|done|done].
    + rewrite Ha, Hb' in Heq.
      pose proof (strftime_ymd_compare ta tb Hta Htb) as Hc. rewrite Heq in Hc.
      assert (String.compare (strftime_ymd tb) (strftime_ymd tb) = Eq) as Hrefl.
      { destruct (String.compare (strftime_ymd tb) (strftime_ymd tb)) eqn:E; [done| |].
        - pose proof (String.compare_antisym (strftime_ymd tb) (strftime_ymd tb)) as H.
          rewrite E in H. discriminate.
        - pose proof (String.compare_antisym (strftime_ymd tb) (strftime_ymd tb)) as H.
          rewrite E in H. discriminate. }
      rewrite Hrefl in Hc. symmetry in Hc. apply Z.compare_eq in Hc. lia.
Qed.

Lemma dated_entries_are_chronological_witness :
  PyStr.lt "2023-12-31" "2024-01-01" = true
  /\ (day_number (2023, 12, 24) <= day_number (2024, 3, 1))%Z.
Proof.
  destruct dated_entries_are_chronological as (H1 & _ & _ & H4).
  split.
  - apply (H1 (2023, 12, 31)%Z (2024, 1, 1)%Z); simpl; lia.
  - apply (H4 Sample.world (Sample.args true false) ∅ (Some Sample.previous)
              Sample.resumed_run [] Sample.dated_entry
              (tail (Payload.articles (data_json Sample.resumed_run)))
              Sample.entry_gone (2024, 3, 1)%Z (2023, 12, 24)%Z);
      [reflexivity|vm_compute; reflexivity|by_evaluation|reflexivity|reflexivity
      |simpl; lia|simpl; lia].
Defined.

(** ** The missing-date report, row by row *)

Lemma keys_NoDup_filter_short (l : list Article) (n : string) :
  NoDup (omap source_key l) -> PyStr.truthy n = true ->
  length (filter (has_source n) l) <= 1.
Proof.
  intros Hnd Hn. induction l as [|x l IH]; [simpl; lia|].
  rewrite omap_cons in Hnd. rewrite filter_cons.
  destruct (decide (has_source n x)) as [Hx|Hx].
  - assert (source_key x = Some n) as Hk by by apply source_key_Some.
    rewrite Hk in Hnd. apply NoDup_cons in Hnd as [Hnot _].
    rewrite (filter_none _ l); [simpl; lia|].
    intros y Hy Hys. apply Hnot. apply list_elem_of_omap. exists y. split; [done|].
    by apply source_key_Some.
  - apply IH. destruct (source_key x); [by apply NoDup_cons in Hnd as [_ ?]|done].
Qed.

Lemma missing_rows_of_a_run w args docs state prior :
  NoDup (name <$> docs) ->
  Loop.missing_date_rows (run_loop w args docs state prior)
  = omap missing_row (omap (built w args state) docs).
Proof.
  intros Hnd. unfold run_loop.
  by destruct (loop_as_map w args docs
                 (loop_start state (after_prune args docs (carried_forward args prior))) Hnd)
    as (_ & _ & _ & _ & -> & _).
Qed.

Lemma missing_row_Some (a : Article) (row : list cell) :
  missing_row a = Some row <-> date a = EmptyString /\ row = row_of a.
Proof.
  unfold missing_row. destruct (PyStr.truthy (date a)) eqn:E.
  - split; [done|]. intros [Hd _]. rewrite Hd in E. done.
  - apply truthy_false in E. split; [by intros [= <-]|]. by intros [_ ->].
Qed.

(** An entry of the written collection that has a row was built in this
    run. *)
Lemma row_of_written_entry w args docs state prior a :
  listing_ok docs ->
  NoDup (omap source_key (carried_forward args prior)) ->
  a ∈ collection_of (Loop.articles (run_loop w args docs state prior)) ->
  row_of a ∈ omap missing_row (omap (built w args state) docs) ->
  date a = EmptyString
  /\ exists d, d ∈ docs /\ built w args state d = Some a.
Proof.
  intros [Hnd Hne] Hkeys Ha Hrow.
  apply list_elem_of_omap in Hrow as (b & (d & Hd & Hb)%list_elem_of_omap & Hmr).
  apply missing_row_Some in Hmr as [Hdate Hrow].
  pose proof Hb as (Hg & Hwc & Hat)%built_Some%verdict_Built.
  pose proof (built_source _ _ _ _ _ Hb) as Hsb.
  assert (PyStr.truthy (name d) = true) as Hn by by apply (proj1 (Forall_forall _ _) Hne).
  pose proof Ha as Ha'. apply collection_of_elem in Ha'.
  destruct (dedup_values_key _ _ Ha') as [n [Hsa Hnt]%source_key_Some].
  assert (n = name d) as ->.
  { unfold row_of in Hrow. rewrite Hsa, Hsb in Hrow. simpl in Hrow. congruence. }
  destruct (run_loop_built w args docs state prior d b Hnd Hd Hg Hwc Hat)
    as (_ & H2 & _).
  rewrite (short_tail _ (keys_NoDup_filter_short _ _ Hkeys Hn)) in H2.
  assert (a ∈ filter (has_source (name d))
                (collection_of (Loop.articles (run_loop w args docs state prior))))
    as Hin by by apply list_elem_of_filter.
  rewrite collection_of_filter in Hin by done. unfold entry_of in Hin.
  rewrite H2 in Hin. simpl in Hin. apply list_elem_of_singleton in Hin. subst b.
  split; [done|]. by exists d.
Qed.

(** The claim C3 as it is stated fails: in the run that follows the first
    run of the sample, the entry of [letter.docx] is carried forward with
    an empty date, and the report has the header row alone. *)
Lemma missing_report_omits_carried_entry :
  main Sample.world (Sample.args true true) (state_json Sample.first_run)
    (Some (data_json Sample.first_run)) = Finished Sample.second_run
  /\ date <$> entry_of "letter.docx" (Payload.articles (data_json Sample.second_run))
     = Some EmptyString
  /\ missing_csv Sample.second_run = [csv_header]
  /\ ~ (forall a, a ∈ Payload.articles (data_json Sample.second_run) ->
          date a = EmptyString -> row_of a ∈ missing_csv Sample.second_run).
Proof.
  assert (date <$> entry_of "letter.docx" (Payload.articles (data_json Sample.second_run))
          = Some EmptyString) as Hdate by (vm_compute; reflexivity).
  assert (missing_csv Sample.second_run = [csv_header]) as Hcsv
    by (vm_compute; reflexivity).
  split_and!; [vm_compute; reflexivity|done|done|].
  intros Hall.
  pose proof Hdate as (a & He & Hda)%fmap_Some.
  apply entry_of_elem in He as [Ha Hs]. symmetry in Hda.
  specialize (Hall a Ha Hda). rewrite Hcsv in Hall.
  apply list_elem_of_singleton in Hall.
  unfold row_of, csv_header in Hall. rewrite Hs in Hall. discriminate.
Qed.

(** C3, amended. The report is the header row followed by one row for
    each file, in the order of the folder, whose entry was built in this
    run (added or replaced) with an empty date; no row repeats. Given a
    carried-forward collection in which no two entries share a source
    file, every row is the (file name, title, word count) of an entry of
    the written collection whose date is empty, and an entry of the
    written collection has its row exactly when its date is empty and it
    was built in this run: the file passed the fingerprint gate, had
    words, and the attempt succeeded with this entry. So an entry that is
    carried forward because its file was skipped gets no row, whatever
    its date; every entry with an empty date that is not one of the
    carried-forward entries has its row, and without [--resume] every
    entry with an empty date has one. The previous output does not enter
    the report. *)
Theorem missing_date_report w args state prior docs out :
  folder w = Some docs -> listing_ok docs ->
  NoDup (omap source_key (carried_forward args prior)) ->
  main w args state prior = Finished out ->
  exists rows,
    missing_csv out = csv_header :: rows
    /\ rows = omap missing_row (omap (built w args state) docs)
    /\ NoDup rows
    /\ (forall row, row ∈ rows ->
          exists a, a ∈ Payload.articles (data_json out)
                    /\ date a = EmptyString /\ row = row_of a)
    /\ (forall a, a ∈ Payload.articles (data_json out) ->
          (row_of a ∈ rows <->
           date a = EmptyString
           /\ exists d, d ∈ docs /\ gate_open args state d
                        /\ word_count (body_of w d) <> 0
                        /\ attempt_of w args d = Ok a))
    /\ (forall a d, a ∈ Payload.articles (data_json out) -> d ∈ docs ->
          sourceFile a = Some (name d) -> ~ gate_open args state d ->
          row_of a ∉ rows)
    /\ (forall a, a ∈ Payload.articles (data_json out) -> date a = EmptyString ->
          a ∉ carried_forward args prior -> row_of a ∈ rows)
    /\ (resume args = false ->
        forall a, a ∈ Payload.articles (data_json out) -> date a = EmptyString ->
                  row_of a ∈ rows)
    /\ (forall prior' out', main w args state prior' = Finished out' ->
          missing_csv out' = missing_csv out).
Proof.
  intros Hf Hl Hkeys (docs' & Hf' & Hc & ->)%main_finished_inv.
  assert (docs' = docs) as -> by congruence.
  pose proof Hl as [Hnd Hne].
  exists (Loop.missing_date_rows (run_loop w args docs state prior)).
  set (start := after_prune args docs (carried_forward args prior)).
  assert (rows_inv (run_loop w args docs state prior) []) as (Hk & Hrows & Hall).
  { apply rows_inv_loop; [done|]. split_and!; simpl.
    - by apply after_prune_keys_NoDup.
    - apply NoDup_nil_2.
    - intros row Hrow. by apply elem_of_nil in Hrow. }
  assert (fresh_inv start (run_loop w args docs state prior)) as Hfresh.
  { apply fresh_inv_loop. intros a Ha. by left. }
  assert (forall a, a ∈ Payload.articles
                          (data_json (finish w (run_loop w args docs state prior))) ->
            date a = EmptyString -> a ∉ carried_forward args prior ->
            row_of a ∈ Loop.missing_date_rows (run_loop w args docs state prior))
    as Hnew.
  { simpl. intros a Ha Hda Hnot.
    fold (collection_of (Loop.articles (run_loop w args docs state prior))) in Ha.
    apply collection_of_elem, dedup_values_elem in Ha.
    destruct (Hfresh a Ha) as [Hst|Hrow]; [|by apply Hrow].
    exfalso. apply Hnot. by apply after_prune_elem in Hst. }
  assert (forall a, a ∈ Payload.articles
                          (data_json (finish w (run_loop w args docs state prior))) ->
            (row_of a ∈ Loop.missing_date_rows (run_loop w args docs state prior) <->
             date a = EmptyString
             /\ exists d, d ∈ docs /\ gate_open args state d
                          /\ word_count (body_of w d) <> 0
                          /\ attempt_of w args d = Ok a)) as Hiff.
  { simpl. intros a Ha.
    fold (collection_of (Loop.articles (run_loop w args docs state prior))) in Ha.
    rewrite missing_rows_of_a_run by done. split.
    - intros Hrow.
      destruct (row_of_written_entry w args docs state prior a Hl Hkeys Ha Hrow)
        as (Hda & d & Hd & Hb).
      split; [done|]. exists d. split; [done|]. by apply verdict_Built, built_Some.
    - intros (Hda & d & Hd & Hb). apply list_elem_of_omap. exists a. split.
      + apply list_elem_of_omap. exists d. split; [done|].
        by apply built_Some, verdict_Built.
      + by apply missing_row_Some. }
  split_and!; try done.
  - by apply missing_rows_of_a_run.
  - simpl. intros row Hrow.
    destruct (Hall row Hrow) as (a & n & Ha & -> & Hda & Hka & _).
    exists a. split_and!; try done.
    fold (collection_of (Loop.articles (run_loop w args docs state prior))).
    apply collection_of_elem. by apply (dedup_values_keeps _ _ n).
  - intros a d Ha Hd Hs Hg Hrow.
    apply (Hiff a Ha) in Hrow as (_ & d' & Hd' & Hg' & _ & Hat).
    apply attempt_of_fields in Hat as [Hs' _].
    assert (d' = d) as -> by (apply (names_inj docs); [done|done|done|congruence]).
    by apply Hg.
  - intros Hr a Ha Hda. apply Hnew; [done|done|].
    unfold carried_forward. rewrite Hr. apply not_elem_of_nil.
  - intros prior' out' Hm'. rewrite (main_run _ _ _ _ _ _ Hf Hm'). simpl.
    by rewrite !missing_rows_of_a_run.
Qed.

Lemma missing_date_report_witness :
  (exists rows,
     missing_csv Sample.first_run = csv_header :: rows
     /\ rows = [[CStr "letter.docx"; CStr "A title"; CInt 4]]
     /\ (forall row, row ∈ rows ->
           exists a, a ∈ Payload.articles (data_json Sample.first_run)
                     /\ date a = EmptyString /\ row = row_of a))
  /\ (exists rows,
        missing_csv Sample.second_run = csv_header :: rows
        /\ forall a, a ∈ Payload.articles (data_json Sample.second_run) ->
             sourceFile a = Some "letter.docx" -> row_of a ∉ rows).
Proof.
  split.
  - destruct (missing_date_report Sample.world (Sample.args true true) ∅ None
                Sample.files Sample.first_run)
      as (rows & Hcsv & _ & _ & Hrows & _).
    + reflexivity.
    + split; by_evaluation.
    + by_evaluation.
    + reflexivity.
    + exists rows. split_and!; [done| |done].
      vm_compute in Hcsv. by injection Hcsv as <-.
  - destruct (missing_date_report Sample.world (Sample.args true true)
                (state_json Sample.first_run) (Some (data_json Sample.first_run))
                Sample.files Sample.second_run)
      as (rows & Hcsv & _ & _ & _ & _ & Hskip & _).
    + reflexivity.
    + split; by_evaluation.
    + by_evaluation.
    + vm_compute. reflexivity.
    + exists rows. split; [done|]. intros a Ha Hs.
      apply (Hskip a Sample.letter); [done|by_evaluation|done|].
      vm_compute. intros H. discriminate H.
Defined.

(** ** The order of the written collection *)

Lemma omap_all_None {A B} (f : A -> option B) (l : list A) :
  (forall x, x ∈ l -> f x = None) -> omap f l = [].
Proof.
  induction l as [|x l IH]; intros H; [done|].
  rewrite omap_cons, (H x) by left. apply IH. intros y Hy. apply H. by right.
Qed.

(** A run that rebuilds nothing writes what it carried forward, pruned if
    asked, deduplicated and sorted. *)
Lemma nothing_rebuilt w args docs state prior :
  NoDup (name <$> docs) ->
  (forall d, d ∈ docs -> built w args state d = None) ->
  Payload.articles (data_json (finish w (run_loop w args docs state prior)))
  = sorted_reverse (dedup_values (after_prune args docs (carried_forward args prior))).
Proof.
  intros Hnd Hnone. simpl. rewrite run_loop_articles by done.
  by rewrite (omap_all_None _ _ Hnone).
Qed.

Lemma three_entries_sorted (l : list Article) :
  l ≡ₚ [Sample.entry_a; Sample.entry_z; Sample.entry_b] ->
  sorted_reverse l = [Sample.entry_b; Sample.entry_a; Sample.entry_z]
  /\ sorted_reverse (dedup_values l) = [Sample.entry_b; Sample.entry_a; Sample.entry_z].
Proof.
  intros Hl. symmetry in Hl. apply permutations_Permutation in Hl.
  assert (Forall (fun l => sorted_reverse l
                           = [Sample.entry_b; Sample.entry_a; Sample.entry_z]
                           /\ sorted_reverse (dedup_values l)
                              = [Sample.entry_b; Sample.entry_a; Sample.entry_z])
            (permutations [Sample.entry_a; Sample.entry_z; Sample.entry_b])) as Hall
    by by_evaluation.
  rewrite Forall_forall in Hall. by apply Hall.
Qed.

(** C7. The collection that a run writes is ordered by date descending,
    then title descending: the order is total, every entry may stand
    before all that follow it, entries with an empty date come after all
    dated ones, and entries with the same date and title keep the order
    they had. The sort only rearranges. On the three entries
    (2024-03-01, B), (2024-03-01, A) and (no date, Z), given in any order,
    the result is B, A, Z. All this holds of the collection written by a
    run, which is the deduplicated list in memory rearranged: a run that
    holds these three entries when its loop ends writes B, A, Z, and so
    does a run with [--resume] that finds them, in any order, in the
    previous output and rebuilds no entry. *)
Theorem sort_order_of_collection :
  (forall a b, desc_order a b \/ desc_order b a)
  /\ (forall l, StronglySorted desc_order (sorted_reverse l))
  /\ (forall l, l ≡ₚ sorted_reverse l)
  /\ (forall l k, filter (fun a => sort_key a = k) (sorted_reverse l)
                  = filter (fun a => sort_key a = k) l)
  /\ (forall l l1 a l2,
        sorted_reverse l = l1 ++ a :: l2 -> date a = EmptyString ->
        Forall (fun b => date b = EmptyString) l2)
  /\ (forall w args state prior out,
        main w args state prior = Finished out ->
        StronglySorted desc_order (Payload.articles (data_json out)))
  /\ (forall l, l ≡ₚ [Sample.entry_a; Sample.entry_z; Sample.entry_b] ->
        sorted_reverse l = [Sample.entry_b; Sample.entry_a; Sample.entry_z])
  /\ title <$> [Sample.entry_b; Sample.entry_a; Sample.entry_z] = ["B"; "A"; "Z"]
  /\ (forall w args state prior docs out,
        folder w = Some docs -> main w args state prior = Finished out ->
        let in_memory :=
          dedup_values (Loop.articles (run_loop w args docs state prior)) in
        let written := Payload.articles (data_json out) in
        in_memory ≡ₚ written
        /\ (forall k, filter (fun a => sort_key a = k) written
                      = filter (fun a => sort_key a = k) in_memory)
        /\ (forall l1 a l2 b, written = l1 ++ a :: l2 -> b ∈ l2 -> desc_order a b)
        /\ (forall l1 a l2, written = l1 ++ a :: l2 -> date a = EmptyString ->
              Forall (fun b => date b = EmptyString) l2)
        /\ (Loop.articles (run_loop w args docs state prior)
              ≡ₚ [Sample.entry_a; Sample.entry_z; Sample.entry_b] ->
            written = [Sample.entry_b; Sample.entry_a; Sample.entry_z]))
  /\ (forall w args state previous docs out,
        folder w = Some docs -> NoDup (name <$> docs) ->
        main w args state (Some previous) = Finished out ->
        resume args = true -> prune args = false ->
        (forall d, d ∈ docs -> built w args state d = None) ->
        Payload.articles previous ≡ₚ [Sample.entry_a; Sample.entry_z; Sample.entry_b] ->
        Payload.articles (data_json out)
        = [Sample.entry_b; Sample.entry_a; Sample.entry_z]
        /\ title <$> Payload.articles (data_json out) = ["B"; "A"; "Z"]).
Proof.
  assert (forall l l1 a l2,
            sorted_reverse l = l1 ++ a :: l2 -> date a = EmptyString ->
            Forall (fun b => date b = EmptyString) l2) as Hlast.
  { intros l l1 a l2 Heq Ha.
    pose proof (sorted_reverse_sorted l) as Hs. rewrite Heq in Hs.
    apply StronglySorted_app_1_r in Hs. inversion Hs as [|?? _ Hall]; subst.
    eapply Forall_impl; [exact Hall|]. intros b Hb. by apply (desc_order_empty_date a). }
  split_and!.
  - apply desc_order_total.
  - apply sorted_reverse_sorted.
  - apply sorted_reverse_perm.
  - intros l k. apply sorted_reverse_filter. congruence.
  - exact Hlast.
  - intros w args state prior out (docs & _ & _ & ->)%main_finished_inv.
    simpl. apply sorted_reverse_sorted.
  - intros l Hl. by apply three_entries_sorted.
  - reflexivity.
  - intros w args state prior docs out Hf Hm. rewrite (main_run _ _ _ _ _ _ Hf Hm).
    simpl. split_and!.
    + apply sorted_reverse_perm.
    + intros k. apply sorted_reverse_filter. congruence.
    + intros l1 a l2 b. apply sorted_before.
    + apply Hlast.
    + intros Hl. by apply three_entries_sorted.
  - intros w args state previous docs out Hf Hnd Hm Hr Hp Hnone Hl.
    rewrite (main_run _ _ _ _ _ _ Hf Hm), nothing_rebuilt by done.
    unfold after_prune, carried_forward. rewrite Hp, Hr.
    destruct (three_entries_sorted _ Hl) as [_ ->]. done.
Qed.

Lemma sort_order_of_collection_witness :
  StronglySorted desc_order (Payload.articles (data_json Sample.first_run))
  /\ Forall (fun b => date b = EmptyString) [Sample.entry_z]
  /\ sorted_reverse [Sample.entry_z; Sample.entry_a; Sample.entry_b]
     = [Sample.entry_b; Sample.entry_a; Sample.entry_z]
  /\ title <$> Payload.articles
       (data_json
          (finish Sample.world
             (run_loop Sample.world (Sample.args true false) Sample.files
                (state_json Sample.first_run)
                (Some {| Payload.generatedAt := "2024-05-01T08:00:00";
                         Payload.articles :=
                           [Sample.entry_z; Sample.entry_a; Sample.entry_b];
                         Payload.errors := [] |}))))
     = ["B"; "A"; "Z"].
Proof.
  destruct sort_order_of_collection
    as (_ & _ & _ & _ & Hlast & Hrun & Hex & _ & _ & Hkept).
  split_and!.
  - apply (Hrun Sample.world (Sample.args true true) ∅ None). reflexivity.
  - apply (Hlast [Sample.entry_z; Sample.entry_a; Sample.entry_z]
             [Sample.entry_a] Sample.entry_z [Sample.entry_z]);
      vm_compute; reflexivity.
  - apply Hex. by_evaluation.
  - apply (Hkept Sample.world (Sample.args true false) (state_json Sample.first_run)
             {| Payload.generatedAt := "2024-05-01T08:00:00";
                Payload.articles := [Sample.entry_z; Sample.entry_a; Sample.entry_b];
                Payload.errors := [] |}
             Sample.files).
    + reflexivity.
    + by_evaluation.
    + reflexivity.
    + reflexivity.
    + reflexivity.
    + intros d Hd%list_elem_of_In. simpl in Hd.
      destruct Hd as [<-|[<-|[<-|[<-|[<-|[]]]]]]; vm_compute; reflexivity.
    + by_evaluation.
Defined.

(** ** Where the patterns read a year *)

Lemma occurs_here (P : string -> bool) (s : string) : P s = true -> occurs P s = true.
Proof. destruct s; simpl; [done|by intros ->]. Qed.

Lemma occurs_app (P : string -> bool) (pre s : string) :
  occurs P s = true -> occurs P (pre +:+ s) = true.
Proof.
  intros H. induction pre as [|a pre IH]; [done|].
  rewrite append_cons. simpl. rewrite IH. apply orb_true_r.
Qed.

Lemma forward_occurs {A} (P : string -> bool) (m : Re.M A) c a c' :
  forward m -> In (a, c') (m c) ->
  occurs P (Re.rest c') = true -> occurs P (Re.rest c) = true.
Proof.
  intros Hm Hin H. destruct (Hm _ _ _ Hin) as [pre ->]. by apply occurs_app.
Qed.

Lemma year20_rest c y c' :
  In (y, c') (year20 c) ->
  exists c3 c4,
    Re.rest c = String "2" (String "0" (String c3 (String c4 (Re.rest c'))))
    /\ PyStr.isdigit c3 = true /\ PyStr.isdigit c4 = true /\ Re.before c' = Some c4.
Proof.
  unfold year20. simpl.
  intros (a & c1 & Ha & (b & c2 & Hb & [-> ->]%in_ret)%in_bind)%in_bind.
  apply in_bind in Ha as (x1 & d1 & Hx1 & (s1 & d2 & Hs1 & [-> ->]%in_ret)%in_bind).
  apply in_bind in Hs1 as (x2 & d3 & Hx2 & (s2 & d4 & [-> ->]%in_ret & [-> ->]%in_ret)%in_bind).
  apply in_bind in Hb as (x3 & d5 & Hx3 & (s3 & d6 & Hs3 & [-> ->]%in_ret)%in_bind).
  apply in_bind in Hs3 as (x4 & d7 & Hx4 & (s4 & d8 & [-> ->]%in_ret & [-> ->]%in_ret)%in_bind).
  apply in_char_if in Hx1 as (E1 & P1 & _), Hx2 as (E2 & P2 & _),
    Hx3 as (E3 & P3 & _), Hx4 as (E4 & P4 & B4).
  apply Ascii.eqb_eq in P1, P2. subst x1 x2.
  exists x3, x4. by rewrite E1, E2, E3, E4.
Qed.

Lemma one_or_two_In (p : ascii -> bool) c g c' :
  In (g, c') (Re.between 1 1 p c) ->
  (exists a, Re.rest c = String a (Re.rest c') /\ p a = true)
  \/ (exists a b, Re.rest c = String a (String b (Re.rest c'))
                  /\ p a = true /\ p b = true).
Proof.
  unfold Re.between. simpl.
  intros (a & c1 & Ha & (b & c2 & Hb & [-> ->]%in_ret)%in_bind)%in_bind.
  apply in_bind in Ha as (x1 & d1 & Hx1 & (s1 & d2 & [-> ->]%in_ret & [-> ->]%in_ret)%in_bind).
  apply in_char_if in Hx1 as (E1 & P1 & _).
  apply in_alt in Hb as [Hb|[-> ->]%in_ret].
  - apply in_bind in Hb as (x2 & d3 & Hx2 & (s2 & d4 & [-> ->]%in_ret & [-> ->]%in_ret)%in_bind).
    apply in_char_if in Hx2 as (E2 & P2 & _).
    right. exists x1, x2. by rewrite E1, E2.
  - left. by exists x1.
Qed.

Lemma iso_date_re_here c g c' :
  In (g, c') (iso_date_re c) -> year_first_here (Re.rest c) = true.
Proof.
  unfold iso_date_re.
  intros (y & c1 & Hy & (s1 & c2 & H2 & (m & c3 & H3 & _)%in_bind)%in_bind)%in_bind.
  apply year20_rest in Hy as (x3 & x4 & -> & P3 & P4 & _).
  apply in_char_if in H2 as (-> & Ps & _).
  apply one_or_two_In in H3 as [(a & -> & Pa)|(a & b & -> & Pa & _)];
    simpl; by rewrite P3, P4, Ps, Pa.
Qed.

Lemma us_date_re_here c g c' :
  In (g, c') (us_date_re c) -> occurs month_first_here (Re.rest c) = true.
Proof.
  unfold us_date_re.
  intros (m & c1 & H1 & (s1 & c2 & H2 & (dd & c3 & H3 & (s2 & c4 & H4 &
            (y & c5 & Hy & _)%in_bind)%in_bind)%in_bind)%in_bind)%in_bind.
  apply (forward_occurs _ _ _ _ _ (forward_between _ _ _) H1).
  apply (forward_occurs _ _ _ _ _ (forward_char_if _) H2).
  apply year20_rest in Hy as (x3 & x4 & Ey & P3 & P4 & _).
  apply in_char_if in H4 as (E4 & Ps & _).
  assert (forall d, PyStr.isdigit d = true ->
            month_first_here (String d (Re.rest c3)) = true) as Hhere.
  { intros d Pd. rewrite E4, Ey. simpl. by rewrite Pd, Ps, P3, P4. }
  apply one_or_two_In in H3 as [(a & -> & Pa)|(a & b & -> & Pa & Pb)].
  - apply occurs_here. by apply Hhere.
  - apply (occurs_app _ (String a EmptyString)), occurs_here. by apply Hhere.
Qed.

Lemma star_go_run (p : ascii -> bool) prev s t c' :
  In (t, c') (Re.star_go p prev s) ->
  s = t +:+ Re.rest c' /\ all_chars p t = true.
Proof.
  revert prev t. induction s as [|a s IH]; intros prev t; simpl.
  - by intros [[= <- <-]|[]].
  - destruct (p a) eqn:Pa.
    + rewrite in_app_iff, in_map_iff. intros [([t0 c0] & [= <- <-] & H)|[[= <- <-]|[]]].
      * destruct (IH _ _ H) as [E Hall]. rewrite append_cons. simpl. by rewrite Pa, <- E.
      * done.
    + by intros [[= <- <-]|[]].
Qed.

Lemma plus_In (p : ascii -> bool) c g c' :
  In (g, c') (Re.plus p c) ->
  exists x t, Re.rest c = String x t +:+ Re.rest c' /\ all_chars p (String x t) = true.
Proof.
  unfold Re.plus.
  intros (x & c1 & Hx & (t & c2 & Ht & [-> ->]%in_ret)%in_bind)%in_bind.
  apply in_char_if in Hx as (E & Px & _).
  apply star_go_run in Ht as [Et Hall].
  exists x, t. rewrite E, Et, append_cons. simpl. by rewrite Px.
Qed.

Lemma spaces_then_year_run (sp y : string) (seen : bool) :
  all_chars PyStr.isspace sp = true -> year_delimited y = true ->
  seen || PyStr.truthy sp = true ->
  spaces_then_year seen (sp +:+ y) = true.
Proof.
  revert seen. induction sp as [|x sp IH]; intros seen Hall Hy Hseen.
  - rewrite orb_false_r in Hseen. subst seen.
    destruct y as [|a [|b [|c3 [|c4 r]]]]; try done.
    change (spaces_then_year true (String a (String b (String c3 (String c4 r))))
            = true).
    cbn [spaces_then_year].
    assert (PyStr.isspace a = false) as ->; [|by rewrite Hy].
    simpl in Hy. destruct (Ascii.eqb_spec a "2") as [->|]; [done|done].
  - simpl in Hall. apply andb_true_iff in Hall as [Px Hall].
    rewrite append_cons. cbn [spaces_then_year]. rewrite Px. by apply IH.
Qed.

Lemma comma_In c g c' :
  In (g, c') (Re.lit true "," c) -> Re.rest c = String "," (Re.rest c').
Proof.
  simpl.
  intros (x & c1 & Hx & (s & c2 & [-> ->]%in_ret & [-> ->]%in_ret)%in_bind)%in_bind.
  apply in_char_if in Hx as (E & Px & _). rewrite E. f_equal.
  apply Ascii.eqb_eq in Px. change (PyStr.lower_char ",") with ","%char in Px.
  revert Px.
  assert (forall b, implb (Ascii.eqb (PyStr.lower_char b) ",") (Ascii.eqb b ",") = true)
    as Hall by (apply ascii_forall; vm_compute; reflexivity).
  intros Px. specialize (Hall x). rewrite Px, Ascii.eqb_refl in Hall. simpl in Hall.
  by apply Ascii.eqb_eq in Hall.
Qed.

Lemma word_boundary_after_digit c u c' (d : ascii) :
  In (u, c') (Re.word_boundary c) -> Re.before c = Some d -> PyStr.isdigit d = true ->
  no_word_first (Re.rest c) = true.
Proof.
  unfold Re.word_boundary. intros H Hb Pd. rewrite Hb in H.
  assert (PyStr.isword d = true) as Hw.
  { unfold PyStr.isword, PyStr.isalnum. unfold PyStr.isdigit in Pd. by rewrite Pd. }
  rewrite Hw in H.
  destruct (Re.rest c) as [|a r]; [done|]. simpl in *.
  by destruct (PyStr.isword a).
Qed.

Lemma long_date_re_here c g c' :
  In (g, c') (long_date_re c) -> occurs comma_year_here (Re.rest c) = true.
Proof.
  unfold long_date_re.
  intros (b & c1 & H1 & (mon & c2 & H2 & (dot & c3 & H3 & (sp & c4 & H4 &
          (day & c5 & H5 & (suf & c6 & H6 & (com & c7 & H7 & (sp2 & c8 & H8 &
          (y & c9 & Hy & (e & c10 & He & _)%in_bind)%in_bind)%in_bind)
          %in_bind)%in_bind)%in_bind)%in_bind)%in_bind)%in_bind)%in_bind.
  apply (forward_occurs _ _ _ _ _ forward_word_boundary H1).
  apply (forward_occurs _ _ _ _ _ (forward_literals _ _) H2).
  apply (forward_occurs _ _ _ _ _ (forward_opt _ (forward_lit _ _)) H3).
  apply (forward_occurs _ _ _ _ _ (forward_plus _) H4).
  apply (forward_occurs _ _ _ _ _ (forward_between _ _ _) H5).
  apply (forward_occurs _ _ _ _ _ (forward_opt _ (forward_literals _ _)) H6).
  apply occurs_here.
  apply comma_In in H7 as ->.
  apply plus_In in H8 as (x & t & -> & Hall).
  apply year20_rest in Hy as (x3 & x4 & -> & P3 & P4 & B4).
  pose proof (word_boundary_after_digit _ _ _ x4 He B4 P4) as Hr.
  change (spaces_then_year false
            (String x t +:+ String "2" (String "0" (String x3 (String x4 (Re.rest c9)))))
          = true).
  apply spaces_then_year_run; [done| |done].
  simpl. by rewrite P3, P4, Hr.
Qed.

Lemma search_occurs {A} (P : string -> bool) (re : Re.M A) (s : string) (a : A) :
  (forall c a c', In (a, c') (re c) -> occurs P (Re.rest c) = true) ->
  Re.search re s = Some a -> occurs P s = true.
Proof.
  intros Hre (pre & s' & prev' & c' & -> & Hin)%search_from_Some.
  apply occurs_app. apply (Hre _ _ _ Hin).
Qed.

Lemma parse_date_from_filename_here (file_name s : string) :
  parse_date_from_filename file_name = Some s ->
  occurs year_first_here (stem file_name) = true
  \/ occurs month_first_here (stem file_name) = true.
Proof.
  unfold parse_date_from_filename.
  destruct (Re.search iso_date_re (stem file_name)) as [[[g1 g2] g3]|] eqn:E1.
  - intros _. left. apply (search_occurs _ _ _ _ (fun c a c' H => occurs_here _ _ (iso_date_re_here c a c' H)) E1).
  - destruct (Re.search us_date_re (stem file_name)) as [[[h1 h2] h3]|] eqn:E2; [|done].
    intros _. right. apply (search_occurs _ _ _ _ us_date_re_here E2).
Qed.

Lemma parse_date_from_text_here (body s : string) :
  parse_date_from_text body = Some s ->
  occurs comma_year_here (head_lines body) = true.
Proof.
  unfold parse_date_from_text.
  destruct (Re.search long_date_re (head_lines body)) as [[[g1 g2] g3]|] eqn:E; [|done].
  intros _. apply (search_occurs _ _ _ _ long_date_re_here E).
Qed.

(** ** A year of four digits outside the century *)

Lemma sep_facts (s : ascii) :
  is_sep s = true ->
  Ascii.eqb s "2" = false /\ Ascii.eqb s "0" = false /\ PyStr.isdigit s = false.
Proof.
  unfold is_sep. intros [H|H]%orb_true_iff; apply Ascii.eqb_eq in H; by subst.
Qed.

Lemma non_digit_facts (p : ascii) :
  not_digit p = true ->
  Ascii.eqb p "2" = false /\ Ascii.eqb p "0" = false /\ PyStr.isdigit p = false.
Proof.
  unfold not_digit. intros H%negb_true_iff. split_and!; [| |done].
  - destruct (Ascii.eqb_spec p "2") as [->|]; [done|done].
  - destruct (Ascii.eqb_spec p "0") as [->|]; [done|done].
Qed.

Lemma starts_20xx_head (a : ascii) (r : string) :
  Ascii.eqb a "2" = false -> starts_20xx (String a r) = false.
Proof. intros H. destruct r as [|b [|c [|d r]]]; simpl; by rewrite ?H. Qed.

Lemma mentions_20xx_cons_eq (a : ascii) (r : string) :
  mentions_20xx (String a r) = starts_20xx (String a r) || mentions_20xx r.
Proof. reflexivity. Qed.

Lemma mentions_20xx_skip (pre t : string) :
  all_chars not_digit pre = true -> mentions_20xx (pre +:+ t) = mentions_20xx t.
Proof.
  induction pre as [|c pre IH]; [done|]. cbn [all_chars].
  intros [Hc Hpre]%andb_true_iff.
  apply non_digit_facts in Hc as (H2 & _ & _).
  rewrite append_cons, mentions_20xx_cons_eq. by rewrite starts_20xx_head, IH.
Qed.

Lemma mentions_20xx_no_digit (s : string) :
  all_chars not_digit s = true -> mentions_20xx s = false.
Proof.
  intros H. rewrite <- (append_nil_r s). by rewrite mentions_20xx_skip.
Qed.

(** Digits that a character follows which is no digit do not start a
    year, unless there are four of them. *)
Lemma starts_20xx_cut1 (a p : ascii) (r : string) :
  PyStr.isdigit p = false -> starts_20xx (String a (String p r)) = false.
Proof.
  intros H. assert (Ascii.eqb p "0" = false) as H0.
  { destruct (Ascii.eqb_spec p "0") as [->|]; done. }
  destruct r as [|c [|d r]]; simpl; by rewrite ?H0, ?andb_false_r.
Qed.

Lemma starts_20xx_cut2 (a b p : ascii) (r : string) :
  PyStr.isdigit p = false -> starts_20xx (String a (String b (String p r))) = false.
Proof. intros H. destruct r as [|d r]; simpl; by rewrite ?H, ?andb_false_r. Qed.

Lemma starts_20xx_cut3 (a b c p : ascii) (r : string) :
  PyStr.isdigit p = false ->
  starts_20xx (String a (String b (String c (String p r)))) = false.
Proof. intros H. simpl. by rewrite H, ?andb_false_r. Qed.

Lemma starts_20xx_end (s post : string) :
  String.length s <= 3 -> all_chars not_digit post = true ->
  starts_20xx (s +:+ post) = false.
Proof.
  intros Hlen Hpost.
  assert (forall p r, post = String p r -> PyStr.isdigit p = false) as Hp.
  { intros p r ->. simpl in Hpost. apply andb_true_iff in Hpost as [Hc _].
    by apply non_digit_facts in Hc as (_ & _ & ?). }
  destruct s as [|a [|b [|c [|d s]]]]; [| | | |simpl in Hlen; lia].
  - destruct post as [|p r]; [done|]. apply starts_20xx_head.
    simpl in Hpost. apply andb_true_iff in Hpost as [Hc _].
    by apply non_digit_facts in Hc as (? & _ & _).
  - destruct post as [|p r]; [done|]. apply starts_20xx_cut1. by apply (Hp p r).
  - destruct post as [|p r]; [done|]. apply starts_20xx_cut2. by apply (Hp p r).
  - destruct post as [|p r]; [done|]. apply starts_20xx_cut3. by apply (Hp p r).
Qed.

Lemma digit_char_eqb (n k : Z) :
  (0 <= k < 10)%Z ->
  Ascii.eqb (PyStr.digit_char n) (PyStr.digit_char k) = true -> (n mod 10 = k)%Z.
Proof.
  intros Hk H%Ascii.eqb_eq. apply (f_equal PyStr.code) in H.
  rewrite !code_digit_char in H.
  pose proof (Z.mod_pos_bound n 10). rewrite (Z.mod_small k 10) in H by lia. lia.
Qed.

Lemma old_year_starts (y : Z) (c d : ascii) (r : string) :
  (0 <= y < 10000)%Z -> ~ (2000 <= y <= 2099)%Z ->
  starts_20xx
    (String (PyStr.digit_char (y / 10 / 10 / 10))
       (String (PyStr.digit_char (y / 10 / 10)) (String c (String d r))))
  = false.
Proof.
  intros Hy Hout. simpl.
  destruct (Ascii.eqb (PyStr.digit_char (y / 10 / 10 / 10)) "2") eqn:E2; [|done].
  destruct (Ascii.eqb (PyStr.digit_char (y / 10 / 10)) "0") eqn:E0; [|done].
  exfalso. apply Hout.
  apply (digit_char_eqb _ 2) in E2; [|lia]. apply (digit_char_eqb _ 0) in E0; [|lia].
  Z.to_euclidean_division_equations. lia.
Qed.

Lemma starts_20xx_end1 (a : ascii) (post : string) :
  all_chars not_digit post = true -> starts_20xx (String a post) = false.
Proof. intros H. apply (starts_20xx_end (String a EmptyString) post); [simpl; lia|done]. Qed.

Lemma starts_20xx_end2 (a b : ascii) (post : string) :
  all_chars not_digit post = true -> starts_20xx (String a (String b post)) = false.
Proof.
  intros H. apply (starts_20xx_end (String a (String b EmptyString)) post); [simpl; lia|done].
Qed.

Lemma starts_20xx_end3 (a b c : ascii) (post : string) :
  all_chars not_digit post = true ->
  starts_20xx (String a (String b (String c post))) = false.
Proof.
  intros H.
  apply (starts_20xx_end (String a (String b (String c EmptyString))) post); [simpl; lia|done].
Qed.

Lemma old_year_first (pre post : string) (s1 s2 : ascii) (y mo d : Z) :
  all_chars not_digit pre = true -> all_chars not_digit post = true ->
  is_sep s1 = true -> is_sep s2 = true ->
  (0 <= y < 10000)%Z -> ~ (2000 <= y <= 2099)%Z ->
  mentions_20xx (pre +:+ iso_in_name s1 s2 y mo d +:+ post) = false.
Proof.
  intros Hpre Hpost (A1 & _ & D1)%sep_facts (A2 & _ & D2)%sep_facts Hy Hout.
  rewrite mentions_20xx_skip by done.
  change (iso_in_name s1 s2 y mo d +:+ post)
    with (String (PyStr.digit_char (y / 10 / 10 / 10))
            (String (PyStr.digit_char (y / 10 / 10))
               (String (PyStr.digit_char (y / 10)) (String (PyStr.digit_char y)
                  (String s1 (String (PyStr.digit_char (mo / 10)) (String (PyStr.digit_char mo)
                     (String s2 (String (PyStr.digit_char (d / 10))
                        (String (PyStr.digit_char d) post)))))))))).
  rewrite !mentions_20xx_cons_eq.
  rewrite old_year_starts by done.
  rewrite (starts_20xx_cut3 _ _ _ s1) by done.
  rewrite (starts_20xx_cut2 _ _ s1) by done.
  rewrite (starts_20xx_cut1 _ s1) by done.
  rewrite (starts_20xx_head s1) by done.
  rewrite (starts_20xx_cut2 _ _ s2) by done.
  rewrite (starts_20xx_cut1 _ s2) by done.
  rewrite (starts_20xx_head s2) by done.
  rewrite starts_20xx_end2, starts_20xx_end1 by done.
  simpl. by apply mentions_20xx_no_digit.
Qed.

Lemma old_month_first (pre post : string) (s1 s2 : ascii) (y mo d : Z) :
  all_chars not_digit pre = true -> all_chars not_digit post = true ->
  is_sep s1 = true -> is_sep s2 = true ->
  (0 <= y < 10000)%Z -> ~ (2000 <= y <= 2099)%Z ->
  mentions_20xx (pre +:+ us_in_name s1 s2 y mo d +:+ post) = false.
Proof.
  intros Hpre Hpost (A1 & _ & D1)%sep_facts (A2 & _ & D2)%sep_facts Hy Hout.
  rewrite mentions_20xx_skip by done.
  change (us_in_name s1 s2 y mo d +:+ post)
    with (String (PyStr.digit_char (mo / 10)) (String (PyStr.digit_char mo)
            (String s1 (String (PyStr.digit_char (d / 10)) (String (PyStr.digit_char d)
               (String s2 (String (PyStr.digit_char (y / 10 / 10 / 10))
                  (String (PyStr.digit_char (y / 10 / 10))
                     (String (PyStr.digit_char (y / 10))
                        (String (PyStr.digit_char y) post)))))))))).
  rewrite !mentions_20xx_cons_eq.
  rewrite (starts_20xx_cut2 _ _ s1) by done.
  rewrite (starts_20xx_cut1 _ s1) by done.
  rewrite (starts_20xx_head s1) by done.
  rewrite (starts_20xx_cut2 _ _ s2) by done.
  rewrite (starts_20xx_cut1 _ s2) by done.
  rewrite (starts_20xx_head s2) by done.
  rewrite old_year_starts by done.
  rewrite starts_20xx_end3, starts_20xx_end2, starts_20xx_end1 by done.
  simpl. by apply mentions_20xx_no_digit.
Qed.

(** The claim C10 as it is stated fails for file names. The patterns are
    not anchored: in a name that is the date 12020-01-05, whose year is
    not of this century, the year-first pattern reads the last four
    digits of the year, and in 01-05-20245 the month-first pattern reads
    its first four. *)
Lemma long_year_is_read_as_this_century :
  stem (year_first_name "12020" "01" "05") = "12020-01-05"
  /\ all_chars PyStr.isdigit "12020" = true
  /\ PyStr.int "12020" = 12020%Z
  /\ parse_date_from_filename (year_first_name "12020" "01" "05") = Some "2020-01-05"
  /\ parse_date_from_filename "01-05-20245.docx" = Some "2024-01-05"
  /\ date_guess_of {| name := year_first_name "12020" "01" "05"; fingerprint := "aa11" |}
       EmptyString = "2020-01-05"
  /\ ~ (forall Y M D,
          all_chars PyStr.isdigit Y = true -> ~ (2000 <= PyStr.int Y <= 2099)%Z ->
          parse_date_from_filename (year_first_name Y M D) = None).
Proof.
  split_and!; [vm_compute; reflexivity..|].
  intros H. specialize (H "12020" "01" "05").
  assert (parse_date_from_filename (year_first_name "12020" "01" "05") = Some "2020-01-05")
    as E by (vm_compute; reflexivity).
  rewrite H in E; [discriminate| reflexivity |]. vm_compute. intros [_ Hle]. by apply Hle.
Qed.

(** C10, amended. The date heuristics return only dates of the years 2000
    to 2099: a date returned by the file-name parser or by the text
    parser is the formatted date of a year in that range and starts with
    20. The file-name parser returns nothing unless somewhere in the stem
    the characters 2, 0 and two digits are directly followed by a
    separator and a digit, or directly preceded by a digit and a
    separator; the text parser returns nothing unless somewhere in the
    first twenty lines a comma, white space and then 2, 0 and two digits
    stand, with no word character after them. In particular nothing is
    returned where 2, 0 and two digits stand nowhere, and a document for
    which both parsers return nothing has an empty date guess, so only
    the service can date it. A date of a year of four digits outside the
    range, written year first or month first with two digits for month
    and day, in a name with no other digit, is not read. *)
Theorem heuristics_know_only_this_century :
  (forall file_name s, parse_date_from_filename file_name = Some s ->
     exists y mo d c3 c4 more,
       s = strftime_ymd (y, mo, d) /\ (2000 <= y <= 2099)%Z
       /\ s = String "2" (String "0" (String c3 (String c4 more))))
  /\ (forall body s, parse_date_from_text body = Some s ->
        exists y mo d c3 c4 more,
          s = strftime_ymd (y, mo, d) /\ (2000 <= y <= 2099)%Z
          /\ s = String "2" (String "0" (String c3 (String c4 more))))
  /\ (forall file_name, mentions_20xx (stem file_name) = false ->
        parse_date_from_filename file_name = None)
  /\ (forall body, mentions_20xx body = false -> parse_date_from_text body = None)
  /\ (forall p body,
        mentions_20xx (stem (name p)) = false -> mentions_20xx body = false ->
        date_guess_of p body = EmptyString)
  /\ (forall file_name,
        occurs year_first_here (stem file_name) = false ->
        occurs month_first_here (stem file_name) = false ->
        parse_date_from_filename file_name = None)
  /\ (forall body, occurs comma_year_here (head_lines body) = false ->
        parse_date_from_text body = None)
  /\ (forall p body,
        occurs year_first_here (stem (name p)) = false ->
        occurs month_first_here (stem (name p)) = false ->
        occurs comma_year_here (head_lines body) = false ->
        date_guess_of p body = EmptyString)
  /\ (forall pre post s1 s2 y mo d,
        all_chars not_digit pre = true -> all_chars not_digit post = true ->
        is_sep s1 = true -> is_sep s2 = true ->
        (0 <= y < 10000)%Z -> ~ (2000 <= y <= 2099)%Z ->
        parse_date_from_filename ((pre +:+ iso_in_name s1 s2 y mo d +:+ post) +:+ ".docx")
        = None
        /\ parse_date_from_filename ((pre +:+ us_in_name s1 s2 y mo d +:+ post) +:+ ".docx")
           = None).
Proof.
  assert (forall file_name, mentions_20xx (stem file_name) = false ->
            parse_date_from_filename file_name = None) as Hname.
  { intros file_name Hm.
    destruct (parse_date_from_filename file_name) as [s|] eqn:E; [|done].
    apply parse_date_from_filename_Some in E as (y & mo & d & _ & _ & _ & Hm').
    congruence. }
  assert (forall body, mentions_20xx body = false -> parse_date_from_text body = None)
    as Htext.
  { intros body Hm.
    destruct (parse_date_from_text body) as [s|] eqn:E; [|done].
    apply parse_date_from_text_Some in E as (y & mo & d & _ & _ & _ & Hm').
    apply head_lines_mentions in Hm'. congruence. }
  assert (forall file_name,
            occurs year_first_here (stem file_name) = false ->
            occurs month_first_here (stem file_name) = false ->
            parse_date_from_filename file_name = None) as Hname'.
  { intros file_name H1 H2.
    destruct (parse_date_from_filename file_name) as [s|] eqn:E; [|done].
    apply parse_date_from_filename_here in E as [E|E]; congruence. }
  assert (forall body, occurs comma_year_here (head_lines body) = false ->
            parse_date_from_text body = None) as Htext'.
  { intros body H.
    destruct (parse_date_from_text body) as [s|] eqn:E; [|done].
    apply parse_date_from_text_here in E. congruence. }
  split_and!; try done.
  - intros file_name s (y & mo & d & -> & _ & Hy & _)%parse_date_from_filename_Some.
    destruct (strftime_ymd_20 y mo d Hy) as (c3 & c4 & more & E).
    by exists y, mo, d, c3, c4, more.
  - intros body s (y & mo & d & -> & _ & Hy & _)%parse_date_from_text_Some.
    destruct (strftime_ymd_20 y mo d Hy) as (c3 & c4 & more & E).
    by exists y, mo, d, c3, c4, more.
  - intros p body Hn Hb. unfold date_guess_of. by rewrite (Hname _ Hn), (Htext _ Hb).
  - intros p body H1 H2 Hb. unfold date_guess_of.
    by rewrite (Hname' _ H1 H2), (Htext' _ Hb).
  - intros pre post s1 s2 y mo d Hpre Hpost Hs1 Hs2 Hy Hout. split.
    + apply Hname. rewrite (stem_ext _ "docx");
        [|apply append_truthy_r, append_truthy_l, iso_in_name_truthy|done|done].
      by apply old_year_first.
    + apply Hname. rewrite (stem_ext _ "docx");
        [|apply append_truthy_r, append_truthy_l, us_in_name_truthy|done|done].
      by apply old_month_first.
Qed.

Lemma heuristics_know_only_this_century_witness :
  parse_date_from_filename "1999-12-31 column.docx" = None
  /\ parse_date_from_text "Published January 15, 1999" = None
  /\ (exists y mo d c3 c4 more,
        "2024-03-07" = strftime_ymd (y, mo, d) /\ (2000 <= y <= 2099)%Z
        /\ "2024-03-07" = String "2" (String "0" (String c3 (String c4 more))))
  /\ parse_date_from_filename "1999-12-31 report 2024.docx" = None
  /\ parse_date_from_text ("Published January 15, 1999." +:+ String LF "Copyright 2024")
     = None
  /\ parse_date_from_filename "column_12-31-1999.docx" = None.
Proof.
  destruct heuristics_know_only_this_century
    as (Hsome & _ & Hname & Htext & _ & Hname' & Htext' & _ & Hold).
  split_and!.
  - apply Hname. vm_compute. reflexivity.
  - apply Htext. vm_compute. reflexivity.
  - apply (Hsome "col_2024-3-07 final.docx"). vm_compute. reflexivity.
  - apply Hname'; vm_compute; reflexivity.
  - apply Htext'. vm_compute. reflexivity.
  - apply (Hold "column_" EmptyString "-"%char "-"%char 1999%Z 12%Z 31%Z);
      first [reflexivity|lia].
Defined.

(** * Properties of the email ingest *)

(** ** Replacing runs of characters *)
Section Runs.
Context (P : ascii -> bool) (rep : ascii).

Lemma sub_runs_keeps (Q : ascii -> bool) b s :
  Q rep = true -> all_chars Q s = true -> all_chars Q (Ingest.sub_runs P rep b s) = true.
Proof.
  intros Hrep. revert b. induction s as [|c r IH]; intros b; [done|]. simpl.
  intros [Hc Hr]%andb_true_iff. destruct (P c).
  - destruct b; [by apply IH|]. simpl. by rewrite Hrep, IH.
  - simpl. by rewrite Hc, IH.
Qed.

Lemma sub_runs_only_rep b s :
  all_chars (fun c => negb (P c) || Ascii.eqb c rep) (Ingest.sub_runs P rep b s) = true.
Proof.
  revert b. induction s as [|c r IH]; intros b; [done|]. simpl.
  destruct (P c) eqn:E.
  - destruct b; [by apply IH|]. simpl. by rewrite Ascii.eqb_refl, orb_true_r, IH.
  - simpl. by rewrite E, IH.
Qed.

Lemma sub_runs_none b s :
  P rep = false -> all_chars (fun c => negb (P c)) (Ingest.sub_runs P rep b s) = true.
Proof.
  intros Hrep. revert b. induction s as [|c r IH]; intros b; [done|]. simpl.
  destruct (P c) eqn:E.
  - destruct b; [by apply IH|]. simpl. by rewrite Hrep, IH.
  - simpl. by rewrite E, IH.
Qed.

Lemma sub_runs_no_double b s :
  no_double P b (Ingest.sub_runs P rep b s) = true.
Proof.
  revert b. induction s as [|c r IH]; intros b; [done|]. simpl.
  destruct (P c) eqn:E.
  - destruct b; [by apply IH|]. simpl. destruct (P rep); [by rewrite IH|].
    apply (no_double_weaken P true), IH.
  - simpl. by rewrite E, IH.
Qed.

Lemma sub_runs_fixed_none b s :
  all_chars (fun c => negb (P c)) s = true -> Ingest.sub_runs P rep b s = s.
Proof.
  revert b. induction s as [|c r IH]; intros b; [done|]. simpl.
  intros [Hc Hr]%andb_true_iff. apply negb_true_iff in Hc. rewrite Hc.
  by rewrite IH.
Qed.

Lemma sub_runs_fixed b s :
  all_chars (fun c => negb (P c) || Ascii.eqb c rep) s = true ->
  no_double P b s = true -> Ingest.sub_runs P rep b s = s.
Proof.
  revert b. induction s as [|c r IH]; intros b; [done|]. simpl.
  intros [Hc Hr]%andb_true_iff. destruct (P c) eqn:E.
  - simpl in Hc. apply Ascii.eqb_eq in Hc. subst c.
    intros [Hb Hd]%andb_true_iff. apply negb_true_iff in Hb. subst b.
    by rewrite (IH true Hr Hd).
  - intros Hd. by rewrite (IH false Hr Hd).
Qed.

End Runs.

(** ** Cutting a name *)
Lemma all_chars_prefix P n s : all_chars P s = true -> all_chars P (PyStr.prefix n s) = true.
Proof.
  revert s. induction n as [|n IH]; intros [|c r]; try done. simpl.
  intros [Hc Hr]%andb_true_iff. by rewrite Hc, IH.
Qed.

Lemma no_double_prefix P b n s :
  no_double P b s = true -> no_double P b (PyStr.prefix n s) = true.
Proof.
  revert b s. induction n as [|n IH]; intros b [|c r]; try done. simpl.
  destruct (P c).
  - intros [-> H]%andb_true_iff. by rewrite IH.
  - apply IH.
Qed.

Lemma prefix_length n s : String.length (PyStr.prefix n s) <= n.
Proof.
  revert s. induction n as [|n IH]; intros [|c r]; simpl; try lia.
  specialize (IH r). lia.
Qed.

Lemma prefix_length_le n s : String.length (PyStr.prefix n s) <= String.length s.
Proof.
  revert s. induction n as [|n IH]; intros [|c r]; simpl; try lia.
  specialize (IH r). lia.
Qed.

Lemma prefix_head n s :
  match s with EmptyString => True | String c _ => PyStr.isspace c = false end ->
  match PyStr.prefix n s with EmptyString => True | String c _ => PyStr.isspace c = false end.
Proof. destruct n, s; done. Qed.

Lemma has_slash_forbidden s : all_chars not_forbidden s = true -> Ingest.has_slash s = false.
Proof.
  induction s as [|c r IH]; [done|]. simpl. intros [Hc Hr]%andb_true_iff.
  rewrite IH by done. destruct (Ascii.eqb_spec c "/") as [->|]; [|done].
  by vm_compute in Hc.
Qed.

Lemma cleaned_facts (s : string) :
  let t := Ingest.cleaned s in
  all_chars not_forbidden t = true
  /\ all_chars plain_space t = true
  /\ no_double PyStr.isspace false t = true
  /\ PyStr.strip t = t
  /\ match t with EmptyString => True | String c _ => PyStr.isspace c = false end.
Proof.
  unfold Ingest.cleaned. split_and!.
  - apply all_chars_strip, sub_runs_keeps; [done|]. by apply sub_runs_none.
  - apply all_chars_strip, sub_runs_only_rep.
  - unfold PyStr.strip. apply no_double_rstrip, no_double_lstrip, sub_runs_no_double.
  - apply strip_idem.
  - apply strip_head.
Qed.

Lemma safe_filename_facts (s : string) :
  let t := Ingest.safe_filename s in
  all_chars not_forbidden t = true
  /\ all_chars plain_space t = true
  /\ no_double PyStr.isspace false t = true
  /\ String.length t <= 180
  /\ match t with EmptyString => True | String c _ => PyStr.isspace c = false end
  /\ (String.length (Ingest.cleaned s) <= 180 -> t = Ingest.cleaned s).
Proof.
  destruct (cleaned_facts s) as (H1 & H2 & H3 & H4 & H5).
  unfold Ingest.safe_filename.
  destruct (Nat.ltb_spec 180 (String.length (Ingest.cleaned s))) as [Hlt|Hle].
  - split_and!.
    + by apply all_chars_prefix.
    + by apply all_chars_prefix.
    + by apply no_double_prefix.
    + apply prefix_length.
    + by apply prefix_head.
    + lia.
  - split_and!; try done.
Qed.

(** X17. The name that [safe_filename] returns can be used as the name
    of a file in the folder: it has none of the characters slash,
    backslash, colon, star, question mark, double quote, angle brackets
    and bar, so it names no other directory; its only white space is
    single plain spaces; it has at most 180 characters and does not start
    with white space, and it does not end with white space either unless
    it was cut at 180 characters. *)
Theorem safe_filename_shape (s : string) :
  let t := Ingest.safe_filename s in
  all_chars not_forbidden t = true
  /\ Ingest.has_slash t = false
  /\ all_chars plain_space t = true
  /\ no_double PyStr.isspace false t = true
  /\ String.length t <= 180
  /\ PyStr.lstrip t = t
  /\ (String.length (Ingest.cleaned s) <= 180 -> PyStr.strip t = t).
Proof.
  destruct (safe_filename_facts s) as (H1 & H2 & H3 & H4 & H5 & H6).
  split_and!; try done.
  - by apply has_slash_forbidden.
  - by apply lstrip_fixed.
  - intros Hle. rewrite (H6 Hle). apply (cleaned_facts s).
Qed.

Lemma safe_filename_shape_witness :
  PyStr.strip (Ingest.safe_filename "  a/b:  c?.docx ")
  = Ingest.safe_filename "  a/b:  c?.docx ".
Proof.
  apply (safe_filename_shape "  a/b:  c?.docx "). vm_compute. lia.
Defined.

Lemma strip_rstrip (t : string) :
  match t with EmptyString => True | String c _ => PyStr.isspace c = false end ->
  PyStr.strip t = PyStr.rstrip t.
Proof. intros H. unfold PyStr.strip. by rewrite lstrip_fixed. Qed.

Lemma cleaned_fixed (u : string) :
  all_chars not_forbidden u = true -> all_chars plain_space u = true ->
  no_double PyStr.isspace false u = true -> PyStr.strip u = u ->
  Ingest.cleaned u = u.
Proof.
  intros H1 H2 H3 H4. unfold Ingest.cleaned.
  rewrite H4, (sub_runs_fixed_none _ _ _ _ H1), (sub_runs_fixed _ _ _ _ H2 H3). done.
Qed.

Lemma safe_filename_fixed (u : string) :
  all_chars not_forbidden u = true -> all_chars plain_space u = true ->
  no_double PyStr.isspace false u = true -> PyStr.strip u = u ->
  String.length u <= 180 ->
  Ingest.safe_filename u = u.
Proof.
  intros H1 H2 H3 H4 H5. unfold Ingest.safe_filename.
  rewrite (cleaned_fixed u H1 H2 H3 H4).
  by destruct (Nat.ltb_spec 180 (String.length u)); [lia|].
Qed.

Lemma safe_filename_twice (s : string) :
  Ingest.safe_filename (Ingest.safe_filename s) = PyStr.strip (Ingest.safe_filename s).
Proof.
  destruct (safe_filename_facts s) as (H1 & H2 & H3 & H4 & H5 & H6).
  set (t := Ingest.safe_filename s) in *.
  unfold Ingest.safe_filename at 1, Ingest.cleaned.
  rewrite (sub_runs_fixed_none _ _ _ _ (all_chars_strip _ _ H1)).
  rewrite (sub_runs_fixed _ _ _ _ (all_chars_strip _ _ H2)).
  2:{ unfold PyStr.strip. by apply no_double_rstrip, no_double_lstrip. }
  rewrite strip_idem. pose proof (strip_length t).
  by destruct (Nat.ltb_spec 180 (String.length (PyStr.strip t))); [lia|].
Qed.

(** X18. Cleaning a name twice gives the cleaned name without the white
    space that the cut at 180 characters may have left at its end, and
    that is a name which cleaning no longer changes; a name that was not
    cut, and any name that is already clean, is left as it is. *)
Theorem safe_filename_settles (s : string) :
  Ingest.safe_filename (Ingest.safe_filename s) = PyStr.strip (Ingest.safe_filename s)
  /\ (String.length (Ingest.cleaned s) <= 180 ->
      Ingest.safe_filename (Ingest.safe_filename s) = Ingest.safe_filename s)
  /\ Ingest.safe_filename (Ingest.safe_filename (Ingest.safe_filename s))
     = Ingest.safe_filename (Ingest.safe_filename s)
  /\ (forall u,
        all_chars not_forbidden u = true -> all_chars plain_space u = true ->
        no_double PyStr.isspace false u = true -> PyStr.strip u = u ->
        String.length u <= 180 ->
        Ingest.safe_filename u = u).
Proof.
  split_and!.
  - apply safe_filename_twice.
  - intros Hle. rewrite safe_filename_twice.
    destruct (safe_filename_facts s) as (_ & _ & _ & _ & _ & H6).
    rewrite (H6 Hle). apply (cleaned_facts s).
  - rewrite (safe_filename_twice (Ingest.safe_filename s)), safe_filename_twice.
    apply strip_idem.
  - apply safe_filename_fixed.
Qed.

Lemma safe_filename_settles_witness :
  Ingest.safe_filename "report- final- (2).DOCX" = "report- final- (2).DOCX".
Proof.
  apply (proj2 (proj2 (proj2 (safe_filename_settles EmptyString))));
    first [reflexivity|simpl; lia].
Defined.

(** ** Looking for a free name *)
Lemma append_inv_head (s x y : string) : s +:+ x = s +:+ y -> x = y.
Proof.
  induction s as [|c s IH]; [done|]. rewrite !append_cons. intros [= H]. by apply IH.
Qed.

Lemma append_inv_tail (x y t : string) : x +:+ t = y +:+ t -> x = y.
Proof.
  revert y. induction x as [|c x IH]; intros [|d y] H.
  - done.
  - exfalso. apply (f_equal String.length) in H.
    rewrite !length_append in H. simpl in H. lia.
  - exfalso. apply (f_equal String.length) in H.
    rewrite !length_append in H. simpl in H. lia.
  - rewrite !append_cons in H. injection H as -> H. f_equal. by apply IH.
Qed.

Lemma numbered_inj (stem0 suffix0 : string) (n m : nat) :
  Ingest.numbered stem0 suffix0 n = Ingest.numbered stem0 suffix0 m -> n = m.
Proof.
  unfold Ingest.numbered. intros H%append_inv_head%append_inv_head.
  rewrite <- !append_assoc in H. apply append_inv_tail in H.
  apply append_inv_tail in H. by apply pretty_nat_inj in H.
Qed.

Lemma first_free_total (fuel n : nat) (dir m : gmap string string) (stem0 suffix0 : string) :
  size m < fuel ->
  (forall j, n <= j -> is_Some (dir !! Ingest.numbered stem0 suffix0 j) ->
             is_Some (m !! Ingest.numbered stem0 suffix0 j)) ->
  is_Some (Ingest.first_free fuel n dir stem0 suffix0).
Proof.
  revert n m. induction fuel as [|fuel IH]; intros n m Hsize Hm; [lia|]. simpl.
  destruct (dir !! Ingest.numbered stem0 suffix0 n) as [x|] eqn:E; [|done].
  assert (is_Some (m !! Ingest.numbered stem0 suffix0 n)) as [y Hy]
    by (apply Hm; [lia|by rewrite E]).
  apply (IH (S n) (delete (Ingest.numbered stem0 suffix0 n) m)).
  - rewrite map_size_delete, Hy. simpl.
    assert (size m <> 0); [|lia].
    intros Hz%map_size_empty_inv. by rewrite Hz in Hy.
  - intros j Hj Hdir. rewrite lookup_delete_ne; [apply Hm; [lia|done]|].
    intros Heq%numbered_inj. lia.
Qed.

Lemma first_free_spec (fuel n : nat) (dir : gmap string string) (stem0 suffix0 t : string) :
  Ingest.first_free fuel n dir stem0 suffix0 = Some t ->
  exists j, n <= j /\ t = Ingest.numbered stem0 suffix0 j /\ dir !! t = None
            /\ forall i, n <= i < j -> is_Some (dir !! Ingest.numbered stem0 suffix0 i).
Proof.
  revert n. induction fuel as [|fuel IH]; intros n; [done|]. simpl.
  destruct (dir !! Ingest.numbered stem0 suffix0 n) as [x|] eqn:E.
  - intros (j & Hj & -> & Hfree & Hbusy)%IH. exists j. split_and!; [lia|done|done|].
    intros i Hi. destruct (decide (i = n)) as [->|]; [by rewrite E|]. apply Hbusy. lia.
  - intros [= <-]. exists n. split_and!; [lia|done|done|]. intros i Hi. lia.
Qed.

Lemma choose_target_spec (dir : gmap string string) (clean : string) :
  exists t,
    Ingest.choose_target dir clean = Some t
    /\ dir !! t = None
    /\ (dir !! clean = None /\ t = clean
        \/ is_Some (dir !! clean)
           /\ exists n, 2 <= n /\ t = Ingest.numbered (stem clean) (Ingest.suffix clean) n
                /\ forall i, 2 <= i < n ->
                     is_Some (dir !! Ingest.numbered (stem clean) (Ingest.suffix clean) i)).
Proof.
  unfold Ingest.choose_target. destruct (dir !! clean) as [x|] eqn:E.
  - destruct (first_free_total (S (size dir)) 2 dir dir (stem clean) (Ingest.suffix clean))
      as [t Ht]; [lia|done|].
    exists t. split; [done|].
    apply first_free_spec in Ht as (j & Hj & -> & Hfree & Hbusy).
    split; [done|]. right. split; [done|]. by exists j.
  - exists clean. split_and!; [done|done|by left].
Qed.

(** ** The folder during a run *)
Lemma grown_refl w ps st : grown w ps st st [].
Proof.
  unfold grown. split_and!.
  - done.
  - by rewrite app_nil_r.
  - constructor.
  - by rewrite list_to_set_nil, (right_id_L ∅ (∪)).
  - simpl. lia.
  - intros t Ht. by apply elem_of_nil in Ht.
Qed.

Lemma grown_trans w ps1 ps2 st st1 st2 new1 new2 :
  grown w ps1 st st1 new1 -> grown w ps2 st1 st2 new2 ->
  grown w (ps1 ++ ps2) st st2 (new1 ++ new2).
Proof.
  intros (A1 & A2 & A3 & A4 & A5 & A7) (B1 & B2 & B3 & B4 & B5 & B7).
  unfold grown. split_and!.
  - by etrans.
  - by rewrite B2, A2, app_assoc.
  - apply NoDup_app. split_and!; [done| |done].
    intros t Ht1 Ht2. destruct (A7 t Ht1) as (_ & part & fn & payload & _ & _ & Hin).
    destruct (B7 t Ht2) as (Hout & _). congruence.
  - rewrite B4, A4, list_to_set_app_L. by rewrite (assoc_L (∪)).
  - rewrite B5, A5, length_app. lia.
  - intros t [Ht|Ht]%elem_of_app.
    + destruct (A7 t Ht) as (Hnone & part & fn & payload & Hp & Hw & Hin).
      split; [done|]. exists part, fn, payload. split_and!; [|done|].
      * apply elem_of_app. by left.
      * by apply (lookup_weaken _ _ _ _ Hin).
    + destruct (B7 t Ht) as (Hnone & part & fn & payload & Hp & Hw & Hin).
      split; [by apply (lookup_weaken_None _ _ _ Hnone)|].
      exists part, fn, payload. split_and!; [|done|done].
      apply elem_of_app. by right.
Qed.

(** The same folder seen with more parts. *)
Lemma grown_more w ps1 ps2 st st' new :
  grown w ps1 st st' new -> grown w (ps1 ++ ps2) st st' new.
Proof.
  intros H. rewrite <- (app_nil_r new).
  apply (grown_trans w ps1 ps2 st st' st' new []); [done|apply grown_refl].
Qed.

Lemma app_not_nil {A} (l1 l2 : list A) : l1 ++ l2 <> [] <-> l1 <> [] \/ l2 <> [].
Proof.
  destruct l1 as [|x l1]; simpl.
  - split; [by right|]. by intros [?|?].
  - split; [by left|done].
Qed.

(** How the body of the loop over the parts ends: it goes on, with the
    part saved if it was to be, or the file name of the part cannot be
    decoded and nothing has changed. *)
Lemma save_part_flow w st part :
  (exists st' b new,
     Ingest.save_part w st part = Ingest.Goes (st', b)
     /\ bad_name w part = false
     /\ Ingest.seen st' = Ingest.seen st
     /\ grown w [part] st st' new
     /\ (b = true <-> new <> [])
     /\ length new = length (omap (to_save w) [part]))
  \/ (Ingest.save_part w st part = Ingest.Raises st /\ bad_name w part = true).
Proof.
  unfold Ingest.save_part, bad_name.
  destruct (Ingest.wanted w part) as [|filename payload|] eqn:E.
  - left. exists st, false, []. split_and!; [done|done|done|apply grown_refl|done|].
    simpl. unfold to_save. by rewrite E.
  - left.
    destruct (choose_target_spec (Ingest.files st)
                (Ingest.safe_filename (Ingest.path_name filename)))
      as (t & -> & Hfree & _).
    eexists _, true, [t]. split_and!; [done|done|done| |done|].
    + unfold grown. simpl. split_and!.
      * by apply insert_subseteq.
      * done.
      * apply NoDup_singleton.
      * rewrite dom_insert_L, (right_id_L ∅ (∪)). apply (comm_L (∪)).
      * rewrite map_size_insert_None by done. lia.
      * intros t' ->%list_elem_of_singleton. split; [done|].
        exists part, filename, payload.
        split_and!; [left|done|by rewrite lookup_insert_eq].
    + simpl. unfold to_save. by rewrite E.
  - by right.
Qed.

Lemma walk_flow w parts st b0 :
  exists st' new,
    grown w parts st st' new
    /\ Ingest.seen st' = Ingest.seen st
    /\ ((exists b,
           Ingest.walk w st b0 parts = Ingest.Goes (st', b)
           /\ existsb (bad_name w) parts = false
           /\ (b = true <-> b0 = true \/ new <> [])
           /\ length new = length (omap (to_save w) parts))
        \/ (Ingest.walk w st b0 parts = Ingest.Raises st'
            /\ existsb (bad_name w) parts = true)).
Proof.
  revert st b0. induction parts as [|part parts IH]; intros st b0.
  - exists st, []. split_and!; [apply grown_refl|done|].
    left. exists b0. split_and!; [done|done| |done]. tauto.
  - cbn [Ingest.walk existsb].
    destruct (save_part_flow w st part)
      as [(st1 & b1 & new1 & -> & -> & Hs1 & Hg1 & Hb1 & Hl1)|[-> ->]].
    + destruct (IH st1 (b0 || b1)) as (st2 & new2 & Hg2 & Hs2 & Hend).
      exists st2, (new1 ++ new2). split_and!.
      * apply (grown_trans w [part] parts _ _ _ _ _ Hg1 Hg2).
      * congruence.
      * destruct Hend as [(b2 & -> & Hbad & Hb2 & Hl2)|[-> Hbad]].
        -- left. exists b2. split_and!; [done|done| |].
           ++ rewrite Hb2, orb_true_iff, Hb1, app_not_nil. tauto.
           ++ change (part :: parts) with ([part] ++ parts).
              by rewrite omap_app, !length_app, Hl1, Hl2.
        -- right. by split.
    + exists st, []. split_and!; [apply grown_refl|done|]. right. by split.
Qed.

Lemma ingest_message_flow w st msg :
  exists st' new,
    grown w (default [] (Ingest.fetched msg)) st st' new
    /\ ((Ingest.ingest_message w st msg = Ingest.Goes st'
         /\ undecodable w msg = false
         /\ length new = length (omap (to_save w) (default [] (Ingest.fetched msg)))
         /\ Ingest.seen st'
            = Ingest.seen st ++ (if has_wanted w msg then [Ingest.msg_id msg] else []))
        \/ (Ingest.ingest_message w st msg = Ingest.Raises st'
            /\ undecodable w msg = true
            /\ Ingest.seen st' = Ingest.seen st)).
Proof.
  unfold Ingest.ingest_message, has_wanted, undecodable, decodes.
  destruct (Ingest.fetched msg) as [parts|]; simpl.
  2:{ exists st, []. split; [apply grown_refl|]. left. by rewrite app_nil_r. }
  destruct (Ingest.decode_mime_words w (Ingest.subject msg)) as [subj|]; simpl.
  2:{ exists st, []. split; [apply grown_refl|]. right. done. }
  destruct (Ingest.decode_mime_words w (Ingest.sender msg)) as [sender0|]; simpl.
  2:{ exists st, []. split; [apply grown_refl|]. right. done. }
  destruct (walk_flow w parts st false) as (st' & new & Hg & Hs & Hend).
  destruct Hend as [(b & -> & -> & Hb & Hl)|[-> ->]].
  - assert (b = match omap (to_save w) parts with [] => false | _ => true end) as ->.
    { destruct (omap (to_save w) parts), new, b; simpl in Hl; try done.
      - exfalso. by destruct Hb as [[?|?] _].
      - exfalso. destruct Hb as [_ Hb]. assert (false = true); [|done].
        apply Hb. by right. }
    destruct (omap (to_save w) parts) eqn:E.
    + exists st', new. split; [done|]. left. by rewrite app_nil_r.
    + exists {| Ingest.files := Ingest.files st'; Ingest.saved := Ingest.saved st';
                Ingest.seen := Ingest.seen st' ++ [Ingest.msg_id msg] |}, new.
      split; [exact Hg|]. left. simpl. by rewrite Hs.
  - exists st', new. split; [done|]. right. done.
Qed.

Lemma all_parts_cons msg msgs :
  all_parts (msg :: msgs) = default [] (Ingest.fetched msg) ++ all_parts msgs.
Proof. reflexivity. Qed.

(** How the loop over the messages ends: it reaches its end, every
    message having been handled, or it is left at the first message with
    a header that cannot be decoded, the messages before it having been
    handled. *)
Lemma ingest_messages_flow w msgs st :
  exists st' new,
    grown w (all_parts msgs) st st' new
    /\ ((Ingest.ingest_messages w st msgs = Ingest.Goes st'
         /\ existsb (undecodable w) msgs = false
         /\ length new = length (omap (to_save w) (all_parts msgs))
         /\ Ingest.seen st'
            = Ingest.seen st
              ++ (Ingest.msg_id <$> filter (fun m => has_wanted w m = true) msgs))
        \/ (Ingest.ingest_messages w st msgs = Ingest.Raises st'
            /\ exists before bad rest,
                 msgs = before ++ bad :: rest
                 /\ existsb (undecodable w) before = false
                 /\ undecodable w bad = true
                 /\ length (omap (to_save w) (all_parts before)) <= length new
                 /\ Ingest.seen st'
                    = Ingest.seen st
                      ++ (Ingest.msg_id
                            <$> filter (fun m => has_wanted w m = true) before))).
Proof.
  revert st. induction msgs as [|msg msgs IH]; intros st.
  - exists st, []. split; [apply grown_refl|]. left. by rewrite app_nil_r.
  - cbn [Ingest.ingest_messages existsb].
    destruct (ingest_message_flow w st msg) as (st1 & new1 & Hg1 & Hend1).
    destruct Hend1 as [(-> & Hund & Hl1 & Hs1)|(-> & Hbad & Hs1)].
    + rewrite Hund. destruct (IH st1) as (st2 & new2 & Hg2 & Hend2).
      exists st2, (new1 ++ new2). split.
      { rewrite all_parts_cons. by apply grown_trans with st1. }
      destruct Hend2 as [(-> & -> & Hl2 & Hs2)|(-> & before & bad & rest & -> & Hb & Hbad & Hl2 & Hs2)].
      * left. split_and!; [done|done| |].
        -- by rewrite all_parts_cons, omap_app, !length_app, Hl1, Hl2.
        -- rewrite Hs2, Hs1, filter_cons.
           destruct (has_wanted w msg); simpl.
           ++ by rewrite <- app_assoc.
           ++ by rewrite app_nil_r.
      * right. split; [done|]. exists (msg :: before), bad, rest.
        split_and!; [done| |done| |].
        -- simpl. by rewrite Hund.
        -- rewrite all_parts_cons, omap_app, !length_app, Hl1. lia.
        -- rewrite Hs2, Hs1, filter_cons.
           destruct (has_wanted w msg); simpl.
           ++ by rewrite <- app_assoc.
           ++ by rewrite app_nil_r.
    + exists st1, new1. split.
      { rewrite all_parts_cons. by apply grown_more. }
      right. split; [done|]. exists [], msg, msgs.
      split_and!; [done|done|done|simpl; lia|]. simpl. by rewrite Hs1, app_nil_r.
Qed.

Lemma stem_suffix (file_name : string) : stem file_name +:+ Ingest.suffix file_name = file_name.
Proof.
  unfold stem, Ingest.suffix. destruct (rfind_dot 0 file_name) as [i|]; [|apply append_nil_r].
  destruct (_ && _)%bool; [|apply append_nil_r].
  generalize file_name. induction i as [|i IH]; intros [|c r]; try done.
  simpl. rewrite append_cons. f_equal. apply IH.
Qed.



(** A run that reaches the mailbox. *)
Lemma main_ingests w dir :
  PyStr.truthy (Ingest.gmail_user w) = true ->
  PyStr.truthy (Ingest.gmail_app_password w) = true ->
  forall msgs, Ingest.search w = Some msgs ->
  exists st new,
    grown w (all_parts msgs)
      {| Ingest.files := dir; Ingest.saved := []; Ingest.seen := [] |} st new
    /\ Ingest.saved st = new
    /\ ((Ingest.main w dir
         = Some {| Ingest.exit_code := match Ingest.saved st with [] => 0 | _ => 10 end;
                   Ingest.folder_after := Ingest.files st;
                   Ingest.saved_names := Ingest.saved st;
                   Ingest.marked_seen := Ingest.seen st |}
         /\ existsb (undecodable w) msgs = false
         /\ length new = length (omap (to_save w) (all_parts msgs))
         /\ Ingest.seen st = Ingest.msg_id <$> filter (fun m => has_wanted w m = true) msgs)
        \/ (Ingest.main w dir
            = Some {| Ingest.exit_code := 1;
                      Ingest.folder_after := Ingest.files st;
                      Ingest.saved_names := Ingest.saved st;
                      Ingest.marked_seen := Ingest.seen st |}
            /\ exists before bad rest,
                 msgs = before ++ bad :: rest
                 /\ existsb (undecodable w) before = false
                 /\ undecodable w bad = true
                 /\ length (omap (to_save w) (all_parts before)) <= length new
                 /\ Ingest.seen st
                    = Ingest.msg_id <$> filter (fun m => has_wanted w m = true) before)).
Proof.
  intros Hu Hp msgs Hs. unfold Ingest.main. rewrite Hu, Hp, Hs. simpl.
  destruct (ingest_messages_flow w msgs
              {| Ingest.files := dir; Ingest.saved := []; Ingest.seen := [] |})
    as (st & new & Hg & Hend).
  exists st, new. split; [done|].
  split; [by destruct Hg as (_ & -> & _)|].
  destruct Hend as [(-> & Hbad & Hl & Hseen)|(-> & Hrest)]; [by left|by right].
Qed.


(** X19. A run of the ingest always ends, and it never overwrites: every
    entry of the folder is still there with its content, the names
    written are new, pairwise distinct, and the folder has grown by
    exactly these names. *)
Theorem ingest_never_overwrites w dir :
  exists out,
    Ingest.main w dir = Some out
    /\ dir ⊆ Ingest.folder_after out
    /\ NoDup (Ingest.saved_names out)
    /\ dom (Ingest.folder_after out) = dom dir ∪ list_to_set (Ingest.saved_names out)
    /\ size (Ingest.folder_after out) = size dir + length (Ingest.saved_names out)
    /\ forall t, t ∈ Ingest.saved_names out ->
         dir !! t = None /\ is_Some (Ingest.folder_after out !! t).
Proof.
  assert (forall code,
            let out := {| Ingest.exit_code := code; Ingest.folder_after := dir;
                          Ingest.saved_names := []; Ingest.marked_seen := [] |} in
            dir ⊆ Ingest.folder_after out
            /\ NoDup (Ingest.saved_names out)
            /\ dom (Ingest.folder_after out) = dom dir ∪ list_to_set (Ingest.saved_names out)
            /\ size (Ingest.folder_after out) = size dir + length (Ingest.saved_names out)
            /\ forall t, t ∈ Ingest.saved_names out ->
                 dir !! t = None /\ is_Some (Ingest.folder_after out !! t)) as Hnothing.
  { intros code. simpl. split_and!; [done|constructor| |lia|].
    - by rewrite (right_id_L ∅ (∪)).
    - intros t Ht. by apply elem_of_nil in Ht. }
  destruct (PyStr.truthy (Ingest.gmail_user w)) eqn:Hu;
    [|eexists; split; [unfold Ingest.main; by rewrite Hu|apply Hnothing]].
  destruct (PyStr.truthy (Ingest.gmail_app_password w)) eqn:Hp;
    [|eexists; split; [unfold Ingest.main; by rewrite Hu, Hp|apply Hnothing]].
  destruct (Ingest.search w) as [msgs|] eqn:Hs;
    [|eexists; split; [unfold Ingest.main; by rewrite Hu, Hp, Hs|apply Hnothing]].
  destruct (main_ingests w dir Hu Hp msgs Hs) as (st & new & Hg & Hsaved & Hend).
  assert (dir ⊆ Ingest.files st
          /\ NoDup (Ingest.saved st)
          /\ dom (Ingest.files st) = dom dir ∪ list_to_set (Ingest.saved st)
          /\ size (Ingest.files st) = size dir + length (Ingest.saved st)
          /\ forall t, t ∈ Ingest.saved st ->
               dir !! t = None /\ is_Some (Ingest.files st !! t)) as Hfacts.
  { rewrite Hsaved. destruct Hg as (G1 & _ & G3 & G4 & G5 & G7). simpl in *.
    split_and!; try done.
    intros t Ht. destruct (G7 t Ht) as (Hnone & part & fn & payload & _ & _ & Hin).
    split; [done|by rewrite Hin]. }
  destruct Hend as [(-> & _)|(-> & _)]; eexists; (split; [done|exact Hfacts]).
Qed.

Lemma ingest_never_overwrites_witness :
  exists out,
    Ingest.main IngestSample.world IngestSample.folder = Some out
    /\ Ingest.folder_after out !! "report- final-.DOCX" = Some "PK-old".
Proof.
  destruct (ingest_never_overwrites IngestSample.world IngestSample.folder)
    as (out & Hm & Hsub & _).
  exists out. split; [done|].
  assert (IngestSample.folder !! "report- final-.DOCX" = Some "PK-old") as H0
    by (vm_compute; reflexivity).
  apply (lookup_weaken _ _ _ _ H0 Hsub).
Defined.



(** X21. An attachment that is to be saved is written under a name that
    is not taken: the cleaned name when it is free, and else the stem of
    the cleaned name, a space, the least number from 2 on in brackets for
    which the name is free, and the suffix; stem and suffix together are
    the cleaned name. *)
Theorem attachment_gets_a_free_name w st part filename payload :
  Ingest.wanted w part = Ingest.Save filename payload ->
  let clean := Ingest.safe_filename (Ingest.path_name filename) in
  exists t,
    Ingest.save_part w st part
    = Ingest.Goes ({| Ingest.files := <[t := payload]> (Ingest.files st);
                      Ingest.saved := Ingest.saved st ++ [t];
                      Ingest.seen := Ingest.seen st |}, true)
    /\ Ingest.files st !! t = None
    /\ (Ingest.files st !! clean = None /\ t = clean
        \/ is_Some (Ingest.files st !! clean)
           /\ exists n, 2 <= n
                /\ t = stem clean +:+ " (" +:+ pretty n +:+ ")" +:+ Ingest.suffix clean
                /\ forall i, 2 <= i < n ->
                     is_Some (Ingest.files st
                                !! (stem clean +:+ " (" +:+ pretty i +:+ ")"
                                    +:+ Ingest.suffix clean)))
    /\ stem clean +:+ Ingest.suffix clean = clean.
Proof.
  intros Hw clean. unfold Ingest.save_part. rewrite Hw. fold clean.
  destruct (choose_target_spec (Ingest.files st) clean) as (t & -> & Hfree & Hname).
  exists t. split_and!; [done|done|exact Hname|apply stem_suffix].
Qed.

Lemma attachment_gets_a_free_name_witness :
  Ingest.save_part IngestSample.world
    {| Ingest.files := IngestSample.folder; Ingest.saved := []; Ingest.seen := [] |}
    IngestSample.attachment
  = Ingest.Goes
      ({| Ingest.files := <["report- final- (2).DOCX" := "PK-new"]> IngestSample.folder;
          Ingest.saved := ["report- final- (2).DOCX"];
          Ingest.seen := [] |}, true).
Proof.
  destruct (attachment_gets_a_free_name IngestSample.world
              {| Ingest.files := IngestSample.folder; Ingest.saved := []; Ingest.seen := [] |}
              IngestSample.attachment "drafts/report: final?.DOCX" "PK-new")
    as (t & Hs & _ & [[Hc _]|[_ (n & Hn & -> & Hbusy)]] & _); [reflexivity| |].
  - vm_compute in Hc. discriminate Hc.
  - destruct (decide (n = 2)) as [->|Hne]; [exact Hs|].
    destruct (Hbusy 2) as [x Hx]; [lia|]. vm_compute in Hx. discriminate Hx.
Defined.

(** ** The extension of a saved name *)
Lemma lower_app_inv (s a b : string) :
  PyStr.lower s = a +:+ b ->
  exists p q, s = p +:+ q /\ PyStr.lower p = a /\ PyStr.lower q = b.
Proof.
  revert s. induction a as [|x a IH]; intros s H.
  - by exists EmptyString, s.
  - destruct s as [|c s]; [done|]. rewrite append_cons in H. simpl in H.
    injection H as Hc H. destruct (IH s H) as (p & q & -> & Hp & Hq).
    exists (String c p), q. split_and!; [done| |done]. simpl. by rewrite Hc, Hp.
Qed.

Lemma endswith_split (suf s : string) :
  Ingest.endswith suf s = true -> exists p, s = p +:+ suf.
Proof.
  induction s as [|c s IH]; cbn [Ingest.endswith].
  - rewrite orb_false_r. intros H%String.eqb_eq. subst. by exists EmptyString.
  - intros [H%String.eqb_eq|H]%orb_true_iff.
    + subst. by exists EmptyString.
    + destruct (IH H) as [p ->]. by exists (String c p).
Qed.

Lemma lower_char_ext (c : ascii) :
  (Ascii.eqb (PyStr.lower_char c) "." = true -> c = "."%char)
  /\ (existsb (Ascii.eqb (PyStr.lower_char c)) ["d"; "o"; "c"; "x"]%char = true ->
      ext_char c = true).
Proof.
  pose proof (ascii_forall
    (fun c => implb (Ascii.eqb (PyStr.lower_char c) ".") (Ascii.eqb c ".")
              && implb (existsb (Ascii.eqb (PyStr.lower_char c)) ["d"; "o"; "c"; "x"]%char)
                   (ext_char c))) as Hall.
  specialize (Hall ltac:(vm_compute; reflexivity) c). simpl in Hall.
  apply andb_true_iff in Hall as [H1 H2]. split.
  - intros E. rewrite E in H1. simpl in H1. by apply Ascii.eqb_eq in H1.
  - intros E. simpl in E. rewrite E in H2. done.
Qed.

Lemma docx_like (suf : string) :
  PyStr.lower suf = ".docx" ->
  exists e, suf = String "." e /\ PyStr.truthy e = true /\ all_chars ext_char e = true.
Proof.
  destruct suf as [|c1 [|c2 [|c3 [|c4 [|c5 [|? ?]]]]]]; try done. simpl.
  intros [= H1 H2 H3 H4 H5].
  assert (c1 = "."%char) as -> by (apply lower_char_ext; by rewrite H1).
  eexists. split; [done|]. split; [done|]. simpl.
  rewrite !(proj2 (lower_char_ext _)); [done|..]; simpl.
  - by rewrite H5.
  - by rewrite H4.
  - by rewrite H3.
  - by rewrite H2.
Qed.

Section KeepsTail.
Context (suf : string).
Context (Hsuf : all_chars (fun c => negb (PyStr.isspace c) && negb (Ingest.is_forbidden c)) suf
                = true).
Context (Hne : PyStr.truthy suf = true).

Lemma suf_not_space : all_chars (fun c => negb (PyStr.isspace c)) suf = true.
Proof.
  clear Hne. induction suf as [|c r IH]; [done|]. simpl in *.
  apply andb_true_iff in Hsuf as [[H1 _]%andb_true_iff H2]. by rewrite H1, IH.
Qed.

Lemma suf_not_forbidden : all_chars not_forbidden suf = true.
Proof.
  clear Hne. induction suf as [|c r IH]; [done|]. simpl in *.
  apply andb_true_iff in Hsuf as [[_ H1]%andb_true_iff H2].
  unfold not_forbidden at 1. by rewrite H1, IH.
Qed.

Lemma rstrip_not_space (s : string) :
  all_chars (fun c => negb (PyStr.isspace c)) s = true -> PyStr.rstrip s = s.
Proof.
  induction s as [|c r IH]; [done|]. simpl.
  intros [Hc Hr]%andb_true_iff. apply negb_true_iff in Hc. by rewrite Hc, IH.
Qed.

Lemma lstrip_tail (p : string) : exists q, PyStr.lstrip (p +:+ suf) = q +:+ suf.
Proof.
  induction p as [|c p IH].
  - exists EmptyString. change (EmptyString +:+ suf) with suf.
    apply lstrip_fixed. pose proof suf_not_space as H. destruct suf; [done|].
    simpl in H. apply andb_true_iff in H as [H _]. by apply negb_true_iff in H.
  - rewrite append_cons. simpl. destruct (PyStr.isspace c); [done|].
    exists (String c p). by rewrite append_cons.
Qed.

Lemma rstrip_tail (p : string) : PyStr.rstrip (p +:+ suf) = p +:+ suf.
Proof.
  induction p as [|c p IH].
  - apply rstrip_not_space, suf_not_space.
  - rewrite append_cons. simpl. rewrite IH.
    assert (PyStr.is_empty (p +:+ suf) = false) as ->; [|by rewrite andb_false_r].
    destruct p; [|done]. by destruct suf.
Qed.

Lemma strip_tail (p : string) : exists q, PyStr.strip (p +:+ suf) = q +:+ suf.
Proof.
  unfold PyStr.strip. destruct (lstrip_tail p) as [q ->]. exists q. apply rstrip_tail.
Qed.

Lemma sub_runs_tail P rep b (p : string) :
  all_chars (fun c => negb (P c)) suf = true ->
  exists q, Ingest.sub_runs P rep b (p +:+ suf) = q +:+ suf.
Proof.
  intros HP. revert b. induction p as [|c p IH]; intros b.
  - exists EmptyString. by apply sub_runs_fixed_none.
  - rewrite append_cons. simpl. destruct (P c).
    + destruct b; [apply IH|]. destruct (IH true) as [q ->]. by exists (String rep q).
    + destruct (IH false) as [q ->]. by exists (String c q).
Qed.

Lemma has_slash_app (p q : string) :
  Ingest.has_slash (p +:+ q) = Ingest.has_slash p || Ingest.has_slash q.
Proof.
  induction p as [|c p IH]; [done|]. rewrite append_cons. simpl.
  by rewrite IH, orb_assoc.
Qed.

Lemma path_name_tail (p : string) : exists q, Ingest.path_name (p +:+ suf) = q +:+ suf.
Proof.
  pose proof (has_slash_forbidden suf suf_not_forbidden) as Hs.
  induction p as [|c p IH].
  - exists EmptyString. change (EmptyString +:+ suf) with suf.
    destruct suf as [|x r]; [done|]. simpl. simpl in Hs. by rewrite Hs.
  - rewrite append_cons. cbn [Ingest.path_name]. rewrite <- append_cons.
    destruct (Ingest.has_slash (String c p +:+ suf)); [done|]. by exists (String c p).
Qed.

Lemma cleaned_tail (p : string) :
  exists q, Ingest.cleaned (Ingest.path_name (p +:+ suf)) = q +:+ suf.
Proof.
  unfold Ingest.cleaned.
  destruct (path_name_tail p) as [q1 ->].
  destruct (strip_tail q1) as [q2 ->].
  destruct (sub_runs_tail Ingest.is_forbidden "-" false q2) as [q3 ->];
    [apply suf_not_forbidden|].
  destruct (sub_runs_tail PyStr.isspace " " false q3) as [q4 ->]; [apply suf_not_space|].
  apply strip_tail.
Qed.

End KeepsTail.

Lemma ext_chars_plain (e : string) :
  all_chars ext_char e = true ->
  all_chars (fun c => negb (PyStr.isspace c) && negb (Ingest.is_forbidden c)) e = true
  /\ no_dot e = true.
Proof.
  induction e as [|c e IH]; [done|]. simpl. unfold ext_char at 1.
  intros [[H1 H2]%andb_true_iff H3]%andb_true_iff. destruct (IH H3) as [-> ->].
  by rewrite H1, H2.
Qed.

Lemma suffix_ext (x ext : string) :
  PyStr.truthy x = true -> PyStr.truthy ext = true -> no_dot ext = true ->
  Ingest.suffix (x +:+ String "." ext) = String "." ext.
Proof.
  intros Hx He Hd. unfold Ingest.suffix. rewrite rfind_dot_ext by done.
  change (0 + String.length x) with (String.length x).
  assert ((0 <? String.length x)%nat
          && (String.length x <? String.length (x +:+ String "." ext) - 1)%nat = true)
    as ->.
  { rewrite length_append. destruct x; [done|]. destruct ext; [done|]. simpl.
    apply Nat.ltb_lt. lia. }
  clear. induction x as [|c x IH]; [done|]. rewrite append_cons. simpl. apply IH.
Qed.

(** X22. The name under which a part is saved is never empty, and the
    extension survives the cleaning: the file name of a part that is
    saved ends with an extension that reads .docx in lower case, and when
    the cleaned name has at most 180 characters it ends with this very
    extension; if something stands before the extension, so do the
    numbered names that are tried when the cleaned name is taken. *)
Theorem saved_name_keeps_the_extension w part filename payload :
  Ingest.wanted w part = Ingest.Save filename payload ->
  PyStr.truthy (Ingest.safe_filename (Ingest.path_name filename)) = true
  /\ exists p ext,
       filename = p +:+ ext /\ PyStr.lower ext = ".docx"
       /\ (String.length (Ingest.cleaned (Ingest.path_name filename)) <= 180 ->
           exists q,
             Ingest.safe_filename (Ingest.path_name filename) = q +:+ ext
             /\ (PyStr.truthy q = true ->
                 forall n,
                   Ingest.numbered (stem (q +:+ ext)) (Ingest.suffix (q +:+ ext)) n
                   = q +:+ " (" +:+ pretty n +:+ ")" +:+ ext)).
Proof.
  intros Hw.
  assert (Ingest.endswith ".docx" (PyStr.lower filename) = true) as Hends.
  { unfold Ingest.wanted in Hw.
    destruct (negb (Ingest.contains _ _)); [done|].
    destruct (Ingest.get_filename part) as [f0|]; [|done].
    destruct (negb (PyStr.truthy f0)); [done|].
    destruct (Ingest.decode_mime_words w f0) as [f1|]; [|done].
    destruct (Ingest.endswith ".docx" (PyStr.lower f1)) eqn:E; [|done].
    destruct (Ingest.get_payload part) as [pl|]; [|done].
    destruct (negb (PyStr.truthy pl)); [done|]. by injection Hw as <- _. }
  apply endswith_split in Hends as [a Ha].
  apply lower_app_inv in Ha as (p & ext & -> & _ & Hext).
  destruct (docx_like ext Hext) as (e & -> & He & Hchars).
  destruct (ext_chars_plain e Hchars) as [Hplain Hdot].
  destruct (cleaned_tail (String "." e)) with (p := p) as [q Hq]; [by simpl; rewrite Hplain|done|].
  split.
  - unfold Ingest.safe_filename. rewrite Hq.
    assert (PyStr.truthy (q +:+ String "." e) = true) as Hne by by destruct q.
    destruct (180 <? _)%nat; [apply prefix_truthy; [lia|done]|done].
  - exists p, (String "." e). split_and!; [done|done|]. intros Hlen.
    exists q. split.
    + unfold Ingest.safe_filename.
      destruct (Nat.ltb_spec 180 (String.length (Ingest.cleaned (Ingest.path_name
                   (p +:+ String "." e))))); [lia|done].
    + intros Hqne n. unfold Ingest.numbered.
      by rewrite stem_ext, suffix_ext by done.
Qed.

Lemma saved_name_keeps_the_extension_witness :
  PyStr.truthy (Ingest.safe_filename (Ingest.path_name "drafts/report: final?.DOCX")) = true
  /\ exists p ext,
       "drafts/report: final?.DOCX" = p +:+ ext /\ PyStr.lower ext = ".docx".
Proof.
  destruct (saved_name_keeps_the_extension IngestSample.world IngestSample.attachment
              "drafts/report: final?.DOCX" "PK-new")
    as (Hne & p & ext & Hf & Hext & _); [reflexivity|].
  split; [done|]. by exists p, ext.
Defined.
